(* ===== verification/_CoqProject ===== *)
-Q . S2P
Prelude.v
JsNumber.v
NumberToString.v
Binary64.v
FloatOrder.v
Capture.v
Accounts.v
UiShell.v
AccountPages.v
JsText.v
GradeScale.v
JsObject.v
Aggregator.v
ExactSums.v
TermResolver.v
Distribution.v
Classification.v
Cohort.v
CreditInput.v
Dashboard.v
Uploader.v
CsvReport.v
WordReport.v
ExcelReport.v
PdfReport.v
ReportDownloader.v
Display.v
