(* ===== verification/Prelude.v ===== *)
(** * DataPulse grade-analysis engine: a verification development

    The program (src/src/utils/excel/) turns spreadsheet rows of student
    grades into per-student grade-point averages (SGPA for the current
    semester, CGPA across several uploaded files), cohort statistics,
    rankings and a classification table.  Its parts and how they call each
    other:

    - [types.ts]: the row record [StudentRecord], the grade scale
      [gradePointMap] and the result schema [ResultAnalysis] /
      [ClassificationData].
    - [gradeUtils.ts]: [formatTo2Decimals] (JS [Number(x.toFixed(2))]),
      [calculateSGPA], [calculateCGPA], [hasArrears],
      [getSubjectsWithArrears].
    - [analyzer.ts]: [analyzeResults], which groups rows by source file,
      picks the current-semester file, computes the per-student SGPA list,
      statistics, top performers, the needs-improvement list, pass/fail
      shares, and calls [calculateSingleFileClassification] and
      [calculateMultipleFileClassification].

    - [SubjectCreditInput.tsx]: the form where the user gives each uploaded
      subject a credit (1..10), names, and marks the current-semester
      subjects in an order; [Submit] hands credits and order to the page.
    - [Dashboard.tsx]: the page; it receives the parsed rows from the
      uploader, the credits from the form, copies the credits onto the
      rows and calls [analyzeResults]; the report generators read the
      stored rows and the analysis.
    - [reportGenerators/]: [csvReportGenerator.ts] (a CSV text in a
      [data:] URL), [wordReportGenerator.ts] (a [docx] document) and
      [excelReportGenerator.ts] (an [xlsx] workbook) each render the
      analysis and the stored rows; the Word and Excel subject tables
      recount the rows themselves rather than reading the analysis.

    Control flow: uploader -> rows -> credit form -> credits ->
    [analyzeData] -> [analyzeResults] -> (file groups, current semester
    file) -> per-student weighted averages -> statistics, histograms and
    rankings -> classification.  The analysis is a pure computation on
    immutable inputs, except that [analyzeResults] sorts one array in place
    twice, which the model reproduces (Cohort.v); the form and the page are
    state machines over their React state (CreditInput.v, Dashboard.v).

    ** Files, in dependency order

    - Prelude.v (this file): the [dp_scope] notations, the [Eqb] class of
      boolean equalities, the JS-[Set] deduplication [uniq] with its
      lemmas, order-independence of folds, the [dp] hint database and the
      [bool_cases] tactic.
    - JsNumber.v: the JavaScript number semantics the program relies on.
      Doubles are Rocq's primitive binary64 floats; [formatTo2Decimals] is
      modelled digit-exactly ([toFixed] reads the exact binary value of the
      double, rounds half up, and [Number] re-parses the decimal); integer
      sums of credits and points are kept in [Z] (exact below 2^53, see
      below), with a NaN-absorbing integer type [znum] for the weighted
      sum; [Math.max]/[Math.min] and [parseInt(s, 10)] are modelled from
      the ECMAScript specification.
    - NumberToString.v: [Number::toString] for every double
      ([number_to_string]: the shortest decimal that reads back as the
      double, ECMAScript 6.1.6.1.20), with the decimal text of integers
      it shares with [toFixed]; and the proof that its digit search always
      succeeds within its 17 attempts.
    - Binary64.v: exactness of double arithmetic on integers: from the
      IEEE-754 specification of the primitive floats ([FloatAxioms],
      [SpecFloat]), the sum and product of two integer-valued doubles
      below 2^53 are the doubles of the integer sum and product.
    - FloatOrder.v: the real value [F2R m e = m * 2^e] of a double and
      what rounding to nearest does to the order: a quotient never exceeds
      a double that is at least the exact quotient ([div_le],
      [of_Z_div_le]), [SFcompare] agrees with the values on canonical
      doubles, and [formatTo2Decimals] maps [[0, 10]] into itself.
    - Capture.v: the screenshot export [captureElementAsPdf] of
      pdfReportGenerator.ts (exported, called by no component).  The jsPDF
      document is its list of pages ([addPage], [addImage]), html2canvas's
      canvas is an input, and the page loop [capture_loop] runs on
      doubles with fuel.  Exact subtraction at a common scale
      ([exact_at], [SFsub_exact_at]) shows that [heightLeft] stays an
      exact multiple of the image's last bit.
    - Accounts.v: the account pages (pages/Signup.tsx, pages/Login.tsx,
      components/ui/ProfileDialog.tsx) over a [Storage] record for the
      two localStorage keys; [signup_step] is the sign-up page as a state
      machine (mount effect, submit, the 1.5 s wait, the redirect),
      [handleLogin] and [handleLogout] the log-in and log-out handlers.
    - UiShell.v: the responsive hooks of hooks/use-mobile.tsx, the page
      navigator of AppWrapper.tsx (a state machine over its own state and
      the browser location), [appWrapper], the views of the home and 404
      pages and the static credits dialog.
    - AccountPages.v: the rest of the account pages: the frame both
      pages share (logo, links, the responsive form width, the form
      fields), the log-in page as a state machine with its view, the
      sign-up page's display state (eye buttons, the live password
      checklist) and its robot dialog with the dialog's two handlers, and
      the profile button and dialog with the effect that loads the
      current account.
    - JsText.v: the other text functions the program uses: [toFixed] for
      every double,
      [encodeURI] with its UTF-8 percent escapes, and the browser's
      decoding of a [data:] URL (fragment cut at '#', body after the
      first ',', percent-decoding).
    - GradeScale.v: [StudentRecord] (optional fields as [option]),
      [gradePointMap], and the [in] test of the source, which also accepts
      the property names inherited from [Object.prototype].
    - JsObject.v: plain JavaScript objects used as dictionaries: own
      properties in creation order, reads that fall back to
      [Object.prototype], the [__proto__] accessor, and the key order of
      [Object.entries] (array indices first); the well-formedness of an
      object ([wf_object]: each own key once, no own [__proto__]) kept by
      assignment and [Object.entries]; the grouping loop
      [o[key(x)] = f(x, o[key(x)])] in closed form.
    - Aggregator.v: [calculateSGPA], [calculateCGPA], [hasArrears],
      [getSubjectsWithArrears] and the accumulation loop they share, and
      the two exported helpers no module calls
      ([getCurrentSemesterSGPAData], [getUniqueDepartmentCodes]).
    - ExactSums.v: the weighted-sum loops of [calculateSGPA],
      [calculateCGPA] and [analyzeResults] written on doubles as the
      source has them ([calculateSGPA_double], [calculateCGPA_double],
      [sgpa_pos_double]), the proof that they equal the integer models
      of Aggregator.v, and that every average they return is NaN or
      between 0 and 10.
    - TermResolver.v: [filesProcessed], [fileGroups], the current-semester
      file heuristic (highest [parseInt] of the first row's [SEM]) and the
      "explicit marks override" record selection.
    - Distribution.v: the three histograms of [analyzeResults]
      ([gradeDistribution], [subjectPerformance],
      [subjectGradeDistribution]) and [getGradeColor].
    - Classification.v: the six-bucket classification and the two
      classification tables.
    - Cohort.v: the rest of [analyzeResults]: per-student current-semester
      SGPA list, average/highest/lowest, the stable sorts, top performers,
      needs-improvement list, pass/fail shares.
    - CreditInput.v: the subject-credit form
      (src/src/components/SubjectCreditInput.tsx) as a state machine: the
      state [CreditForm] holds the three [useState] values, each handler
      ([handleCreditChange], [handleToggleArrear], [handleRemoveSubject],
      [handleSubmit], the effect on [uploadedSubjects], ...) is one
      transition of [form_step], and [form_reachable] is the set of states
      reachable from the initial one; [credit_form_view] is its render
      (rows with the current-semester badge and order number, the
      submit button).
    - Dashboard.v: the page (src/src/pages/Dashboard.tsx) as a state
      machine, in [Module Page]: mode selection, upload, credit
      assignment with [analyzeData] (credits copied onto the rows, then
      [analyzeResults]), reset and tab changes.  It composes the credit
      form's output with the analyzer; [results_records] are the rows the
      results tab hands on.
    - Uploader.v: the spreadsheet row mapping of fileParser.ts
      ([String(row[col] || '')], the file name as [fileSource]) and the
      uploader of FileUploader.tsx as a state machine ([Module
      Uploader]) with its card ([uploader_view]), composed with the page
      in [Module Site] (the upload tab is unmounted, and its files reset,
      when another tab is shown).
    - CsvReport.v: [downloadCSVReport]: the CSV text and the bytes the
      browser saves, with a parser [csv_cells] for the roundtrip.
    - WordReport.v: [createWordDocument] as the sequence of its paragraphs
      and table cells ([word_content]), section by section.
    - ExcelReport.v: [generateExcelData] as the list of sheets (name and
      cell rows) in the order they are appended.
    - PdfReport.v: [downloadPdfReport] as the sequence of its texts and
      table cells ([pdf_content]); where its code repeats the Word
      generator's, lemmas show the two agree (college information,
      performance summary, classification and student tables).
    - ReportDownloader.v: the download control of the results tab
      (ReportDownloader.tsx) as a state machine over its state and its
      pending timers ([Module Downloader]), and what it renders in each
      state ([downloader_view]); it calls the Word and PDF generators (the
      CSV and Excel generators are not called by any component).
    - Display.v: what the results tab computes from the analysis: the
      cards and tables of AnalysisOverview.tsx (Module [Overview]), the
      cards of StudentPerformance.tsx with the error its "Needs
      Improvement" card throws, the table of StudentSGPATable.tsx, the
      tabs of SubjectAnalysis.tsx and ResultsDisplay.tsx composing them
      (Module [Tab], [None] when a child throws), and the dashboard's own
      render (Module [Shell]); the charts plot fields of the analysis as
      they are.

    ** What the theorems show

    - Numbers: double arithmetic on the program's integer sums is exact
      below 2^53, so the double loops of [calculateSGPA], [calculateCGPA]
      and [analyzeResults] equal the integer models, and every average
      they return is NaN or a double of [[0, 10]]: the correctly rounded
      division and [formatTo2Decimals] never pass 10 (ExactSums.v, on
      FloatOrder.v); a grade named like an [Object.prototype] member makes
      [calculateSGPA] NaN for every rows whose counted credits are not 0;
      the model of [Number::toString] never needs its fallback branch:
      the shortest round-tripping digits are always found within 17
      (NumberToString.v).
    - Screenshot export: for every image height below 2^53 the loop
      makes [ceil (imgHeight / 295)] pages with page [k + 1] at exactly
      [-295 k]; for canvases up to 2^20 pixels it ends within [H + 1]
      rounds, the fuel the termination theorem asks for; a canvas of
      width 0 and positive height makes [imgHeight] infinite and the
      loop never ends (Capture.v).
    - Aggregator: the weighted average is independent of row order; zero
      credit gives 0; the CGPA is one weighted average over the union of
      the selected rows of all files (not an average of SGPAs); the
      [creditValue > 0] guard of [analyzeResults] is vacuous for
      non-negative credits.
    - TermResolver: the current file is the first file whose semester
      number is maximal among the parsable non-negative ones (refinement of
      a declarative specification), the spec's "3"/"4" scenario, the
      explicit-marks override, what happens to rows without a source, and
      that the marks select rows per file: a student with no marked row
      loses every row once any row of the file is marked, where
      [calculateCGPA]'s per-student rule keeps them; the marks never
      change which file is current ([remark]).
    - Classification: the five student buckets and the failing students
      partition the students; each bucket is characterised by its
      thresholds; the [fail] column counts failing rows, not students.
    - Cohort: one entry per selected student; with one term the CGPA
      is the listed SGPA; the returned [studentSgpaDetails] is sorted by
      SGPA for every input and locale (a [Sorted] statement from
      [stable_sort_sorted] and the antisymmetry of double subtraction,
      FloatOrder.v); the listed SGPA does not depend on the marks; the
      needs-improvement list reads arrears from the current file only.
    - Distribution: each histogram in closed form (distinct codes in
      first-occurrence order, counts of rows), the per-subject histogram
      agrees with the pass/fail tally, and what inherited and numeric keys
      do ([toString] grades count as strings, numeric codes come first).
    - Dashboard: the analysis on display is always the analysis of the
      stored rows with the stored credits; credits submitted from a
      reachable credit form put a credit in 1..10 on every row and mark
      exactly the rows of the submitted subjects.
    - Reports: the CSV download holds exactly the UTF-8 bytes of the CSV
      text unless a registration number holds '#', where the file is cut;
      the CSV cells parse back when no field holds a comma or line break;
      the Word status column is the classification rule; the Excel
      classification sheet is a constant row and its subject table counts
      the rows of every file; the PDF subject table counts every current
      row of a subject.
    - Uploader: the file limits of the uploader hold in every reachable
      state of the page (at most one file in SGPA mode, ten in CGPA mode,
      Excel names only), so an SGPA upload hands the page the rows of
      exactly one file and a CGPA upload those of at most ten.
    - ReportDownloader: a pending download implies "downloading" in every
      reachable state; a successful download returns the control to idle,
      a failed one leaves it "downloading" whatever happens next.
    - Accounts: along any run of the sign-up page, the stored account
      list and the page's copy keep distinct e-mails, staff ids and phone
      numbers (every write is the copy plus an account fresh for it);
      but the page never re-reads the stored list, so a second sign-up
      before the redirect overwrites the first account, which can then
      no longer log in.  The log-in page redirects to the dashboard only
      after a submission of the run whose e-mail and password both match
      a stored account, with that e-mail stored as [currentUser]
      (AccountPages.v);
      its password field is visible by default (the type test is
      inverted), and the page navigator keeps showing the previous path
      after a navigation made elsewhere (UiShell.v).
    - CreditInput: an invariant of every reachable form state (credits in
      1..10, [isValid] in step with [validateInputs], each marked code
      once in [orderedSubjects]) by induction on reachability, and hence
      that what [Submit] passes on is a non-empty list of valid credits;
      each marked row shows its place in the report order.
    - Display: the results page throws while rendering, and React
      unmounts it, exactly in CGPA mode with a single uploaded file and
      some student needing improvement ([StudentPerformance] reads a
      [value] field the SGPA entries lack); submitting the credits on
      such an upload switches to that tab, so the dashboard goes blank.
    - Sign-up: the robot dialog never opens on any run of the page, so
      its two handlers are dead code.

    ** Bounds and modelling choices

    - Credits are integers: every producer in the program assigns them by
      [parseInt] in 1..10 (SubjectCreditInput.tsx, proved in CreditInput.v)
      or the default 3 (Dashboard.tsx, proved in Dashboard.v), so
      [creditValue] is [option Z].  Sums of products
      of grade points (0..10) and such credits are integers far below
      2^53, where double addition and multiplication are exact (proved in
      Binary64.v and, for the three loops of the program, in ExactSums.v
      under credits in 0..10 and fewer than 2^53/100 rows), so the
      model keeps them in [Z]; the one division and everything after it is
      done in binary64.
    - [Number::toString] is given 17 attempts at the digit count
      ([shortest_decimal]); 17 suffice for every finite double because
      10^16 > 2^53 (NumberToString.v).
    - [formatTo2Decimals] re-parses the decimal string through an integer
      conversion and one correctly rounded division, which is the exact
      [Number] result while the digit count stays below 2^53, i.e. for
      |x| < 9*10^13; the program only formats values in [0, 100].
    - JS strings are Rocq [string]s (code units below 256).
    - Objects used as dictionaries are association lists in creation
      order (JsObject.v), not finite maps: [Object.entries] exposes the
      order, and keys inherited from [Object.prototype] change the result.
    - No fuel is needed: every loop of the program is a [map], [filter],
      [forEach] or [reduce] over a finite array, modelled by structural
      recursion; the sorts are insertion sorts, which give the result of
      any stable sort for the consistent comparators of the program.

    ** Not modelled

    The React rendering beyond the texts, links, classes and flags the
    views keep (the pages' and the wrapper's decorative markup), toasts,
    animations, the routing table (App.tsx is not among the sources),
    main.tsx and WrappedApp.tsx (they mount the router and the wrapper),
    zod's e-mail check (a parameter of Accounts.v), the decoding of
    workbooks by the xlsx library (a file is modelled by its first
    sheet's rows), html2canvas's rendering and the PNG bytes of the
    screenshot export (its canvas size is an input), and console
    logging: they only read the result of [analyzeResults] or produce
    its input.  Of the Word, Excel and PDF reports only the content is
    modelled (text of paragraphs and cells, values of sheet cells, the
    page headers with the logo fetch's outcome as an input, the file
    names), not fonts, widths, positions, [Packer.toBlob], [XLSX.write]
    or the link click.
    The writes a subject code [__proto__] makes on the shared
    [Object.prototype] are outside every returned value and not
    modelled. *)

From Stdlib Require Import Bool ZArith String List Permutation Sorted Lia.
Import ListNotations.

Declare Scope dp_scope.
Delimit Scope dp_scope with dp.

(** ** Boolean equality as a class *)

Class Eqb (A : Type) := {
  eqb : A -> A -> bool;
  eqb_spec : forall x y : A, reflect (x = y) (eqb x y)
}.
Arguments eqb {A _} _ _.

Notation "x ==? y" := (eqb x y) (at level 70, no associativity) : dp_scope.
Open Scope dp_scope.

#[export] Instance string_Eqb : Eqb string :=
  { eqb := String.eqb; eqb_spec := String.eqb_spec }.
#[export] Instance Z_Eqb : Eqb Z := { eqb := Z.eqb; eqb_spec := Z.eqb_spec }.
#[export] Instance bool_Eqb : Eqb bool :=
  { eqb := Bool.eqb; eqb_spec := fun x y => iff_reflect _ _ (iff_sym (Bool.eqb_true_iff x y)) }.

Create HintDb dp discriminated.
Create Rewrite HintDb dp_rw.

Section EqbFacts.
Context {A : Type} `{Eqb A}.

Lemma eqb_true_iff (x y : A) : (x ==? y) = true <-> x = y.
Proof. destruct (eqb_spec x y); split; congruence. Qed.

Lemma eqb_refl (x : A) : (x ==? x) = true.
Proof. now apply eqb_true_iff. Qed.

Lemma eqb_sym (x y : A) : (x ==? y) = (y ==? x).
Proof.
  destruct (eqb_spec x y), (eqb_spec y x); congruence.
Qed.

Lemma eqb_neq (x y : A) : x <> y -> (x ==? y) = false.
Proof. destruct (eqb_spec x y); congruence. Qed.

(** Membership test, as JavaScript's [Array.prototype.includes]. *)
Definition mem (x : A) (l : list A) : bool := existsb (eqb x) l.

Lemma mem_cons (x y : A) (l : list A) : mem x (y :: l) = (x ==? y) || mem x l.
Proof. reflexivity. Qed.

Lemma mem_In (x : A) (l : list A) : mem x l = true <-> In x l.
Proof.
  unfold mem. rewrite existsb_exists. split.
  - intros (y & Hy & E). apply eqb_true_iff in E. now subst.
  - intros Hx. exists x. split; [exact Hx | apply eqb_refl].
Qed.

(** [[...new Set(l)]]: the distinct elements, in order of first
    occurrence. *)
Fixpoint uniq_from (seen l : list A) : list A :=
  match l with
  | [] => []
  | x :: t => if mem x seen then uniq_from seen t else x :: uniq_from (x :: seen) t
  end.

Definition uniq (l : list A) : list A := uniq_from [] l.

Lemma In_uniq_from (seen l : list A) (x : A) :
  In x (uniq_from seen l) <-> In x l /\ ~ In x seen.
Proof.
  revert seen. induction l as [|y t IH]; intros seen; simpl; [tauto|].
  destruct (mem y seen) eqn:E.
  - apply mem_In in E. rewrite IH. split; [tauto|].
    intros [[<-|Hx] Hn]; [contradiction | tauto].
  - apply not_true_iff_false in E. rewrite mem_In in E.
    simpl. rewrite IH. simpl. split.
    + intros [<-|[Hx Hn]]; [tauto | split; tauto].
    + intros [[<-|Hx] Hn]; [tauto|].
      destruct (eqb_spec y x); [left; assumption | right; split; [assumption|]].
      intros [|]; [congruence | contradiction].
Qed.

Lemma In_uniq (l : list A) (x : A) : In x (uniq l) <-> In x l.
Proof. unfold uniq. rewrite In_uniq_from. simpl. tauto. Qed.

Lemma NoDup_uniq_from (seen l : list A) : NoDup (uniq_from seen l).
Proof.
  revert seen. induction l as [|y t IH]; intros seen; simpl; [constructor|].
  destruct (mem y seen); [apply IH|].
  constructor; [|apply IH]. rewrite In_uniq_from. simpl. tauto.
Qed.

Lemma NoDup_uniq (l : list A) : NoDup (uniq l).
Proof. apply NoDup_uniq_from. Qed.

(** The head of [uniq l] is the head of [l] ([filesProcessed[0]]). *)
Lemma uniq_cons_head (x : A) (l : list A) : exists t, uniq (x :: l) = x :: t.
Proof. unfold uniq. simpl. eexists; reflexivity. Qed.

Lemma uniq_from_seen (seen l : list A) :
  (forall y, In y l -> In y seen) -> uniq_from seen l = [].
Proof.
  revert seen. induction l as [|y t IH]; intros seen Hs; simpl; [reflexivity|].
  assert (mem y seen = true) as -> by (apply mem_In, Hs; now left).
  apply IH. intros z Hz. apply Hs. now right.
Qed.

(** A non-empty list of copies of [x] has one distinct element. *)
Lemma uniq_const (x : A) (l : list A) :
  l <> [] -> (forall y, In y l -> y = x) -> uniq l = [x].
Proof.
  destruct l as [|y t]; intros Hn Hall; [congruence|].
  assert (y = x) as -> by (apply Hall; now left).
  unfold uniq. simpl. f_equal. apply uniq_from_seen.
  intros z Hz. left. symmetry. apply Hall. now right.
Qed.
Lemma mem_iff_eq (x : A) (l1 l2 : list A) :
  (In x l1 <-> In x l2) -> mem x l1 = mem x l2.
Proof.
  intros Hiff. destruct (mem x l1) eqn:E1, (mem x l2) eqn:E2; try reflexivity.
  - apply mem_In, Hiff, mem_In in E1. congruence.
  - apply mem_In, Hiff, mem_In in E2. congruence.
Qed.

Lemma mem_uniq (x : A) (l : list A) : mem x (uniq l) = mem x l.
Proof. apply mem_iff_eq, In_uniq. Qed.

Lemma uniq_from_snoc (seen l : list A) (x : A) :
  uniq_from seen (l ++ [x])
  = uniq_from seen l ++ (if mem x (l ++ seen) then [] else [x]).
Proof.
  revert seen. induction l as [|y t IH]; intros seen; cbn [app uniq_from].
  - destruct (mem x seen); reflexivity.
  - destruct (mem y seen) eqn:E; rewrite IH; cbn [app].
    + replace (mem x (y :: t ++ seen)) with (mem x (t ++ seen)); [reflexivity|].
      apply mem_iff_eq. rewrite in_app_iff. simpl. rewrite in_app_iff.
      apply mem_In in E. split; [tauto|]. intros [<-|[|]]; tauto.
    + replace (mem x (y :: t ++ seen)) with (mem x (t ++ y :: seen)); [reflexivity|].
      apply mem_iff_eq. rewrite in_app_iff. simpl. rewrite in_app_iff. tauto.
Qed.

(** [[...new Set([...l, x])]]. *)
Lemma uniq_snoc (l : list A) (x : A) :
  uniq (l ++ [x]) = if mem x l then uniq l else uniq l ++ [x].
Proof.
  unfold uniq. rewrite uniq_from_snoc, app_nil_r.
  destruct (mem x l); [apply app_nil_r | reflexivity].
Qed.
End EqbFacts.

#[export] Hint Resolve eqb_refl NoDup_uniq : dp.
#[export] Hint Rewrite @eqb_refl : dp_rw.

(** ** Folds whose step commutes do not depend on the order of the list *)

Section FoldCommute.
Context {A B : Type} (f : B -> A -> B).
Hypothesis f_comm : forall b x y, f (f b x) y = f (f b y) x.

Lemma fold_left_perm (l1 l2 : list A) (b : B) :
  Permutation l1 l2 -> fold_left f l1 b = fold_left f l2 b.
Proof.
  intros HP. revert b. induction HP; intros b; simpl.
  - reflexivity.
  - apply IHHP.
  - now rewrite f_comm.
  - now rewrite IHHP1, IHHP2.
Qed.

Lemma fold_left_cons_comm (x : A) (l : list A) (b : B) :
  fold_left f l (f b x) = f (fold_left f l b) x.
Proof.
  revert b. induction l as [|y t IH]; intros b; simpl; [reflexivity|].
  now rewrite f_comm, IH.
Qed.
End FoldCommute.

(** ** Counting, as [filter(p).length] *)

Definition count {A} (p : A -> bool) (l : list A) : nat := length (filter p l).

Lemma count_cons {A} (p : A -> bool) (x : A) (l : list A) :
  count p (x :: l) = (if p x then 1 else 0) + count p l.
Proof. unfold count. simpl. now destruct (p x). Qed.

Lemma count_app {A} (p : A -> bool) (l1 l2 : list A) :
  count p (l1 ++ l2) = count p l1 + count p l2.
Proof. unfold count. now rewrite filter_app, length_app. Qed.

Lemma list_sum_map_add {A} (f g : A -> nat) (l : list A) :
  list_sum (map (fun x => f x + g x) l) = list_sum (map f l) + list_sum (map g l).
Proof. induction l as [|x t IH]; simpl; [reflexivity|]. rewrite IH. lia. Qed.

Lemma list_sum_indicator {A} (p : A -> bool) (l : list A) :
  list_sum (map (fun x => if p x then 1 else 0) l) = count p l.
Proof. induction l as [|x t IH]; [reflexivity|]. rewrite count_cons. simpl. now rewrite IH. Qed.

Lemma count_filter_implied {A} (p q : A -> bool) (l : list A) :
  (forall x, In x l -> p x = true -> q x = true) -> count p (filter q l) = count p l.
Proof.
  induction l as [|x t IH]; intros H; [reflexivity|]. simpl.
  destruct (q x) eqn:Eq; rewrite ?count_cons, IH by (intros y Hy; apply H; now right);
    [reflexivity|].
  destruct (p x) eqn:Ep; [|reflexivity]. rewrite (H x (or_introl eq_refl) Ep) in Eq. discriminate.
Qed.

Lemma count_le_length {A} (p : A -> bool) (l : list A) : count p l <= length l.
Proof.
  induction l as [|x t IH]; [reflexivity|].
  rewrite count_cons. simpl. destruct (p x); lia.
Qed.

Lemma count_split {A} (p q : A -> bool) (l : list A) :
  count p l = count (fun x => p x && q x) l + count (fun x => p x && negb (q x)) l.
Proof.
  induction l as [|x t IH]; [reflexivity|].
  rewrite !count_cons, IH. destruct (p x), (q x); simpl; lia.
Qed.

Lemma count_negb {A} (p : A -> bool) (l : list A) :
  count (fun x => negb (p x)) l + count p l = length l.
Proof.
  induction l as [|x t IH]; [reflexivity|].
  rewrite !count_cons. simpl. destruct (p x); simpl; lia.
Qed.

#[export] Hint Resolve count_le_length : dp.
#[export] Hint Rewrite @count_cons @count_app : dp_rw.

Lemma filter_ext_in {A} (p q : A -> bool) (l : list A) :
  (forall x, In x l -> p x = q x) -> filter p l = filter q l.
Proof.
  induction l as [|x t IH]; intros H; simpl; [reflexivity|].
  rewrite (H x (or_introl eq_refl)), IH by (intros y Hy; apply H; now right).
  reflexivity.
Qed.

Lemma filter_map_comm {A B} (p : B -> bool) (q : A -> bool) (f : A -> B) (l : list A) :
  (forall x, p (f x) = q x) -> filter p (map f l) = map f (filter q l).
Proof.
  intros H. induction l as [|x t IH]; cbn [map filter]; [reflexivity|].
  rewrite H, IH. now destruct (q x).
Qed.

Lemma fold_left_map_ext {A B C} (f : B -> C -> B) (h : B -> A -> B) (g : A -> C)
    (l : list A) (b : B) :
  (forall b x, f b (g x) = h b x) -> fold_left f (map g l) b = fold_left h l b.
Proof. intros H. revert b. induction l as [|x t IH]; intros b; cbn; [reflexivity|]. now rewrite H, IH. Qed.

Lemma filter_filter_and {A} (p q : A -> bool) (l : list A) :
  filter p (filter q l) = filter (fun x => q x && p x) l.
Proof.
  induction l as [|x t IH]; simpl; [reflexivity|].
  destruct (q x); simpl; [destruct (p x); simpl; now rewrite IH | exact IH].
Qed.

Lemma filter_nil_iff {A} (p : A -> bool) (l : list A) :
  filter p l = [] <-> forall x, In x l -> p x = false.
Proof.
  induction l as [|x t IH]; simpl; [tauto|].
  destruct (p x) eqn:E; split.
  - discriminate.
  - intros H. rewrite H in E; [discriminate | now left].
  - intros H y [<-|Hy]; [exact E | now apply IH].
  - intros H. apply IH. intros y Hy. apply H. now right.
Qed.

Lemma filter_all_true {A} (p : A -> bool) (l : list A) :
  (forall x, In x l -> p x = true) -> filter p l = l.
Proof.
  induction l as [|x t IH]; intros H; simpl; [reflexivity|].
  rewrite (H x (or_introl eq_refl)), IH; [reflexivity|].
  intros y Hy. apply H. now right.
Qed.

Lemma Forall_filter_sub {A} (P : A -> Prop) (p : A -> bool) (l : list A) :
  Forall P l -> Forall P (filter p l).
Proof. apply incl_Forall. intros x Hx. apply filter_In in Hx. tauto. Qed.

Lemma NoDup_snoc {A} (l : list A) (x : A) : NoDup l -> ~ In x l -> NoDup (l ++ [x]).
Proof.
  intros Hl Hx. apply NoDup_app; [exact Hl | constructor; [intros []|constructor] |].
  intros y Hy [<-|[]]. contradiction.
Qed.

(** A loop whose body does nothing on the elements failing a test is the
    loop over the filtered list. *)
Lemma fold_left_filter {A B} (p : A -> bool) (f : B -> A -> B) (l : list A) (b : B) :
  fold_left (fun acc x => if p x then f acc x else acc) l b = fold_left f (filter p l) b.
Proof.
  revert b. induction l as [|x t IH]; intros b; simpl; [reflexivity|].
  destruct (p x); apply IH.
Qed.

(** A list is a permutation of the rows that pass a test followed by the
    rows that fail it. *)
Lemma filter_split_perm {A} (p : A -> bool) (l : list A) :
  Permutation (filter p l ++ filter (fun x => negb (p x)) l) l.
Proof.
  induction l as [|x t IH]; simpl; [reflexivity|].
  destruct (p x); simpl; [now apply perm_skip|].
  eapply Permutation_trans; [symmetry; apply Permutation_middle|]. now apply perm_skip.
Qed.

Lemma Permutation_filter_bool {A} (p : A -> bool) (l1 l2 : list A) :
  Permutation l1 l2 -> Permutation (filter p l1) (filter p l2).
Proof.
  induction 1; simpl.
  - constructor.
  - destruct (p x); [constructor|]; assumption.
  - destruct (p x), (p y); try constructor; reflexivity.
  - eapply Permutation_trans; eassumption.
Qed.

(** An invariant of every step of a [fold_left] holds at its end. *)
Lemma fold_left_invariant {A B} (I : B -> Prop) (f : B -> A -> B) (l : list A) (b : B) :
  (forall b x, In x l -> I b -> I (f b x)) -> I b -> I (fold_left f l b).
Proof.
  revert b. induction l as [|x t IH]; intros b Hf Hb; [exact Hb|]. cbn [fold_left].
  apply IH; [intros b' y Hy; apply Hf; now right | apply Hf; [now left | exact Hb]].
Qed.

Lemma fold_left_ext_in {A B} (f g : B -> A -> B) (l : list A) (b : B) :
  (forall acc x, In x l -> f acc x = g acc x) -> fold_left f l b = fold_left g l b.
Proof.
  revert b. induction l as [|x t IH]; intros b H; simpl; [reflexivity|].
  rewrite (H b x (or_introl eq_refl)). apply IH.
  intros acc y Hy. apply H. now right.
Qed.

#[export] Hint Resolve Permutation_filter_bool : dp.

Section CountKeys.
Context {A : Type} `{Eqb A}.

(** A key listed once in [K] is matched by exactly one element of [K]. *)
Lemma count_eqb_NoDup (a : A) (K : list A) :
  NoDup K -> In a K -> count (fun k => a ==? k) K = 1%nat.
Proof.
  induction 1 as [|k K Hk Hnd IH]; [intros []|]. intros [<-|Hin]; rewrite count_cons.
  - rewrite eqb_refl. unfold count. rewrite (proj2 (filter_nil_iff _ _)); [reflexivity|].
    intros x Hx. apply eqb_neq. intros ->. contradiction.
  - rewrite IH by exact Hin. rewrite eqb_neq; [reflexivity|]. intros ->. contradiction.
Qed.

(** Counting the elements of [l] key by key, over a duplicate-free list of
    keys that covers them, counts every element once. *)
Lemma sum_counts {B} (key : B -> A) (K : list A) (l : list B) :
  NoDup K -> (forall x, In x l -> In (key x) K) ->
  list_sum (map (fun k => count (fun x => key x ==? k) l) K) = length l.
Proof.
  intros Hnd. induction l as [|x t IH]; intros Hcov.
  - clear Hnd Hcov. induction K as [|k K IHK]; [reflexivity|]. exact IHK.
  - rewrite map_ext with (g := fun k => ((if key x ==? k then 1 else 0) + count (fun y => key y ==? k) t)%nat)
      by (intros k; now rewrite count_cons).
    rewrite list_sum_map_add, (list_sum_indicator (fun k => key x ==? k)),
      (count_eqb_NoDup (key x) K), IH;
      [reflexivity| |assumption|].
    + intros y Hy. apply Hcov. now right.
    + apply Hcov. now left.
Qed.

End CountKeys.

(** ** Strings *)

Lemma string_app_assoc (a b c : string) :
  String.append a (String.append b c) = String.append (String.append a b) c.
Proof. induction a as [|x t IH]; simpl; [reflexivity|]. now rewrite IH. Qed.

Lemma string_app_nil_r (a : string) : String.append a EmptyString = a.
Proof. induction a as [|x t IH]; simpl; [reflexivity|]. now rewrite IH. Qed.

(** ** A stable sort, as [Array.prototype.sort] with a comparator

    [after x y] is [compare(x, y) > 0]: [x] must be placed after [y].
    Inserting the elements from the last one keeps equal elements in their
    input order, which ECMAScript requires of [sort] since 2019.  For a
    comparator that is a consistent total preorder every stable sort gives
    this result. *)

Section StableSort.
Context {A : Type} (after : A -> A -> bool).

Fixpoint insert_stable (x : A) (l : list A) : list A :=
  match l with
  | [] => [x]
  | y :: t => if after x y then y :: insert_stable x t else x :: y :: t
  end.

Fixpoint stable_sort (l : list A) : list A :=
  match l with
  | [] => []
  | x :: t => insert_stable x (stable_sort t)
  end.

Lemma insert_stable_perm (x : A) (l : list A) : Permutation (insert_stable x l) (x :: l).
Proof.
  induction l as [|y t IH]; simpl; [reflexivity|].
  destruct (after x y); [|reflexivity].
  eapply Permutation_trans; [apply perm_skip, IH | apply perm_swap].
Qed.

Lemma stable_sort_perm (l : list A) : Permutation (stable_sort l) l.
Proof.
  induction l as [|x t IH]; simpl; [reflexivity|].
  eapply Permutation_trans; [apply insert_stable_perm | now apply perm_skip].
Qed.

Lemma stable_sort_length (l : list A) : length (stable_sort l) = length l.
Proof. apply Permutation_length, stable_sort_perm. Qed.

Lemma In_stable_sort (l : list A) (x : A) : In x (stable_sort l) <-> In x l.
Proof. split; apply Permutation_in; [|symmetry]; apply stable_sort_perm. Qed.

(** For a comparator under which two elements are never both after each
    other, the result is sorted: no element is placed after its successor. *)
Section Sorted.
Hypothesis after_asym : forall x y, after x y = true -> after y x = false.

Lemma insert_stable_sorted (x : A) (l : list A) :
  Sorted (fun a b => after a b = false) l ->
  Sorted (fun a b => after a b = false) (insert_stable x l).
Proof.
  induction l as [|y t IH]; intros H; cbn [insert_stable]; [repeat constructor|].
  destruct (after x y) eqn:E.
  - apply Sorted_inv in H as [Ht Hy]. constructor; [apply IH, Ht|].
    destruct t as [|z t']; cbn [insert_stable]; [constructor; apply after_asym, E|].
    destruct (after x z); constructor; [now inversion Hy | apply after_asym, E].
  - constructor; [exact H | constructor; exact E].
Qed.

Lemma stable_sort_sorted (l : list A) : Sorted (fun a b => after a b = false) (stable_sort l).
Proof. induction l as [|x t IH]; cbn [stable_sort]; [constructor | now apply insert_stable_sorted]. Qed.
End Sorted.
End StableSort.

#[export] Hint Resolve stable_sort_perm : dp.

(** ** Tactics *)

(** Case analysis on every boolean test in the goal, innermost first. *)
Ltac bool_cases :=
  repeat match goal with
         | |- context [if ?b then _ else _] =>
             lazymatch b with
             | context [if _ then _ else _] => fail
             | _ => let E := fresh "E" in destruct b eqn:E
             end
         end.

(** ** Maps whose function may throw *)

(** [xs.map(f)] where [f] may throw: the first failure is the result. *)
Fixpoint omap {A B} (f : A -> option B) (l : list A) : option (list B) :=
  match l with
  | [] => Some []
  | x :: t =>
      match f x with
      | Some y => option_map (cons y) (omap f t)
      | None => None
      end
  end.

Lemma omap_None {A B} (f : A -> option B) (l : list A) :
  omap f l = None <-> exists x, In x l /\ f x = None.
Proof.
  induction l as [|x t IH]; cbn [omap]; [split; [discriminate|intros (? & [] & _)]|].
  destruct (f x) as [y|] eqn:E.
  - destruct (omap f t) as [ys|]; cbn [option_map].
    + split; [discriminate|]. intros (z & [<-|Hz] & Hn); [congruence|].
      discriminate (proj2 IH (ex_intro _ z (conj Hz Hn))).
    + split; [|reflexivity]. intros _. destruct (proj1 IH eq_refl) as (z & Hz & Hn).
      exists z. split; [now right|exact Hn].
  - split; [intros _; exists x; split; [now left|exact E]|reflexivity].
Qed.

Lemma omap_Some_map {A B} (f : A -> option B) (g : A -> B) (l : list A) :
  (forall x, In x l -> f x = Some (g x)) -> omap f l = Some (map g l).
Proof.
  induction l as [|x t IH]; intros H; [reflexivity|]. cbn [omap map].
  rewrite (H x (or_introl eq_refl)), IH; [reflexivity|]. intros y Hy. apply H. now right.
Qed.
