(* ===== verification/JsNumber.v ===== *)
(** * JavaScript numbers as the grade engine uses them

    Doubles are Rocq's primitive binary64 floats ([PrimFloat]), whose
    operations are IEEE-754 round-to-nearest-even like JavaScript's.
    This file holds:
    - [of_Z], the double nearest to an integer;
    - [znum], integers extended with NaN, for the weighted sums of
      gradeUtils.ts and analyzer.ts (exact integer sums, see the header of
      Prelude.v), and [znum_div], the one division of the source;
    - [formatTo2Decimals] of gradeUtils.ts, i.e. [Number(x.toFixed(2))],
      through [fixed2_of_binary], the integer [n] such that [x.toFixed(2)]
      prints [n/100];
    - [math_max], [math_min] ([Math.max(...l)], [Math.min(...l)]) and the
      float sum [fsum] ([l.reduce((s, v) => s + v, 0)]);
    - [math_round], [Math.round(x)] (ECMAScript 21.3.2.28);
    - [parseInt10], [parseInt(s, 10)] (ECMAScript 19.2.5). *)

From Stdlib Require Import Bool ZArith String Ascii List Floats Lia.
From S2P Require Import Prelude.
Import ListNotations.
Local Open Scope Z_scope.

(** ** Integer-valued doubles *)

(** The double nearest to [z] ([binary_normalize] rounds to nearest even);
    exact for |z| < 2^53. *)
Definition of_Z (z : Z) : float :=
  SF2Prim (SpecFloat.binary_normalize prec emax z 0 false).

(** ** Integers extended with NaN *)

(** A JS number that is an integer or NaN.  [gradePoint * creditValue] is
    NaN when [gradePointMap[GR]] is not a number (a key inherited from
    [Object.prototype], see GradeScale.v), and NaN absorbs every later
    [+=]. *)
Inductive znum := Fin (z : Z) | NaN.

Definition znum_add (a b : znum) : znum :=
  match a, b with
  | Fin x, Fin y => Fin (x + y)
  | _, _ => NaN
  end.

Definition znum_mul (a : znum) (c : Z) : znum :=
  match a with
  | Fin x => Fin (x * c)
  | NaN => NaN
  end.

Definition znum_to_float (a : znum) : float :=
  match a with
  | Fin x => of_Z x
  | NaN => nan
  end.

(** [weightedSum / totalCredits]. *)
Definition znum_div (a : znum) (d : Z) : float := (znum_to_float a / of_Z d)%float.

Lemma znum_add_comm (a b : znum) : znum_add a b = znum_add b a.
Proof. destruct a, b; simpl; f_equal; try lia; reflexivity. Qed.

Lemma znum_add_assoc (a b c : znum) :
  znum_add a (znum_add b c) = znum_add (znum_add a b) c.
Proof. destruct a, b, c; simpl; f_equal; try lia; reflexivity. Qed.

Lemma znum_add_0_r (a : znum) : znum_add a (Fin 0) = a.
Proof. destruct a; simpl; [now rewrite Z.add_0_r | reflexivity]. Qed.

Lemma znum_mul_0 (a : znum) : a <> NaN -> znum_mul a 0 = Fin 0.
Proof. destruct a; simpl; [now rewrite Z.mul_0_r | congruence]. Qed.

#[export] Hint Rewrite znum_add_0_r : dp_rw.

(** ** [Number(x.toFixed(2))] *)

(** For a finite [x = m * 2^e >= 0], [toFixed(2)] picks the integer [n]
    for which [n / 100 - x] is closest to zero, the larger one on a tie:
    [n = floor(100 x + 1/2)], computed on the exact binary value. *)
Definition fixed2_of_binary (m : positive) (e : Z) : Z :=
  if (0 <=? e)%Z then Z.pos m * 2 ^ e * 100
  else let d := 2 ^ (- e) in (2 * (Z.pos m * 100) + d) / (2 * d).

(** [x.toFixed(2)] prints [-n/100] when [x < 0] (the magnitude is rounded
    and the sign prefixed), and [ToString(x)] when [|x| >= 10^21]. *)
Definition formatTo2Decimals (x : float) : float :=
  match Prim2SF x with
  | S754_finite s m e =>
      if (1e21 <=? abs x)%float then x
      else
        let r := (of_Z (fixed2_of_binary m e) / 100)%float in
        if s then (- r)%float else r
  | S754_zero _ => 0%float
  | S754_infinity _ | S754_nan => x
  end.

(** ** [Math.max], [Math.min] and sums *)

(** One step of [Math.max]: NaN wins, [+0] beats [-0], otherwise the
    larger value. *)
Definition max_step (hi x : float) : float :=
  if is_nan hi || is_nan x then nan
  else if (hi <? x)%float then x
  else if is_zero hi && is_zero x && get_sign hi then x
  else hi.

Definition min_step (lo x : float) : float :=
  if is_nan lo || is_nan x then nan
  else if (x <? lo)%float then x
  else if is_zero lo && is_zero x && get_sign x then x
  else lo.

Definition math_max (l : list float) : float := fold_left max_step l neg_infinity.
Definition math_min (l : list float) : float := fold_left min_step l infinity.

(** [l.reduce((sum, v) => sum + v, 0)], left to right. *)
Definition fsum (l : list float) : float := fold_left PrimFloat.add l 0%float.

(** ** [Math.round] *)

(** [Math.round(x)] (ECMAScript 21.3.2.28): the integer closest to [x],
    the larger one on a tie, i.e. [floor(x + 1/2)] on the exact value
    [(-1)^s * m * 2^e]; [-0] for [-0.5 <= x < 0]; NaN, the infinities
    and the zeros unchanged. *)
Definition math_round (x : float) : float :=
  match Prim2SF x with
  | S754_finite s m e =>
      let num := Z.pos m * 2 ^ Z.max e 0 in
      let den := 2 ^ Z.max (- e) 0 in
      let n := (2 * (if s then - num else num) + den) / (2 * den) in
      if s && (n =? 0) then (-0)%float else of_Z n
  | _ => x
  end.

(** ** [parseInt(s, 10)] *)

(** StrWhiteSpaceChar restricted to code units below 256: TAB, LF, VT, FF,
    CR, SPACE and NO-BREAK SPACE. *)
Definition is_js_space (c : ascii) : bool :=
  let n := nat_of_ascii c in
  (n =? 9)%nat || (n =? 10)%nat || (n =? 11)%nat || (n =? 12)%nat
  || (n =? 13)%nat || (n =? 32)%nat || (n =? 160)%nat.

Fixpoint trim_start (s : string) : string :=
  match s with
  | String c t => if is_js_space c then trim_start t else s
  | EmptyString => s
  end.

Definition digit_value (c : ascii) : option Z :=
  let n := nat_of_ascii c in
  if (48 <=? n)%nat && (n <=? 57)%nat then Some (Z.of_nat (n - 48)) else None.

(** The value of the longest prefix of decimal digits, [None] when it is
    empty; [acc] is the value of the digits read so far. *)
Fixpoint digits_prefix (s : string) (acc : Z) (seen : bool) : option Z :=
  match s with
  | String c t =>
      match digit_value c with
      | Some d => digits_prefix t (acc * 10 + d) true
      | None => if seen then Some acc else None
      end
  | EmptyString => if seen then Some acc else None
  end.

(** [None] is NaN.  [-0] is returned as [0]: the program only compares the
    result with [>], where they agree. *)
Definition parseInt10 (s : string) : option Z :=
  let s1 := trim_start s in
  let '(sign, s2) :=
    match s1 with
    | String c t =>
        if (c =? "-")%char then (-1, t)
        else if (c =? "+")%char then (1, t)
        else (1, s1)
    | EmptyString => (1, s1)
    end in
  option_map (Z.mul sign) (digits_prefix s2 0 false).
