(* ===== verification/NumberToString.v ===== *)
(** * [Number::toString] (ECMAScript 6.1.6.1.20)

    [String(x)], template literals and the [{x}] of JSX print a double
    with [Number::toString]: the shortest decimal [s * 10^t] that reads
    back as the double, in decimal notation for exponents -6..21 and in
    exponent notation beyond.  [number_to_string] computes it exactly on
    the dyadic value of the double: [decimal_exponent] gives the position
    of the first digit, [shortest_decimal] tries 1, 2, ... digits
    ([rounds_to]: the candidate lies in the rounding interval of the
    double, ties to even) and is given 17 attempts, with a fallback branch
    for the case they run out; [format_decimal] is steps 6-10.

    The theorems: the fallback branch is dead code.  For every finite
    double the search succeeds within the 17 attempts and the digits it
    returns round to the double.  The argument is the classic one:
    [decimal_exponent] gives [x >= 10^(n-1)], so at 17 digits the
    candidates are at most [x / 10^16] apart, less than the rounding
    interval of a double with a 53-bit mantissa ([10^16 > 2^53]).  The
    digit count of [Z_text] is read off Stdlib's decimal conversions
    (DecimalPos). *)

From Stdlib Require Import Bool ZArith NArith Ascii String List Floats Lia.
From Stdlib Require Decimal DecimalFacts DecimalPos.
From S2P Require Import Prelude JsNumber.
Import ListNotations.
Local Open Scope string_scope.
Local Open Scope Z_scope.

(** ** Decimal text *)

Fixpoint uint_text (d : Decimal.uint) : string :=
  match d with
  | Decimal.Nil => ""
  | Decimal.D0 t => "0" ++ uint_text t
  | Decimal.D1 t => "1" ++ uint_text t
  | Decimal.D2 t => "2" ++ uint_text t
  | Decimal.D3 t => "3" ++ uint_text t
  | Decimal.D4 t => "4" ++ uint_text t
  | Decimal.D5 t => "5" ++ uint_text t
  | Decimal.D6 t => "6" ++ uint_text t
  | Decimal.D7 t => "7" ++ uint_text t
  | Decimal.D8 t => "8" ++ uint_text t
  | Decimal.D9 t => "9" ++ uint_text t
  end.

(** The decimal digits of a natural number, ["0"] for 0. *)
Definition N_text (n : N) : string := uint_text (N.to_uint n).

Definition Z_text (z : Z) : string := N_text (Z.to_N z).

Fixpoint zeros (k : nat) : string :=
  match k with O => "" | S k' => "0" ++ zeros k' end.

(** ** Digit strings *)

Fixpoint strip_zeros_rev (l : list ascii) : list ascii :=
  match l with
  | "0"%char :: t => strip_zeros_rev t
  | _ => l
  end.

Definition strip_trailing_zeros (s : string) : string :=
  string_of_list_ascii (rev (strip_zeros_rev (rev (list_ascii_of_string s)))).

(** ** [Number::toString] for every double (ECMAScript 6.1.6.1.20) *)

(** [x * 2^e], a positive dyadic, as the fraction [num / den]. *)
Definition dyadic (x : Z) (e : Z) : Z * Z := (x * 2 ^ Z.max e 0, 2 ^ Z.max (- e) 0).

(** [num1 / den1] compared with [num2 / den2] (positive denominators). *)
Definition qcompare (q1 q2 : Z * Z) : comparison :=
  Z.compare (fst q1 * snd q2) (fst q2 * snd q1).

(** [s * 10^t] rounds to the double [m * 2^e] under round-to-nearest,
    ties-to-even: it lies strictly between the midpoints to the
    neighbouring doubles, or on one of them when [m] is even.  The gap
    below is half as wide at a power of two (not for the least normal). *)
Definition rounds_to (s t : Z) (m : positive) (e : Z) : bool :=
  let c := (s * 10 ^ Z.max t 0 * 4, 10 ^ Z.max (- t) 0) in
  let lg := if (Z.pos m =? 2 ^ 52) && (-1074 <? e) then 1 else 2 in
  let lo := dyadic (4 * Z.pos m - lg) e in
  let hi := dyadic (4 * Z.pos m + 2) e in
  let tie := Z.even (Z.pos m) in
  match qcompare lo c, qcompare c hi with
  | Lt, Lt => true
  | Eq, Lt | Lt, Eq => tie
  | _, _ => false
  end.

(** The [n] with [10^(n-1) <= m * 2^e < 10^n]. *)
Definition decimal_exponent (m : positive) (e : Z) : Z :=
  let '(num, den) := dyadic (Z.pos m) e in
  if den <=? num then Z.of_nat (String.length (Z_text (num / den)))
  else 1 - Z.of_nat (String.length (Z_text (den / num))).

(** The digits [s] and exponent [t] of the shortest [s * 10^t] that
    rounds to [m * 2^e]: [k] digits are tried from [k] on, the nearer
    candidate wins, the even one on a tie. *)
Fixpoint shortest_decimal (m : positive) (e n : Z) (k : Z) (fuel : nat) : option (Z * Z) :=
  match fuel with
  | O => None
  | S fuel' =>
      let t := n - k in
      let '(num, den) := dyadic (Z.pos m) e in
      let N := num * 10 ^ Z.max (- t) 0 in
      let D := den * 10 ^ Z.max t 0 in
      let lo := N / D in
      let hi := lo + 1 in
      match rounds_to lo t m e, rounds_to hi t m e with
      | true, true =>
          let dlo := N - lo * D in
          let dhi := hi * D - N in
          if dlo <? dhi then Some (lo, t)
          else if dhi <? dlo then Some (hi, t)
          else if Z.even lo then Some (lo, t) else Some (hi, t)
      | true, false => Some (lo, t)
      | false, true => Some (hi, t)
      | false, false => shortest_decimal m e n (k + 1) fuel'
      end
  end.

(** Steps 6-10 of [Number::toString]: the [k] digits [ds] of [s], with
    [s * 10^(n-k)] the value. *)
Definition format_decimal (ds : string) (n : Z) : string :=
  let k := Z.of_nat (String.length ds) in
  if (k <=? n) && (n <=? 21) then ds ++ zeros (Z.to_nat (n - k))
  else if (0 <? n) && (n <=? 21) then
    substring 0 (Z.to_nat n) ds ++ "." ++ substring (Z.to_nat n) (Z.to_nat (k - n)) ds
  else if (-6 <? n) && (n <=? 0) then "0." ++ zeros (Z.to_nat (- n)) ++ ds
  else
    let e := n - 1 in
    let ex := (if 0 <=? e then "e+" else "e-") ++ Z_text (Z.abs e) in
    match ds with
    | String d EmptyString => String d ex
    | String d rest => String d "." ++ rest ++ ex
    | EmptyString => "0"
    end.

(** [Number::toString(x)]: [String(x)] and template literals on a number. *)
Definition number_to_string (x : float) : string :=
  match Prim2SF x with
  | S754_nan => "NaN"
  | S754_infinity false => "Infinity"
  | S754_infinity true => "-Infinity"
  | S754_zero _ => "0"
  | S754_finite sg m e =>
      let n := decimal_exponent m e in
      (if sg then "-" else "")
      ++ match shortest_decimal m e n 1 17 with
         | Some (s, t) =>
             (* [s] may be [10^k] after rounding up: its digit count moves [n] *)
             let txt := Z_text s in
             let n' := t + Z.of_nat (String.length txt) in
             format_decimal (strip_trailing_zeros txt) n'
         | None => Z_text (fst (dyadic (Z.pos m) e) / snd (dyadic (Z.pos m) e))
         end
  end.


(** * Properties *)

(** ** Decimal digit counts *)

Lemma length_uint_text (d : Decimal.uint) : String.length (uint_text d) = Decimal.nb_digits d.
Proof. induction d; cbn; congruence. Qed.

Lemma of_uint_acc_bounds (d : Decimal.uint) (acc : positive) :
  Z.pos acc * 10 ^ Z.of_nat (Decimal.nb_digits d) <= Z.pos (Pos.of_uint_acc d acc)
  < (Z.pos acc + 1) * 10 ^ Z.of_nat (Decimal.nb_digits d).
Proof.
  revert acc. induction d; intros acc; cbn [Pos.of_uint_acc Decimal.nb_digits];
    [cbn; lia|..];
    match goal with
    | |- context [Pos.of_uint_acc ?l ?a] => specialize (IHd a)
    end;
    rewrite ?Pos2Z.inj_add, Pos2Z.inj_mul in IHd; change (Z.pos 1~0~1~0) with 10 in IHd;
    rewrite Nat2Z.inj_succ, Z.pow_succ_r by lia; nia.
Qed.

(** [Pos.to_uint p] starts with a non-zero digit. *)
Lemma to_uint_leading (p : positive) :
  exists (acc : positive) (d : Decimal.uint),
    Z.pos acc <= 9 /\ Z.pos p = Z.pos (Pos.of_uint_acc d acc)
    /\ Decimal.nb_digits (Pos.to_uint p) = S (Decimal.nb_digits d).
Proof.
  pose proof (DecimalPos.Unsigned.of_to p) as Hof.
  pose proof (DecimalPos.Unsigned.to_of (Pos.to_uint p)) as Hnorm.
  rewrite Hof in Hnorm. change (N.to_uint (Npos p)) with (Pos.to_uint p) in Hnorm.
  pose proof (DecimalPos.Unsigned.to_uint_nonzero p) as Hz.
  destruct (Pos.to_uint p) as [|d|d|d|d|d|d|d|d|d|d];
    try (cbn in Hof; injection Hof as <-; eexists _, d; repeat split; cbn; lia).
  - discriminate.
  - exfalso. assert (Hne : d <> Decimal.Nil) by (intros ->; now apply Hz).
    pose proof (DecimalFacts.nb_digits_unorm d Hne) as Hle.
    change (Decimal.unorm (Decimal.D0 d)) with (Decimal.unorm d) in Hnorm.
    rewrite <- Hnorm in Hle. cbn in Hle. lia.
Qed.

(** [Z_text q] has as many characters as [q] has decimal digits. *)
Lemma Z_text_digits (q : Z) :
  0 < q ->
  10 ^ (Z.of_nat (String.length (Z_text q)) - 1) <= q < 10 ^ Z.of_nat (String.length (Z_text q)).
Proof.
  destruct q as [|p|p]; intros Hq; try lia.
  unfold Z_text, N_text. cbn [Z.to_N N.to_uint]. rewrite length_uint_text.
  destruct (to_uint_leading p) as (acc & d & Hacc & Hp & Hn). rewrite Hn, Hp.
  pose proof (of_uint_acc_bounds d acc). rewrite Nat2Z.inj_succ, Z.pow_succ_r by lia.
  replace (Z.succ (Z.of_nat (Decimal.nb_digits d)) - 1) with (Z.of_nat (Decimal.nb_digits d)) by lia.
  nia.
Qed.

(** ** The exponent estimate and one step of the search *)

Lemma dyadic_pos (x e : Z) : 0 < x -> 0 < fst (dyadic x e) /\ 0 < snd (dyadic x e).
Proof.
  intros Hx. unfold dyadic; cbn [fst snd].
  pose proof (Z.pow_pos_nonneg 2 (Z.max e 0)) as H1. pose proof (Z.pow_pos_nonneg 2 (Z.max (- e) 0)) as H2.
  split; [apply Z.mul_pos_pos|apply H2]; lia.
Qed.

(** [m * 2^e >= 10^(n-1)] for [n := decimal_exponent m e], cross-multiplied. *)
Lemma decimal_exponent_lower (m : positive) (e : Z) :
  10 ^ Z.max (decimal_exponent m e - 1) 0 * snd (dyadic (Z.pos m) e)
  <= fst (dyadic (Z.pos m) e) * 10 ^ Z.max (1 - decimal_exponent m e) 0.
Proof.
  pose proof (dyadic_pos (Z.pos m) e ltac:(lia)) as [Hnum Hden].
  unfold decimal_exponent. destruct (dyadic (Z.pos m) e) as [num den]; cbn [fst snd] in *.
  destruct (den <=? num) eqn:Hle; [apply Z.leb_le in Hle | apply Z.leb_gt in Hle].
  - assert (Hq : 0 < num / den) by (apply Z.div_str_pos; lia).
    pose proof (Z_text_digits _ Hq) as [Hlo Hhi].
    set (L := Z.of_nat (String.length (Z_text (num / den)))) in *.
    assert (1 <= L).
    { destruct (Z.eq_dec L 0) as [E|E]; [rewrite E in Hhi; cbn in Hhi; lia | unfold L in *; lia]. }
    rewrite (Z.max_l (L - 1)), (Z.max_r (1 - L)) by lia.
    pose proof (Z.mul_div_le num den Hden). nia.
  - assert (Hq : 0 < den / num) by (apply Z.div_str_pos; lia).
    pose proof (Z_text_digits _ Hq) as [_ Hhi].
    set (L := Z.of_nat (String.length (Z_text (den / num)))) in *.
    rewrite (Z.max_r (1 - L - 1)), (Z.max_l (1 - (1 - L))) by lia.
    replace (1 - (1 - L)) with L by lia.
    pose proof (Z.mul_succ_div_gt den num Hnum). nia.
Qed.

(** [rounds_to] holds when [s * 10^t] lies strictly inside the rounding
    interval, cross-multiplied. *)
Lemma rounds_to_strict (s t : Z) (m : positive) (e : Z) (lg : Z) :
  lg = (if (Z.pos m =? 2 ^ 52) && (-1074 <? e) then 1 else 2) ->
  (4 * Z.pos m - lg) * (2 ^ Z.max e 0 * 10 ^ Z.max (- t) 0)
    < 4 * s * (2 ^ Z.max (- e) 0 * 10 ^ Z.max t 0) ->
  4 * s * (2 ^ Z.max (- e) 0 * 10 ^ Z.max t 0)
    < (4 * Z.pos m + 2) * (2 ^ Z.max e 0 * 10 ^ Z.max (- t) 0) ->
  rounds_to s t m e = true.
Proof.
  intros Hlg H1 H2. unfold rounds_to, qcompare, dyadic. rewrite <- Hlg. cbn [fst snd].
  rewrite (proj2 (Z.compare_lt_iff _ _)) by lia.
  rewrite (proj2 (Z.compare_lt_iff _ _)) by lia. reflexivity.
Qed.

(** Once the candidates [s * 10^(n-k)] are spaced at most [x / 10^16]
    apart, the nearer one rounds to [x = m * 2^e] and the search stops. *)
Lemma shortest_decimal_stops (m : positive) (e n k : Z) (fuel : nat) :
  Z.pos m < 2 ^ 53 ->
  10 ^ 16 * (snd (dyadic (Z.pos m) e) * 10 ^ Z.max (n - k) 0)
    <= fst (dyadic (Z.pos m) e) * 10 ^ Z.max (- (n - k)) 0 ->
  shortest_decimal m e n k (S fuel) <> None.
Proof.
  intros Hm Hspan. cbn [shortest_decimal].
  unfold dyadic in *; cbn [fst snd] in Hspan.
  set (A := 2 ^ Z.max e 0) in *. set (B := 2 ^ Z.max (- e) 0) in *.
  set (P := 10 ^ Z.max (n - k) 0) in *. set (Q := 10 ^ Z.max (- (n - k)) 0) in *.
  assert (0 < A /\ 0 < B /\ 0 < P /\ 0 < Q) as (HA & HB & HP & HQ)
    by (repeat split; apply Z.pow_pos_nonneg; lia).
  set (lg := if (Z.pos m =? 2 ^ 52) && (-1074 <? e) then 1 else 2).
  assert (Hlg : 2 * (B * P) < lg * (A * Q) /\ B * P < A * Q).
  { unfold lg. destruct (Z.eqb_spec (Z.pos m) (2 ^ 52)) as [E|E]; cbn [andb].
    - rewrite E in Hspan. destruct (-1074 <? e); split; nia.
    - split; nia. }
  set (lo := Z.pos m * A * Q / (B * P)).
  pose proof (Z.mul_div_le (Z.pos m * A * Q) (B * P) ltac:(nia)) as Hlo.
  pose proof (Z.mul_succ_div_gt (Z.pos m * A * Q) (B * P) ltac:(nia)) as Hhi.
  fold lo in Hlo, Hhi.
  assert (Hround : rounds_to lo (n - k) m e = true \/ rounds_to (lo + 1) (n - k) m e = true).
  { destruct (Z_le_gt_dec (2 * (Z.pos m * A * Q - B * P * lo)) (B * P)).
    - left. apply (rounds_to_strict _ _ _ _ lg eq_refl); fold A B P Q; nia.
    - right. apply (rounds_to_strict _ _ _ _ lg eq_refl); fold A B P Q; nia. }
  fold lo. destruct (rounds_to lo (n - k) m e), (rounds_to (lo + 1) (n - k) m e);
    [repeat destruct (_ <? _); try destruct (Z.even lo)|..]; try discriminate;
    destruct Hround; discriminate.
Qed.

Lemma shortest_decimal_next (m : positive) (e n k : Z) (fuel : nat) :
  shortest_decimal m e n k (S fuel) = None -> shortest_decimal m e n (k + 1) fuel = None.
Proof.
  cbn [shortest_decimal]. destruct (dyadic (Z.pos m) e) as [num den].
  destruct (rounds_to _ _ m e), (rounds_to _ _ m e);
    [repeat destruct (_ <? _); try destruct (Z.even _)|..]; congruence.
Qed.

Lemma shortest_decimal_sound (m : positive) (e n k : Z) (fuel : nat) (s t : Z) :
  shortest_decimal m e n k fuel = Some (s, t) -> rounds_to s t m e = true.
Proof.
  revert k. induction fuel as [|fuel IH]; intros k; [discriminate|].
  cbn [shortest_decimal]. destruct (dyadic (Z.pos m) e) as [num den].
  set (lo := _ / _). intros H.
  destruct (rounds_to lo (n - k) m e) eqn:Hl, (rounds_to (lo + 1) (n - k) m e) eqn:Hh;
    [repeat destruct (_ <? _); try destruct (Z.even _)|..];
    try (injection H as <- <-; assumption); exact (IH _ H).
Qed.

(** From [x >= 10^(n-1)]: at seventeen digits the candidates are spaced at
    most [x / 10^16] apart. *)
Lemma span_at_17 (num den n : Z) :
  0 < den ->
  10 ^ Z.max (n - 1) 0 * den <= num * 10 ^ Z.max (1 - n) 0 ->
  10 ^ 16 * (den * 10 ^ Z.max (n - 17) 0) <= num * 10 ^ Z.max (- (n - 17)) 0.
Proof.
  intros Hden H.
  destruct (Z_le_gt_dec 17 n).
  - rewrite (Z.max_l (n - 17)), (Z.max_r (- (n - 17))) by lia.
    rewrite (Z.max_l (n - 1)), (Z.max_r (1 - n)) in H by lia.
    replace (n - 1) with (16 + (n - 17)) in H by lia. rewrite Z.pow_add_r in H by lia. lia.
  - rewrite (Z.max_r (n - 17)), (Z.max_l (- (n - 17))) by lia.
    destruct (Z_le_gt_dec 1 n).
    + rewrite (Z.max_l (n - 1)), (Z.max_r (1 - n)) in H by lia.
      replace (- (n - 17)) with (16 - (n - 1)) by lia.
      pose proof (Z.pow_pos_nonneg 10 (n - 1) ltac:(lia) ltac:(lia)).
      assert (10 ^ 16 = 10 ^ (16 - (n - 1)) * 10 ^ (n - 1))
        by (rewrite <- Z.pow_add_r by lia; f_equal; lia).
      rewrite Z.pow_0_r. nia.
    + rewrite (Z.max_r (n - 1)), (Z.max_l (1 - n)) in H by lia.
      replace (- (n - 17)) with (16 + (1 - n)) by lia. rewrite Z.pow_add_r by lia.
      rewrite Z.pow_0_r in *. nia.
Qed.

Lemma shortest_decimal_found (m : positive) (e : Z) (j : nat) :
  Z.pos m < 2 ^ 53 ->
  shortest_decimal m e (decimal_exponent m e) (17 - Z.of_nat j) (S j) <> None.
Proof.
  intros Hm. induction j as [|j IH].
  - apply shortest_decimal_stops; [exact Hm|]. cbn [Z.of_nat]; rewrite Z.sub_0_r.
    apply span_at_17; [apply dyadic_pos; lia|apply decimal_exponent_lower].
  - intros H. apply shortest_decimal_next in H. apply IH.
    replace (17 - Z.of_nat j) with (17 - Z.of_nat (S j) + 1) by lia. exact H.
Qed.

(** ** Every finite double *)

Lemma digits2_pos_bound (p : positive) : Z.pos p < 2 ^ Z.pos (SpecFloat.digits2_pos p).
Proof.
  induction p as [p IH|p IH|]; cbn [SpecFloat.digits2_pos]; [..|cbn; lia];
    rewrite Pos2Z.inj_succ, Z.pow_succ_r by lia; lia.
Qed.

(** A finite double has a mantissa below [2^53] ([Prim2SF] only returns
    canonical values). *)
Lemma finite_mantissa_bound (x : float) (sg : bool) (m : positive) (e : Z) :
  Prim2SF x = S754_finite sg m e -> Z.pos m < 2 ^ 53.
Proof.
  intros Hx. pose proof (FloatAxioms.Prim2SF_valid x) as V. rewrite Hx in V.
  cbn [valid_binary] in V. unfold SpecFloat.bounded, SpecFloat.canonical_mantissa, SpecFloat.fexp in V.
  apply andb_prop in V as [V _]. apply Z.eqb_eq in V.
  pose proof (digits2_pos_bound m) as Hd.
  assert (Hle : Z.pos (SpecFloat.digits2_pos m) <= 53) by (unfold prec, emax, SpecFloat.emin in V; lia).
  pose proof (Z.pow_le_mono_r 2 _ 53 ltac:(lia) Hle). lia.
Qed.

(** For every finite double [x = (-1)^sg * m * 2^e],
    the digit search of [Number::toString] succeeds within its 17
    attempts (the fallback branch of [number_to_string] is never taken),
    the digits it finds read back as [x], and [number_to_string x] is the
    sign followed by those digits in the format of steps 6-10. *)
Theorem number_to_string_total (x : float) (sg : bool) (m : positive) (e : Z) :
  Prim2SF x = S754_finite sg m e ->
  exists s t,
    shortest_decimal m e (decimal_exponent m e) 1 17 = Some (s, t)
    /\ rounds_to s t m e = true
    /\ number_to_string x
       = ((if sg then "-" else "")
          ++ format_decimal (strip_trailing_zeros (Z_text s))
               (t + Z.of_nat (String.length (Z_text s))))%string.
Proof.
  intros Hx. pose proof (shortest_decimal_found m e 16 (finite_mantissa_bound x sg m e Hx)) as Hf.
  change (17 - Z.of_nat 16) with 1 in Hf.
  destruct (shortest_decimal m e (decimal_exponent m e) 1 17) as [[s t]|] eqn:Hs; [|congruence].
  exists s, t. split; [reflexivity|split; [exact (shortest_decimal_sound _ _ _ _ _ _ _ Hs)|]].
  unfold number_to_string. rewrite Hx, Hs. reflexivity.
Qed.


(** [String(x)] on sample doubles, as JavaScript engines print them:
    integers in full below 10^21, the shortest round-tripping digits,
    decimal notation from 10^-6 on and exponent notation beyond. *)
Example number_to_string_samples :
  number_to_string 4 = "4" /\ number_to_string (1 / 10) = "0.1"
  /\ number_to_string (1 / 10 + 2 / 10) = "0.30000000000000004"
  /\ number_to_string 731622104001 = "731622104001"
  /\ number_to_string 1e21 = "1e+21" /\ number_to_string 1e20 = "100000000000000000000"
  /\ number_to_string (1 / 1000000) = "0.000001" /\ number_to_string (1 / 10000000) = "1e-7"
  /\ number_to_string (-5 / 2) = "-2.5" /\ number_to_string 0x1p-1074 = "5e-324"
  /\ number_to_string 0x1.fffffffffffffp+1023 = "1.7976931348623157e+308"
  /\ number_to_string (0 / 0) = "NaN" /\ number_to_string (-0) = "0".
Proof. vm_compute. repeat split. Qed.
