(* ===== verification/Binary64.v ===== *)
(** * Exact integer arithmetic in binary64

    The program adds and multiplies small integers (grade points, credits
    and their sums) as JavaScript doubles.  This file proves, from the
    IEEE-754 specification of Rocq's primitive floats ([FloatAxioms]:
    every operation is [SpecFloat]'s correctly rounded one), that such
    arithmetic is exact below [2^53]: [of_Z a + of_Z b = of_Z (a + b)] and
    [of_Z a * of_Z b = of_Z (a * b)] for non-negative operands and results
    below [2^53].  The core is [round_aux_exact]: rounding a mantissa
    whose value is an integer [P < 2^53] only shifts out zero bits, so it
    returns [exact_double P], the canonical double of [P]. *)

From Stdlib Require Import Bool ZArith Floats Lia.
From S2P Require Import Prelude JsNumber.
Local Open Scope Z_scope.

(** ** Binary digit counts and shifts *)

Local Abbreviation dg p := (Z.pos (SpecFloat.digits2_pos p)).

Lemma digits2_pos_spec (p : positive) : 2 ^ (dg p - 1) <= Z.pos p < 2 ^ dg p.
Proof.
  induction p as [p IH|p IH|]; cbn [SpecFloat.digits2_pos]; [..|cbn; lia];
    rewrite Pos2Z.inj_succ, Z.pow_succ_r by lia;
    replace (Z.succ (dg p) - 1) with (dg p - 1 + 1) by lia;
    rewrite Z.pow_add_r, Z.pow_1_r by lia; lia.
Qed.

Lemma digits2_pos_unique (p : positive) (k : Z) :
  2 ^ (k - 1) <= Z.pos p < 2 ^ k -> dg p = k.
Proof.
  intros [H1 H2]. pose proof (digits2_pos_spec p) as [H3 H4].
  destruct (Z.lt_trichotomy (dg p) k) as [Hlt|[Heq|Hgt]]; [exfalso| exact Heq | exfalso].
  - pose proof (Z.pow_le_mono_r 2 (dg p) (k - 1) ltac:(lia) ltac:(lia)). lia.
  - pose proof (Z.pow_le_mono_r 2 k (dg p - 1) ltac:(lia) ltac:(lia)). lia.
Qed.

Lemma iter_xO (p d : positive) : Z.pos (Pos.iter xO p d) = Z.pos p * 2 ^ Z.pos d.
Proof.
  induction d as [|d IH] using Pos.peano_ind; [cbn; lia|].
  rewrite Pos.iter_succ, Pos2Z.inj_succ, Z.pow_succ_r by lia.
  change (Z.pos (xO (Pos.iter xO p d))) with (2 * Z.pos (Pos.iter xO p d)). lia.
Qed.

Lemma iter_pos_nat {A : Type} (f : A -> A) (n : positive) (x : A) :
  SpecFloat.iter_pos f n x = Nat.iter (Pos.to_nat n) f x.
Proof.
  revert x. induction n as [n IH|n IH|]; intros x; cbn [SpecFloat.iter_pos].
  - rewrite IH, IH, Pos2Nat.inj_xI, Nat.iter_succ_r, <- Nat.iter_add. f_equal. lia.
  - rewrite IH, IH, Pos2Nat.inj_xO, <- Nat.iter_add. f_equal. lia.
  - reflexivity.
Qed.

(** Shifting out zero bits is exact. *)
Lemma shr_1_zeros (k : nat) (q : positive) :
  Nat.iter k SpecFloat.shr_1
    {| SpecFloat.shr_m := Z.pos q * 2 ^ Z.of_nat k; SpecFloat.shr_r := false; SpecFloat.shr_s := false |}
  = {| SpecFloat.shr_m := Z.pos q; SpecFloat.shr_r := false; SpecFloat.shr_s := false |}.
Proof.
  revert q. induction k as [|k IH]; intros q; [cbn; f_equal; lia|].
  rewrite Nat.iter_succ. replace (Z.pos q * 2 ^ Z.of_nat (S k)) with (Z.pos (xO q) * 2 ^ Z.of_nat k)
    by (rewrite Nat2Z.inj_succ, Z.pow_succ_r by lia; lia).
  rewrite IH. reflexivity.
Qed.

(** ** Exact rounding *)

(** The double of value [P] for [0 < P < 2^53]: its 53-bit mantissa and
    exponent. *)
Definition exact_double (P : positive) : spec_float :=
  S754_finite false (Z.to_pos (Z.pos P * 2 ^ (53 - dg P))) (dg P - 53).

Lemma exact_mantissa (P : positive) :
  Z.pos P < 2 ^ 53 ->
  2 ^ 52 <= Z.pos P * 2 ^ (53 - dg P) < 2 ^ 53 /\ 1 <= dg P <= 53.
Proof.
  intros HP. pose proof (digits2_pos_spec P) as [H1 H2].
  assert (dg P <= 53).
  { destruct (Z_le_gt_dec (dg P) 53) as [|Hg]; [assumption|].
    pose proof (Z.pow_le_mono_r 2 53 (dg P - 1) ltac:(lia) ltac:(lia)). lia. }
  assert (E1 : 2 ^ 52 = 2 ^ (dg P - 1) * 2 ^ (53 - dg P)) by (rewrite <- Z.pow_add_r by lia; f_equal; lia).
  assert (E2 : 2 ^ 53 = 2 ^ dg P * 2 ^ (53 - dg P)) by (rewrite <- Z.pow_add_r by lia; f_equal; lia).
  pose proof (Z.pow_pos_nonneg 2 (53 - dg P) ltac:(lia) ltac:(lia)). split; [nia|lia].
Qed.

Lemma fexp_small (d : Z) : 1 <= d <= 53 -> SpecFloat.fexp prec emax d = d - 53.
Proof. intros H. unfold SpecFloat.fexp, SpecFloat.emin, prec, emax. lia. Qed.

(** Rounding a mantissa [mz] at exponent [dg P - 53 - k] whose value is
    exactly [P < 2^53] gives [exact_double P]: the [k] low bits are zero. *)
Lemma round_aux_exact (P mz : positive) (k : Z) :
  Z.pos P < 2 ^ 53 -> 0 <= k ->
  Z.pos mz = Z.pos P * 2 ^ (53 - dg P) * 2 ^ k ->
  SpecFloat.binary_round_aux prec emax false (Z.pos mz) (dg P - 53 - k) SpecFloat.loc_Exact
  = exact_double P.
Proof.
  intros HP Hk Hmz. pose proof (exact_mantissa P HP) as [HM Hd].
  set (M := Z.pos P * 2 ^ (53 - dg P)) in *.
  assert (HMid : Z.pos (Z.to_pos M) = M) by (apply Z2Pos.id; lia).
  assert (HdM : dg (Z.to_pos M) = 53) by (apply digits2_pos_unique; rewrite HMid; lia).
  assert (Hdz : dg mz = 53 + k).
  { apply digits2_pos_unique. rewrite Hmz.
    rewrite !Z.pow_add_r by lia. replace (53 + k - 1) with (52 + k) by lia.
    rewrite Z.pow_add_r by lia. pose proof (Z.pow_pos_nonneg 2 k ltac:(lia) Hk). nia. }
  unfold SpecFloat.binary_round_aux, SpecFloat.shr_fexp. cbn [SpecFloat.Zdigits2 SpecFloat.shr_record_of_loc].
  rewrite Hdz. replace (53 + k + (dg P - 53 - k)) with (dg P) by lia. rewrite fexp_small by lia.
  replace (dg P - 53 - (dg P - 53 - k)) with k by lia.
  assert (Hshr : SpecFloat.shr {| SpecFloat.shr_m := Z.pos mz; SpecFloat.shr_r := false; SpecFloat.shr_s := false |}
                   (dg P - 53 - k) k
                 = ({| SpecFloat.shr_m := Z.pos (Z.to_pos M); SpecFloat.shr_r := false; SpecFloat.shr_s := false |},
                    dg P - 53)).
  { destruct k as [|kp|kp]; [|cbn [SpecFloat.shr]|lia].
    - cbn [SpecFloat.shr]. f_equal; [f_equal; rewrite HMid, Hmz; cbn; lia|lia].
    - rewrite iter_pos_nat, Hmz.
      replace (M * 2 ^ Z.pos kp) with (Z.pos (Z.to_pos M) * 2 ^ Z.of_nat (Pos.to_nat kp))
        by (rewrite HMid, positive_nat_Z; reflexivity).
      rewrite shr_1_zeros. f_equal. lia. }
  rewrite Hshr. cbn [SpecFloat.shr_m SpecFloat.loc_of_shr_record SpecFloat.round_nearest_even
                     SpecFloat.Zdigits2].
  rewrite HdM. replace (53 + (dg P - 53)) with (dg P) by lia. rewrite fexp_small by lia.
  rewrite Z.sub_diag. cbn [SpecFloat.shr SpecFloat.shr_m].
  replace (dg P - 53 <=? emax - prec) with true by (symmetry; apply Z.leb_le; unfold emax, prec; lia).
  reflexivity.
Qed.

(** Rounding [p * 2^e], [e <= 0], whose value is exactly [P < 2^53]. *)
Lemma round_exact (P p : positive) (e : Z) :
  Z.pos P < 2 ^ 53 -> e <= 0 -> Z.pos p = Z.pos P * 2 ^ (- e) ->
  SpecFloat.binary_round prec emax false p e = exact_double P.
Proof.
  intros HP He Hp. pose proof (exact_mantissa P HP) as [HM Hd].
  pose proof (digits2_pos_spec P) as HPd.
  assert (Hdp : dg p = dg P - e).
  { apply digits2_pos_unique. rewrite Hp.
    replace (dg P - e - 1) with (dg P - 1 + - e) by lia.
    replace (dg P - e) with (dg P + - e) by lia. rewrite !Z.pow_add_r by lia.
    pose proof (Z.pow_pos_nonneg 2 (- e) ltac:(lia) ltac:(lia)). nia. }
  unfold SpecFloat.binary_round, SpecFloat.shl_align.
  rewrite Hdp. replace (dg P - e + e) with (dg P) by lia. rewrite fexp_small by lia.
  destruct (dg P - 53 - e) as [|dd|dd] eqn:Hdiff.
  - change (SpecFloat.binary_round_aux prec emax false (Z.pos p) e SpecFloat.loc_Exact = exact_double P).
    replace e with (dg P - 53 - 0) by lia. apply round_aux_exact; [lia|lia|].
    rewrite Hp, Z.pow_0_r, Z.mul_1_r. do 2 f_equal. lia.
  - change (SpecFloat.binary_round_aux prec emax false (Z.pos p) e SpecFloat.loc_Exact = exact_double P).
    replace e with (dg P - 53 - Z.pos dd) by lia. apply round_aux_exact; [lia|lia|].
    rewrite Hp, <- Z.mul_assoc, <- Z.pow_add_r by lia. do 2 f_equal. lia.
  - change (SpecFloat.binary_round_aux prec emax false (Z.pos (Pos.iter xO p dd)) (dg P - 53)
              SpecFloat.loc_Exact = exact_double P).
    replace (dg P - 53) with (dg P - 53 - 0) by lia. apply round_aux_exact; [lia|lia|].
    rewrite iter_xO, Hp, <- Z.mul_assoc, <- Z.pow_add_r by lia.
    rewrite Z.pow_0_r, Z.mul_1_r. do 2 f_equal. lia.
Qed.

Lemma exact_double_valid (P : positive) :
  Z.pos P < 2 ^ 53 -> SpecFloat.valid_binary prec emax (exact_double P) = true.
Proof.
  intros HP. pose proof (exact_mantissa P HP) as [HM Hd].
  cbn [SpecFloat.valid_binary exact_double]. unfold SpecFloat.bounded, SpecFloat.canonical_mantissa.
  rewrite (digits2_pos_unique _ 53) by (rewrite Z2Pos.id by lia; lia).
  replace (53 + (dg P - 53)) with (dg P) by lia. rewrite fexp_small by lia.
  rewrite Z.eqb_refl. cbn [andb]. apply Z.leb_le. unfold emax, prec. lia.
Qed.

(** ** Addition and multiplication *)

Lemma shl_align_value (m : positive) (ex ex' : Z) :
  ex' <= ex ->
  Z.pos (fst (SpecFloat.shl_align m ex ex')) = Z.pos m * 2 ^ (ex - ex')
  /\ snd (SpecFloat.shl_align m ex ex') = ex'.
Proof.
  intros H. unfold SpecFloat.shl_align.
  destruct (ex' - ex) as [|d|d] eqn:E; cbn [fst snd].
  - replace (ex - ex') with 0 by lia. split; lia.
  - lia.
  - rewrite iter_xO. replace (ex - ex') with (Z.pos d) by lia. split; reflexivity.
Qed.

Lemma exact_mantissa_value (P : positive) :
  Z.pos P < 2 ^ 53 ->
  Z.pos (Z.to_pos (Z.pos P * 2 ^ (53 - dg P))) = Z.pos P * 2 ^ (53 - dg P).
Proof.
  intros HP. pose proof (exact_mantissa P HP). apply Z2Pos.id. lia.
Qed.

Lemma SFadd_exact (a b : positive) :
  Z.pos a + Z.pos b < 2 ^ 53 ->
  SpecFloat.SFadd prec emax (exact_double a) (exact_double b) = exact_double (a + b).
Proof.
  intros Hab. assert (Ha : Z.pos a < 2 ^ 53) by lia. assert (Hb : Z.pos b < 2 ^ 53) by lia.
  pose proof (exact_mantissa a Ha) as [_ Hda]. pose proof (exact_mantissa b Hb) as [_ Hdb].
  pose proof (exact_mantissa_value a Ha) as Va. pose proof (exact_mantissa_value b Hb) as Vb.
  unfold exact_double at 1 2. unfold SpecFloat.SFadd. cbn [SpecFloat.cond_Zopp].
  set (ez := Z.min (dg a - 53) (dg b - 53)).
  destruct (shl_align_value (Z.to_pos (Z.pos a * 2 ^ (53 - dg a))) (dg a - 53) ez ltac:(lia)) as [Xa _].
  destruct (shl_align_value (Z.to_pos (Z.pos b * 2 ^ (53 - dg b))) (dg b - 53) ez ltac:(lia)) as [Xb _].
  destruct (SpecFloat.shl_align (Z.to_pos (Z.pos a * 2 ^ (53 - dg a))) (dg a - 53) ez) as [xa ea'].
  destruct (SpecFloat.shl_align (Z.to_pos (Z.pos b * 2 ^ (53 - dg b))) (dg b - 53) ez) as [xb eb'].
  cbn [fst] in *. change (Z.pos xa + Z.pos xb) with (Z.pos (xa + xb)).
  cbn [SpecFloat.binary_normalize]. apply round_exact; [rewrite Pos2Z.inj_add; lia|lia|].
  rewrite !Pos2Z.inj_add, Xa, Xb, Va, Vb, <- !Z.mul_assoc, <- !Z.pow_add_r by lia.
  replace (53 - dg a + (dg a - 53 - ez)) with (- ez) by lia.
  replace (53 - dg b + (dg b - 53 - ez)) with (- ez) by lia. lia.
Qed.

Lemma digits2_pos_mul (a b : positive) : dg a + dg b - 1 <= dg (a * b).
Proof.
  pose proof (digits2_pos_spec a) as [Ha _]. pose proof (digits2_pos_spec b) as [Hb _].
  pose proof (digits2_pos_spec (a * b)) as [_ Hab].
  destruct (Z_le_gt_dec (dg a + dg b - 1) (dg (a * b))) as [|Hg]; [assumption|exfalso].
  pose proof (Z.pow_le_mono_r 2 (dg (a * b)) (dg a - 1 + (dg b - 1)) ltac:(lia) ltac:(lia)).
  rewrite Z.pow_add_r in H by lia. rewrite Pos2Z.inj_mul in Hab. nia.
Qed.

Lemma SFmul_exact (a b : positive) :
  Z.pos a * Z.pos b < 2 ^ 53 ->
  SpecFloat.SFmul prec emax (exact_double a) (exact_double b) = exact_double (a * b).
Proof.
  intros Hab. assert (Ha : Z.pos a < 2 ^ 53) by lia. assert (Hb : Z.pos b < 2 ^ 53) by lia.
  pose proof (exact_mantissa a Ha) as [_ Hda]. pose proof (exact_mantissa b Hb) as [_ Hdb].
  pose proof (exact_mantissa_value a Ha) as Va. pose proof (exact_mantissa_value b Hb) as Vb.
  pose proof (digits2_pos_mul a b) as Hd.
  assert (Hab' : Z.pos (a * b) < 2 ^ 53) by (rewrite Pos2Z.inj_mul; exact Hab).
  pose proof (exact_mantissa (a * b) Hab') as [_ Hdab].
  unfold exact_double at 1 2. cbn [SpecFloat.SFmul xorb].
  replace (dg a - 53 + (dg b - 53)) with (dg (a * b) - 53 - (dg (a * b) - dg a - dg b + 53)) by lia.
  apply round_aux_exact; [exact Hab'|lia|].
  assert (E : 2 ^ (53 - dg a) * 2 ^ (53 - dg b)
              = 2 ^ (53 - dg (a * b)) * 2 ^ (dg (a * b) - dg a - dg b + 53))
    by (rewrite <- !Z.pow_add_r by lia; f_equal; lia).
  rewrite !Pos2Z.inj_mul, Va, Vb.
  transitivity (Z.pos a * Z.pos b * (2 ^ (53 - dg a) * 2 ^ (53 - dg b))); [ring|]. rewrite E. ring.
Qed.

(** ** Integer-valued doubles below [2^53] *)

Definition exactZ (z : Z) : spec_float :=
  match z with
  | Z.pos p => exact_double p
  | _ => S754_zero false
  end.

Lemma Prim2SF_of_Z (z : Z) : 0 <= z < 2 ^ 53 -> Prim2SF (of_Z z) = exactZ z.
Proof.
  intros Hz. unfold of_Z. destruct z as [|p|p]; [|cbn [SpecFloat.binary_normalize]|lia].
  - apply FloatAxioms.Prim2SF_SF2Prim. reflexivity.
  - rewrite (round_exact p p 0) by (cbn; lia). apply FloatAxioms.Prim2SF_SF2Prim, exact_double_valid. lia.
Qed.

Lemma of_Z_add (a b : Z) :
  0 <= a -> 0 <= b -> a + b < 2 ^ 53 -> (of_Z a + of_Z b)%float = of_Z (a + b).
Proof.
  intros Ha Hb Hab. apply FloatAxioms.Prim2SF_inj.
  rewrite FloatAxioms.add_spec, !Prim2SF_of_Z by lia.
  destruct a as [|a|a], b as [|b|b]; try lia; cbn [exactZ Z.add];
    try (unfold exact_double; reflexivity).
  apply SFadd_exact. exact Hab.
Qed.

Lemma of_Z_mul (a b : Z) :
  0 <= a < 2 ^ 53 -> 0 <= b < 2 ^ 53 -> a * b < 2 ^ 53 ->
  (of_Z a * of_Z b)%float = of_Z (a * b).
Proof.
  intros Ha Hb Hab. apply FloatAxioms.Prim2SF_inj.
  rewrite FloatAxioms.mul_spec, !Prim2SF_of_Z by nia.
  destruct a as [|a|a], b as [|b|b]; try lia; cbn [exactZ Z.mul];
    try (unfold exact_double; reflexivity).
  apply SFmul_exact. exact Hab.
Qed.

Lemma of_Z_eqb_0 (z : Z) : 0 <= z < 2 ^ 53 -> (of_Z z =? 0)%float = (z =? 0).
Proof.
  intros Hz. rewrite FloatAxioms.eqb_spec, Prim2SF_of_Z by exact Hz.
  destruct z as [|p|p]; [reflexivity| |lia]. unfold exact_double. reflexivity.
Qed.

Lemma nan_mul (x : float) : (nan * x)%float = nan.
Proof. apply FloatAxioms.Prim2SF_inj. rewrite FloatAxioms.mul_spec. reflexivity. Qed.

Lemma add_nan (x : float) : (x + nan)%float = nan.
Proof.
  apply FloatAxioms.Prim2SF_inj. rewrite FloatAxioms.add_spec.
  change (Prim2SF nan) with S754_nan. destruct (Prim2SF x); reflexivity.
Qed.

Lemma nan_add (x : float) : (nan + x)%float = nan.
Proof. apply FloatAxioms.Prim2SF_inj. rewrite FloatAxioms.add_spec. reflexivity. Qed.

Lemma of_Z_ltb_0 (z : Z) : 0 <= z < 2 ^ 53 -> (0 <? of_Z z)%float = (0 <? z).
Proof.
  intros Hz. rewrite FloatAxioms.ltb_spec, Prim2SF_of_Z by exact Hz.
  destruct z as [|p|p]; [reflexivity| |lia]. unfold exact_double. reflexivity.
Qed.
