(* ===== verification/FloatOrder.v ===== *)
(** * Ordering of binary64 results

    The JS numbers of the program are IEEE binary64 doubles, modelled by
    the primitive floats whose specification is SpecFloat (the [spec_float]
    of a float is [Prim2SF]).  This file gives each finite [spec_float] its
    real value [F2R m e = m * 2^e] and proves what rounding to nearest does
    to the order of values: the result of [binary_round_aux] never exceeds
    a double that is at least the exact value, so a quotient [a / b] is at
    most [c] whenever the exact quotient is.  The comparison of SpecFloat
    ([SFcompare]) agrees with the order of the values on canonical
    doubles.  The proof follows the location argument of IEEE libraries:
    [inbetween m e x l] places the exact value [x] between the two
    multiples [m * 2^e] and [(m + 1) * 2^e], and each shift of
    [binary_round_aux] keeps this placement. *)

From Stdlib Require Import Bool ZArith Reals Lra Lia Floats.
From S2P Require Import Prelude JsNumber Binary64.

Local Open Scope R_scope.

(** ** Values of doubles *)

Definition bpow (e : Z) : R := powerRZ 2 e.

Definition F2R (m e : Z) : R := IZR m * bpow e.

(** Where the exact value [x] lies with respect to [m * 2^e], its
    successor [(m + 1) * 2^e] and their midpoint: the meaning of
    SpecFloat's [location]. *)
Definition inbetween (m e : Z) (x : R) (l : location) : Prop :=
  let b := bpow e in
  match l with
  | loc_Exact => x = IZR m * b
  | loc_Inexact Lt => IZR m * b < x < (IZR m + /2) * b
  | loc_Inexact Eq => x = (IZR m + /2) * b
  | loc_Inexact Gt => (IZR m + /2) * b < x < (IZR m + 1) * b
  end.

Lemma bpow_pos (e : Z) : 0 < bpow e.
Proof. apply powerRZ_lt. lra. Qed.

Lemma bpow_plus (a b : Z) : bpow (a + b) = bpow a * bpow b.
Proof. apply powerRZ_add. lra. Qed.

Lemma bpow_succ (e : Z) : bpow (e + 1) = 2 * bpow e.
Proof. rewrite bpow_plus. unfold bpow at 2. simpl. lra. Qed.

Lemma bpow_IZR (n : Z) : (0 <= n)%Z -> bpow n = IZR (2 ^ n).
Proof.
  intros Hn. rewrite <- (Z2Nat.id n Hn). unfold bpow.
  rewrite <- pow_powerRZ, pow_IZR. reflexivity.
Qed.

Lemma bpow_le (a b : Z) : (a <= b)%Z -> bpow a <= bpow b.
Proof.
  intros H. replace b with (a + (b - a))%Z by lia. rewrite bpow_plus, (bpow_IZR (b - a)) by lia.
  pose proof (bpow_pos a). assert (1 <= IZR (2 ^ (b - a))).
  { apply IZR_le. assert (0 < 2 ^ (b - a))%Z by (apply Z.pow_pos_nonneg; lia). lia. }
  nra.
Qed.

Lemma bpow_lt_inv (a b : Z) : bpow a < bpow b -> (a < b)%Z.
Proof. intros H. destruct (Z.lt_ge_cases a b) as [|Hba]; [easy|]. apply bpow_le in Hba. lra. Qed.

Lemma bpow_le_inv (a b : Z) : bpow a <= bpow b -> (a <= b)%Z.
Proof.
  intros H. destruct (Z.le_gt_cases a b) as [|Hba]; [easy|].
  assert (bpow (b + 1) <= bpow a) by (apply bpow_le; lia). rewrite bpow_succ in *.
  pose proof (bpow_pos b). lra.
Qed.

(** A mantissa of [d] binary digits lies in [[2^(d-1), 2^d)]. *)
Lemma F2R_digits (p : positive) (e : Z) :
  bpow (Z.pos (SpecFloat.digits2_pos p) - 1 + e) <= F2R (Z.pos p) e
  < bpow (Z.pos (SpecFloat.digits2_pos p) + e).
Proof.
  pose proof (digits2_pos_spec p) as [H1 H2]. unfold F2R.
  rewrite !bpow_plus, (bpow_IZR (Z.pos _ - 1)), (bpow_IZR (Z.pos _)) by lia. pose proof (bpow_pos e).
  apply IZR_le in H1. apply IZR_lt in H2. split; [apply Rmult_le_compat_r | apply Rmult_lt_compat_r]; lra.
Qed.

(** ** The exponent function of binary64 *)

Local Abbreviation fexp := (SpecFloat.fexp prec emax).
Local Abbreviation dg p := (Z.pos (SpecFloat.digits2_pos p)).

Lemma fexp_mono (a b : Z) : (a <= b)%Z -> (fexp a <= fexp b)%Z.
Proof. unfold SpecFloat.fexp, SpecFloat.emin, prec, emax. lia. Qed.

Lemma fexp_le (a b : Z) : (a <= b)%Z -> (-1074 <= b)%Z -> (fexp a <= b)%Z.
Proof. unfold SpecFloat.fexp, SpecFloat.emin, prec, emax. lia. Qed.

Lemma bounded_facts (mF : positive) (eF : Z) :
  SpecFloat.bounded prec emax mF eF = true ->
  fexp (dg mF + eF) = eF /\ (-1074 <= eF <= 971)%Z.
Proof.
  unfold SpecFloat.bounded, SpecFloat.canonical_mantissa.
  rewrite andb_true_iff, Z.eqb_eq, Z.leb_le. intros [H1 H2]. split; [exact H1|].
  rewrite <- H1 at 1. unfold SpecFloat.fexp, SpecFloat.emin, prec, emax in *. lia.
Qed.

(** The canonical exponent of a double [F] is at least [fexp X] for every
    [X] with [2^(X-1) <= F]. *)
Lemma fexp_below (mF : positive) (eF X : Z) :
  SpecFloat.bounded prec emax mF eF = true ->
  bpow (X - 1) <= F2R (Z.pos mF) eF -> (fexp X <= eF)%Z.
Proof.
  intros HF HX. destruct (bounded_facts mF eF HF) as [Hc _].
  pose proof (F2R_digits mF eF) as [_ Hlt].
  assert (X - 1 < dg mF + eF)%Z by (apply bpow_lt_inv; lra).
  rewrite <- Hc. apply fexp_mono. lia.
Qed.

(** ** Locations and shifts *)

Lemma IZR_xO (p : positive) : IZR (Z.pos p~0) = 2 * IZR (Z.pos p).
Proof. rewrite Pos2Z.inj_xO, mult_IZR. reflexivity. Qed.

Lemma IZR_xI (p : positive) : IZR (Z.pos p~1) = 2 * IZR (Z.pos p) + 1.
Proof. rewrite Pos2Z.inj_xI, plus_IZR, mult_IZR. reflexivity. Qed.

Lemma inbetween_lower (m e : Z) (x : R) (l : location) :
  inbetween m e x l -> F2R m e <= x.
Proof.
  unfold inbetween, F2R. pose proof (bpow_pos e).
  destruct l as [|[]]; intros; lra.
Qed.

Lemma loc_of_record_of_loc (m : Z) (l : location) :
  loc_of_shr_record (shr_record_of_loc m l) = l /\ shr_m (shr_record_of_loc m l) = m.
Proof. destruct l as [|[]]; split; reflexivity. Qed.

(** One [shr_1] halves the mantissa and keeps the placement of [x]. *)
Lemma inbetween_shr_1 (mrs : shr_record) (e : Z) (x : R) :
  (0 <= shr_m mrs)%Z -> inbetween (shr_m mrs) e x (loc_of_shr_record mrs) ->
  (0 <= shr_m (shr_1 mrs))%Z
  /\ inbetween (shr_m (shr_1 mrs)) (e + 1) x (loc_of_shr_record (shr_1 mrs)).
Proof.
  destruct mrs as [m r s]. cbn [shr_m]. intros Hm.
  unfold inbetween. rewrite bpow_succ. pose proof (bpow_pos e).
  set (b := bpow e) in *.
  destruct m as [|p|p]; [|destruct p as [p|p|]|exfalso; lia];
    destruct r, s; cbn [shr_1 shr_m loc_of_shr_record orb];
    rewrite ?(IZR_xO p), ?(IZR_xI p); intros Hx; (split; [lia|]); lra.
Qed.

Lemma inbetween_iter (k : nat) (mrs : shr_record) (e : Z) (x : R) :
  (0 <= shr_m mrs)%Z -> inbetween (shr_m mrs) e x (loc_of_shr_record mrs) ->
  let mrs' := Nat.iter k shr_1 mrs in
  (0 <= shr_m mrs')%Z /\ inbetween (shr_m mrs') (e + Z.of_nat k) x (loc_of_shr_record mrs').
Proof.
  intros Hm Hx. induction k as [|k IH]; cbn zeta.
  - rewrite Z.add_0_r. now split.
  - rewrite Nat2Z.inj_succ, <- Z.add_1_r, Z.add_assoc. cbn [Nat.iter].
    destruct IH as [IHm IHx]. now apply inbetween_shr_1.
Qed.

(** [shr_fexp] moves the mantissa to the exponent [fexp] asks for, when it
    is above the current one, and keeps the placement of [x]. *)
Lemma inbetween_shr_fexp (m e : Z) (l : location) (x : R) :
  (0 <= m)%Z -> inbetween m e x l ->
  let '(mrs', e') := shr_fexp prec emax m e l in
  (0 <= shr_m mrs')%Z /\ inbetween (shr_m mrs') e' x (loc_of_shr_record mrs')
  /\ e' = Z.max e (fexp (Zdigits2 m + e)).
Proof.
  intros Hm Hx. unfold shr_fexp. destruct (loc_of_record_of_loc m l) as [Hl Hr].
  remember (fexp (Zdigits2 m + e) - e)%Z as n eqn:Hn.
  destruct n as [|p|p]; cbn [shr].
  - rewrite Hr, Hl. repeat split; [assumption | assumption | lia].
  - rewrite iter_pos_nat.
    destruct (inbetween_iter (Pos.to_nat p) (shr_record_of_loc m l) e x) as [H1 H2];
      [now rewrite Hr | now rewrite Hl, Hr |].
    rewrite positive_nat_Z in H2. repeat split; [assumption | assumption | lia].
  - rewrite Hr, Hl. repeat split; [assumption | assumption | lia].
Qed.

Lemma F2R_le_lift (m N e : Z) : F2R m e < F2R N e -> F2R (m + 1) e <= F2R N e.
Proof.
  unfold F2R. pose proof (bpow_pos e) as Hb. intros Hlt.
  assert (m < N)%Z by (apply lt_IZR, (Rmult_lt_reg_r (bpow e)); assumption).
  apply Rmult_le_compat_r; [lra|]. apply IZR_le. lia.
Qed.

Lemma F2R_change (m e e' : Z) : (e <= e')%Z -> F2R m e' = F2R (m * 2 ^ (e' - e)) e.
Proof.
  intros Hle. unfold F2R. rewrite mult_IZR, <- bpow_IZR by lia.
  replace e' with (e' - e + e)%Z at 1 by lia. rewrite bpow_plus. ring.
Qed.

(** Rounding to nearest even at exponent [e] does not pass a double [F]
    of exponent at least [e] lying above the exact value. *)
Lemma round_ne_le (m e : Z) (x : R) (l : location) (mF eF : Z) :
  inbetween m e x l -> x <= F2R mF eF -> (e <= eF)%Z ->
  F2R (round_nearest_even m l) e <= F2R mF eF.
Proof.
  intros Hx HF He. pose proof (inbetween_lower m e x l Hx) as Hlo.
  rewrite (F2R_change mF e eF He) in *.
  destruct l as [|[]]; cbn [round_nearest_even]; try lra;
    [destruct (Z.even m); [lra|]|]; apply F2R_le_lift;
    unfold inbetween, F2R in *; pose proof (bpow_pos e); lra.
Qed.

Lemma round_ne_nonneg (m : Z) (l : location) : (0 <= m)%Z -> (0 <= round_nearest_even m l)%Z.
Proof. destruct l as [|[]]; cbn; try destruct (Z.even m); lia. Qed.

(** The exponent [fexp] gives a mantissa below [F] is at most [F]'s. *)
Lemma fexp_le_F2R (m e : Z) (mF : positive) (eF : Z) :
  SpecFloat.bounded prec emax mF eF = true -> (0 <= m)%Z ->
  F2R m e <= F2R (Z.pos mF) eF -> (e <= eF)%Z -> (fexp (Zdigits2 m + e) <= eF)%Z.
Proof.
  intros HF Hm Hle He. destruct (bounded_facts mF eF HF) as [_ HeF].
  destruct m as [|p|p]; cbn [Zdigits2]; [..|lia].
  - apply fexp_le; lia.
  - apply (fexp_below mF); [assumption|]. pose proof (F2R_digits p e).
    replace (dg p + e - 1)%Z with (dg p - 1 + e)%Z by lia. lra.
Qed.

(** ** Rounding is bounded by every double above the exact value *)

(** [binary_round_aux] on a non-negative exact value [x], placed at an
    exponent [e] not above [F]'s, gives [+0] or a finite double not above
    [F] (never [+oo]). *)
Lemma round_aux_le (m e : Z) (l : location) (x : R) (mF : positive) (eF : Z) :
  (0 <= m)%Z -> inbetween m e x l ->
  SpecFloat.bounded prec emax mF eF = true -> x <= F2R (Z.pos mF) eF -> (e <= eF)%Z ->
  match binary_round_aux prec emax false m e l with
  | S754_zero false => True
  | S754_finite false mR eR => F2R (Z.pos mR) eR <= F2R (Z.pos mF) eF
  | _ => False
  end.
Proof.
  intros Hm Hx HF HxF He. destruct (bounded_facts mF eF HF) as [_ HeF].
  unfold binary_round_aux.
  pose proof (inbetween_shr_fexp m e l x Hm Hx) as H1.
  destruct (shr_fexp prec emax m e l) as [mrs1 e1]. destruct H1 as (Hm1 & Hx1 & He1).
  assert (He1F : (e1 <= eF)%Z).
  { rewrite He1. apply Z.max_lub; [lia|].
    apply (fexp_le_F2R m e mF eF HF Hm); [|assumption].
    pose proof (inbetween_lower m e x l Hx). lra. }
  set (m2 := round_nearest_even (shr_m mrs1) (loc_of_shr_record mrs1)).
  assert (H2 : F2R m2 e1 <= F2R (Z.pos mF) eF) by (now apply (round_ne_le _ _ x)).
  assert (Hm2 : (0 <= m2)%Z) by now apply round_ne_nonneg.
  pose proof (inbetween_shr_fexp m2 e1 loc_Exact (F2R m2 e1) Hm2 eq_refl) as H3.
  destruct (shr_fexp prec emax m2 e1 loc_Exact) as [mrs2 e2]. destruct H3 as (Hm3 & Hx3 & He2).
  pose proof (inbetween_lower _ _ _ _ Hx3) as Hlo.
  assert (He2F : (e2 <= eF)%Z).
  { rewrite He2. apply Z.max_lub; [lia|]. now apply (fexp_le_F2R m2 e1 mF eF). }
  destruct (shr_m mrs2) as [|mR|mR]; [exact I| |lia].
  replace (e2 <=? emax - prec)%Z with true by (symmetry; apply Z.leb_le; unfold prec, emax; lia).
  lra.
Qed.

(** ** Comparison of canonical doubles *)

(** Of two canonical positive doubles, the smaller value has the smaller
    or equal exponent. *)
Lemma canonical_exp_le (mA mB : positive) (eA eB : Z) :
  SpecFloat.bounded prec emax mA eA = true -> SpecFloat.bounded prec emax mB eB = true ->
  F2R (Z.pos mA) eA <= F2R (Z.pos mB) eB -> (eA <= eB)%Z.
Proof.
  intros HA HB Hle. destruct (Z.le_gt_cases eA eB) as [|Hgt]; [assumption|exfalso].
  destruct (bounded_facts mA eA HA) as [HcA _], (bounded_facts mB eB HB) as [HcB _].
  assert (dg mB + eB < dg mA + eA)%Z.
  { destruct (Z.lt_ge_cases (dg mB + eB) (dg mA + eA)) as [|Hge]; [assumption|].
    apply fexp_mono in Hge. lia. }
  pose proof (F2R_digits mA eA) as [HA1 _]. pose proof (F2R_digits mB eB) as [_ HB1].
  assert (bpow (dg mB + eB) <= bpow (dg mA - 1 + eA)) by (apply bpow_le; lia). lra.
Qed.

Lemma F2R_le_same (m1 m2 e : Z) : F2R m1 e <= F2R m2 e -> (m1 <= m2)%Z.
Proof.
  unfold F2R. pose proof (bpow_pos e). intros Hle.
  apply le_IZR, (Rmult_le_reg_r (bpow e)); assumption.
Qed.

Lemma F2R_same_exp_le (mA mB : positive) (e : Z) :
  F2R (Z.pos mA) e <= F2R (Z.pos mB) e -> (Pos.compare mA mB <> Gt).
Proof. intros Hle%F2R_le_same. rewrite Pos.compare_gt_iff. lia. Qed.

(** [SFleb] is the order of the values on canonical positive doubles. *)
Lemma SFleb_F2R (mA mB : positive) (eA eB : Z) :
  SpecFloat.bounded prec emax mA eA = true -> SpecFloat.bounded prec emax mB eB = true ->
  F2R (Z.pos mA) eA <= F2R (Z.pos mB) eB ->
  SFleb (S754_finite false mA eA) (S754_finite false mB eB) = true.
Proof.
  intros HA HB Hle. pose proof (canonical_exp_le _ _ _ _ HA HB Hle) as He.
  unfold SFleb; cbn [SFcompare]. destruct (Z.compare_spec eA eB) as [<-| |]; [|reflexivity|lia].
  rewrite Pos.compare_cont_spec. pose proof (F2R_same_exp_le mA mB eA Hle).
  destruct (Pos.compare mA mB); [reflexivity | reflexivity | contradiction].
Qed.

Lemma SFleb_F2R_false (mA mB : positive) (eA eB : Z) :
  SpecFloat.bounded prec emax mA eA = true -> SpecFloat.bounded prec emax mB eB = true ->
  F2R (Z.pos mB) eB < F2R (Z.pos mA) eA ->
  SFleb (S754_finite false mA eA) (S754_finite false mB eB) = false.
Proof.
  intros HA HB Hlt. pose proof (canonical_exp_le _ _ _ _ HB HA (Rlt_le _ _ Hlt)) as He.
  unfold SFleb; cbn [SFcompare]. destruct (Z.compare_spec eA eB) as [<-| |]; [|lia|reflexivity].
  rewrite Pos.compare_cont_spec.
  assert (Pos.compare mA mB = Gt).
  { unfold F2R in Hlt. pose proof (bpow_pos eA).
    assert (Z.pos mB < Z.pos mA)%Z by (apply lt_IZR, (Rmult_lt_reg_r (bpow eA)); assumption).
    rewrite Pos.compare_gt_iff. lia. }
  now rewrite H.
Qed.

(** ** Division *)

(** [new_location d r] places the fraction [r / d] of a quotient's
    remainder with respect to [0], [1/2] and [1]. *)
Lemma new_location_spec (d r : Z) :
  (0 <= r < d)%Z ->
  let t := IZR r / IZR d in
  match new_location d r with
  | loc_Exact => t = 0
  | loc_Inexact Lt => 0 < t < /2
  | loc_Inexact Eq => t = /2
  | loc_Inexact Gt => /2 < t < 1
  end.
Proof.
  intros Hr t. assert (Hd : 0 < IZR d) by (apply IZR_lt; lia).
  assert (Ht : t * IZR d = IZR r) by (unfold t; field; lra).
  assert (Ht2 : (2 * r = d)%Z -> t = /2).
  { intros E. unfold t. rewrite <- E, mult_IZR. field. apply not_0_IZR. lia. }
  unfold new_location. destruct (Z.even d) eqn:Ev;
    unfold new_location_even, new_location_odd; cbn beta iota;
    (destruct (Z.eqb_spec r 0) as [->|Hr0];
     [unfold t; rewrite Rdiv_0_l; reflexivity|]); clearbody t;
    assert (H0 : 0 < IZR r) by (apply IZR_lt; lia);
    assert (H1 : IZR r < IZR d) by (apply IZR_lt; lia).
  - destruct (Z.compare_spec (2 * r) d) as [E|E|E]; cbn beta iota.
    + exact (Ht2 E).
    + assert (2 * IZR r < IZR d) by (rewrite <- mult_IZR; apply IZR_lt; lia). nra.
    + assert (IZR d < 2 * IZR r) by (rewrite <- mult_IZR; apply IZR_lt; lia). nra.
  - assert (2 * r <> d)%Z by (intros <-; rewrite Z.even_mul in Ev; discriminate).
    destruct (Z.compare_spec (2 * r + 1) d) as [E|E|E]; cbn beta iota.
    + assert (2 * IZR r < IZR d) by (rewrite <- mult_IZR; apply IZR_lt; lia). nra.
    + assert (2 * IZR r < IZR d) by (rewrite <- mult_IZR; apply IZR_lt; lia). nra.
    + assert (IZR d < 2 * IZR r) by (rewrite <- mult_IZR; apply IZR_lt; lia). nra.
Qed.

Lemma inbetween_fraction (q r d e : Z) :
  (0 <= r < d)%Z ->
  inbetween q e ((IZR q + IZR r / IZR d) * bpow e) (new_location d r).
Proof.
  intros Hr. pose proof (new_location_spec d r Hr) as Hl. cbn zeta in Hl.
  generalize dependent (IZR r / IZR d). intros t Hl. pose proof (bpow_pos e).
  unfold inbetween. destruct (new_location d r) as [|[]].
  - rewrite Hl. ring.
  - rewrite Hl. ring.
  - nra.
  - nra.
Qed.

(** [SFdiv_core_binary] computes a truncated quotient at an exponent not
    above the one [fexp] gives the quotient's magnitude, with the place of
    the exact quotient in its location. *)
Lemma div_core_inbetween (ma mb : positive) (ea eb : Z) :
  let '(q, e', l) := SFdiv_core_binary prec emax (Z.pos ma) ea (Z.pos mb) eb in
  (0 <= q)%Z /\ inbetween q e' (F2R (Z.pos ma) ea / F2R (Z.pos mb) eb) l
  /\ (e' <= fexp (dg ma + ea - (dg mb + eb)))%Z.
Proof.
  unfold SFdiv_core_binary. cbn [Zdigits2].
  set (e' := Z.min _ _). set (s := (ea - eb - e')%Z).
  assert (Hs : (0 <= s)%Z) by (unfold s, e'; lia).
  assert (Hm : match s with Z.pos _ => Z.shiftl (Z.pos ma) s | Z0 => Z.pos ma | Z.neg _ => 0%Z end
               = (Z.pos ma * 2 ^ s)%Z).
  { destruct s as [|p|p]; [lia | now rewrite Z.shiftl_mul_pow2 | lia]. }
  rewrite Hm. pose proof (Z_div_mod (Z.pos ma * 2 ^ s) (Z.pos mb) eq_refl) as Hdm.
  destruct (Z.div_eucl (Z.pos ma * 2 ^ s) (Z.pos mb)) as [q r]. destruct Hdm as [Hqr Hr].
  assert (Hpow : (0 < 2 ^ s)%Z) by (apply Z.pow_pos_nonneg; lia).
  split; [nia|]. split; [|apply Z.le_min_l].
  replace (F2R (Z.pos ma) ea / F2R (Z.pos mb) eb) with ((IZR q + IZR r / IZR (Z.pos mb)) * bpow e').
  { apply inbetween_fraction. lia. }
  unfold F2R. replace ea with (s + e' + eb)%Z by (unfold s; lia).
  rewrite !bpow_plus, (bpow_IZR s Hs).
  assert (E : IZR (Z.pos ma) * IZR (2 ^ s) = IZR (Z.pos mb) * IZR q + IZR r)
    by (rewrite <- !mult_IZR, <- plus_IZR; f_equal; lia).
  pose proof (bpow_pos eb). pose proof (bpow_pos e').
  assert (IZR (Z.pos mb) <> 0) by (apply not_0_IZR; lia).
  replace (IZR q) with ((IZR (Z.pos ma) * IZR (2 ^ s) - IZR r) / IZR (Z.pos mb))
    by (rewrite E; field; assumption).
  field. split; lra.
Qed.

Lemma quotient_lower (ma mb : positive) (ea eb : Z) :
  bpow (dg ma + ea - (dg mb + eb) - 1) < F2R (Z.pos ma) ea / F2R (Z.pos mb) eb.
Proof.
  pose proof (F2R_digits ma ea) as [HA _]. pose proof (F2R_digits mb eb) as [HB1 HB2].
  pose proof (bpow_pos (dg mb - 1 + eb)). pose proof (bpow_pos (dg ma + ea - (dg mb + eb) - 1)).
  replace (dg ma - 1 + ea)%Z with (dg ma + ea - (dg mb + eb) - 1 + (dg mb + eb))%Z in HA by lia.
  rewrite bpow_plus in HA.
  set (P := bpow (dg ma + ea - (dg mb + eb) - 1)) in *. set (Q := bpow (dg mb + eb)) in *.
  set (A := F2R (Z.pos ma) ea) in *. set (B := F2R (Z.pos mb) eb) in *.
  assert (HBp : 0 < B) by lra.
  apply (Rmult_lt_reg_r B); [assumption|]. unfold Rdiv. rewrite Rmult_assoc, Rinv_l by lra. nra.
Qed.

(** A quotient of positive doubles whose exact value is at most the
    double [c] is [+0] or a finite double not above [c]. *)
Lemma SFdiv_le (ma mb mc : positive) (ea eb ec : Z) :
  SpecFloat.bounded prec emax mc ec = true ->
  F2R (Z.pos ma) ea / F2R (Z.pos mb) eb <= F2R (Z.pos mc) ec ->
  match SFdiv prec emax (S754_finite false ma ea) (S754_finite false mb eb) with
  | S754_zero false => True
  | S754_finite false mR eR => F2R (Z.pos mR) eR <= F2R (Z.pos mc) ec
  | _ => False
  end.
Proof.
  intros Hc Hle. cbn [SFdiv xorb].
  pose proof (div_core_inbetween ma mb ea eb) as H.
  destruct (SFdiv_core_binary prec emax (Z.pos ma) ea (Z.pos mb) eb) as [[q e'] l].
  destruct H as (Hq & Hx & He). apply (round_aux_le q e' l _ mc ec Hq Hx Hc Hle).
  transitivity (fexp (dg ma + ea - (dg mb + eb))); [assumption|].
  apply (fexp_below mc); [assumption|]. pose proof (quotient_lower ma mb ea eb). lra.
Qed.

(** ** Doubles *)

Lemma Prim2SF_bounded (x : float) (s : bool) (m : positive) (e : Z) :
  Prim2SF x = S754_finite s m e -> SpecFloat.bounded prec emax m e = true.
Proof. intros H. pose proof (FloatAxioms.Prim2SF_valid x) as V. now rewrite H in V. Qed.

(** [a / b <= c] for positive doubles whose exact quotient is at most
    [c]; the quotient is [+0] or positive, and its value is at most [c]. *)
Lemma div_le (a b c : float) (ma mb mc : positive) (ea eb ec : Z) :
  Prim2SF a = S754_finite false ma ea -> Prim2SF b = S754_finite false mb eb ->
  Prim2SF c = S754_finite false mc ec ->
  F2R (Z.pos ma) ea / F2R (Z.pos mb) eb <= F2R (Z.pos mc) ec ->
  match Prim2SF (a / b)%float with
  | S754_zero false => True
  | S754_finite false mR eR => F2R (Z.pos mR) eR <= F2R (Z.pos mc) ec
  | _ => False
  end /\ (a / b <=? c)%float = true.
Proof.
  intros Ha Hb Hc Hle. pose proof (Prim2SF_bounded c _ _ _ Hc) as Bc.
  rewrite FloatAxioms.leb_spec, FloatAxioms.div_spec, Ha, Hb, Hc.
  unfold SF64div. pose proof (SFdiv_le ma mb mc ea eb ec Bc Hle) as H.
  pose proof (FloatAxioms.div_spec a b) as Hq. rewrite Ha, Hb in Hq. unfold SF64div in Hq.
  destruct (SFdiv prec emax _ _) as [[]|[]| |[] mR eR]; try contradiction; split; auto.
  apply SFleb_F2R; [|assumption..]. now apply (Prim2SF_bounded (a / b) false).
Qed.

(** ** Integer-valued doubles *)

Lemma F2R_int (m e : Z) : (0 <= e)%Z -> F2R m e = IZR (m * 2 ^ e).
Proof.
  intros He. rewrite (F2R_change m 0 e He), Z.sub_0_r. unfold F2R, bpow. cbn. ring.
Qed.

(** The double [of_Z p] of a positive [p < 2^53] is positive with value
    [p]. *)
Lemma Prim2SF_of_Z_pos (p : positive) :
  (Z.pos p < 2 ^ 53)%Z ->
  exists m e, Prim2SF (of_Z (Z.pos p)) = S754_finite false m e /\ F2R (Z.pos m) e = IZR (Z.pos p).
Proof.
  intros Hp. rewrite Prim2SF_of_Z by lia. cbn [exactZ]. unfold exact_double.
  eexists _, _. split; [reflexivity|]. rewrite exact_mantissa_value by exact Hp.
  pose proof (exact_mantissa p Hp) as [_ Hd].
  replace (53 - dg p)%Z with (0 - (dg p - 53))%Z by lia.
  rewrite <- (F2R_change _ (dg p - 53) 0) by lia. unfold F2R, bpow. cbn. ring.
Qed.

(** Integer division on doubles: [of_Z w / of_Z d] for [0 <= w <= k * d]
    is [+0] or a positive double of value at most [k], hence at most
    [of_Z k]. *)
Lemma of_Z_div_le (w d k : Z) :
  (0 <= w < 2 ^ 53)%Z -> (0 < d < 2 ^ 53)%Z -> (0 < k < 2 ^ 53)%Z -> (w <= k * d)%Z ->
  match Prim2SF (of_Z w / of_Z d)%float with
  | S754_zero false => True
  | S754_finite false mR eR => F2R (Z.pos mR) eR <= IZR k
  | _ => False
  end /\ (of_Z w / of_Z d <=? of_Z k)%float = true.
Proof.
  intros Hw Hd Hk Hle.
  destruct k as [|pk|pk]; [exfalso; lia| |exfalso; lia].
  destruct d as [|pd|pd]; [exfalso; lia| |exfalso; lia].
  destruct (Prim2SF_of_Z_pos pk) as (mk & ek & Ek & Vk); [lia|].
  destruct (Prim2SF_of_Z_pos pd) as (md & ed & Ed & Vd); [lia|].
  destruct w as [|pw|pw]; [| |exfalso; lia].
  - rewrite FloatAxioms.leb_spec, FloatAxioms.div_spec, Ek, Ed, Prim2SF_of_Z by lia.
    split; reflexivity.
  - destruct (Prim2SF_of_Z_pos pw) as (mw & ew & Ew & Vw); [lia|].
    rewrite <- Vk. apply (div_le _ _ _ mw md mk ew ed ek); [assumption..|].
    rewrite Vw, Vd, Vk. assert (0 < IZR (Z.pos pd)) by (apply IZR_lt; lia).
    apply IZR_le in Hle. rewrite mult_IZR in Hle.
    apply (Rmult_le_reg_r (IZR (Z.pos pd))); [assumption|].
    unfold Rdiv. rewrite Rmult_assoc, Rinv_l by lra. lra.
Qed.

(** A [+0] or positive double is [>= 0]. *)
Lemma nonneg_leb (q : float) (P : positive -> Z -> Prop) :
  match Prim2SF q with
  | S754_zero false => True
  | S754_finite false mR eR => P mR eR
  | _ => False
  end -> (0 <=? q)%float = true.
Proof.
  rewrite FloatAxioms.leb_spec. destruct (Prim2SF q) as [[]|[]| |[] m e]; easy.
Qed.

(** ** [Number(x.toFixed(2))] on [[0, 10]] *)

Lemma fixed2_range (m : positive) (e : Z) :
  F2R (Z.pos m) e <= 10 -> (0 <= fixed2_of_binary m e <= 1000)%Z.
Proof.
  intros H. unfold fixed2_of_binary. destruct (Z.leb_spec 0 e) as [He|He].
  - rewrite F2R_int in H by exact He. apply le_IZR in H.
    assert (0 < 2 ^ e)%Z by (apply Z.pow_pos_nonneg; lia). nia.
  - assert (Hd : (0 < 2 ^ (- e))%Z) by (apply Z.pow_pos_nonneg; lia).
    replace 10 with (F2R (10 * 2 ^ (0 - e)) e) in H
      by (rewrite <- F2R_change by lia; unfold F2R, bpow; cbn; ring).
    apply F2R_le_same in H. rewrite Z.sub_0_l in H.
    split; [apply Z.div_pos; lia|].
    assert ((2 * (Z.pos m * 100) + 2 ^ (- e)) / (2 * 2 ^ (- e)) < 1001)%Z
      by (apply Z.div_lt_upper_bound; lia).
    lia.
Qed.

(** [formatTo2Decimals] keeps a value of [[0, 10]] in [[0, 10]]. *)
Lemma formatTo2Decimals_range (x : float) :
  match Prim2SF x with
  | S754_zero false => True
  | S754_finite false m e => F2R (Z.pos m) e <= 10
  | _ => False
  end ->
  (0 <=? formatTo2Decimals x)%float = true /\ (formatTo2Decimals x <=? 10)%float = true.
Proof.
  unfold formatTo2Decimals. destruct (Prim2SF x) as [[]|[]| |[] m e] eqn:Ex; try contradiction.
  - intros _. split; reflexivity.
  - intros H. replace (1e21 <=? abs x)%float with false.
    2:{ symmetry. rewrite FloatAxioms.leb_spec, FloatAxioms.abs_spec, Ex. cbn [SFabs].
        change (Prim2SF 1e21) with (S754_finite false 7629394531250000 17).
        apply SFleb_F2R_false; [reflexivity | now apply (Prim2SF_bounded x false) |].
        rewrite (F2R_int _ 17) by lia. apply (Rle_lt_trans _ 10); [exact H|].
        apply IZR_lt. reflexivity. }
    pose proof (fixed2_range m e H) as Hn.
    change 100%float with (of_Z 100). change 10%float with (of_Z 10).
    destruct (of_Z_div_le (fixed2_of_binary m e) 100 10) as [Hq Hle]; [lia..|].
    split; [exact (nonneg_leb _ _ Hq) | exact Hle].
Qed.

(** ** Signs of differences *)

(** A rounded negative value is never [> 0]. *)
Lemma ltb_zero_round_neg (p : positive) (e : Z) :
  SFltb (S754_zero false) (SpecFloat.binary_round prec emax true p e) = false.
Proof.
  unfold SpecFloat.binary_round. destruct (SpecFloat.shl_align _ _ _) as [mz ez].
  unfold SpecFloat.binary_round_aux. destruct (SpecFloat.shr_fexp _ _ _ _ _) as [r1 e1].
  destruct (SpecFloat.shr_fexp _ _ _ _ _) as [r2 e2].
  destruct (SpecFloat.shr_m r2); [reflexivity| |reflexivity].
  destruct (_ <=? _)%Z; reflexivity.
Qed.

(** A normalized integer and its opposite are not both [> 0]. *)
Lemma ltb_zero_normalize_opp (M e : Z) :
  SFltb (S754_zero false) (SpecFloat.binary_normalize prec emax M e false) = true ->
  SFltb (S754_zero false) (SpecFloat.binary_normalize prec emax (- M) e false) = false.
Proof.
  destruct M as [|p|p]; cbn [Z.opp SpecFloat.binary_normalize]; intros H.
  - discriminate H.
  - apply ltb_zero_round_neg.
  - now rewrite ltb_zero_round_neg in H.
Qed.

Lemma ltb_zero_normalize_sub (X Y e : Z) :
  SFltb (S754_zero false) (SpecFloat.binary_normalize prec emax (X - Y) e false) = true ->
  SFltb (S754_zero false) (SpecFloat.binary_normalize prec emax (Y - X) e false) = false.
Proof. replace (Y - X)%Z with (- (X - Y))%Z by lia. apply ltb_zero_normalize_opp. Qed.

(** [b - a > 0] and [a - b > 0] never both hold: the two differences
    round the opposite exact values. *)
Lemma sub_pos_antisym (a b : float) :
  (0 <? b - a)%float = true -> (0 <? a - b)%float = false.
Proof.
  rewrite !FloatAxioms.ltb_spec, !FloatAxioms.sub_spec. change (Prim2SF 0) with (S754_zero false).
  unfold SF64sub, SpecFloat.SFsub.
  destruct (Prim2SF a) as [sa|sa| |sa ma ea], (Prim2SF b) as [sb|sb| |sb mb eb];
    try destruct sa; try destruct sb; cbn [negb Bool.eqb]; try reflexivity; try discriminate.
  all: rewrite (Z.min_comm eb ea); apply ltb_zero_normalize_sub.
Qed.
