(* ===== verification/Capture.v ===== *)
(** * The screenshot export: [captureElementAsPdf]

    [captureElementAsPdf] (src/src/utils/excel/reportGenerators/
    pdfReportGenerator.ts) renders a DOM element to a canvas with
    html2canvas and pages the image over A4 sheets.  The image is 210 mm
    wide and [imgHeight = canvas.height * 210 / canvas.width] mm tall.  Each
    page is 295 mm: page [k] shows the image shifted up by [295 k] mm, and
    the loop runs while [heightLeft > 0].

    The document is modelled as its pages, each the list of images placed
    on it ([Pdf]); [addPage] and [addImage] act on it the way jsPDF does.
    The loop is [capture_loop], a [Fixpoint] on fuel, and [None] stands for
    fuel running out.  Every quantity is a binary64 double, with the
    program's operations.

    The proofs show that the subtractions of the loop are exact.  At the
    scale [2^e] of [imgHeight], [heightLeft] is an integer multiple of
    [2^e] below [2^53].  [exact_at sx P s] is the canonical double of value
    [±P * 2^s], and [SFsub_exact_at] computes a subtraction at a common
    scale.  The theorems give:
    - the pages produced for every image height below [2^53]: there are
      [ceil (imgHeight / 295)], and page [k + 1] is shifted by exactly
      [-295 k];
    - termination for canvases of integer size up to [2^20];
    - non-termination for a canvas of zero width and positive height.

    html2canvas's rendering and the PNG bytes of [canvas.toDataURL] are not
    modelled: the canvas enters as its size, or as the rejection that the
    [catch] rethrows. *)

From Stdlib Require Import Bool ZArith Reals Lra Lia Floats List String Ascii.
From S2P Require Import Prelude JsNumber Binary64 FloatOrder.
Import ListNotations.
Local Open Scope Z_scope.

(** ** The document *)

(** An [addImage(imgData, 'PNG', x, y, w, h)] call: its placement on the page. *)
Record Placement := mkPlacement {
  pl_x : float; pl_y : float; pl_width : float; pl_height : float }.

(** A jsPDF document: its pages in order, each with the images placed on it. *)
Definition Pdf := list (list Placement).

(** [new JsPDF(...)]: one empty page. *)
Definition new_pdf : Pdf := [[]].

(** [pdf.addPage()]: a new empty page, which becomes the current page. *)
Definition addPage (pdf : Pdf) : Pdf := pdf ++ [[]].

(** [pdf.addImage(...)]: the image goes on the current (last) page. *)
Definition addImage (pdf : Pdf) (p : Placement) : Pdf :=
  match rev pdf with
  | [] => [[p]]
  | last :: before => rev before ++ [last ++ [p]]
  end.

(** The canvas html2canvas returns: its size in pixels. *)
Record Canvas := mkCanvas { canvas_width : Z; canvas_height : Z }.

Definition imgWidth : float := 210.
Definition pageHeight : float := 295.

Definition imgHeight_of (canvas : Canvas) : float :=
  (of_Z (canvas_height canvas) * imgWidth / of_Z (canvas_width canvas))%float.

(** [while (heightLeft > 0) { position = heightLeft - imgHeight; pdf.addPage();
    pdf.addImage(imgData, 'PNG', 0, position, imgWidth, imgHeight);
    heightLeft -= pageHeight; }] *)
Fixpoint capture_loop (fuel : nat) (imgHeight : float) (pdf : Pdf) (heightLeft : float)
  : option Pdf :=
  match fuel with
  | O => None
  | S n =>
      if (0 <? heightLeft)%float then
        let position := (heightLeft - imgHeight)%float in
        capture_loop n imgHeight
          (addImage (addPage pdf) (mkPlacement 0 position imgWidth imgHeight))
          (heightLeft - pageHeight)%float
      else Some pdf
  end.

(** The document of an image of height [imgHeight]: the first page shows
    it at [position = 0], then [heightLeft -= pageHeight] and the loop. *)
Definition paginate (fuel : nat) (imgHeight : float) : option Pdf :=
  let heightLeft := imgHeight in
  let position := 0%float in
  let pdf := addImage new_pdf (mkPlacement 0 position imgWidth imgHeight) in
  capture_loop fuel imgHeight pdf (heightLeft - pageHeight)%float.

Definition dquote : string := String (ascii_of_nat 34) EmptyString.

(** How [captureElementAsPdf] ends: the error it throws, or the saved file. *)
Inductive CaptureOutcome :=
| ElementNotFound (message : string)
| CaptureFailed
| SavedPdf (pdf : Pdf) (fileName : string).

(** [captureElementAsPdf elementId]: [getElementById] gives the element,
    if any, and what html2canvas makes of it ([None] when its promise
    rejects, which the [catch] rethrows). *)
Definition captureElementAsPdf (fuel : nat) (getElementById : string -> option (option Canvas))
    (elementId : string) : option CaptureOutcome :=
  match getElementById elementId with
  | None => Some (ElementNotFound ("Element with ID " ++ dquote ++ elementId ++ dquote ++ " not found"))
  | Some None => Some CaptureFailed
  | Some (Some canvas) =>
      option_map (fun pdf => SavedPdf pdf "analysis-report.pdf")
                 (paginate fuel (imgHeight_of canvas))
  end.

(** ** Exact subtraction at a common scale *)

Local Abbreviation dg p := (Z.pos (SpecFloat.digits2_pos p)).

(** The canonical double of value [±P * 2^s], for [P < 2^53]. *)
Definition exact_at (sx : bool) (P : positive) (s : Z) : spec_float :=
  S754_finite sx (Z.to_pos (Z.pos P * 2 ^ (53 - dg P))) (dg P - 53 + s).

(** The double of an integer multiple [z * 2^s]. *)
Definition scaled (z s : Z) : spec_float :=
  match z with
  | Z0 => S754_zero false
  | Z.pos p => exact_at false p s
  | Z.neg p => exact_at true p s
  end.

Lemma fexp_normal (d : Z) : -1021 <= d -> SpecFloat.fexp prec emax d = d - 53.
Proof. intros H. unfold SpecFloat.fexp, SpecFloat.emin, prec, emax. lia. Qed.

(** [round_aux_exact] of Binary64 at any sign and scale [2^s]. *)
Lemma round_aux_exact_at (sx : bool) (P mz : positive) (k s : Z) :
  Z.pos P < 2 ^ 53 -> 0 <= k -> -1021 <= s <= 0 ->
  Z.pos mz = Z.pos P * 2 ^ (53 - dg P) * 2 ^ k ->
  SpecFloat.binary_round_aux prec emax sx (Z.pos mz) (dg P - 53 - k + s) SpecFloat.loc_Exact
  = exact_at sx P s.
Proof.
  intros HP Hk Hs Hmz. pose proof (exact_mantissa P HP) as [HM Hd].
  set (M := Z.pos P * 2 ^ (53 - dg P)) in *.
  assert (HMid : Z.pos (Z.to_pos M) = M) by (apply Z2Pos.id; lia).
  assert (HdM : dg (Z.to_pos M) = 53) by (apply digits2_pos_unique; rewrite HMid; lia).
  assert (Hdz : dg mz = 53 + k).
  { apply digits2_pos_unique. rewrite Hmz.
    rewrite !Z.pow_add_r by lia. replace (53 + k - 1) with (52 + k) by lia.
    rewrite Z.pow_add_r by lia. pose proof (Z.pow_pos_nonneg 2 k ltac:(lia) Hk). nia. }
  unfold SpecFloat.binary_round_aux, SpecFloat.shr_fexp.
  cbn [SpecFloat.Zdigits2 SpecFloat.shr_record_of_loc].
  rewrite Hdz. replace (53 + k + (dg P - 53 - k + s)) with (dg P + s) by lia.
  rewrite fexp_normal by lia.
  replace (dg P + s - 53 - (dg P - 53 - k + s)) with k by lia.
  assert (Hshr : SpecFloat.shr {| SpecFloat.shr_m := Z.pos mz; SpecFloat.shr_r := false;
                                   SpecFloat.shr_s := false |} (dg P - 53 - k + s) k
                 = ({| SpecFloat.shr_m := Z.pos (Z.to_pos M); SpecFloat.shr_r := false;
                       SpecFloat.shr_s := false |}, dg P - 53 + s)).
  { destruct k as [|kp|kp]; [|cbn [SpecFloat.shr]|lia].
    - cbn [SpecFloat.shr]. f_equal; [f_equal; rewrite HMid, Hmz; cbn; lia|lia].
    - rewrite iter_pos_nat, Hmz.
      replace (M * 2 ^ Z.pos kp) with (Z.pos (Z.to_pos M) * 2 ^ Z.of_nat (Pos.to_nat kp))
        by (rewrite HMid, positive_nat_Z; reflexivity).
      rewrite shr_1_zeros. f_equal. lia. }
  rewrite Hshr. cbn [SpecFloat.shr_m SpecFloat.loc_of_shr_record SpecFloat.round_nearest_even
                     SpecFloat.Zdigits2].
  rewrite HdM. replace (53 + (dg P - 53 + s)) with (dg P + s) by lia. rewrite fexp_normal by lia.
  replace (dg P + s - 53 - (dg P - 53 + s)) with 0 by lia. cbn [SpecFloat.shr SpecFloat.shr_m].
  replace (dg P - 53 + s <=? emax - prec) with true by (symmetry; apply Z.leb_le; unfold emax, prec; lia).
  reflexivity.
Qed.

(** [round_exact] of Binary64: rounding [p * 2^e] whose value is exactly
    [P * 2^s]. *)
Lemma round_exact_at (sx : bool) (P p : positive) (e s : Z) :
  Z.pos P < 2 ^ 53 -> -1021 <= s <= 0 -> e <= s -> Z.pos p = Z.pos P * 2 ^ (s - e) ->
  SpecFloat.binary_round prec emax sx p e = exact_at sx P s.
Proof.
  intros HP Hs He Hp. pose proof (exact_mantissa P HP) as [HM Hd].
  pose proof (digits2_pos_spec P) as HPd.
  assert (Hdp : dg p = dg P + (s - e)).
  { apply digits2_pos_unique. rewrite Hp.
    replace (dg P + (s - e) - 1) with (dg P - 1 + (s - e)) by lia. rewrite !Z.pow_add_r by lia.
    pose proof (Z.pow_pos_nonneg 2 (s - e) ltac:(lia) ltac:(lia)). nia. }
  unfold SpecFloat.binary_round, SpecFloat.shl_align.
  rewrite Hdp. replace (dg P + (s - e) + e) with (dg P + s) by lia. rewrite fexp_normal by lia.
  destruct (dg P + s - 53 - e) as [|dd|dd] eqn:Hdiff.
  - change (SpecFloat.binary_round_aux prec emax sx (Z.pos p) e SpecFloat.loc_Exact = exact_at sx P s).
    replace e with (dg P - 53 - 0 + s) by lia. apply round_aux_exact_at; [lia|lia|lia|].
    rewrite Hp, Z.pow_0_r, Z.mul_1_r. do 2 f_equal. lia.
  - change (SpecFloat.binary_round_aux prec emax sx (Z.pos p) e SpecFloat.loc_Exact = exact_at sx P s).
    replace e with (dg P - 53 - Z.pos dd + s) by lia. apply round_aux_exact_at; [lia|lia|lia|].
    rewrite Hp, <- Z.mul_assoc, <- Z.pow_add_r by lia. do 2 f_equal. lia.
  - change (SpecFloat.binary_round_aux prec emax sx (Z.pos (Pos.iter xO p dd)) (dg P + s - 53)
              SpecFloat.loc_Exact = exact_at sx P s).
    replace (dg P + s - 53) with (dg P - 53 - 0 + s) by lia. apply round_aux_exact_at; [lia|lia|lia|].
    rewrite iter_xO, Hp, <- Z.mul_assoc, <- Z.pow_add_r by lia.
    rewrite Z.pow_0_r, Z.mul_1_r. do 2 f_equal. lia.
Qed.

Lemma exact_at_mantissa (P : positive) :
  Z.pos P < 2 ^ 53 -> Z.pos (Z.to_pos (Z.pos P * 2 ^ (53 - dg P))) = Z.pos P * 2 ^ (53 - dg P).
Proof. intros HP. pose proof (exact_mantissa P HP). apply Z2Pos.id. lia. Qed.

(** Subtraction of two positive multiples of [2^s] is exact. *)
Lemma SFsub_exact_at (P Q : positive) (s : Z) :
  Z.pos P < 2 ^ 53 -> Z.pos Q < 2 ^ 53 -> -1021 <= s <= 0 ->
  SpecFloat.SFsub prec emax (exact_at false P s) (exact_at false Q s) = scaled (Z.pos P - Z.pos Q) s.
Proof.
  intros HP HQ Hs.
  pose proof (exact_mantissa P HP) as [_ HdP]. pose proof (exact_mantissa Q HQ) as [_ HdQ].
  pose proof (exact_at_mantissa P HP) as VP. pose proof (exact_at_mantissa Q HQ) as VQ.
  unfold exact_at at 1 2. unfold SpecFloat.SFsub. cbn [negb SpecFloat.SFadd SpecFloat.cond_Zopp].
  set (ez := Z.min (dg P - 53 + s) (dg Q - 53 + s)).
  destruct (shl_align_value (Z.to_pos (Z.pos P * 2 ^ (53 - dg P))) (dg P - 53 + s) ez ltac:(lia))
    as [XP _].
  destruct (shl_align_value (Z.to_pos (Z.pos Q * 2 ^ (53 - dg Q))) (dg Q - 53 + s) ez ltac:(lia))
    as [XQ _].
  destruct (SpecFloat.shl_align (Z.to_pos (Z.pos P * 2 ^ (53 - dg P))) (dg P - 53 + s) ez) as [xp ep].
  destruct (SpecFloat.shl_align (Z.to_pos (Z.pos Q * 2 ^ (53 - dg Q))) (dg Q - 53 + s) ez) as [xq eq].
  cbn [fst] in XP, XQ |- *.
  assert (Hx : Z.pos xp - Z.pos xq = (Z.pos P - Z.pos Q) * 2 ^ (s - ez)).
  { rewrite XP, XQ, VP, VQ, <- !Z.mul_assoc, <- !Z.pow_add_r by lia.
    replace (53 - dg P + (dg P - 53 + s - ez)) with (s - ez) by lia.
    replace (53 - dg Q + (dg Q - 53 + s - ez)) with (s - ez) by lia. ring. }
  pose proof (Z.pow_pos_nonneg 2 (s - ez) ltac:(lia) ltac:(lia)) as Hpow.
  destruct (Z.compare_spec (Z.pos P) (Z.pos Q)) as [E|Lt|Gt].
  - rewrite E, Z.sub_diag in *. rewrite Z.mul_0_l in Hx. rewrite Hx. reflexivity.
  - replace (Z.pos xp - Z.pos xq) with (Z.neg (Z.to_pos ((Z.pos Q - Z.pos P) * 2 ^ (s - ez))))
      by (rewrite <- Pos2Z.opp_pos, Z2Pos.id by nia; lia).
    cbn [SpecFloat.binary_normalize].
    replace (Z.pos P - Z.pos Q) with (Z.neg (Z.to_pos (Z.pos Q - Z.pos P))) by (rewrite <- Pos2Z.opp_pos, Z2Pos.id; lia).
    apply round_exact_at; [rewrite Z2Pos.id; lia|lia|lia|]. rewrite !Z2Pos.id by nia. reflexivity.
  - replace (Z.pos xp - Z.pos xq) with (Z.pos (Z.to_pos ((Z.pos P - Z.pos Q) * 2 ^ (s - ez))))
      by (rewrite Z2Pos.id by nia; lia).
    cbn [SpecFloat.binary_normalize].
    replace (Z.pos P - Z.pos Q) with (Z.pos (Z.to_pos (Z.pos P - Z.pos Q))) by (rewrite Z2Pos.id; lia).
    apply round_exact_at; [rewrite Z2Pos.id; lia|lia|lia|]. rewrite !Z2Pos.id by nia. reflexivity.
Qed.

(** The same value read at the finer scale [2^(s - j)]. *)
Lemma exact_at_shift (sx : bool) (P : positive) (j s : Z) :
  0 <= j -> Z.pos P * 2 ^ j < 2 ^ 53 ->
  exact_at sx (Z.to_pos (Z.pos P * 2 ^ j)) (s - j) = exact_at sx P s.
Proof.
  intros Hj HPj. pose proof (Z.pow_pos_nonneg 2 j ltac:(lia) Hj) as H2j.
  pose proof (digits2_pos_spec P) as [H1 H2].
  assert (HPj' : Z.pos (Z.to_pos (Z.pos P * 2 ^ j)) = Z.pos P * 2 ^ j) by (apply Z2Pos.id; nia).
  assert (Hd : dg (Z.to_pos (Z.pos P * 2 ^ j)) = dg P + j).
  { apply digits2_pos_unique. rewrite HPj'.
    replace (dg P + j - 1) with (dg P - 1 + j) by lia. rewrite !Z.pow_add_r by lia. nia. }
  pose proof (exact_mantissa (Z.to_pos (Z.pos P * 2 ^ j)) ltac:(rewrite HPj'; exact HPj)) as [_ HdPj].
  rewrite Hd in HdPj.
  unfold exact_at. rewrite Hd, HPj', <- Z.mul_assoc, <- Z.pow_add_r by lia.
  f_equal; [do 3 f_equal; lia | lia].
Qed.

Lemma exact_double_at (P : positive) : exact_double P = exact_at false P 0.
Proof. unfold exact_double, exact_at. now rewrite Z.add_0_r. Qed.

(** [0 < x] on a multiple of [2^s]: the sign of the integer. *)
Lemma ltb_zero_scaled (x : float) (z s : Z) :
  Prim2SF x = scaled z s -> (0 <? x)%float = (0 <? z).
Proof.
  intros Hx. rewrite FloatAxioms.ltb_spec, Hx.
  change (Prim2SF 0) with (S754_zero false). destruct z; reflexivity.
Qed.

Lemma pageHeight_at (e : Z) :
  -44 <= e <= 0 -> Prim2SF pageHeight = exact_at false (Z.to_pos (295 * 2 ^ (- e))) e.
Proof.
  intros He. replace e with (0 - - e) at 2 by lia.
  rewrite exact_at_shift by (first [lia | apply (Z.le_lt_trans _ (295 * 2 ^ 44));
    [apply Z.mul_le_mono_nonneg_l; [lia|apply Z.pow_le_mono_r; lia] | reflexivity]]).
  vm_compute. reflexivity.
Qed.

(** Page [k + 1] is placed at [-(295 k)], which at scale [2^e] is
    [-(295 * 2^-e * k)]. *)
Lemma position_at (k e : Z) :
  0 < k -> -44 <= e <= 0 -> 295 * 2 ^ (- e) * k < 2 ^ 53 ->
  Prim2SF (- of_Z (295 * k))%float = scaled (- (295 * 2 ^ (- e) * k)) e.
Proof.
  intros Hk He Hb. pose proof (Z.pow_pos_nonneg 2 (- e) ltac:(lia) ltac:(lia)) as H2.
  assert (295 * k <= 295 * 2 ^ (- e) * k) by nia.
  rewrite FloatAxioms.opp_spec, Prim2SF_of_Z by lia.
  replace (- (295 * 2 ^ (- e) * k)) with (Z.neg (Z.to_pos (Z.pos (Z.to_pos (295 * k)) * 2 ^ (- e))))
    by (rewrite Z2Pos.id by lia; rewrite <- Pos2Z.opp_pos, Z2Pos.id by nia; lia).
  replace (295 * k) with (Z.pos (Z.to_pos (295 * k))) at 1 by (apply Z2Pos.id; lia).
  cbn [exactZ scaled]. replace e with (0 - - e) at 2 by lia.
  rewrite exact_at_shift by (try rewrite Z2Pos.id; nia).
  unfold exact_double, exact_at. cbn [SFopp negb]. now rewrite Z.add_0_r.
Qed.

(** An image shorter than [2^8 < 295]: [heightLeft - pageHeight] is not [> 0]. *)
Lemma sub_page_below (x : float) (m : positive) (e : Z) :
  Prim2SF x = S754_finite false m e -> dg m + e <= 8 -> (0 <? x - pageHeight)%float = false.
Proof.
  intros Hx Hd. rewrite FloatAxioms.ltb_spec, FloatAxioms.sub_spec, Hx.
  replace (Prim2SF pageHeight) with (S754_finite false (Z.to_pos (295 * 2 ^ 44)) (-44))
    by (vm_compute; reflexivity).
  unfold SF64sub, SpecFloat.SFsub. cbn [negb].
  set (ez := Z.min e (-44)).
  destruct (shl_align_value m e ez ltac:(lia)) as [Xa _].
  destruct (shl_align_value (Z.to_pos (295 * 2 ^ 44)) (-44) ez ltac:(lia)) as [Xb _].
  destruct (SpecFloat.shl_align m e ez) as [xa ea].
  destruct (SpecFloat.shl_align (Z.to_pos (295 * 2 ^ 44)) (-44) ez) as [xb eb].
  cbn [fst SpecFloat.cond_Zopp] in *. change (Z.pos (Z.to_pos (295 * 2 ^ 44))) with (295 * 2 ^ 44) in Xb.
  change (Prim2SF 0) with (S754_zero false).
  pose proof (digits2_pos_spec m) as [_ Hm].
  assert (E1 : 2 ^ dg m * 2 ^ (e - ez) <= 2 ^ 8 * 2 ^ (- ez)).
  { rewrite <- !Z.pow_add_r by lia. apply Z.pow_le_mono_r; lia. }
  assert (E2 : 2 ^ 44 * 2 ^ (-44 - ez) = 2 ^ (- ez)) by (rewrite <- Z.pow_add_r by lia; f_equal; lia).
  pose proof (Z.pow_pos_nonneg 2 (e - ez) ltac:(lia) ltac:(lia)).
  pose proof (Z.pow_pos_nonneg 2 (- ez) ltac:(lia) ltac:(lia)).
  assert (Hlt : Z.pos xa < Z.pos xb) by (rewrite Xa, Xb, <- Z.mul_assoc, E2; nia).
  replace (Z.pos xa - Z.pos xb) with (Z.neg (Z.to_pos (Z.pos xb - Z.pos xa)))
    by (rewrite <- Pos2Z.opp_pos, Z2Pos.id by lia; lia).
  cbn [SpecFloat.binary_normalize]. apply ltb_zero_round_neg.
Qed.

(** [addPage] then [addImage] puts the image alone on a new last page. *)
Lemma addImage_addPage (pdf : Pdf) (p : Placement) : addImage (addPage pdf) p = pdf ++ [[p]].
Proof. unfold addImage, addPage. rewrite rev_app_distr. cbn. now rewrite rev_involutive. Qed.

(** ** The pages of an image *)

(** One page height at scale [2^e], and the number of pages after the
    first: the [k >= 1] with [295 k < imgHeight]. *)
Definition page_unit (e : Z) : Z := 295 * 2 ^ (- e).
Definition pages_after (m : positive) (e : Z) : nat := Z.to_nat ((Z.pos m - 1) / page_unit e).

(** Page [k + 1] as the loop leaves it: the image alone, shifted up by [295 k]. *)
Definition page_at (imgHeight : float) (k : nat) : list Placement :=
  [mkPlacement 0 (- of_Z (295 * Z.of_nat k))%float imgWidth imgHeight].

Lemma page_unit_bounds (e : Z) : -44 <= e <= 0 -> 295 <= page_unit e < 2 ^ 53.
Proof.
  intros He. unfold page_unit. pose proof (Z.pow_pos_nonneg 2 (- e) ltac:(lia) ltac:(lia)).
  split; [lia|]. apply (Z.le_lt_trans _ (295 * 2 ^ 44)); [|reflexivity].
  apply Z.mul_le_mono_nonneg_l; [lia|apply Z.pow_le_mono_r; lia].
Qed.

Section Loop.

(** The image height [imgHeight = m * 2^e], at least [2^8]: a multiple
    of [2^e] with [e >= -44], so one page is [page_unit e < 2^53] units. *)
Variables (imgHeight : float) (m : positive) (e : Z).
Hypothesis Himg : Prim2SF imgHeight = exact_at false m e.
Hypothesis Hm : Z.pos m < 2 ^ 53.
Hypothesis He : -44 <= e <= 0.

Lemma page_unit_le (k : Z) :
  k <= (Z.pos m - 1) / page_unit e -> page_unit e * k <= Z.pos m - 1.
Proof.
  intros Hk. pose proof (page_unit_bounds e He).
  pose proof (Z.mul_div_le (Z.pos m - 1) (page_unit e) ltac:(lia)). nia.
Qed.

(** The loop from page [k]: [heightLeft = imgHeight - 295 k] is exact. *)
Lemma capture_loop_pages (fuel k : nat) (pdf : Pdf) (heightLeft : float) :
  Prim2SF heightLeft = scaled (Z.pos m - page_unit e * Z.of_nat k) e ->
  (1 <= k <= S (pages_after m e))%nat -> (S (pages_after m e) < k + fuel)%nat ->
  capture_loop fuel imgHeight pdf heightLeft
  = Some (pdf ++ map (page_at imgHeight) (seq k (S (pages_after m e) - k))).
Proof.
  pose proof (page_unit_bounds e He) as Hu. unfold pages_after.
  set (N := (Z.pos m - 1) / page_unit e).
  assert (HN : 0 <= N) by (apply Z.div_pos; lia).
  revert k pdf heightLeft. induction fuel as [|f IH]; intros k pdf hl Hhl Hk Hf; [lia|].
  cbn [capture_loop]. rewrite (ltb_zero_scaled _ _ _ Hhl).
  destruct (Z_le_gt_dec (Z.of_nat k) N) as [HkN|HkN].
  - pose proof (page_unit_le (Z.of_nat k) HkN) as Hck.
    set (z := Z.pos m - page_unit e * Z.of_nat k) in *.
    replace (0 <? z) with true by (symmetry; apply Z.ltb_lt; lia).
    replace z with (Z.pos (Z.to_pos z)) in Hhl by (apply Z2Pos.id; lia). cbn [scaled] in Hhl.
    assert (Hpos : (hl - imgHeight)%float = (- of_Z (295 * Z.of_nat k))%float).
    { apply FloatAxioms.Prim2SF_inj.
      rewrite FloatAxioms.sub_spec, Hhl, Himg. unfold SF64sub.
      rewrite SFsub_exact_at, Z2Pos.id by lia.
      rewrite (position_at (Z.of_nat k) e) by (unfold page_unit in Hck; nia).
      f_equal. unfold z, page_unit. ring. }
    cbv zeta. rewrite Hpos, addImage_addPage, (IH (S k)).
    + rewrite <- app_assoc. replace (S (Z.to_nat N) - k)%nat with (S (S (Z.to_nat N) - S k)) by lia.
      reflexivity.
    + rewrite FloatAxioms.sub_spec, Hhl, (pageHeight_at e He). unfold SF64sub.
      rewrite SFsub_exact_at by (rewrite ?Z2Pos.id; fold (page_unit e); lia).
      rewrite !Z2Pos.id by (fold (page_unit e); lia). f_equal. unfold z. fold (page_unit e). lia.
    + lia.
    + lia.
  - replace (0 <? Z.pos m - page_unit e * Z.of_nat k) with false.
    + replace (S (Z.to_nat N) - k)%nat with 0%nat by lia. now rewrite app_nil_r.
    + symmetry. apply Z.ltb_ge. pose proof (Z.mul_div_le (Z.pos m - 1) (page_unit e) ltac:(lia)).
      assert (Z.pos m - 1 < page_unit e * (N + 1)) by (unfold N; pose proof (Z.mod_pos_bound (Z.pos m - 1) (page_unit e) ltac:(lia)); pose proof (Z.div_mod (Z.pos m - 1) (page_unit e) ltac:(lia)); lia).
      nia.
Qed.

End Loop.

Lemma IZR_F2R (z e : Z) : e <= 0 -> IZR z = F2R (z * 2 ^ (- e)) e.
Proof.
  intros He. rewrite <- Z.sub_0_l, <- F2R_change by exact He. unfold F2R, bpow. cbn. ring.
Qed.

Lemma F2R_lt_same (a b e : Z) : (F2R a e < F2R b e)%R <-> a < b.
Proof.
  unfold F2R. pose proof (bpow_pos e). split; intros Hlt.
  - apply lt_IZR, (Rmult_lt_reg_r (bpow e)); assumption.
  - apply Rmult_lt_compat_r; [assumption|]. now apply IZR_lt.
Qed.

(** A double of at least [2^8] and at most [2^53] is normal: it is
    [exact_at false m e] with [-44 <= e <= 0]. *)
Lemma canonical_exact_at (x : float) (m : positive) (e : Z) :
  Prim2SF x = S754_finite false m e -> 9 <= dg m + e -> e <= 0 ->
  Prim2SF x = exact_at false m e /\ Z.pos m < 2 ^ 53 /\ -44 <= e <= 0.
Proof.
  intros Hx H9 He. destruct (bounded_facts m e (Prim2SF_bounded x false m e Hx)) as [Hc _].
  rewrite fexp_normal in Hc by lia.
  assert (Hd : dg m = 53) by lia. pose proof (digits2_pos_spec m) as [_ Hm].
  rewrite Hd in Hm. split; [|split; [exact Hm|lia]].
  rewrite Hx. unfold exact_at. rewrite Hd, Z.sub_diag, Z.pow_0_r, Z.mul_1_r, Z.add_0_l.
  reflexivity.
Qed.

(** An image that fits on the first page: one page, at [position = 0]. *)
Lemma paginate_one_page (fuel : nat) (imgHeight : float) :
  (0 < fuel)%nat -> (0 <? imgHeight - pageHeight)%float = false ->
  paginate fuel imgHeight = Some [[mkPlacement 0 0 imgWidth imgHeight]].
Proof. intros Hf Hlt. destruct fuel as [|f]; [lia|]. unfold paginate. cbn. now rewrite Hlt. Qed.

(** [pages_after m e] counts the [k >= 1] with [295 k < m * 2^e]. *)
Lemma pages_after_spec (m : positive) (e : Z) (k : nat) :
  e <= 0 -> (1 <= k)%nat ->
  (k <= pages_after m e)%nat <-> (IZR (295 * Z.of_nat k) < F2R (Z.pos m) e)%R.
Proof.
  intros He Hk. rewrite (IZR_F2R _ e He), F2R_lt_same. unfold pages_after, page_unit.
  pose proof (Z.pow_pos_nonneg 2 (- e) ltac:(lia) ltac:(lia)).
  split; intros Hk'.
  - assert (Z.of_nat k <= (Z.pos m - 1) / (295 * 2 ^ (- e))) by lia.
    pose proof (Z.mul_div_le (Z.pos m - 1) (295 * 2 ^ (- e)) ltac:(lia)). nia.
  - enough (Z.of_nat k <= (Z.pos m - 1) / (295 * 2 ^ (- e))) by lia.
    apply Z.div_le_lower_bound; nia.
Qed.

(** ** Pages, termination and divergence *)

(** The pages of [paginate] for an image height below [2^53]. *)
Lemma paginate_pages_exact (imgHeight : float) (m : positive) (e : Z) (fuel : nat) :
  Prim2SF imgHeight = S754_finite false m e -> e <= 0 -> (pages_after m e < fuel)%nat ->
  paginate fuel imgHeight
  = Some ([mkPlacement 0 0 imgWidth imgHeight] :: map (page_at imgHeight) (seq 1 (pages_after m e)))
  /\ (forall k : nat, (1 <= k)%nat ->
        (k <= pages_after m e)%nat <-> (IZR (295 * Z.of_nat k) < F2R (Z.pos m) e)%R).
Proof.
  intros Hx He Hf. split; [|intros k; apply pages_after_spec; exact He].
  destruct (Z_le_gt_dec 9 (dg m + e)) as [Hn|Hb].
  - destruct (canonical_exact_at imgHeight m e Hx Hn He) as (Himg & Hm & He').
    unfold paginate. cbv zeta. cbn [addImage new_pdf rev app].
    rewrite (capture_loop_pages imgHeight m e Himg Hm He' fuel 1); [|..|lia|lia].
    + cbn [app]. now rewrite Nat.sub_1_r, Nat.pred_succ.
    + rewrite FloatAxioms.sub_spec, Himg, (pageHeight_at e He'). unfold SF64sub.
      pose proof (page_unit_bounds e He') as Hu. unfold page_unit in Hu.
      rewrite SFsub_exact_at, Z2Pos.id by (rewrite ?Z2Pos.id; lia).
      f_equal. unfold page_unit. lia.
  - assert (Hp : pages_after m e = 0%nat).
    { unfold pages_after, page_unit. rewrite Z.div_small; [reflexivity|].
      pose proof (digits2_pos_spec m) as [_ Hm].
      assert (2 ^ dg m <= 2 ^ 8 * 2 ^ (- e))
        by (rewrite <- Z.pow_add_r by lia; apply Z.pow_le_mono_r; lia).
      lia. }
    rewrite Hp. apply paginate_one_page; [lia|]. apply (sub_page_below imgHeight m e Hx). lia.
Qed.

(** C11 For every image height [imgHeight = m * 2^e] below [2^53], the
    screenshot export with enough fuel makes [1 + pages_after m e] pages.
    The first page shows the image at [position = 0]; page [k + 1] shows it
    at exactly [-(295 k)].  The [k >= 1] counted by [pages_after] are those
    with [295 k < imgHeight], so the page count is [ceil (imgHeight / 295)]. *)
Theorem paginate_pages (imgHeight : float) (m : positive) (e : Z) (fuel : nat) :
  Prim2SF imgHeight = S754_finite false m e -> e <= 0 -> (pages_after m e < fuel)%nat ->
  paginate fuel imgHeight
  = Some ([mkPlacement 0 0 imgWidth imgHeight] :: map (page_at imgHeight) (seq 1 (pages_after m e)))
  /\ (forall k : nat, (1 <= k)%nat ->
        (k <= pages_after m e)%nat <-> (IZR (295 * Z.of_nat k) < F2R (Z.pos m) e)%R).
Proof. apply paginate_pages_exact. Qed.

Lemma paginate_pages_witness :
  paginate 3 700
  = Some ([mkPlacement 0 0 imgWidth 700] :: map (page_at 700) (seq 1 (pages_after 6157265115545600 (-43)))).
Proof.
  exact (proj1 (paginate_pages 700 6157265115545600 (-43) 3
                  ltac:(vm_compute; reflexivity) ltac:(lia) ltac:(vm_compute; lia))).
Defined.

(** A double below [2^53] has a non-positive exponent. *)
Lemma exp_nonpos_below (x : float) (m : positive) (e : Z) :
  Prim2SF x = S754_finite false m e -> (F2R (Z.pos m) e < bpow 53)%R -> e <= 0.
Proof.
  intros Hx Hlt. destruct (bounded_facts m e (Prim2SF_bounded x false m e Hx)) as [Hc _].
  destruct (Z_le_gt_dec e 0) as [|Hpos]; [assumption|exfalso].
  rewrite fexp_normal in Hc by lia.
  pose proof (F2R_digits m e) as [Hlo _].
  assert (Hb : (bpow (dg m - 1 + e) < bpow 53)%R) by lra. apply bpow_lt_inv in Hb. lia.
Qed.

Lemma imgHeight_of_Z (W H : Z) :
  0 <= H <= 2 ^ 20 -> imgHeight_of (mkCanvas W H) = (of_Z (H * 210) / of_Z W)%float.
Proof.
  intros HH. unfold imgHeight_of. cbn [canvas_height canvas_width].
  replace imgWidth with (of_Z 210) by (vm_compute; reflexivity).
  rewrite of_Z_mul by (cbn; lia). reflexivity.
Qed.

(** C12 For an element whose canvas has an integer width in [1, 2^20]
    and an integer height [H] in [0, 2^20], [captureElementAsPdf] ends
    within [H + 1] loop rounds and saves [analysis-report.pdf].  The file
    has its first page at [position = 0] and at most [H] more, page
    [k + 1] at [-(295 k)]. *)
Theorem capture_terminates (W H : Z) (fuel : nat)
    (getElementById : string -> option (option Canvas)) (elementId : string) :
  getElementById elementId = Some (Some (mkCanvas W H)) ->
  1 <= W <= 2 ^ 20 -> 0 <= H <= 2 ^ 20 -> (Z.to_nat H < fuel)%nat ->
  exists n, (n <= Z.to_nat H)%nat /\
    captureElementAsPdf fuel getElementById elementId
    = Some (SavedPdf ([mkPlacement 0 0 imgWidth (imgHeight_of (mkCanvas W H))]
                      :: map (page_at (imgHeight_of (mkCanvas W H))) (seq 1 n))
                     "analysis-report.pdf").
Proof.
  intros Hget HW HH Hf. unfold captureElementAsPdf. rewrite Hget.
  set (h := imgHeight_of (mkCanvas W H)).
  assert (Hh : h = (of_Z (H * 210) / of_Z W)%float) by (apply imgHeight_of_Z; lia).
  set (k := Z.max 1 (210 * H)).
  destruct (of_Z_div_le (H * 210) W k) as [Hq _]; [lia|lia|unfold k; lia|unfold k; nia|].
  rewrite <- Hh in Hq.
  destruct (Prim2SF h) as [[]|[]| |[] mR eR] eqn:Hph; try contradiction.
  - exists 0%nat. split; [lia|].
    rewrite paginate_one_page; [reflexivity|lia|].
    rewrite FloatAxioms.ltb_spec, FloatAxioms.sub_spec, Hph. vm_compute. reflexivity.
  - assert (Hk : (IZR k < bpow 53)%R)
      by (rewrite bpow_IZR by lia; apply IZR_lt; unfold k; lia).
    pose proof (exp_nonpos_below h mR eR Hph ltac:(lra)) as He.
    rewrite (IZR_F2R k eR He) in Hq. apply F2R_le_same in Hq.
    pose proof (Z.pow_pos_nonneg 2 (- eR) ltac:(lia) ltac:(lia)).
    assert (Hn : (pages_after mR eR <= Z.to_nat H)%nat).
    { unfold pages_after, page_unit.
      enough ((Z.pos mR - 1) / (295 * 2 ^ (- eR)) < H + 1) by lia.
      apply Z.div_lt_upper_bound; unfold k in Hq; nia. }
    exists (pages_after mR eR). split; [exact Hn|].
    rewrite (proj1 (paginate_pages_exact h mR eR fuel Hph He ltac:(lia))). reflexivity.
Qed.

Lemma capture_terminates_witness :
  exists n, (n <= Z.to_nat 1000)%nat /\
    captureElementAsPdf 1001 (fun _ => Some (Some (mkCanvas 100 1000))) "report"
    = Some (SavedPdf ([mkPlacement 0 0 imgWidth (imgHeight_of (mkCanvas 100 1000))]
                      :: map (page_at (imgHeight_of (mkCanvas 100 1000))) (seq 1 n))
                     "analysis-report.pdf").
Proof.
  apply (capture_terminates 100 1000 1001 (fun _ => Some (Some (mkCanvas 100 1000))) "report");
    [reflexivity|lia|lia|vm_compute; lia].
Defined.

(** With [heightLeft = +Infinity] the loop never ends: [Infinity - 295]
    is [Infinity] again. *)
Lemma capture_loop_infinite (fuel : nat) (imgHeight : float) (pdf : Pdf) (heightLeft : float) :
  Prim2SF heightLeft = S754_infinity false -> capture_loop fuel imgHeight pdf heightLeft = None.
Proof.
  revert pdf heightLeft. induction fuel as [|f IH]; intros pdf hl Hhl; [reflexivity|].
  cbn [capture_loop]. rewrite FloatAxioms.ltb_spec, Hhl. cbn -[Prim2SF]. apply IH.
  rewrite FloatAxioms.sub_spec, Hhl. vm_compute. reflexivity.
Qed.

(** C13 For an element of zero width and positive height, as html2canvas
    renders it, [imgHeight = canvas.height * 210 / 0] is [+Infinity].
    [heightLeft] stays [+Infinity], so [captureElementAsPdf] never
    leaves its loop, whatever the fuel. *)
Theorem capture_zero_width_diverges (H : Z) (fuel : nat)
    (getElementById : string -> option (option Canvas)) (elementId : string) :
  getElementById elementId = Some (Some (mkCanvas 0 H)) -> 1 <= H <= 2 ^ 20 ->
  captureElementAsPdf fuel getElementById elementId = None.
Proof.
  intros Hget HH. unfold captureElementAsPdf. rewrite Hget.
  rewrite imgHeight_of_Z by lia. unfold paginate. cbv zeta.
  rewrite capture_loop_infinite; [reflexivity|].
  rewrite FloatAxioms.sub_spec, FloatAxioms.div_spec, !Prim2SF_of_Z by lia.
  destruct (H * 210) as [|p|p] eqn:E; [lia| |lia]. vm_compute. reflexivity.
Qed.

Lemma capture_zero_width_diverges_witness :
  captureElementAsPdf 1000 (fun _ => Some (Some (mkCanvas 0 500))) "report" = None.
Proof.
  apply (capture_zero_width_diverges 500 1000 (fun _ => Some (Some (mkCanvas 0 500))) "report");
    [reflexivity|lia].
Defined.
