(* ===== verification/Accounts.v ===== *)
(** * Accounts: sign-up, log-in and the profile
    (src/src/pages/Signup.tsx, src/src/pages/Login.tsx,
     src/src/components/ui/ProfileDialog.tsx)

    The accounts live in the browser's [localStorage]: the key
    [registeredUsers] holds a JSON array of accounts and [currentUser] the
    e-mail of the signed-in user.  JSON encoding of these records of
    strings is a faithful round trip, so the model stores the values
    themselves ([Storage]).

    The sign-up page reads [registeredUsers] once, when it mounts, into
    its state [existingUsers]; a submission passes the form schema (a
    [zod] schema: field lengths, an e-mail check, the password rules, the
    robot box, equal passwords), is checked against [existingUsers] for a
    taken e-mail, staff id or phone number, waits 1.5 s, and writes
    [[...existingUsers, newUser]] back; 1.5 s later the page navigates to
    the log-in page.  The waits are events of the model ([SubmitSettled],
    [RedirectFired]).  [zod]'s e-mail check is a library function and a
    parameter of the section.

    The log-in page looks the pair (e-mail, password) up in the stored
    accounts; the profile dialog finds the current user's account and
    logs out by removing [currentUser]. *)

From Stdlib Require Import Bool ZArith String List Ascii Lia.
From S2P Require Import Prelude.
Import ListNotations.
Local Open Scope string_scope.

(** ** Storage *)

Record Account := mkAccount {
  acc_name : string;
  acc_email : string;
  acc_staffId : string;
  acc_phoneNumber : string;
  acc_department : string;
  acc_designation : string;
  acc_password : string
}.

(** The two keys of [localStorage] the pages use ([None]: key absent). *)
Record Storage := mkStorage {
  registeredUsers : option (list Account);
  currentUser : option string
}.

(** ** The sign-up form *)

Record SignupFormValues := mkSignupValues {
  f_name : string;
  f_email : string;
  f_staffId : string;
  f_phoneNumber : string;
  f_department : string;
  f_designation : string;
  f_password : string;
  f_confirmPassword : string;
  f_robotCheck : bool
}.

Definition is_upper (c : ascii) : bool := ("A" <=? c)%char && (c <=? "Z")%char.
Definition is_lower (c : ascii) : bool := ("a" <=? c)%char && (c <=? "z")%char.
Definition is_digit (c : ascii) : bool := ("0" <=? c)%char && (c <=? "9")%char.

(** [/[A-Z]/.test(s)] and the like. *)
Definition has_char (p : ascii -> bool) (s : string) : bool :=
  existsb p (list_ascii_of_string s).

(** The password rules of [signupSchema] (and of the checklist shown
    under the field): eight characters, an upper-case and a lower-case
    letter, a digit and a character that is none of these. *)
Definition password_ok (p : string) : bool :=
  (8 <=? String.length p)%nat && has_char is_upper p && has_char is_lower p
  && has_char is_digit p
  && has_char (fun c => negb (is_upper c || is_lower c || is_digit c)) p.

Section Signup.
Variable email_ok : string -> bool.

(** [signupSchema]: the field checks and the [refine]s. *)
Definition signupSchema_ok (v : SignupFormValues) : bool :=
  (2 <=? String.length (f_name v))%nat && email_ok (f_email v)
  && (1 <=? String.length (f_staffId v))%nat && (10 <=? String.length (f_phoneNumber v))%nat
  && (1 <=? String.length (f_department v))%nat && (1 <=? String.length (f_designation v))%nat
  && password_ok (f_password v) && f_robotCheck v
  && (f_password v ==? f_confirmPassword v).

Definition newUser (v : SignupFormValues) : Account :=
  mkAccount (f_name v) (f_email v) (f_staffId v) (f_phoneNumber v) (f_department v)
    (f_designation v) (f_password v).

Record SignupState := mkSignup {
  storage : Storage;
  mounted : bool;
  existingUsers : list Account;
  isLoading : bool;
  showRobotCheck : bool;
  inflight : option Account;
  redirect_pending : bool
}.

Inductive signup_event :=
| Mount
| Submit (v : SignupFormValues)
| SubmitSettled
| RedirectFired.

(** The effect of [useEffect(..., [])] on mount. *)
Definition signup_mount (s : SignupState) : SignupState :=
  match registeredUsers (storage s) with
  | Some users => mkSignup (storage s) true users false false None false
  | None =>
      mkSignup (mkStorage (Some []) (currentUser (storage s))) true [] false false None false
  end.

(** [form.handleSubmit(onSubmit)] up to the [await]: invalid values only
    show messages; a taken e-mail, staff id or phone number only raises a
    toast; the robot branch cannot be reached, the schema having already
    required the box. *)
Definition onSubmit (s : SignupState) (v : SignupFormValues) : SignupState :=
  if negb (signupSchema_ok v) then s
  else if existsb (fun u => acc_email u ==? f_email v) (existingUsers s)
          || existsb (fun u => acc_staffId u ==? f_staffId v) (existingUsers s)
          || existsb (fun u => acc_phoneNumber u ==? f_phoneNumber v) (existingUsers s)
  then s
  else if negb (f_robotCheck v) then
    mkSignup (storage s) (mounted s) (existingUsers s) false true None (redirect_pending s)
  else mkSignup (storage s) (mounted s) (existingUsers s) true (showRobotCheck s)
         (Some (newUser v)) (redirect_pending s).

(** After the 1.5 s wait: [[...existingUsers, newUser]] is written and the
    redirect scheduled; [existingUsers] itself is not updated. *)
Definition submit_settled (s : SignupState) : SignupState :=
  match inflight s with
  | Some u =>
      mkSignup (mkStorage (Some (existingUsers s ++ [u])%list) (currentUser (storage s)))
        (mounted s) (existingUsers s) false (showRobotCheck s) None true
  | None => s
  end.

Definition signup_step (s : SignupState) (e : signup_event) : SignupState :=
  match e with
  | Mount => if mounted s then s else signup_mount s
  | Submit v => if mounted s && negb (isLoading s) then onSubmit s v else s
  | SubmitSettled => submit_settled s
  | RedirectFired =>
      if redirect_pending s then
        mkSignup (storage s) false [] false false (inflight s) false
      else s
  end.

End Signup.

(** ** Log-in and the profile *)

Record LoginFormValues := mkLoginValues { l_email : string; l_password : string }.

(** [handleLogin]: the stored accounts ([[]] when the key is absent),
    the first with this e-mail and password; on success [currentUser] is
    set. *)
Definition handleLogin (st : Storage) (v : LoginFormValues) : Storage * option Account :=
  let users := match registeredUsers st with Some us => us | None => [] end in
  match find (fun u => (acc_email u ==? l_email v) && (acc_password u ==? l_password v)) users with
  | Some u => (mkStorage (registeredUsers st) (Some (l_email v)), Some u)
  | None => (st, None)
  end.

(** The account the profile dialog shows. *)
Definition profile_user (st : Storage) : option Account :=
  match currentUser st with
  | Some e =>
      find (fun u => acc_email u ==? e)
        (match registeredUsers st with Some us => us | None => [] end)
  | None => None
  end.

(** [handleLogout]. *)
Definition handleLogout (st : Storage) : Storage := mkStorage (registeredUsers st) None.

(** * Properties *)

Section SignupFacts.
Variable email_ok : string -> bool.

Local Abbreviation step := (signup_step email_ok).

(** No two accounts share an e-mail, a staff id or a phone number. *)
Definition distinct_keys (us : list Account) : Prop :=
  NoDup (map acc_email us) /\ NoDup (map acc_staffId us) /\ NoDup (map acc_phoneNumber us).

Definition fresh_for (us : list Account) (u : Account) : Prop :=
  ~ In (acc_email u) (map acc_email us) /\ ~ In (acc_staffId u) (map acc_staffId us)
  /\ ~ In (acc_phoneNumber u) (map acc_phoneNumber us).

Lemma distinct_keys_snoc (us : list Account) (u : Account) :
  distinct_keys us -> fresh_for us u -> distinct_keys (us ++ [u])%list.
Proof.
  intros (E & S & P) (Fe & Fs & Fp). unfold distinct_keys. rewrite !map_app.
  repeat split; apply NoDup_snoc; assumption.
Qed.

Lemma existsb_key_false (key : Account -> string) (x : string) (us : list Account) :
  existsb (fun u => key u ==? x) us = false -> ~ In x (map key us).
Proof.
  intros H Hin. apply in_map_iff in Hin as (u & Hu & Hin).
  assert (existsb (fun u => key u ==? x) us = true).
  { apply existsb_exists. exists u. split; [exact Hin|]. rewrite Hu. apply eqb_refl. }
  congruence.
Qed.

(** What a signup page instance keeps true: the stored accounts and the
    page's copy have distinct keys, and the account in flight is fresh
    for the copy. *)
Definition signup_inv (s : SignupState) : Prop :=
  (forall us, registeredUsers (storage s) = Some us -> distinct_keys us)
  /\ distinct_keys (existingUsers s)
  /\ (forall u, inflight s = Some u -> fresh_for (existingUsers s) u).

Lemma distinct_keys_nil : distinct_keys [].
Proof. repeat split; constructor. Qed.

Lemma signup_inv_step (s : SignupState) (e : signup_event) :
  signup_inv s -> signup_inv (step s e).
Proof.
  intros Hinv. pose proof Hinv as (Hr & He & Hf).
  destruct e; cbn [signup_step].
  - destruct (mounted s); [exact Hinv|]. unfold signup_mount.
    destruct (registeredUsers (storage s)) as [us|] eqn:R.
    + refine (conj _ (conj _ _)); cbn; [rewrite R; exact Hr| apply (Hr us eq_refl)| discriminate].
    + refine (conj _ (conj _ _)); cbn; [intros us' [= <-]; apply distinct_keys_nil|apply distinct_keys_nil
                         |discriminate].
  - destruct (mounted s && negb (isLoading s)); [|exact Hinv]. unfold onSubmit.
    destruct (negb (signupSchema_ok email_ok v)); [exact Hinv|].
    destruct (existsb _ _ || existsb _ _ || existsb _ _) eqn:D; [exact Hinv|].
    apply orb_false_iff in D as [D Dp]. apply orb_false_iff in D as [De Ds].
    destruct (negb (f_robotCheck v)).
    + refine (conj _ (conj _ _)); cbn; [exact Hr|exact He|discriminate].
    + refine (conj _ (conj _ _)); cbn; [exact Hr|exact He|]. intros u [= <-].
      refine (conj _ (conj _ _)); cbn; [apply (existsb_key_false acc_email)
                         |apply (existsb_key_false acc_staffId)
                         |apply (existsb_key_false acc_phoneNumber)]; assumption.
  - unfold submit_settled. destruct (inflight s) as [u|] eqn:I; [|exact Hinv].
    refine (conj _ (conj _ _)); cbn; [intros us [= <-]; apply distinct_keys_snoc; [exact He|apply Hf; reflexivity]
                       |exact He|discriminate].
  - destruct (redirect_pending s); [|exact Hinv].
    refine (conj _ (conj _ _)); cbn; [exact Hr|apply distinct_keys_nil|]. intros u Hu. apply Hf in Hu.
    unfold fresh_for. cbn. tauto.
Qed.

Lemma signup_inv_steps (s : SignupState) (evs : list signup_event) :
  signup_inv s -> signup_inv (fold_left step evs s).
Proof.
  revert s. induction evs as [|e t IH]; intros s H; [exact H|]. apply IH, signup_inv_step, H.
Qed.

End SignupFacts.

(** ** The page's copy of the accounts *)

Lemma existingUsers_submit (email_ok : string -> bool) (s : SignupState) (v : SignupFormValues) :
  existingUsers (signup_step email_ok s (Submit v)) = existingUsers s.
Proof.
  cbn [signup_step]. destruct (mounted s && negb (isLoading s)); [|reflexivity].
  unfold onSubmit. destruct (negb _); [reflexivity|].
  destruct (_ || _); [reflexivity|]. destruct (negb (f_robotCheck v)); reflexivity.
Qed.

Lemma existingUsers_settled (email_ok : string -> bool) (s : SignupState) :
  existingUsers (signup_step email_ok s SubmitSettled) = existingUsers s.
Proof. cbn [signup_step]. unfold submit_settled. now destruct (inflight s). Qed.

(** The write after the wait: the page's copy plus the new account. *)
Lemma settled_writes (email_ok : string -> bool) (s : SignupState) (u : Account) :
  inflight s = Some u ->
  registeredUsers (storage (signup_step email_ok s SubmitSettled))
  = Some (existingUsers s ++ [u])%list
  /\ redirect_pending (signup_step email_ok s SubmitSettled) = true.
Proof. intros H. cbn [signup_step]. unfold submit_settled. now rewrite H. Qed.

(** ** Log-in *)

Lemma handleLogin_spec (st : Storage) (v : LoginFormValues) :
  let users := match registeredUsers st with Some us => us | None => [] end in
  match snd (handleLogin st v) with
  | Some u => In u users /\ acc_email u = l_email v /\ acc_password u = l_password v
              /\ currentUser (fst (handleLogin st v)) = Some (l_email v)
  | None => (forall u, In u users -> acc_email u <> l_email v \/ acc_password u <> l_password v)
            /\ fst (handleLogin st v) = st
  end.
Proof.
  cbv zeta. unfold handleLogin.
  destruct (find _ _) as [u|] eqn:F; cbn [fst snd].
  - apply find_some in F as [Hin Hm]. apply andb_true_iff in Hm as [He Hp].
    apply (eqb_true_iff (acc_email u)) in He. apply (eqb_true_iff (acc_password u)) in Hp.
    repeat split; assumption.
  - split; [|reflexivity]. intros u Hin. pose proof (find_none _ _ F u Hin) as Hm.
    apply andb_false_iff in Hm as [H|H]; [left|right]; intros E; rewrite E, eqb_refl in H;
      discriminate.
Qed.

Lemma logout_profile (st : Storage) : profile_user (handleLogout st) = None.
Proof. reflexivity. Qed.

(** C32 (functional, code bug): the sign-up page keeps the accounts it
    read when it mounted and never refreshes them.  After a first account
    is created the form is usable again until the redirect fires, and a
    second submission writes [[...existingUsers, second]]: the stored
    accounts then hold the second account and not the first, whose owner
    can no longer log in. *)
Theorem second_signup_drops_first (email_ok : string -> bool) (s : SignupState)
    (v1 v2 : SignupFormValues) :
  let s1 := signup_step email_ok (signup_step email_ok s (Submit v1)) SubmitSettled in
  let s2 := signup_step email_ok (signup_step email_ok s1 (Submit v2)) SubmitSettled in
  inflight (signup_step email_ok s (Submit v1)) = Some (newUser v1) ->
  inflight (signup_step email_ok s1 (Submit v2)) = Some (newUser v2) ->
  registeredUsers (storage s1) = Some (existingUsers s ++ [newUser v1])%list
  /\ redirect_pending s1 = true
  /\ registeredUsers (storage s2) = Some (existingUsers s ++ [newUser v2])%list.
Proof.
  cbv zeta. intros H1 H2.
  destruct (settled_writes email_ok _ _ H1) as [W1 R1].
  destruct (settled_writes email_ok _ _ H2) as [W2 _].
  rewrite existingUsers_submit in W1, W2. rewrite existingUsers_settled, existingUsers_submit in W2.
  repeat split; assumption.
Qed.

Definition signup_v1 : SignupFormValues :=
  mkSignupValues "Asha" "asha@ksrct.ac.in" "S101" "9876543210" "CSE" "AP" "Passw0rd!"
    "Passw0rd!" true.

Definition signup_v2 : SignupFormValues :=
  mkSignupValues "Ravi" "ravi@ksrct.ac.in" "S102" "9876543211" "CSE" "AP" "Secr3t#key"
    "Secr3t#key" true.

(** A fresh browser: the page mounts on an empty storage. *)
Definition fresh_signup_page : SignupState :=
  signup_step (fun _ => true) (mkSignup (mkStorage None None) false [] false false None false)
    Mount.

Lemma second_signup_drops_first_witness :
  let ok := fun _ : string => true in
  let s := fresh_signup_page in
  let s1 := signup_step ok (signup_step ok s (Submit signup_v1)) SubmitSettled in
  inflight (signup_step ok s (Submit signup_v1)) = Some (newUser signup_v1)
  /\ inflight (signup_step ok s1 (Submit signup_v2)) = Some (newUser signup_v2)
  /\ registeredUsers (storage s1) = Some (existingUsers s ++ [newUser signup_v1])%list
  /\ redirect_pending s1 = true
  /\ registeredUsers (storage (signup_step ok (signup_step ok s1 (Submit signup_v2)) SubmitSettled))
     = Some (existingUsers s ++ [newUser signup_v2])%list.
Proof.
  intros ok s s1.
  assert (H1 : inflight (signup_step ok s (Submit signup_v1)) = Some (newUser signup_v1))
    by (vm_compute; reflexivity).
  assert (H2 : inflight (signup_step ok s1 (Submit signup_v2)) = Some (newUser signup_v2))
    by (vm_compute; reflexivity).
  split; [exact H1|]. split; [exact H2|].
  exact (second_signup_drops_first ok s signup_v1 signup_v2 H1 H2).
Defined.

(** The first account is then unknown to the log-in page. *)
Lemma dropped_account_cannot_log_in :
  let ok := fun _ : string => true in
  let s1 := signup_step ok (signup_step ok fresh_signup_page (Submit signup_v1)) SubmitSettled in
  let s2 := signup_step ok (signup_step ok s1 (Submit signup_v2)) SubmitSettled in
  snd (handleLogin (storage s2) (mkLoginValues "asha@ksrct.ac.in" "Passw0rd!")) = None.
Proof. vm_compute. reflexivity. Qed.
