(* ===== verification/UiShell.v ===== *)
(** * The pages around the analysis: responsive hooks, the page
    navigator, the home page and the 404 page
    (src/src/hooks/use-mobile.tsx, src/src/components/ui/PageNavigator.tsx,
     src/src/components/AppWrapper.tsx, src/src/pages/Index.tsx,
     src/src/pages/NotFound.tsx, src/src/components/ui/CreditsDialog.tsx)

    [useBreakpointValue] picks, for the window width, the value of the
    largest breakpoint ([BREAKPOINTS]) the width reaches among those the
    caller gave, else [base]; it holds [base] until its effect has run.
    [breakpoint_select] is its [if] chain; [breakpoint_ref] the reading
    "largest defined breakpoint not above the width", and the two agree.

    [PageNavigator] is rendered by [AppWrapper] outside the routes and
    reads [window.location.pathname] while rendering.  Nothing above it
    re-renders on a navigation (the router's children are the same
    element), so it re-renders only when its own [isOpen] changes: a
    navigation made elsewhere (the log-in redirect, a [Link] of a page)
    leaves it showing the previous path.  [NavState] keeps the path it
    rendered beside the browser's location.

    The home page and the 404 page hold no logic beyond texts, links and
    the two responsive class names; their views are functions of the
    width and of the hover state.  [appWrapper] puts the navigator above
    every page; the credits dialog (rendered by no page) is a static
    text behind an open flag. *)

From Stdlib Require Import Bool ZArith String List Lia.
From S2P Require Import Prelude.
Import ListNotations.
Local Open Scope Z_scope.

(** ** use-mobile.tsx *)

Module Responsive.

Definition sm : Z := 640.
Definition md : Z := 768.
Definition lg : Z := 1024.
Definition xl : Z := 1280.
Definition xxl : Z := 1536.

(** The argument of [useBreakpointValue]: an optional value per
    breakpoint. *)
Record BreakpointValues (A : Type) := mkValues {
  v_base : option A;
  v_sm : option A;
  v_md : option A;
  v_lg : option A;
  v_xl : option A;
  v_2xl : option A
}.
Arguments mkValues {A}.
Arguments v_base {A}. Arguments v_sm {A}. Arguments v_md {A}.
Arguments v_lg {A}. Arguments v_xl {A}. Arguments v_2xl {A}.

Definition defined {A} (o : option A) : bool := match o with Some _ => true | None => false end.

(** [handleResize] of [useBreakpointValue]: its [if] chain. *)
Definition breakpoint_select {A} (width : Z) (v : BreakpointValues A) : option A :=
  if (xxl <=? width) && defined (v_2xl v) then v_2xl v
  else if (xl <=? width) && defined (v_xl v) then v_xl v
  else if (lg <=? width) && defined (v_lg v) then v_lg v
  else if (md <=? width) && defined (v_md v) then v_md v
  else if (sm <=? width) && defined (v_sm v) then v_sm v
  else v_base v.

(** The hook's state: [base] on the first render, then what the effect
    set for the width at mount and after each [resize]. *)
Inductive hook_event := Mount (width : Z) | Resize (width : Z).

Definition breakpoint_step {A} (v : BreakpointValues A) (current : option A)
    (e : hook_event) : option A :=
  match e with Mount w | Resize w => breakpoint_select w v end.

Definition useBreakpointValue {A} (v : BreakpointValues A) (evs : list hook_event) : option A :=
  fold_left (breakpoint_step v) evs (v_base v).

(** [useIsMobile(breakpoint)]: [false] until the effect has run, then
    [innerWidth < breakpoint]. *)
Definition isMobile_step (breakpoint : Z) (current : bool) (e : hook_event) : bool :=
  match e with Mount w | Resize w => w <? breakpoint end.

Definition useIsMobile (breakpoint : Z) (evs : list hook_event) : bool :=
  fold_left (isMobile_step breakpoint) evs false.

(** [useResponsiveValue]. *)
Definition useResponsiveValue {A} (desktopValue mobileValue : A) (breakpoint : Z)
    (evs : list hook_event) : A :=
  if useIsMobile breakpoint evs then mobileValue else desktopValue.

(** The reading of the chain: scanning the breakpoints upwards, keep the
    last defined value whose breakpoint the width reaches. *)
Definition breakpoint_ref {A} (width : Z) (v : BreakpointValues A) : option A :=
  fold_left (fun acc (bo : Z * option A) =>
               if (fst bo <=? width) && defined (snd bo) then snd bo else acc)
            [(sm, v_sm v); (md, v_md v); (lg, v_lg v); (xl, v_xl v); (xxl, v_2xl v)]
            (v_base v).

End Responsive.

(** ** PageNavigator.tsx *)

Module Navigator.

Definition host : string := "preview--result-analyzer-pro.lovable.app".

(** [pages]. *)
Definition pages : list (string * string) :=
  [("Index", "/"); ("Login", "/login"); ("Signup", "/signup"); ("Dashboard", "/dashboard")]%string.

(** [isOpen], the path read by the last render, and the browser's
    [location.pathname]. *)
Record NavState := mkNav {
  isOpen : bool;
  rendered_path : string;
  location : string
}.

Definition nav_init (path : string) : NavState := mkNav false path path.

Inductive nav_event :=
| Toggle                    (** the button: [setIsOpen(!isOpen)] *)
| LinkClick (path : string) (** a [Link] of the open menu *)
| ClickOutside              (** [mousedown] outside the dropdown *)
| Navigated (path : string) (** a navigation made by another component *).

(** [setIsOpen(b)]: a new value re-renders the navigator, which reads
    the current location; the same value is a bail-out. *)
Definition set_open (s : NavState) (b : bool) : NavState :=
  if Bool.eqb b (isOpen s) then s else mkNav b (location s) (location s).

Definition nav_step (s : NavState) (e : nav_event) : NavState :=
  match e with
  | Toggle => set_open s (negb (isOpen s))
  | LinkClick p =>
      if isOpen s then set_open (mkNav (isOpen s) (rendered_path s) p) false else s
  | ClickOutside => set_open s false
  | Navigated p => mkNav (isOpen s) (rendered_path s) p
  end.

(** What the bar shows: [displayPath], and the menu entries (name, path,
    check mark) when open. *)
Record NavView := mkNavView {
  nv_displayPath : string;
  nv_menu : option (list (string * string * bool))
}.

Definition nav_view (s : NavState) : NavView :=
  mkNavView (host ++ rendered_path s)%string
    (if isOpen s
     then Some (map (fun pg => (fst pg, snd pg, String.eqb (rendered_path s) (snd pg))) pages)
     else None).

(** [AppWrapper]: the navigator above the routed page, on every page. *)
Definition appWrapper {A} (s : NavState) (page : A) : NavView * A := (nav_view s, page).

End Navigator.

(** ** Index.tsx and NotFound.tsx *)

Module Pages.
Import Responsive.
Local Open Scope string_scope.

Definition heroTitleValues : BreakpointValues string :=
  mkValues (Some "text-4xl") (Some "text-6xl") (Some "text-7xl") (Some "text-8xl") None None.

Definition heroParagraphValues : BreakpointValues string :=
  mkValues (Some "text-lg") None (Some "text-xl") None None None.

(** [features]: title and description of the four cards. *)
Definition features : list (string * string) :=
  [("Comprehensive Analytics",
    "Get detailed insights with grade distributions, pass percentages, and performance metrics.");
   ("Excel Integration",
    "Seamlessly upload and analyze Excel spreadsheets with automatic data processing.");
   ("Performance Tracking",
    "Identify top performers and students who need additional support.");
   ("Personalized Reports",
    "Generate and download custom reports for individual students and classes.")]%string.

Record IndexView := mkIndexView {
  iv_titleClass : string;
  iv_paragraphClass : option string;
  iv_arrowClass : string;
  iv_links : list (string * string);
  iv_features : list (string * string);
  iv_footer : string
}.

(** The home page for the hook events seen so far, the hover state of
    "Get Started" and the current year. *)
Definition index_view (evs : list hook_event) (isHovered : bool) (year : string) : IndexView :=
  mkIndexView
    (match useBreakpointValue heroTitleValues evs with Some c => c | None => "text-6xl" end)
    (useBreakpointValue heroParagraphValues evs)
    (if isHovered then "transform translate-x-1" else "")
    [("/login", "Log in"); ("/signup", "Sign up"); ("/signup", "Get Started");
     ("/signup", "Create Your Account"); ("#", "Privacy"); ("#", "Terms"); ("#", "Contact")]%string
    features
    ("© " ++ year ++ " DataPulse. All rights reserved.")%string.

(** The 404 page: its texts and its one link. *)
Definition notFound_view : list string * (string * string) :=
  (["404"; "Page not found";
    "We couldn't find the page you're looking for. The page might have been moved or doesn't exist."]%string,
   ("/", "Return to Home")%string).

(** CreditsDialog.tsx (exported, rendered by no page): an uncontrolled
    dialog whose trigger opens it and whose close button, [Escape] or an
    outside click closes it. *)
Inductive credits_event := CreditsTrigger | CreditsClose.

Definition credits_step (open : bool) (e : credits_event) : bool :=
  match e with CreditsTrigger => true | CreditsClose => false end.

Definition credits_sections : list (string * list string) :=
  [("PROJECT MENTOR", ["K KAVIARASU (ASSISTANT PROFESSOR, CSE)"]);
   ("PROJECT LEAD", ["K L PERANANDHA (CSE BATCH: 2023-27)"]);
   ("TEAM MEMBERS", ["A SHANMUGESHWARA (CSE BATCH: 2023-27)"; "R P ASHWINI (CSE BATCH: 2023-27)"])].

(** The trigger's label, and the title and sections while open. *)
Definition creditsDialog_view (open : bool) : string * option (string * list (string * list string)) :=
  ("Credits", if open then Some ("Project Credits", credits_sections) else None).

End Pages.

(** * Properties *)

Module ResponsiveFacts.
Import Responsive.

(** The [if] chain of [handleResize] is the "largest defined breakpoint
    reached" reading. *)
Lemma breakpoint_select_ref {A} (width : Z) (v : BreakpointValues A) :
  breakpoint_select width v = breakpoint_ref width v.
Proof.
  destruct v as [b s m l x x2]. unfold breakpoint_select, breakpoint_ref, sm, md, lg, xl, xxl.
  cbn [fold_left fst snd v_base v_sm v_md v_lg v_xl v_2xl].
  destruct (Z.leb_spec 1536 width), (Z.leb_spec 1280 width), (Z.leb_spec 1024 width),
    (Z.leb_spec 768 width), (Z.leb_spec 640 width); try lia;
    destruct s, m, l, x, x2; reflexivity.
Qed.

(** Once the effect has run, the hook holds the value for the last width
    seen. *)
Lemma useBreakpointValue_last {A} (v : BreakpointValues A) (evs : list hook_event) (e : hook_event) :
  useBreakpointValue v (evs ++ [e]) = breakpoint_ref (match e with Mount w | Resize w => w end) v.
Proof.
  unfold useBreakpointValue. rewrite fold_left_app. cbn [fold_left].
  destruct e; apply breakpoint_select_ref.
Qed.

End ResponsiveFacts.

Module NavigatorFacts.
Import Navigator.

(** A navigation made by another component changes the location but not
    what the navigator shows. *)
Lemma navigated_view (s : NavState) (p : string) :
  nav_view (nav_step s (Navigated p)) = nav_view s.
Proof. reflexivity. Qed.

(** Opening or closing the menu re-renders the bar with the location. *)
Lemma toggle_refreshes (s : NavState) :
  rendered_path (nav_step s Toggle) = location s.
Proof. unfold nav_step, set_open. now destruct (isOpen s). Qed.

(** The page navigator is not told of navigations: after the log-in
    page's redirect to the dashboard (or any navigation made by another
    component) the bar still shows the previous path, and its menu would
    mark the previous page, until the user opens or closes the menu,
    whose re-render reads the new location. *)
Theorem navigator_shows_stale_path (s : NavState) (p : string) :
  nav_view (nav_step s (Navigated p)) = nav_view s
  /\ nv_displayPath (nav_view (nav_step (nav_step s (Navigated p)) Toggle)) = (host ++ p)%string.
Proof. split; [apply navigated_view | cbn [nav_view nv_displayPath]; now rewrite toggle_refreshes]. Qed.

(** From the log-in page: the dashboard is shown as [/login]. *)
Example navigator_after_login :
  nv_displayPath (nav_view (nav_step (nav_init "/login") (Navigated "/dashboard")))
  = "preview--result-analyzer-pro.lovable.app/login"%string.
Proof. reflexivity. Qed.

End NavigatorFacts.
