(* ===== verification/AccountPages.v ===== *)
(** * The account pages as the user sees them
    (src/src/pages/Login.tsx, src/src/pages/Signup.tsx,
     src/src/components/ui/ProfileButton.tsx,
     src/src/components/ui/ProfileDialog.tsx)

    Accounts.v holds what the pages do with the stored accounts.  This
    file adds the rest of their state and what they render:

    - the frame both pages share ([Module AuthFrame]: the logo, "Back to
      home", the form's class from [useBreakpointValue] of UiShell.v, the
      heading and the form fields), filled by [login_frame] and
      [signup_frame];
    - the log-in page as a state machine ([login_step]: the eye button,
      a submission through the form schema and [handleLogin], the 1.5 s
      redirect) and its view ([login_view]);
    - the sign-up page's own display state ([SignupUi]: the two eye
      buttons and the [password] copy fed by [handlePasswordChange]) and
      its view ([signup_view]: field types, the live password checklist,
      the submit button, the robot dialog) and the robot dialog's two
      handlers ([robot_step]), which the theorems show can never fire;
    - the profile button and dialog ([profile_step]): the dialog reads the
      current user's account in an effect that runs when [isOpen]
      changes, and [Log Out] removes [currentUser].

    [zod]'s e-mail check is a parameter, as in Accounts.v. *)

From Stdlib Require Import Bool ZArith String List Ascii Lia.
From S2P Require Import Prelude Accounts UiShell.
Import ListNotations.
Local Open Scope string_scope.

(** The two icons of the show/hide buttons. *)
Inductive eye_icon := Eye | EyeOff.

(** ** What the two account pages share: the logo, the "Back to home"
    link, the responsive width of the form and its fields *)

Module AuthFrame.
Import Responsive.

(** [useBreakpointValue({ base: "w-full", sm: "max-w-md", md: "max-w-lg" })]. *)
Definition formWidthValues : BreakpointValues string :=
  mkValues (Some "w-full") (Some "max-w-md") (Some "max-w-lg") None None None.

(** [`${formWidth || 'w-full max-w-md'}`]. *)
Definition formClass (evs : list hook_event) : string :=
  match useBreakpointValue formWidthValues evs with
  | Some c => if c ==? "" then "w-full max-w-md" else c
  | None => "w-full max-w-md"
  end.

(** A [FormField]: its name, label, the input's [type] ([None]: no
    [type], a text input) and placeholder. *)
Record FieldView := mkField {
  fd_name : string;
  fd_label : string;
  fd_type : option string;
  fd_placeholder : string
}.

Record FrameView := mkFrame {
  fr_logo : string * string;
  fr_back : string * string;
  fr_formClass : string;
  fr_heading : string;
  fr_subtitle : string;
  fr_fields : list FieldView;
  fr_footer : string * (string * string)
}.

(** The college logo: [src] and [alt]. *)
Definition logo : string * string :=
  ("/lovable-uploads/c8d5fc43-569a-4b7e-9366-09b681f0e06f.png",
   "K.S. Rangasamy College of Technology").

Definition frame (evs : list hook_event) (heading subtitle : string) (fields : list FieldView)
    (footer : string * (string * string)) : FrameView :=
  mkFrame logo ("/", "Back to home") (formClass evs) heading subtitle fields footer.

End AuthFrame.

(** ** The log-in page *)

Module LoginPage.

Record LoginPage := mkLoginPage {
  lp_storage : Storage;
  lp_showPassword : bool;
  lp_isLoading : bool;
  lp_redirect_pending : bool;
  lp_path : string
}.

Definition login_init (st : Storage) : LoginPage := mkLoginPage st false false false "/login".

Inductive login_event :=
| TogglePassword
| LoginSubmit (v : LoginFormValues)
| RedirectFired.

Section Login.
Variable email_ok : string -> bool.

(** [loginSchema]. *)
Definition loginSchema_ok (v : LoginFormValues) : bool :=
  email_ok (l_email v) && (8 <=? String.length (l_password v))%nat.

(** [form.handleSubmit(handleLogin)]: nothing while the button is
    disabled or the values fail the schema; [handleLogin] has no [await],
    so [setIsLoading(true)] and the [finally]'s [setIsLoading(false)] fall
    in one batch and the page is never seen loading.  A match sets
    [currentUser] and schedules the redirect; a miss only raises a
    toast. *)
Definition login_submit (s : LoginPage) (v : LoginFormValues) : LoginPage :=
  if lp_isLoading s || negb (loginSchema_ok v) then s
  else match handleLogin (lp_storage s) v with
       | (st', Some _) => mkLoginPage st' (lp_showPassword s) false true (lp_path s)
       | (_, None) => s
       end.

Definition login_step (s : LoginPage) (e : login_event) : LoginPage :=
  match e with
  | TogglePassword =>
      mkLoginPage (lp_storage s) (negb (lp_showPassword s)) (lp_isLoading s)
        (lp_redirect_pending s) (lp_path s)
  | LoginSubmit v => login_submit s v
  | RedirectFired =>
      if lp_redirect_pending s
      then mkLoginPage (lp_storage s) (lp_showPassword s) (lp_isLoading s) false "/dashboard"
      else s
  end.

End Login.

Record LoginView := mkLoginView {
  lv_passwordType : string;
  lv_eyeIcon : eye_icon;
  lv_button : string;
  lv_button_disabled : bool
}.

(** The password input and its button, and the submit button. *)
Definition login_view (s : LoginPage) : LoginView :=
  mkLoginView (if lp_showPassword s then "password" else "text")
    (if lp_showPassword s then EyeOff else Eye)
    (if lp_isLoading s then "Logging in..." else "Log in")
    (lp_isLoading s).

Import AuthFrame.

(** [defaultValues] of the form. *)
Definition login_defaultValues : LoginFormValues := mkLoginValues "" "".

Definition login_fields (s : LoginPage) : list FieldView :=
  [mkField "email" "Email" (Some "email") "your.email@example.com";
   mkField "password" "Password" (Some (lv_passwordType (login_view s))) "••••••••"].

(** The page around the form, for the width events seen so far. *)
Definition login_frame (evs : list Responsive.hook_event) (s : LoginPage) : FrameView :=
  frame evs "Login to your account" "Enter your details to access the dashboard"
    (login_fields s) ("Don't have an account? ", ("/signup", "Sign up")).

End LoginPage.

(** ** The sign-up page's display *)

Module SignupPage.

Record SignupUi := mkSignupUi {
  su_showPassword : bool;
  su_showConfirmPassword : bool;
  su_password : string
}.

Definition signup_ui_init : SignupUi := mkSignupUi false false "".

Inductive signup_ui_event :=
| PasswordChange (p : string)  (** [handlePasswordChange] *)
| ToggleShowPassword
| ToggleShowConfirmPassword.

Definition signup_ui_step (u : SignupUi) (e : signup_ui_event) : SignupUi :=
  match e with
  | PasswordChange p => mkSignupUi (su_showPassword u) (su_showConfirmPassword u) p
  | ToggleShowPassword =>
      mkSignupUi (negb (su_showPassword u)) (su_showConfirmPassword u) (su_password u)
  | ToggleShowConfirmPassword =>
      mkSignupUi (su_showPassword u) (negb (su_showConfirmPassword u)) (su_password u)
  end.

(** [hasMinLength] ... [hasSpecialChar] with the text of their lines. *)
Definition password_checklist (p : string) : list (string * bool) :=
  [("At least 8 characters", (8 <=? String.length p)%nat);
   ("At least one uppercase letter", has_char is_upper p);
   ("At least one lowercase letter", has_char is_lower p);
   ("At least one number", has_char is_digit p);
   ("At least one special character",
    has_char (fun c => negb (is_upper c || is_lower c || is_digit c)) p)].

Record SignupView := mkSignupView {
  sv_passwordType : string;
  sv_passwordIcon : eye_icon;
  sv_confirmType : string;
  sv_confirmIcon : eye_icon;
  sv_checklist : list (string * bool);
  sv_button : string;
  sv_button_disabled : bool;
  sv_robotDialog : bool
}.

Definition signup_view (u : SignupUi) (s : SignupState) : SignupView :=
  mkSignupView
    (if su_showPassword u then "text" else "password")
    (if su_showPassword u then EyeOff else Eye)
    (if su_showConfirmPassword u then "text" else "password")
    (if su_showConfirmPassword u then EyeOff else Eye)
    (password_checklist (su_password u))
    (if isLoading s then "Creating account..." else "Create account")
    (isLoading s)
    (showRobotCheck s).

Import AuthFrame.

(** The [useState] initial values of the page, on the given storage. *)
Definition signup_init (st : Storage) : SignupState := mkSignup st false [] false false None false.

(** [defaultValues] of the form. *)
Definition signup_defaultValues : SignupFormValues := mkSignupValues "" "" "" "" "" "" "" "" false.

Definition signup_fields (u : SignupUi) : list FieldView :=
  [mkField "name" "Full Name" None "John Doe";
   mkField "email" "Email" (Some "email") "your.email@example.com";
   mkField "staffId" "Staff ID" None "ST12345";
   mkField "phoneNumber" "Phone Number" (Some "tel") "+1 (555) 123-4567";
   mkField "department" "Department" None "Computer Science";
   mkField "designation" "Designation" None "Assistant Professor";
   mkField "password" "Password" (Some (if su_showPassword u then "text" else "password")) "••••••••";
   mkField "confirmPassword" "Confirm Password"
     (Some (if su_showConfirmPassword u then "text" else "password")) "••••••••";
   mkField "robotCheck" "I am not a robot" (Some "checkbox") ""].

Definition signup_frame (evs : list Responsive.hook_event) (u : SignupUi) : FrameView :=
  frame evs "Create your account" "Enter your details to get started"
    (signup_fields u) ("Already have an account? ", ("/login", "Log in")).

(** The robot dialog's two handlers: "I am not a robot"
    ([form.setValue('robotCheck', true)], [setShowRobotCheck(false)],
    [form.handleSubmit(onSubmit)()]) and [onOpenChange]; the dialog, and
    so both, are on screen only while [showRobotCheck] holds. *)
Inductive robot_event :=
| NotARobot (v : SignupFormValues)
| RobotOpenChange (b : bool).

Definition with_robotCheck (v : SignupFormValues) : SignupFormValues :=
  mkSignupValues (f_name v) (f_email v) (f_staffId v) (f_phoneNumber v) (f_department v)
    (f_designation v) (f_password v) (f_confirmPassword v) true.

Definition set_showRobotCheck (s : SignupState) (b : bool) : SignupState :=
  mkSignup (storage s) (mounted s) (existingUsers s) (isLoading s) b (inflight s)
    (redirect_pending s).

Definition robot_step (email_ok : string -> bool) (s : SignupState) (e : robot_event)
  : SignupState :=
  if showRobotCheck s then
    match e with
    | NotARobot v => onSubmit email_ok (set_showRobotCheck s false) (with_robotCheck v)
    | RobotOpenChange b => set_showRobotCheck s b
    end
  else s.

End SignupPage.

(** ** The profile button and dialog *)

Module Profile.

(** [showProfile] of the button, [userData] of the dialog. *)
Record ProfileState := mkProfile {
  showProfile : bool;
  userData : option Account
}.

(** The dialog's effect: the current user's account when there is one,
    else [userData] unchanged. *)
Definition load_user (st : Storage) (s : ProfileState) : option Account :=
  match profile_user st with
  | Some u => Some u
  | None => userData s
  end.

(** Mounting runs the effect once. *)
Definition profile_mount (st : Storage) : ProfileState :=
  mkProfile false (load_user st (mkProfile false None)).

Inductive profile_event := OpenProfile | CloseProfile | LogOut.

(** [setShowProfile(b)] and the effect it triggers when [isOpen]
    changes. *)
Definition set_show (st : Storage) (s : ProfileState) (b : bool) : ProfileState :=
  if Bool.eqb b (showProfile s) then s else mkProfile b (load_user st s).

(** A step returns the storage, the new state and the path navigated to.
    [Log Out] is only on screen while the dialog is open with an
    account. *)
Definition profile_step (st : Storage) (s : ProfileState) (e : profile_event)
  : Storage * ProfileState * option string :=
  match e with
  | OpenProfile => (st, set_show st s true, None)
  | CloseProfile => (st, set_show st s false, None)
  | LogOut =>
      match userData s with
      | Some _ =>
          if showProfile s then
            let st' := handleLogout st in (st', set_show st' s false, Some "/login")
          else (st, s, None)
      | None => (st, s, None)
      end
  end.

(** The open dialog: the initial of the name and the six lines. *)
Definition profile_view (s : ProfileState) : option (string * list (string * string)) :=
  match userData s with
  | Some u =>
      if showProfile s then
        Some (substring 0 1 (acc_name u),
              [("Name:", acc_name u); ("Email:", acc_email u); ("Staff ID:", acc_staffId u);
               ("Department:", acc_department u); ("Designation:", acc_designation u);
               ("College:", "K. S. Rangasamy College of Technology")])
      else None
  | None => None
  end.

(** The dialog's footer: its two buttons and the events they send. *)
Definition profile_buttons : list (string * profile_event) :=
  [("Close", CloseProfile); ("Log Out", LogOut)].

End Profile.

(** * Properties *)

Module PageFacts.
Import LoginPage SignupPage Profile.

Definition stored_users (st : Storage) : list Account :=
  match registeredUsers st with Some us => us | None => [] end.

(** The checklist under the password field is green on every line
    exactly when the password passes the schema's rules. *)
Lemma checklist_password_ok (p : string) :
  forallb snd (password_checklist p) = password_ok p.
Proof. unfold password_checklist, password_ok. cbn [forallb snd]. now rewrite !andb_assoc, andb_true_r. Qed.

(** The log-in page is never seen loading: its button always reads
    "Log in". *)
Lemma login_step_not_loading (email_ok : string -> bool) (s : LoginPage) (e : login_event) :
  lp_isLoading s = false -> lp_isLoading (login_step email_ok s e) = false.
Proof.
  intros H. destruct e as [|v|]; cbn [login_step]; [exact H| |now destruct (lp_redirect_pending s)].
  unfold login_submit. rewrite H. destruct (negb _); [exact H|].
  now destruct (handleLogin _ _) as [? []].
Qed.

Lemma handleLogin_users (st : Storage) (v : LoginFormValues) :
  registeredUsers (fst (handleLogin st v)) = registeredUsers st.
Proof. unfold handleLogin. now destruct (find _ _). Qed.

(** The log-in page never changes the stored accounts. *)
Lemma login_step_users (email_ok : string -> bool) (s : LoginPage) (e : login_event) :
  registeredUsers (lp_storage (login_step email_ok s e)) = registeredUsers (lp_storage s).
Proof.
  destruct e as [|v|]; cbn [login_step]; [reflexivity| |now destruct (lp_redirect_pending s)].
  unfold login_submit. destruct (_ || _); [reflexivity|].
  pose proof (handleLogin_users (lp_storage s) v) as Hu.
  destruct (handleLogin _ _) as [st' []]; [exact Hu | reflexivity].
Qed.

(** What the log-in page keeps true after the events [evs]: a scheduled
    or completed redirect comes with [currentUser] holding the e-mail of
    a submission of [evs] whose e-mail and password are those of a stored
    account. *)
Definition login_inv (evs : list login_event) (s : LoginPage) : Prop :=
  lp_redirect_pending s = true \/ lp_path s = "/dashboard" ->
  exists v u, In (LoginSubmit v) evs /\ In u (stored_users (lp_storage s))
    /\ acc_email u = l_email v /\ acc_password u = l_password v
    /\ currentUser (lp_storage s) = Some (l_email v).

Lemma login_inv_step (email_ok : string -> bool) (evs : list login_event) (s : LoginPage)
    (e : login_event) :
  login_inv evs s -> login_inv (evs ++ [e]) (login_step email_ok s e).
Proof.
  unfold login_inv. intros Hs.
  assert (Hold : (exists v u, In (LoginSubmit v) evs /\ In u (stored_users (lp_storage s))
                   /\ acc_email u = l_email v /\ acc_password u = l_password v
                   /\ currentUser (lp_storage s) = Some (l_email v)) ->
                 exists v u, In (LoginSubmit v) (evs ++ [e]) /\ In u (stored_users (lp_storage s))
                   /\ acc_email u = l_email v /\ acc_password u = l_password v
                   /\ currentUser (lp_storage s) = Some (l_email v)).
  { intros (v & u & Hv & Hrest). exists v, u. split; [apply in_or_app; now left | exact Hrest]. }
  destruct e as [|v|]; cbn [login_step].
  - intros H. apply Hold, Hs, H.
  - unfold login_submit. destruct (_ || _); [intros H; apply Hold, Hs, H|].
    pose proof (handleLogin_spec (lp_storage s) v) as Hl.
    pose proof (handleLogin_users (lp_storage s) v) as Hu.
    destruct (handleLogin (lp_storage s) v) as [st' [u|]]; [|intros H; apply Hold, Hs, H].
    cbn [fst snd] in Hl, Hu. destruct Hl as (Hin & He & Hp & Hc). intros _. exists v, u.
    unfold stored_users. cbn [lp_storage]. rewrite Hu.
    split; [apply in_or_app; right; now left|]. repeat split; assumption.
  - destruct (lp_redirect_pending s) eqn:R; [intros _; apply Hold, Hs; now left|].
    rewrite R. intros H. apply Hold, Hs, H.
Qed.

Lemma login_inv_fold (email_ok : string -> bool) (evs pre : list login_event) (s : LoginPage) :
  login_inv pre s -> login_inv (pre ++ evs) (fold_left (login_step email_ok) evs s).
Proof.
  revert pre s. induction evs as [|e evs IH]; intros pre s H; cbn [fold_left].
  - now rewrite app_nil_r.
  - replace (pre ++ e :: evs)%list with ((pre ++ [e]) ++ evs)%list by now rewrite <- app_assoc.
    apply IH, login_inv_step, H.
Qed.

(** C27 (safety): the log-in page schedules or performs its redirect to
    the dashboard only after a submission of the run whose e-mail and
    password both match an account of [registeredUsers], and with that
    e-mail stored as [currentUser]: along any run of eye clicks,
    submissions and timers from the page's first render. *)
Theorem login_redirect_authenticated (email_ok : string -> bool) (st : Storage)
    (evs : list login_event) :
  let s := fold_left (login_step email_ok) evs (login_init st) in
  lp_redirect_pending s = true \/ lp_path s = "/dashboard" ->
  exists v u, In (LoginSubmit v) evs /\ In u (stored_users (lp_storage s))
    /\ acc_email u = l_email v /\ acc_password u = l_password v
    /\ currentUser (lp_storage s) = Some (l_email v).
Proof.
  cbv zeta. apply (login_inv_fold email_ok evs []). intros [H|H]; discriminate.
Qed.
Definition demo_account : Account :=
  mkAccount "Asha" "asha@ksrct.ac.in" "S101" "9876543210" "CSE" "AP" "Passw0rd!".

Lemma login_redirect_authenticated_witness :
  let st := mkStorage (Some [demo_account]) None in
  let evs := [TogglePassword; LoginSubmit (mkLoginValues "asha@ksrct.ac.in" "Passw0rd!");
              RedirectFired] in
  lp_path (fold_left (login_step (fun _ => true)) evs (login_init st)) = "/dashboard"
  /\ exists v u, In (LoginSubmit v) evs
     /\ In u (stored_users (lp_storage (fold_left (login_step (fun _ => true)) evs (login_init st))))
     /\ acc_email u = l_email v /\ acc_password u = l_password v
     /\ currentUser (lp_storage (fold_left (login_step (fun _ => true)) evs (login_init st)))
        = Some (l_email v).
Proof.
  intros st evs. assert (H : lp_path (fold_left (login_step (fun _ => true)) evs (login_init st))
                             = "/dashboard") by reflexivity.
  split; [exact H|]. apply login_redirect_authenticated. now right.
Defined.

(** Code bug: the log-in page's password input has [type={showPassword ?
    "password" : "text"}], the reverse of the sign-up page's.  The page
    opens with the password in plain text, and in every state the field
    shows the password exactly when its button offers to show it (the
    [Eye] icon); on the sign-up page it is shown exactly when the button
    offers to hide it. *)
Theorem login_password_visibility_inverted (st : Storage) (s : LoginPage)
    (u : SignupUi) (t : SignupState) :
  lv_passwordType (login_view (login_init st)) = "text"
  /\ (lv_passwordType (login_view s) = "text" <-> lv_eyeIcon (login_view s) = Eye)
  /\ sv_passwordType (signup_view signup_ui_init t) = "password"
  /\ (sv_passwordType (signup_view u t) = "text" <-> sv_passwordIcon (signup_view u t) = EyeOff).
Proof.
  cbn [login_view signup_view lv_passwordType lv_eyeIcon sv_passwordType sv_passwordIcon login_init
       signup_ui_init lp_showPassword su_showPassword].
  split; [reflexivity|]. split; [destruct (lp_showPassword s); split; intros H; first [reflexivity|discriminate]|].
  split; [reflexivity|]. destruct (su_showPassword u); split; intros H; first [reflexivity|discriminate].
Qed.

(** ** The robot dialog *)

(** [onSubmit] opens the robot dialog only for values without the box
    checked, which the schema has already rejected. *)
Lemma onSubmit_robot_closed (email_ok : string -> bool) (s : SignupState) (v : SignupFormValues) :
  showRobotCheck s = false -> showRobotCheck (onSubmit email_ok s v) = false.
Proof.
  intros H. unfold onSubmit. destruct (negb (signupSchema_ok email_ok v)) eqn:S; [exact H|].
  destruct (_ || _); [exact H|]. destruct (f_robotCheck v) eqn:R; cbn; [exact H|].
  unfold signupSchema_ok in S. rewrite R, andb_false_r in S. discriminate S.
Qed.

Lemma signup_step_robot_closed (email_ok : string -> bool) (s : SignupState) (e : signup_event) :
  showRobotCheck s = false -> showRobotCheck (signup_step email_ok s e) = false.
Proof.
  intros H. destruct e; cbn [signup_step].
  - destruct (mounted s); [exact H|]. unfold signup_mount. now destruct (registeredUsers _).
  - destruct (_ && _); [now apply onSubmit_robot_closed|exact H].
  - unfold submit_settled. now destruct (inflight s).
  - now destruct (redirect_pending s).
Qed.

(** The robot dialog is dead code: along any run of the sign-up page it
    stays closed, so neither "I am not a robot" nor [onOpenChange] can
    fire. *)
Theorem robot_dialog_never_opens (email_ok : string -> bool) (st : Storage)
    (evs : list signup_event) (u : SignupUi) (e : robot_event) :
  let s := fold_left (signup_step email_ok) evs (signup_init st) in
  sv_robotDialog (signup_view u s) = false /\ robot_step email_ok s e = s.
Proof.
  cbv zeta.
  assert (H : showRobotCheck (fold_left (signup_step email_ok) evs (signup_init st)) = false).
  { apply (fold_left_invariant (fun s => showRobotCheck s = false)); [|reflexivity].
    intros s' e' _. apply signup_step_robot_closed. }
  unfold robot_step. cbn [signup_view sv_robotDialog]. now rewrite H.
Qed.

(** ** The frame of the account pages *)

(** [formWidth] always has a value ([base] is given), so the fallback
    ['w-full max-w-md'] of the class is never used: the form is
    [w-full] until the width is known, then one of the three widths. *)
Lemma formClass_values (evs : list Responsive.hook_event) :
  AuthFrame.formClass evs = "w-full"
  \/ AuthFrame.formClass evs = "max-w-md" \/ AuthFrame.formClass evs = "max-w-lg".
Proof.
  unfold AuthFrame.formClass. destruct evs as [|e evs] using rev_ind; [now left|].
  rewrite ResponsiveFacts.useBreakpointValue_last, <- ResponsiveFacts.breakpoint_select_ref.
  unfold Responsive.breakpoint_select. cbn [AuthFrame.formWidthValues Responsive.v_2xl
    Responsive.v_xl Responsive.v_lg Responsive.v_md Responsive.v_sm Responsive.v_base
    Responsive.defined].
  rewrite !andb_false_r.
  destruct (_ <=? _)%Z; [now right; right|]. destruct (_ <=? _)%Z; [now right; left|now left].
Qed.

End PageFacts.
