(* ===== verification/JsText.v ===== *)
(** * Numbers and strings as the report generators print them

    The report generators turn numbers into text with
    [Number.prototype.toFixed] and the CSV generator hands its text to the
    browser as a [data:] URL built with [encodeURI].  This file models,
    from the ECMAScript, URL and Fetch specifications:

    - [toFixed f x] (ECMAScript 21.1.3.3): the integer [n] closest to
      [|x| * 10^f] on the exact binary value of [x], the larger on a tie,
      printed with [f] decimals; [NaN] and the infinities print their
      names; for [|x| >= 10^21] the text of [Number::toString]
      ([number_to_string], NumberToString.v);
    - [encodeURI] (ECMAScript 19.2.6.4) on code units below 256: the
      characters outside the URI reserved and unescaped sets become the
      percent-escaped bytes of their UTF-8 encoding;
    - [data_url_bytes]: what the browser saves for a [data:] URL (Fetch,
      data: URL processor): the URL loses its fragment (from the first
      [#]), the body after the first [,] is percent-decoded into bytes. *)

From Stdlib Require Import Bool ZArith NArith Ascii String List Floats Lia.
From S2P Require Import Prelude JsNumber NumberToString.
Import ListNotations.
Local Open Scope string_scope.
Local Open Scope Z_scope.

(** ** [toFixed] *)

(** [n / 10^f] printed with [f] decimals (steps 10.b-c of [toFixed]). *)
Definition fixed_text (f : nat) (n : Z) : string :=
  let m := Z_text n in
  match f with
  | O => m
  | _ =>
      let m' := if (String.length m <=? f)%nat
                then zeros (f + 1 - String.length m) ++ m else m in
      let k := String.length m' in
      substring 0 (k - f) m' ++ "." ++ substring (k - f) f m'
  end.

(** The integer closest to [m * 2^e * scale], the larger on a tie. *)
Definition fixed_of_binary (scale : Z) (m : positive) (e : Z) : Z :=
  if 0 <=? e then Z.pos m * 2 ^ e * scale
  else let d := 2 ^ (- e) in (2 * (Z.pos m * scale) + d) / (2 * d).

(** ** [toFixed] *)

Definition toFixed (f : nat) (x : float) : string :=
  match Prim2SF x with
  | S754_nan => "NaN"
  | S754_infinity false => "Infinity"
  | S754_infinity true => "-Infinity"
  | S754_zero _ => fixed_text f 0
  | S754_finite s m e =>
      (if s then "-" else "")
      ++ (if (1e21 <=? abs x)%float then number_to_string (abs x)
          else fixed_text f (fixed_of_binary (10 ^ Z.of_nat f) m e))
  end.

(** ** [encodeURI] *)

Fixpoint mem_char (c : ascii) (s : string) : bool :=
  match s with
  | EmptyString => false
  | String d t => Ascii.eqb c d || mem_char c t
  end.

(** The uriReserved, uriUnescaped and [#] characters, which [encodeURI]
    keeps. *)
Definition uri_unescaped (c : ascii) : bool :=
  let n := nat_of_ascii c in
  ((48 <=? n) && (n <=? 57))%nat || ((65 <=? n) && (n <=? 90))%nat
  || ((97 <=? n) && (n <=? 122))%nat || mem_char c ";/?:@&=+$,-_.!~*'()#".

Definition hex_char (d : nat) : ascii :=
  ascii_of_nat (if (d <? 10)%nat then 48 + d else 55 + d)%nat.

(** [%XX] for one byte, upper-case hexadecimal. *)
Definition percent_byte (b : nat) : string :=
  String "%" (String (hex_char (b / 16)) (String (hex_char (b mod 16)) EmptyString)).

(** The UTF-8 bytes of a code unit below 256. *)
Definition utf8_bytes (c : ascii) : list nat :=
  let n := nat_of_ascii c in
  if (n <? 128)%nat then [n] else [192 + n / 64; 128 + n mod 64]%nat.

Fixpoint percent_all (bs : list nat) : string :=
  match bs with [] => EmptyString | b :: t => percent_byte b ++ percent_all t end.

Fixpoint encodeURI (s : string) : string :=
  match s with
  | EmptyString => EmptyString
  | String c t =>
      (if uri_unescaped c then String c EmptyString else percent_all (utf8_bytes c))
      ++ encodeURI t
  end.

(** The UTF-8 encoding of a string of code units below 256. *)
Fixpoint utf8_encode (s : string) : list nat :=
  match s with
  | EmptyString => []
  | String c t => (utf8_bytes c ++ utf8_encode t)%list
  end.

(** ** What the browser saves for a [data:] URL *)

(** The URL without its fragment. *)
Fixpoint before_hash (s : string) : string :=
  match s with
  | EmptyString => EmptyString
  | String c t => if Ascii.eqb c "#" then EmptyString else String c (before_hash t)
  end.

(** The text after the first comma (the body of a [data:] URL). *)
Fixpoint after_comma (s : string) : option string :=
  match s with
  | EmptyString => None
  | String c t => if Ascii.eqb c "," then Some t else after_comma t
  end.

Definition hex_value (c : ascii) : option nat :=
  let n := nat_of_ascii c in
  if ((48 <=? n) && (n <=? 57))%nat then Some (n - 48)%nat
  else if ((65 <=? n) && (n <=? 70))%nat then Some (n - 55)%nat
  else if ((97 <=? n) && (n <=? 102))%nat then Some (n - 87)%nat
  else None.

(** Percent-decoding (URL standard): [%XX] with two hexadecimal digits is
    the byte [XX], every other character its own code. *)
Fixpoint percent_decode (s : string) : list nat :=
  match s with
  | EmptyString => []
  | String c t =>
      if Ascii.eqb c "%" then
        match t with
        | String h1 (String h2 t') =>
            match hex_value h1, hex_value h2 with
            | Some a, Some b => (16 * a + b)%nat :: percent_decode t'
            | _, _ => nat_of_ascii c :: percent_decode t
            end
        | _ => nat_of_ascii c :: percent_decode t
        end
      else nat_of_ascii c :: percent_decode t
  end.

(** The bytes of the file a [data:] URL downloads. *)
Definition data_url_bytes (url : string) : option (list nat) :=
  option_map percent_decode (after_comma (before_hash url)).

(** ** Lemmas: [encodeURI] and percent-decoding are inverse *)

Lemma encodeURI_app (a b : string) : encodeURI (a ++ b) = encodeURI a ++ encodeURI b.
Proof. induction a as [|c t IH]; simpl; [reflexivity|]. now rewrite IH, string_app_assoc. Qed.

Lemma hex_value_hex_char (d : nat) : (d < 16)%nat -> hex_value (hex_char d) = Some d.
Proof. intros H. do 16 (destruct d as [|d]; [reflexivity|]). lia. Qed.

Lemma percent_decode_byte (b : nat) (t : string) :
  (b < 256)%nat -> percent_decode (percent_byte b ++ t) = b :: percent_decode t.
Proof.
  intros Hb. unfold percent_byte. cbn [append percent_decode]. rewrite Ascii.eqb_refl.
  rewrite !hex_value_hex_char by (apply Nat.mod_upper_bound || apply Nat.Div0.div_lt_upper_bound; lia).
  f_equal. pose proof (Nat.div_mod_eq b 16). lia.
Qed.

Lemma percent_decode_all (bs : list nat) (t : string) :
  Forall (fun b => b < 256)%nat bs ->
  percent_decode (percent_all bs ++ t) = (bs ++ percent_decode t)%list.
Proof.
  induction 1 as [|b bs Hb _ IH]; [reflexivity|]. cbn [percent_all].
  rewrite <- string_app_assoc, percent_decode_byte by exact Hb. now rewrite IH.
Qed.

Lemma utf8_bytes_lt (c : ascii) : Forall (fun b => b < 256)%nat (utf8_bytes c).
Proof.
  pose proof (nat_ascii_bounded c). unfold utf8_bytes.
  destruct (nat_of_ascii c <? 128)%nat; (apply Forall_cons; [|try apply Forall_cons]);
    try apply Forall_nil; try lia.
  - assert (nat_of_ascii c / 64 < 4)%nat by (apply Nat.Div0.div_lt_upper_bound; lia). lia.
  - pose proof (Nat.mod_upper_bound (nat_of_ascii c) 64). lia.
Qed.

(** The characters [encodeURI] keeps are ASCII and are not [%]. *)
Lemma uri_unescaped_ascii (c : ascii) :
  uri_unescaped c = true -> (nat_of_ascii c < 128)%nat /\ c <> "%"%char.
Proof.
  unfold uri_unescaped. intros H.
  apply orb_true_iff in H as [H|H]; [apply orb_true_iff in H as [H|H];
    [apply orb_true_iff in H as [H|H]|]|].
  1-3: rewrite andb_true_iff, !Nat.leb_le in H; split; [lia|]; intros ->; cbn in H; lia.
  - cbn [mem_char] in H.
    repeat (apply orb_true_iff in H; destruct H as [H|H];
            [apply Ascii.eqb_eq in H; subst c; split; [cbn; lia | discriminate]|]).
    discriminate.
Qed.

Lemma percent_decode_encodeURI (s : string) : percent_decode (encodeURI s) = utf8_encode s.
Proof.
  induction s as [|c t IH]; [reflexivity|]. cbn [encodeURI utf8_encode].
  destruct (uri_unescaped c) eqn:U.
  - destruct (uri_unescaped_ascii c U) as [Hlt Hp]. cbn [append percent_decode].
    rewrite (proj2 (Ascii.eqb_neq c "%") Hp), IH. unfold utf8_bytes.
    apply Nat.ltb_lt in Hlt. now rewrite Hlt.
  - rewrite percent_decode_all by apply utf8_bytes_lt. now rewrite IH.
Qed.

Lemma mem_char_app (c : ascii) (a b : string) :
  mem_char c (a ++ b) = mem_char c a || mem_char c b.
Proof. induction a as [|d t IH]; [reflexivity|]. cbn. now rewrite IH, orb_assoc. Qed.

(** A string whose characters [encodeURI] keeps is its own encoding. *)
Lemma encodeURI_kept (s : string) :
  (forall c, In c (list_ascii_of_string s) -> uri_unescaped c = true) -> encodeURI s = s.
Proof.
  induction s as [|c t IH]; intros H; [reflexivity|]. cbn.
  rewrite (H c (or_introl eq_refl)), IH; [reflexivity|]. intros d Hd. apply H. now right.
Qed.

Lemma hex_char_not_hash (d : nat) : (d < 16)%nat -> Ascii.eqb "#" (hex_char d) = false.
Proof. intros H. do 16 (destruct d as [|d]; [reflexivity|]). lia. Qed.

Lemma percent_all_no_hash (bs : list nat) :
  Forall (fun b => b < 256)%nat bs -> mem_char "#" (percent_all bs) = false.
Proof.
  induction 1 as [|b t Hb _ IH]; [reflexivity|]. cbn [percent_all]. rewrite mem_char_app, IH.
  cbn [percent_byte mem_char]. rewrite !hex_char_not_hash; [reflexivity| |].
  - apply Nat.mod_upper_bound. lia.
  - apply Nat.Div0.div_lt_upper_bound. lia.
Qed.

Lemma encodeURI_no_hash (s : string) :
  mem_char "#" s = false -> mem_char "#" (encodeURI s) = false.
Proof.
  induction s as [|c t IH]; intros H; [reflexivity|]. cbn [mem_char] in H.
  apply orb_false_iff in H as [Hc Ht]. cbn [encodeURI]. rewrite mem_char_app, IH by exact Ht.
  destruct (uri_unescaped c); [cbn [mem_char append]; now rewrite Hc|].
  now rewrite percent_all_no_hash by apply utf8_bytes_lt.
Qed.

Lemma before_hash_id (s : string) : mem_char "#" s = false -> before_hash s = s.
Proof.
  induction s as [|c t IH]; intros H; [reflexivity|]. cbn [mem_char] in H.
  apply orb_false_iff in H as [Hc Ht]. cbn [before_hash].
  rewrite (Ascii.eqb_sym c "#"), Hc, IH by exact Ht. reflexivity.
Qed.

Lemma after_comma_app (head rest : string) :
  mem_char "," head = false -> after_comma (head ++ String "," rest) = Some rest.
Proof.
  induction head as [|c t IH]; intros H; [reflexivity|]. cbn [mem_char] in H.
  apply orb_false_iff in H as [Hc Ht]. cbn [append after_comma].
  rewrite (Ascii.eqb_sym c ","), Hc. now apply IH.
Qed.

(** The bytes downloaded from [encodeURI(head + "," + text)], where [head]
    is a [data:] scheme and media type without comma or [#], are the UTF-8
    bytes of [text] when [text] has no [#]. *)
Lemma data_url_encodeURI (head text : string) :
  mem_char "," head = false -> mem_char "#" head = false ->
  (forall c, In c (list_ascii_of_string head) -> uri_unescaped c = true) ->
  mem_char "#" text = false ->
  data_url_bytes (encodeURI (head ++ String "," text)) = Some (utf8_encode text).
Proof.
  intros Hc Hh Hu Ht. unfold data_url_bytes.
  rewrite encodeURI_app, (encodeURI_kept head Hu). cbn [encodeURI].
  replace (uri_unescaped ",") with true by reflexivity. cbn [append].
  rewrite before_hash_id.
  - rewrite after_comma_app by exact Hc. cbn [option_map]. now rewrite percent_decode_encodeURI.
  - rewrite mem_char_app, Hh. cbn. now apply encodeURI_no_hash.
Qed.

(** ** Characters of printed numbers *)

(** [s] is written with the characters of [alphabet]. *)
Definition over (alphabet s : string) : Prop :=
  forall ch, In ch (list_ascii_of_string s) -> In ch (list_ascii_of_string alphabet).

Lemma mem_char_In (c : ascii) (s : string) :
  mem_char c s = true <-> In c (list_ascii_of_string s).
Proof.
  induction s as [|d t IH]; cbn; [split; [discriminate|tauto]|].
  rewrite orb_true_iff, IH, Ascii.eqb_eq. intuition congruence.
Qed.

Lemma over_no_char (alphabet s : string) (c : ascii) :
  over alphabet s -> mem_char c alphabet = false -> mem_char c s = false.
Proof.
  intros Ho Hc. apply not_true_iff_false. rewrite mem_char_In. intros Hin.
  apply Ho, mem_char_In in Hin. congruence.
Qed.

Lemma list_ascii_app (a b : string) :
  list_ascii_of_string (a ++ b) = (list_ascii_of_string a ++ list_ascii_of_string b)%list.
Proof. induction a as [|c t IH]; cbn; [reflexivity|]. now rewrite IH. Qed.

Lemma over_app (A a b : string) : over A a -> over A b -> over A (a ++ b).
Proof. unfold over. rewrite list_ascii_app. intros Ha Hb ch Hin. apply in_app_or in Hin. intuition. Qed.

Lemma over_char (A : string) (c : ascii) :
  In c (list_ascii_of_string A) -> over A (String c EmptyString).
Proof. intros H ch [<-|[]]. exact H. Qed.

Lemma over_empty (A : string) : over A EmptyString.
Proof. intros ch []. Qed.

Lemma over_sub (A B s : string) :
  (forall ch, In ch (list_ascii_of_string A) -> In ch (list_ascii_of_string B)) ->
  over A s -> over B s.
Proof. unfold over. auto. Qed.

Lemma over_uint_text (d : Decimal.uint) : over "0123456789" (uint_text d).
Proof.
  induction d; cbn [uint_text]; try apply over_empty;
    (apply over_app; [apply over_char; cbn; tauto | exact IHd]).
Qed.

Lemma over_Z_text (z : Z) : over "0123456789" (Z_text z).
Proof. apply over_uint_text. Qed.

Lemma over_zeros (k : nat) : over "0123456789" (zeros k).
Proof.
  induction k as [|k IH]; [apply over_empty|]. cbn [zeros].
  apply over_app; [apply over_char; cbn; tauto | exact IH].
Qed.

Lemma over_substring (A s : string) (n m : nat) : over A s -> over A (substring n m s).
Proof.
  revert n m. induction s as [|c t IH]; intros n m H; [destruct n, m; apply over_empty|].
  assert (Ht : over A t) by (intros ch Hch; apply H; now right).
  destruct n as [|n]; [destruct m as [|m]; [apply over_empty|]|]; cbn [substring].
  - change (String c (substring 0 m t)) with (String c EmptyString ++ substring 0 m t).
    apply over_app; [apply over_char, H; now left | now apply IH].
  - now apply IH.
Qed.

Lemma over_fixed_text (f : nat) (n : Z) : over "0123456789." (fixed_text f n).
Proof.
  assert (Hd : forall s, over "0123456789" s -> over "0123456789." s).
  { intros s. apply over_sub. cbn. tauto. }
  unfold fixed_text. destruct f as [|f]; [apply Hd, over_Z_text|].
  assert (Hm : over "0123456789" (if (String.length (Z_text n) <=? S f)%nat
                                  then zeros (S f + 1 - String.length (Z_text n)) ++ Z_text n
                                  else Z_text n)).
  { destruct (_ <=? _)%nat; [apply over_app; [apply over_zeros|]|]; apply over_Z_text. }
  apply over_app; [apply Hd, over_substring, Hm|].
  apply over_app; [apply over_char; cbn; tauto | apply Hd, over_substring, Hm].
Qed.

Lemma over_strip_trailing_zeros (A s : string) : over A s -> over A (strip_trailing_zeros s).
Proof.
  unfold over, strip_trailing_zeros. intros H ch Hin.
  rewrite list_ascii_of_string_of_list_ascii, <- in_rev in Hin. apply H.
  assert (Hsub : forall l, In ch (strip_zeros_rev l) -> In ch l).
  { induction l as [|a l IHl]; [tauto|]. cbn.
    destruct (Ascii.eqb_spec a "0") as [->|]; [intros Hl; right; auto|].
    destruct a as [[] [] [] [] [] [] [] []]; cbn; try tauto; intros Hl; right; auto. }
  apply in_rev, Hsub, Hin.
Qed.

(** What [toFixed] prints is made of digits, [.], signs, [e] and the
    letters of [NaN] and [Infinity]. *)
Definition fixed_alphabet : string := "0123456789.-+eNaIfinty".

Lemma over_format_decimal (ds : string) (n : Z) :
  over "0123456789" ds -> over "0123456789.e+-" (format_decimal ds n).
Proof.
  intros Hds.
  assert (Hd : forall s, over "0123456789" s -> over "0123456789.e+-" s)
    by (intros s; apply over_sub; cbn; tauto).
  assert (Hl : forall s, over s s) by (intros s ch H; exact H).
  assert (Hex : forall e : Z, over "0123456789.e+-"
                  ((if 0 <=? e then "e+" else "e-") ++ Z_text (Z.abs e))).
  { intros e. apply over_app; [destruct (0 <=? e); intros ch Hch; cbn in *; tauto|].
    apply Hd, over_Z_text. }
  unfold format_decimal.
  destruct (_ && _); [apply over_app; apply Hd; [exact Hds | apply over_zeros]|].
  destruct (_ && _);
    [apply over_app; [|apply over_app; [intros ch Hch; cbn in *; tauto|]];
     apply Hd, over_substring, Hds|].
  destruct (_ && _);
    [apply over_app; [intros ch Hch; cbn in *; tauto|apply over_app; apply Hd;
                      [apply over_zeros|exact Hds]]|].
  destruct ds as [|d [|d' rest]]; [intros ch Hch; cbn in *; tauto| |].
  - change (String d ?x) with (String d EmptyString ++ x).
    apply over_app; [apply Hd, Hds|apply Hex].
  - change (String d "." ++ ?y) with (String d EmptyString ++ ("." ++ y)).
    apply over_app; [apply over_char, (Hd _ Hds); now left|].
    apply over_app; [intros ch Hch; cbn in *; tauto|].
    apply over_app; [|apply Hex]. apply Hd. intros ch Hch. apply Hds. now right.
Qed.

Lemma over_number_to_string (x : float) : over fixed_alphabet (number_to_string x).
Proof.
  assert (Hf : forall s, over "0123456789.e+-" s -> over fixed_alphabet s)
    by (intros s; apply over_sub; cbn; tauto).
  unfold number_to_string. destruct (Prim2SF x) as [| [] | |sg m e];
    try (intros ch Hch; cbn in Hch |- *; tauto).
  apply over_app; [destruct sg; intros ch Hch; cbn in *; tauto|].
  destruct (shortest_decimal _ _ _ _ _) as [[s t]|].
  - apply Hf, over_format_decimal, over_strip_trailing_zeros, over_Z_text.
  - apply Hf. apply over_sub with (A := "0123456789"); [cbn; tauto | apply over_Z_text].
Qed.

Lemma over_toFixed (f : nat) (x : float) : over fixed_alphabet (toFixed f x).
Proof.
  assert (Hsub : forall A s, over A s ->
                 (forall ch, In ch (list_ascii_of_string A) ->
                             In ch (list_ascii_of_string fixed_alphabet)) ->
                 over fixed_alphabet s) by (intros A s H1 H2; exact (over_sub _ _ _ H2 H1)).
  unfold toFixed. destruct (Prim2SF x) as [sz|[]| |sg m e].
  - eapply Hsub; [apply over_fixed_text | cbn; tauto].
  - intros ch Hch; cbn in Hch |- *; tauto.
  - intros ch Hch; cbn in Hch |- *; tauto.
  - intros ch Hch; cbn in Hch |- *; tauto.
  - apply over_app; [destruct sg; [intros ch Hch; cbn in Hch |- *; tauto | apply over_empty]|].
    destruct (1e21 <=? abs x)%float.
    + apply over_number_to_string.
    + eapply Hsub; [apply over_fixed_text | cbn; tauto].
Qed.
