(* ===== verification/GradeScale.v ===== *)
(** * The row record and the grade scale (src/src/utils/excel/types.ts)

    [StudentRecord] keeps the interface's field names; its optional fields
    are [option]s (absent = [None]).  [gradePointMap] is the eight-entry
    table of types.ts.  The source tests membership with JavaScript's [in]
    operator, which also finds the properties an object literal inherits
    from [Object.prototype] ([toString], [constructor], ...): those grades
    pass [GR in gradePointMap] but [gradePointMap[GR]] is a function or an
    object, so every product with it is NaN.  [grade_in_map] and
    [grade_value] model exactly that. *)

From Stdlib Require Import Bool ZArith String List Lia.
From S2P Require Import Prelude JsNumber.
Import ListNotations.
Local Open Scope Z_scope.
Local Open Scope string_scope.

(** ** [StudentRecord] *)

Record StudentRecord := mkRecord {
  CNo : string;
  SEM : string;
  REGNO : string;
  SCODE : string;
  GR : string;
  creditValue : option Z;
  subjectName : option string;
  facultyName : option string;
  fileSource : option string;
  isArrear : option bool
}.

(** [record.creditValue || 0]: absent and zero are both 0. *)
Definition credit_or_zero (r : StudentRecord) : Z :=
  match creditValue r with
  | Some c => c
  | None => 0
  end.

(** [record.isArrear === true]: the subject was marked by the user as a
    current-semester subject (the field name is historical, see the
    comment in types.ts). *)
Definition marked_current (r : StudentRecord) : bool :=
  match isArrear r with
  | Some true => true
  | _ => false
  end.

(** [!record.isArrear]. *)
Definition not_marked (r : StudentRecord) : bool := negb (marked_current r).

(** ** [gradePointMap] *)

Definition gradePointMap : list (string * Z) :=
  [("O", 10); ("A+", 9); ("A", 8); ("B+", 7); ("B", 6); ("C", 5); ("P", 4); ("U", 0)].

Fixpoint assoc_lookup (k : string) (l : list (string * Z)) : option Z :=
  match l with
  | [] => None
  | (k', v) :: t => if k ==? k' then Some v else assoc_lookup k t
  end.

(** The own properties of [gradePointMap]. *)
Definition grade_point (g : string) : option Z := assoc_lookup g gradePointMap.

(** The property names an object literal inherits from [Object.prototype]. *)
Definition object_prototype_keys : list string :=
  ["constructor"; "__defineGetter__"; "__defineSetter__"; "hasOwnProperty";
   "__lookupGetter__"; "__lookupSetter__"; "isPrototypeOf";
   "propertyIsEnumerable"; "toString"; "valueOf"; "__proto__"; "toLocaleString"].

(** [g in gradePointMap]. *)
Definition grade_in_map (g : string) : bool :=
  match grade_point g with
  | Some _ => true
  | None => mem g object_prototype_keys
  end.

(** [gradePointMap[g]] as a factor of a product: a number for the eight
    grades, NaN otherwise (a function, an object or [undefined]). *)
Definition grade_value (g : string) : znum :=
  match grade_point g with
  | Some p => Fin p
  | None => NaN
  end.

(** [record.GR === 'U'], the only failing grade. *)
Definition is_fail (r : StudentRecord) : bool := GR r ==? "U".

(** ** Facts about the scale *)

Lemma grade_point_range (g : string) (p : Z) :
  grade_point g = Some p -> 0 <= p <= 10.
Proof.
  unfold grade_point, gradePointMap. simpl.
  repeat match goal with |- context [if ?b then _ else _] => destruct b end;
    intros H; inversion H; lia.
Qed.

Lemma grade_point_U : grade_point "U" = Some 0.
Proof. reflexivity. Qed.

Lemma grade_value_own (g : string) :
  grade_point g <> None -> exists p, grade_value g = Fin p /\ 0 <= p <= 10.
Proof.
  unfold grade_value. destruct (grade_point g) as [p|] eqn:E; [|congruence].
  intros _. exists p. split; [reflexivity | exact (grade_point_range g p E)].
Qed.

Lemma grade_in_map_own (g : string) : grade_point g <> None -> grade_in_map g = true.
Proof. unfold grade_in_map. destruct (grade_point g); congruence. Qed.

Lemma fail_in_map (r : StudentRecord) : is_fail r = true -> grade_in_map (GR r) = true.
Proof. unfold is_fail. intros H. apply (eqb_true_iff (GR r) "U") in H. now rewrite H. Qed.

#[export] Hint Resolve grade_in_map_own fail_in_map : dp.

(** A row as Dashboard.tsx passes it to [analyzeResults] (credit, empty
    names and the current-semester mark assigned); used by the concrete
    scenarios of the other files. *)
Definition sample_row (regno scode gr sem file : string) (credit : Z) (marked : bool)
  : StudentRecord :=
  mkRecord "" sem regno scode gr (Some credit) (Some "") (Some "") (Some file) (Some marked).
