(* ===== verification/JsObject.v ===== *)
(** * Plain JavaScript objects used as dictionaries

    [analyzeResults] builds its histograms in object literals [{}] indexed
    by grade or subject code (src/src/utils/excel/analyzer.ts, lines
    213-218, 247-271, 318-338) and turns them into arrays with
    [Object.entries].  This file holds what those objects do:

    - the own properties of an object as an association list in creation
      order, each key once ([get_own], [set_own]);
    - reading a key that is not an own property goes to
      [Object.prototype]: a function for the keys of
      [object_prototype_keys] (GradeScale.v), [Object.prototype] itself for
      ["__proto__"], [undefined] otherwise ([read]);
    - assignment ([assign]): ["__proto__"] is an accessor of
      [Object.prototype], so [o["__proto__"] = v] never creates an own
      property (for an object [v] it replaces the prototype, which no code
      of the analyzer reads back; the model keeps the own properties);
    - [Object.entries] lists the own keys in the order of
      OrdinaryOwnPropertyKeys (ECMAScript 10.1.11.1): the array indices
      (canonical decimal strings below 2^32 - 1) in ascending numeric
      order, then the other keys in creation order ([entries]);
    - [wf_object]: what every object of the program satisfies (each own
      key once, no own ["__proto__"]), kept by [assign] and [entries]. *)

From Stdlib Require Import Bool ZArith Ascii String List Permutation Lia.
From S2P Require Import Prelude JsNumber GradeScale.
Import ListNotations.
Local Open Scope Z_scope.

(** ** Array indices *)

(** The value of a string made only of decimal digits. *)
Fixpoint digits_all (s : string) (acc : Z) : option Z :=
  match s with
  | EmptyString => Some acc
  | String c t =>
      match digit_value c with
      | Some d => digits_all t (acc * 10 + d)
      | None => None
      end
  end.

(** [Some n] when [k] is an array index: [ToString(ToUint32(k)) === k]
    and [ToUint32(k) <> 2^32 - 1], i.e. ["0"] or digits without a leading
    zero whose value is below 2^32 - 1. *)
Definition array_index (k : string) : option Z :=
  match k with
  | EmptyString => None
  | String c t =>
      if (c =? "0")%char then
        match t with EmptyString => Some 0 | _ => None end
      else
        match digits_all k 0 with
        | Some n => if n <? 4294967295 then Some n else None
        | None => None
        end
  end.

Definition is_index (k : string) : bool :=
  match array_index k with Some _ => true | None => false end.

(** ** Own properties *)

Section Dict.
Context {V : Type}.

Fixpoint get_own (k : string) (o : list (string * V)) : option V :=
  match o with
  | [] => None
  | (k', v) :: t => if k' ==? k then Some v else get_own k t
  end.

(** [o[k] = v] on a data property: an existing key keeps its place. *)
Fixpoint set_own (k : string) (v : V) (o : list (string * V)) : list (string * V) :=
  match o with
  | [] => [(k, v)]
  | (k', v') :: t => if k' ==? k then (k', v) :: t else (k', v') :: set_own k v t
  end.

(** What [o[k]] evaluates to on an object whose prototype is
    [Object.prototype]. *)
Inductive prop_read :=
| Own (v : V)
| InheritedFn (name : string)
| ObjectPrototype
| Undefined.

Definition read (k : string) (o : list (string * V)) : prop_read :=
  match get_own k o with
  | Some v => Own v
  | None =>
      if k ==? "__proto__"%string then ObjectPrototype
      else if mem k object_prototype_keys then InheritedFn k
      else Undefined
  end.

Definition assign (k : string) (v : V) (o : list (string * V)) : list (string * V) :=
  if k ==? "__proto__"%string then o else set_own k v o.

(** [index_after a b]: [a] is listed after [b] by OrdinaryOwnPropertyKeys
    (both are indices here). *)
Definition index_after (a b : string * V) : bool :=
  match array_index (fst a), array_index (fst b) with
  | Some x, Some y => y <? x
  | _, _ => false
  end.

(** [Object.entries(o)]. *)
Definition entries (o : list (string * V)) : list (string * V) :=
  stable_sort index_after (filter (fun kv => is_index (fst kv)) o)
  ++ filter (fun kv => negb (is_index (fst kv))) o.

(** What every object of the program satisfies: each own key once, and
    no own property ["__proto__"] (assignment to it goes to the accessor
    of [Object.prototype]). *)
Definition wf_object (o : list (string * V)) : Prop :=
  NoDup (map fst o) /\ ~ In "__proto__"%string (map fst o).

End Dict.

Arguments prop_read : clear implicits.

(** ** Lemmas *)

Section DictFacts.
Context {V : Type}.
Implicit Types (o : list (string * V)) (k : string) (v : V).

Lemma get_own_set_own k k' v o :
  get_own k' (set_own k v o) = if k ==? k' then Some v else get_own k' o.
Proof.
  induction o as [|[k0 v0] t IH]; cbn [set_own get_own].
  - destruct (k ==? k'); reflexivity.
  - destruct (eqb_spec k0 k) as [->|Hne]; cbn [get_own].
    + destruct (k ==? k'); reflexivity.
    + rewrite IH. destruct (eqb_spec k0 k') as [->|]; [|reflexivity].
      now rewrite eqb_neq by congruence.
Qed.

Lemma keys_set_own k v o :
  map fst (set_own k v o) = if mem k (map fst o) then map fst o else map fst o ++ [k].
Proof.
  induction o as [|[k0 v0] t IH]; [reflexivity|]. cbn [set_own map fst].
  rewrite mem_cons, (eqb_sym k k0). destruct (k0 ==? k); cbn [orb map fst]; [reflexivity|].
  rewrite IH. now destruct (mem k (map fst t)).
Qed.

Lemma NoDup_set_own k v o : NoDup (map fst o) -> NoDup (map fst (set_own k v o)).
Proof.
  intros H. rewrite keys_set_own. destruct (mem k (map fst o)) eqn:E; [exact H|].
  apply NoDup_snoc; [exact H|]. intros Hin. apply (mem_In k) in Hin. congruence.
Qed.

Lemma get_own_In k v o : get_own k o = Some v -> In (k, v) o.
Proof.
  induction o as [|[k0 v0] t IH]; cbn [get_own In]; [discriminate|].
  destruct (eqb_spec k0 k) as [->|]; [intros [= ->]; now left|]. intros H; right; auto.
Qed.

Lemma get_own_None k o : get_own k o = None <-> ~ In k (map fst o).
Proof.
  induction o as [|[k0 v0] t IH]; cbn [get_own map fst In]; [tauto|].
  destruct (eqb_spec k0 k) as [->|Hne]; [split; [discriminate|tauto]|].
  rewrite IH. intuition.
Qed.

Lemma In_get_own k v o : NoDup (map fst o) -> In (k, v) o -> get_own k o = Some v.
Proof.
  induction o as [|[k0 v0] t IH]; cbn [get_own map fst In]; [tauto|].
  intros Hnd Hin. inversion Hnd as [|? ? Hnot Hnd']; subst.
  destruct Hin as [[= -> ->]|Hin]; [now rewrite eqb_refl|].
  destruct (eqb_spec k0 k) as [->|]; [|now apply IH].
  exfalso. apply Hnot. now apply (in_map fst) in Hin.
Qed.

(** An object read entry by entry through a function of its keys. *)
Lemma map_entries_by_key {B} (F : string -> V -> B) (G : string -> V) o :
  (forall k v, In (k, v) o -> v = G k) ->
  map (fun kv => F (fst kv) (snd kv)) o = map (fun k => F k (G k)) (map fst o).
Proof.
  induction o as [|[k v] t IH]; intros H; [reflexivity|]. cbn [map fst snd].
  rewrite (H k v (or_introl eq_refl)), IH; [reflexivity|]. intros k' v' Hin. apply H. now right.
Qed.

Lemma entries_perm o : Permutation (entries o) o.
Proof.
  unfold entries. eapply Permutation_trans.
  - apply Permutation_app_tail, stable_sort_perm.
  - apply filter_split_perm.
Qed.

(** Without array indices, [Object.entries] is the creation order. *)
Lemma entries_no_index o :
  (forall kv, In kv o -> is_index (fst kv) = false) -> entries o = o.
Proof.
  intros H. unfold entries.
  rewrite (proj2 (filter_nil_iff _ _)) by (intros kv Hkv; now rewrite H).
  apply filter_all_true. intros kv Hkv. now rewrite H.
Qed.

(** A loop assigning [F k] to each key of [K]. *)
Lemma get_own_fold_set (F : string -> V) (K : list string) o (s : string) :
  get_own s (fold_left (fun o k => set_own k (F k) o) K o)
  = if mem s K then Some (F s) else get_own s o.
Proof.
  revert o. induction K as [|k t IH]; intros o; cbn [fold_left]; [reflexivity|].
  rewrite IH, get_own_set_own, mem_cons. destruct (mem s t); rewrite ?orb_true_r; [reflexivity|].
  rewrite orb_false_r. destruct (eqb_spec k s) as [->|Hne]; [now rewrite eqb_refl|].
  now rewrite eqb_neq by congruence.
Qed.

Lemma wf_object_nil : wf_object (@nil (string * V)).
Proof. split; [constructor | intros []]. Qed.

(** [o[k] = v] keeps an object well formed. *)
Lemma assign_wf k v o : wf_object o -> wf_object (assign k v o).
Proof.
  unfold assign. destruct (eqb_spec k "__proto__"%string) as [|Hk]; [easy|].
  intros [Hn Hp]. split; [now apply NoDup_set_own|].
  rewrite keys_set_own. destruct (mem k (map fst o)); [exact Hp|].
  rewrite in_app_iff. intros [H|[H|[]]]; [exact (Hp H) | exact (Hk H)].
Qed.

(** [Object.entries] of a well-formed object lists each own property once. *)
Lemma entries_wf o : wf_object o -> wf_object (entries o).
Proof.
  intros [Hn Hp]. pose proof (Permutation_map fst (entries_perm o)) as HP. split.
  - exact (Permutation_NoDup (Permutation_sym HP) Hn).
  - intros H. apply Hp. exact (Permutation_in _ HP H).
Qed.

End DictFacts.

#[export] Hint Resolve wf_object_nil assign_wf entries_wf : dp.

(** ** Grouping loops

    [xs.forEach(x => { o[key(x)] = f(x, o[key(x)]) })] on [{}], for keys
    that are never inherited: the object gets one own key per distinct
    [key x], in order of first occurrence, and the value under [k] is the
    loop [f] run over the elements with key [k] alone. *)

Section GroupBy.
Context {A V : Type} (key : A -> string) (f : A -> option V -> V).

Definition group_step (o : list (string * V)) (x : A) : list (string * V) :=
  set_own (key x) (f x (get_own (key x) o)) o.

Definition group_value (k : string) (l : list A) : option V :=
  fold_left (fun acc x => if key x ==? k then Some (f x acc) else acc) l None.

Lemma group_fold_keys (l : list A) :
  map fst (fold_left group_step l []) = uniq (map key l).
Proof.
  induction l as [|x l IH] using rev_ind; [reflexivity|].
  rewrite fold_left_app, map_app. cbn [fold_left map].
  set (o := fold_left group_step l []) in *. unfold group_step.
  rewrite keys_set_own, IH, mem_uniq, uniq_snoc. reflexivity.
Qed.

Lemma group_fold_get (l : list A) (k : string) :
  get_own k (fold_left group_step l []) = group_value k l.
Proof.
  induction l as [|x l IH] using rev_ind; [reflexivity|].
  unfold group_value. rewrite !fold_left_app. cbn [fold_left].
  fold (group_value k l). set (o := fold_left group_step l []) in *.
  unfold group_step. rewrite get_own_set_own.
  destruct (eqb_spec (key x) k) as [<-|]; [now rewrite IH | exact IH].
Qed.

Lemma group_fold_NoDup (l : list A) : NoDup (map fst (fold_left group_step l [])).
Proof. rewrite group_fold_keys. apply NoDup_uniq. Qed.

End GroupBy.
