(* ===== verification/Aggregator.v ===== *)
(** * Per-student weighted averages (src/src/utils/excel/gradeUtils.ts)

    [accumulate] is one iteration of the [forEach] loop shared by
    [calculateSGPA] and [calculateCGPA]: a row whose grade passes
    [GR in gradePointMap] adds [gradePoint * creditValue] to the weighted
    sum and [creditValue] to the credit total.  [gpa_of_sums] is the final
    [totalCredits === 0 ? 0 : formatTo2Decimals(weightedSum / totalCredits)].
    [accumulate_pos] and [gpa_of_sums_pos] are the variant written inline
    in [analyzeResults] (analyzer.ts), which skips rows whose credit is not
    positive and tests [totalCredits > 0].

    The theorems: the sums have a closed form ([weighted_sums_spec]); the
    result does not depend on the order of the rows; zero credit gives 0;
    the CGPA over several files is one weighted average over the union of
    the rows selected in each file; with positive credits the analyzer's
    guarded loop computes the same average as [calculateSGPA]. *)

From Stdlib Require Import Bool ZArith String List Permutation Floats Lia.
From S2P Require Import Prelude JsNumber GradeScale.
Import ListNotations.
Local Open Scope Z_scope.

(** ** The accumulation loop *)

Definition accumulate (acc : znum * Z) (r : StudentRecord) : znum * Z :=
  let '(ws, tc) := acc in
  if grade_in_map (GR r) then
    let c := credit_or_zero r in
    (znum_add ws (znum_mul (grade_value (GR r)) c), tc + c)
  else acc.

Definition weighted_sums (rs : list StudentRecord) : znum * Z :=
  fold_left accumulate rs (Fin 0, 0).

Definition gpa_of_sums (s : znum * Z) : float :=
  let '(ws, tc) := s in
  if tc =? 0 then 0%float else formatTo2Decimals (znum_div ws tc).

(** [record.REGNO === studentId]. *)
Definition of_student (studentId : string) (r : StudentRecord) : bool :=
  REGNO r ==? studentId.

(** [calculateSGPA(records, studentId)]. *)
Definition calculateSGPA (records : list StudentRecord) (studentId : string) : float :=
  gpa_of_sums (weighted_sums (filter (of_student studentId) records)).

(** The rows of one semester that count for a student in [calculateCGPA]:
    the student's rows marked as current-semester subjects when there are
    any, otherwise the student's unmarked rows. *)
Definition semester_rows (studentId : string) (semesterRecords : list StudentRecord)
  : list StudentRecord :=
  match filter (fun r => of_student studentId r && marked_current r) semesterRecords with
  | [] => filter (fun r => of_student studentId r && not_marked r) semesterRecords
  | marked => marked
  end.

Definition add_sums (a b : znum * Z) : znum * Z :=
  (znum_add (fst a) (fst b), snd a + snd b).

(** [calculateCGPA(records, studentId, fileGroups)]; [fileGroups] is the
    object built by [analyzeResults], as the list of its entries in key
    order (its keys are distinct). *)
Definition calculateCGPA (records : list StudentRecord) (studentId : string)
    (fileGroups : list (string * list StudentRecord)) : float :=
  if (length fileGroups <=? 1)%nat then calculateSGPA records studentId
  else
    gpa_of_sums
      (fold_left (fun acc (g : string * list StudentRecord) =>
                    add_sums acc (weighted_sums (semester_rows studentId (snd g))))
                 fileGroups (Fin 0, 0)).

(** [hasArrears(records, studentId)]. *)
Definition hasArrears (records : list StudentRecord) (studentId : string) : bool :=
  existsb is_fail (filter (of_student studentId) records).

(** [getSubjectsWithArrears(records, studentId)]. *)
Definition getSubjectsWithArrears (records : list StudentRecord) (studentId : string)
  : string :=
  String.concat ", "%string
    (map SCODE (filter (fun r => of_student studentId r && is_fail r) records)).

(** [getUniqueDepartmentCodes(records)]: the distinct non-empty [CNo]. *)
Definition getUniqueDepartmentCodes (records : list StudentRecord) : list string :=
  filter (fun c => negb (c ==? ""%string)) (uniq (map CNo records)).

(** [(a, b) => b.sgpa - a.sgpa] on [{ id, sgpa }] entries. *)
Definition entry_desc (a b : string * float) : bool := (0 <? snd b - snd a)%float.

(** [getCurrentSemesterSGPAData(currentSemesterRecords)]: one entry per
    student with an unmarked row ([!record.isArrear]), the SGPA taken over
    all of the student's rows by the same loop as [calculateSGPA], sorted
    by SGPA. *)
Definition getCurrentSemesterSGPAData (currentSemesterRecords : list StudentRecord)
  : list (string * float) :=
  match currentSemesterRecords with
  | [] => []
  | _ =>
      let nonArrearRecords := filter not_marked currentSemesterRecords in
      let studentIds := uniq (map REGNO nonArrearRecords) in
      stable_sort entry_desc
        (map (fun id => (id, gpa_of_sums (weighted_sums
                                (filter (of_student id) currentSemesterRecords))))
             studentIds)
  end.

(** ** The guarded loop of [analyzeResults] (analyzer.ts) *)

Definition accumulate_pos (acc : znum * Z) (r : StudentRecord) : znum * Z :=
  let '(ws, tc) := acc in
  if grade_in_map (GR r) then
    let c := credit_or_zero r in
    if 0 <? c then (znum_add ws (znum_mul (grade_value (GR r)) c), tc + c) else acc
  else acc.

Definition weighted_sums_pos (rs : list StudentRecord) : znum * Z :=
  fold_left accumulate_pos rs (Fin 0, 0).

Definition gpa_of_sums_pos (s : znum * Z) : float :=
  let '(ws, tc) := s in
  if 0 <? tc then formatTo2Decimals (znum_div ws tc) else 0%float.

(** ** Reference sums *)

(** What the loop adds up: the credit of every row with a recognised
    grade, and the product of point and credit of each such row, NaN as
    soon as one recognised grade has no numeric point. *)
Definition row_credit (r : StudentRecord) : Z :=
  if grade_in_map (GR r) then credit_or_zero r else 0.

Definition row_points (r : StudentRecord) : znum :=
  if grade_in_map (GR r) then znum_mul (grade_value (GR r)) (credit_or_zero r) else Fin 0.

Definition credit_total (rs : list StudentRecord) : Z :=
  fold_right (fun r s => row_credit r + s) 0 rs.

Definition points_total (rs : list StudentRecord) : znum :=
  fold_right (fun r s => znum_add (row_points r) s) (Fin 0) rs.

(** ** The loop adds one row's contribution at a time *)

Lemma add_sums_comm (a b : znum * Z) : add_sums a b = add_sums b a.
Proof. unfold add_sums. now rewrite znum_add_comm, Z.add_comm. Qed.

Lemma add_sums_assoc (a b c : znum * Z) :
  add_sums a (add_sums b c) = add_sums (add_sums a b) c.
Proof. unfold add_sums. simpl. now rewrite znum_add_assoc, Z.add_assoc. Qed.

Lemma add_sums_0_l (a : znum * Z) : add_sums (Fin 0, 0) a = a.
Proof. destruct a as [[x|] c]; reflexivity. Qed.

Lemma accumulate_add (acc : znum * Z) (r : StudentRecord) :
  accumulate acc r = add_sums acc (row_points r, row_credit r).
Proof.
  destruct acc as [ws tc]. unfold accumulate, add_sums, row_points, row_credit.
  simpl. destruct (grade_in_map (GR r)); [reflexivity|].
  now rewrite znum_add_0_r, Z.add_0_r.
Qed.

Lemma fold_accumulate (l : list StudentRecord) (acc : znum * Z) :
  fold_left accumulate l acc = add_sums acc (weighted_sums l).
Proof.
  unfold weighted_sums. revert acc.
  induction l as [|r t IH]; intros acc; cbn [fold_left].
  - destruct acc as [[x|] c]; unfold add_sums; simpl; now rewrite ?Z.add_0_r.
  - rewrite (IH (accumulate acc r)), (IH (accumulate (Fin 0, 0) r)).
    rewrite !accumulate_add, add_sums_0_l.
    symmetry. apply add_sums_assoc.
Qed.

Lemma weighted_sums_app (l1 l2 : list StudentRecord) :
  weighted_sums (l1 ++ l2) = add_sums (weighted_sums l1) (weighted_sums l2).
Proof. unfold weighted_sums at 1. now rewrite fold_left_app, fold_accumulate. Qed.

Lemma accumulate_comm (acc : znum * Z) (x y : StudentRecord) :
  accumulate (accumulate acc x) y = accumulate (accumulate acc y) x.
Proof.
  rewrite !accumulate_add, <- !add_sums_assoc. f_equal. apply add_sums_comm.
Qed.

Lemma credit_total_nonneg (rs : list StudentRecord) :
  (forall r, In r rs -> 0 <= credit_or_zero r) -> 0 <= credit_total rs.
Proof.
  induction rs as [|r t IH]; intros H; simpl; [lia|].
  assert (0 <= credit_total t) by (apply IH; intros x Hx; apply H; now right).
  specialize (H r (or_introl eq_refl)).
  unfold row_credit. destruct (grade_in_map (GR r)); lia.
Qed.

Lemma credit_total_zero (rs : list StudentRecord) :
  (forall r, In r rs -> grade_in_map (GR r) = true -> credit_or_zero r = 0) ->
  credit_total rs = 0.
Proof.
  induction rs as [|r t IH]; intros H; simpl; [reflexivity|].
  rewrite IH by (intros x Hx; apply H; now right).
  unfold row_credit. destruct (grade_in_map (GR r)) eqn:E; [|reflexivity].
  rewrite (H r (or_introl eq_refl) E). reflexivity.
Qed.

Lemma fold_groups (studentId : string) (groups : list (string * list StudentRecord))
    (acc : znum * Z) :
  fold_left (fun acc (g : string * list StudentRecord) =>
               add_sums acc (weighted_sums (semester_rows studentId (snd g)))) groups acc
  = add_sums acc (weighted_sums (concat (map (fun g => semester_rows studentId (snd g)) groups))).
Proof.
  revert acc. induction groups as [|g t IH]; intros acc; cbn [fold_left map concat].
  - rewrite add_sums_comm. symmetry. apply add_sums_0_l.
  - now rewrite IH, weighted_sums_app, add_sums_assoc.
Qed.

#[export] Hint Rewrite weighted_sums_app add_sums_0_l : dp_rw.

Local Open Scope string_scope.

(** ** Theorems *)

Lemma weighted_sums_closed (rs : list StudentRecord) :
  weighted_sums rs = (points_total rs, credit_total rs).
Proof.
  induction rs as [|r t IH]; [reflexivity|].
  unfold weighted_sums. cbn [fold_left].
  rewrite fold_accumulate. fold (weighted_sums t).
  rewrite IH, accumulate_add, add_sums_0_l. reflexivity.
Qed.

(** C1 (equivalence): the accumulation loop of [calculateSGPA] computes
    the reference sums: the weighted sum is the sum of point times credit
    over the rows whose grade passes [in] (NaN as soon as one of them has
    no numeric point), and the credit total is the sum of their credits. *)
Theorem weighted_sums_spec (rs : list StudentRecord) :
  weighted_sums rs = (points_total rs, credit_total rs).
Proof. apply weighted_sums_closed. Qed.

(** C2 (functional): [calculateSGPA] does not depend on the order of the
    rows (spec section 8: invariance under reordering). *)
Theorem calculateSGPA_perm (l1 l2 : list StudentRecord) (studentId : string) :
  Permutation l1 l2 -> calculateSGPA l1 studentId = calculateSGPA l2 studentId.
Proof.
  intros HP. unfold calculateSGPA, weighted_sums.
  erewrite fold_left_perm;
    [reflexivity | apply accumulate_comm | now apply Permutation_filter_bool].
Qed.

Definition perm_witness_rows : list StudentRecord :=
  [sample_row "S1" "CS1" "A" "3" "sem3.xlsx" 4 false;
   sample_row "S1" "CS2" "B+" "3" "sem3.xlsx" 3 false;
   sample_row "S2" "CS1" "O" "3" "sem3.xlsx" 4 false].

Lemma calculateSGPA_perm_witness :
  calculateSGPA perm_witness_rows "S1" = calculateSGPA (rev perm_witness_rows) "S1".
Proof. apply calculateSGPA_perm. apply Permutation_rev. Defined.

(** C3 (error): when no row of the student with a recognised grade carries
    a credit, [calculateSGPA] is 0, not NaN and not an error (spec
    sections 4.2 and 7). *)
Theorem calculateSGPA_no_credit (records : list StudentRecord) (studentId : string) :
  (forall r, In r records -> REGNO r = studentId -> grade_in_map (GR r) = true ->
             credit_or_zero r = 0) ->
  calculateSGPA records studentId = 0%float.
Proof.
  intros H. unfold calculateSGPA. rewrite weighted_sums_closed, credit_total_zero.
  - reflexivity.
  - intros r Hr Hg. apply filter_In in Hr as [Hr Hs].
    apply (eqb_true_iff (REGNO r) studentId) in Hs. now apply H.
Qed.

Lemma calculateSGPA_no_credit_witness :
  calculateSGPA [sample_row "S1" "CS1" "A" "3" "sem3.xlsx" 0 false] "S1" = 0%float.
Proof.
  apply calculateSGPA_no_credit. intros r [<-|[]] _ _. reflexivity.
Defined.

(** C4 (refinement): with more than one file, [calculateCGPA] is one
    weighted average over the union of the rows selected in every file
    (spec section 4.2: not the average of the per-file SGPAs). *)
Theorem calculateCGPA_union (records : list StudentRecord) (studentId : string)
    (fileGroups : list (string * list StudentRecord)) :
  (2 <= length fileGroups)%nat ->
  calculateCGPA records studentId fileGroups
  = gpa_of_sums (weighted_sums
      (concat (map (fun g => semester_rows studentId (snd g)) fileGroups))).
Proof.
  intros H. unfold calculateCGPA.
  destruct (length fileGroups <=? _)%nat eqn:E; [apply Nat.leb_le in E; lia|].
  now rewrite fold_groups, add_sums_0_l.
Qed.

Lemma calculateCGPA_union_witness :
  calculateCGPA [] "S1"
    [("sem3.xlsx", [sample_row "S1" "CS1" "A" "3" "sem3.xlsx" 4 false]);
     ("sem4.xlsx", [sample_row "S1" "CS2" "O" "4" "sem4.xlsx" 3 true])]
  = gpa_of_sums (weighted_sums
      [sample_row "S1" "CS1" "A" "3" "sem3.xlsx" 4 false;
       sample_row "S1" "CS2" "O" "4" "sem4.xlsx" 3 true]).
Proof. apply calculateCGPA_union. simpl. lia. Defined.

(** The guarded loop of [analyzeResults] and [calculateSGPA]'s loop agree
    on rows with positive credits. *)
Lemma gpa_pos_agrees (rs : list StudentRecord) :
  (forall r, In r rs -> 0 < credit_or_zero r) ->
  gpa_of_sums_pos (weighted_sums_pos rs) = gpa_of_sums (weighted_sums rs).
Proof.
  intros H.
  assert (weighted_sums_pos rs = weighted_sums rs) as ->.
  { apply fold_left_ext_in. intros [ws tc] r Hr. specialize (H r Hr).
    unfold accumulate_pos, accumulate. destruct (grade_in_map (GR r)); [|reflexivity].
    now rewrite (proj2 (Z.ltb_lt _ _) H). }
  rewrite weighted_sums_closed. unfold gpa_of_sums_pos, gpa_of_sums.
  pose proof (credit_total_nonneg rs (fun r Hr => Z.lt_le_incl _ _ (H r Hr))).
  destruct (Z.eqb_spec (credit_total rs) 0), (Z.ltb_spec 0 (credit_total rs));
    first [reflexivity | lia].
Qed.

(** C6 (equivalence): when every row has a positive credit (what the
    credit form and the default of Dashboard.tsx produce), the guarded loop
    of [analyzeResults] and its [totalCredits > 0] test compute the same
    value as [calculateSGPA]'s loop and its [totalCredits === 0] test. *)
Theorem guarded_loop_agrees (rs : list StudentRecord) :
  (forall r, In r rs -> 0 < credit_or_zero r) ->
  gpa_of_sums_pos (weighted_sums_pos rs) = gpa_of_sums (weighted_sums rs).
Proof. apply gpa_pos_agrees. Qed.

Lemma guarded_loop_agrees_witness :
  gpa_of_sums_pos (weighted_sums_pos perm_witness_rows)
  = gpa_of_sums (weighted_sums perm_witness_rows).
Proof.
  apply guarded_loop_agrees. intros r Hr.
  repeat destruct Hr as [<-|Hr]; [reflexivity | reflexivity | reflexivity | destruct Hr].
Defined.

(** The scenario of spec section 8: one row with grade O
    and three credits gives an SGPA of exactly 10. *)
Theorem calculateSGPA_single_O :
  calculateSGPA [sample_row "S" "CS1" "O" "1" "sem1.xlsx" 3 true] "S" = 10%float.
Proof. vm_compute. reflexivity. Qed.

(** ** [getCurrentSemesterSGPAData] *)

(** Its entries are, up to order, the SGPA of every student with an
    unmarked row, each computed by [calculateSGPA] over all the student's
    rows. *)
Lemma getCurrentSemesterSGPAData_perm (cur : list StudentRecord) :
  Permutation (getCurrentSemesterSGPAData cur)
    (map (fun id => (id, calculateSGPA cur id)) (uniq (map REGNO (filter not_marked cur)))).
Proof. destruct cur as [|r t]; [constructor|]. apply stable_sort_perm. Qed.

Lemma getCurrentSemesterSGPAData_ids (cur : list StudentRecord) (id : string) :
  In id (map fst (getCurrentSemesterSGPAData cur))
  <-> exists r, In r cur /\ REGNO r = id /\ not_marked r = true.
Proof.
  pose proof (Permutation_map fst (getCurrentSemesterSGPAData_perm cur)) as P.
  rewrite map_map in P. cbn [fst] in P. rewrite map_id in P.
  split; intros H.
  - apply (Permutation_in _ P), In_uniq, in_map_iff in H.
    destruct H as (r & H1 & H2). apply filter_In in H2. exists r. tauto.
  - destruct H as (r & H1 & H2 & H3). apply (Permutation_in _ (Permutation_sym P)).
    apply In_uniq, in_map_iff. exists r. split; [exact H2|]. apply filter_In. tauto.
Qed.

(** A student whose rows are all marked as current-semester subjects
    (isArrear = true) gets no entry: the filter meant to drop arrear rows
    drops the marked ones. *)
Lemma getCurrentSemesterSGPAData_drops_marked :
  getCurrentSemesterSGPAData
    [sample_row "A1" "CS1" "O" "4" "sem4.xlsx" 3 true;
     sample_row "B1" "CS1" "B" "4" "sem4.xlsx" 3 false] = [("B1"%string, 6%float)].
Proof. vm_compute. reflexivity. Qed.

Lemma getUniqueDepartmentCodes_spec (records : list StudentRecord) (c : string) :
  In c (getUniqueDepartmentCodes records)
  <-> c <> ""%string /\ exists r, In r records /\ CNo r = c.
Proof.
  unfold getUniqueDepartmentCodes. rewrite filter_In, In_uniq, in_map_iff.
  destruct (c ==? ""%string) eqn:E.
  - apply (eqb_true_iff c ""%string) in E. cbn. split; [intros []; discriminate|tauto].
  - assert (c <> ""%string) by (intro H; subst; discriminate).
    cbn. split; [intros ((r & ? & ?) & _); eauto | intros (_ & r & ? & ?); eauto].
Qed.
