(* ===== verification/ExactSums.v ===== *)
(** * The double-precision weighted-sum loops

    gradeUtils.ts and analyzer.ts accumulate [weightedSum += gradePoint *
    creditValue] and [totalCredits += creditValue] in doubles; the rest of
    the development models these sums as integers ([accumulate],
    [accumulate_pos] and [add_sums] in Aggregator.v, with NaN for grades
    inherited from [Object.prototype]).  This file writes the loops as the
    source does, on floats ([calculateSGPA_double], [calculateCGPA_double]
    with its per-semester sums, [sgpa_pos_double] for the guarded loop of
    [analyzeResults]), and proves that they compute exactly the integer
    models as long as credits are in 0..10 and there are fewer than
    [2^53 / 100] rows: no addition or multiplication rounds (Binary64.v).
    The loop lemma is proved once, in Section [Loop], for any step that
    agrees with its integer model ([step_exact]).  Under the same bounds
    every average is NaN or a double of [[0, 10]] ([averages_in_range]):
    the weighted sum is at most ten times the credit total, and the
    rounding lemmas of FloatOrder.v keep the quotient and its
    [formatTo2Decimals] below 10.  A grade named like an [Object.prototype]
    member passes the [in] test with a NaN point, and then the SGPA is
    NaN whenever the counted credits are not 0
    ([calculateSGPA_prototype_grade_nan]). *)

From Stdlib Require Import Bool ZArith String List Floats Lia.
From S2P Require Import Prelude JsNumber Binary64 FloatOrder GradeScale Aggregator.
Import ListNotations.
Local Open Scope Z_scope.

(** ** The loop on doubles *)

(** One iteration of the [forEach] of [calculateSGPA]. *)
Definition accumulate_double (acc : float * float) (r : StudentRecord) : float * float :=
  let '(weightedSum, totalCredits) := acc in
  if grade_in_map (GR r) then
    let gradePoint := znum_to_float (grade_value (GR r)) in
    let creditValue := of_Z (credit_or_zero r) in
    ((weightedSum + gradePoint * creditValue)%float, (totalCredits + creditValue)%float)
  else acc.

(** [calculateSGPA(records, studentId)] with its sums in doubles. *)
Definition calculateSGPA_double (records : list StudentRecord) (studentId : string) : float :=
  let '(weightedSum, totalCredits) :=
    fold_left accumulate_double (filter (of_student studentId) records) (0%float, 0%float) in
  if (totalCredits =? 0)%float then 0%float
  else formatTo2Decimals (weightedSum / totalCredits)%float.

(** The per-semester loop of [calculateCGPA] on doubles: the sums of
    the rows [semester_rows] selects. *)
Definition semester_sums_double (studentId : string) (semesterRecords : list StudentRecord)
  : float * float :=
  fold_left accumulate_double (semester_rows studentId semesterRecords) (0%float, 0%float).

(** [totalWeightedSum += semWeightedSum; totalCredits += semCredits]. *)
Definition add_semester_double (studentId : string) (acc : float * float)
    (g : string * list StudentRecord) : float * float :=
  let '(tw, tc) := acc in
  let '(sw, sc) := semester_sums_double studentId (snd g) in
  ((tw + sw)%float, (tc + sc)%float).

(** [calculateCGPA(records, studentId, fileGroups)] with its sums in
    doubles. *)
Definition calculateCGPA_double (records : list StudentRecord) (studentId : string)
    (fileGroups : list (string * list StudentRecord)) : float :=
  if (length fileGroups <=? 1)%nat then calculateSGPA_double records studentId
  else
    let '(totalWeightedSum, totalCredits) :=
      fold_left (add_semester_double studentId) fileGroups (0%float, 0%float) in
    if (totalCredits =? 0)%float then 0%float
    else formatTo2Decimals (totalWeightedSum / totalCredits)%float.

(** The loop [analyzeResults] writes inline (analyzer.ts), on doubles:
    a row counts when its grade is in the map and [creditValue > 0]. *)
Definition accumulate_pos_double (acc : float * float) (r : StudentRecord) : float * float :=
  let '(totalPoints, totalCredits) := acc in
  if grade_in_map (GR r) then
    let gradePoint := znum_to_float (grade_value (GR r)) in
    let creditValue := of_Z (credit_or_zero r) in
    if (0 <? creditValue)%float
    then ((totalPoints + gradePoint * creditValue)%float, (totalCredits + creditValue)%float)
    else acc
  else acc.

Definition sgpa_pos_double (studentRecords : list StudentRecord) : float :=
  let '(totalPoints, totalCredits) :=
    fold_left accumulate_pos_double studentRecords (0%float, 0%float) in
  if (0 <? totalCredits)%float then formatTo2Decimals (totalPoints / totalCredits)%float
  else 0%float.

(** ** Exactness *)

Definition credit_ok (r : StudentRecord) : Prop := 0 <= credit_or_zero r <= 10.

(** What an average of the program may be: NaN (a grade inherited from
    [Object.prototype], Aggregator.v) or a double of [[0, 10]]. *)
Definition gpa_range (x : float) : Prop :=
  PrimFloat.is_nan x = true \/ ((0 <=? x)%float = true /\ (x <=? 10)%float = true).

(** The weighted sum as a number, NaN counted as 0. *)
Definition znum_bound (w : znum) : Prop :=
  match w with Fin x => 0 <= x | NaN => True end.

Definition znum_val (w : znum) : Z := match w with Fin x => x | NaN => 0 end.

(** One [weightedSum += gradePoint * creditValue; totalCredits +=
    creditValue] on doubles is the integer update. *)
Lemma add_product_exact (ws : znum) (tc : Z) (g : string) (c : Z) :
  0 <= c <= 10 -> znum_bound ws -> 0 <= tc ->
  znum_val ws + 100 < 2 ^ 53 -> tc + 10 < 2 ^ 53 ->
  ((znum_to_float ws + znum_to_float (grade_value g) * of_Z c)%float, (of_Z tc + of_Z c)%float)
  = (znum_to_float (znum_add ws (znum_mul (grade_value g) c)), of_Z (tc + c))
  /\ znum_bound (znum_add ws (znum_mul (grade_value g) c))
  /\ znum_val (znum_add ws (znum_mul (grade_value g) c)) <= znum_val ws + 100.
Proof.
  intros Hc Hws Htc Hw Ht. rewrite of_Z_add by lia.
  unfold grade_value. destruct (grade_point g) as [p|] eqn:Hp.
  - pose proof (grade_point_range _ _ Hp).
    cbn [znum_to_float znum_mul]. rewrite of_Z_mul by nia.
    destruct ws as [w|]; cbn [znum_to_float znum_add znum_bound znum_val] in *.
    + rewrite of_Z_add by nia. repeat split; try reflexivity; nia.
    + rewrite nan_add. repeat split; lia.
  - cbn [znum_to_float znum_mul]. rewrite nan_mul, add_nan.
    destruct ws; cbn [znum_add znum_to_float znum_bound znum_val] in *;
      repeat split; first [reflexivity|exact I|lia].
Qed.

Lemma accumulate_double_step (ws : znum) (tc : Z) (r : StudentRecord) :
  credit_ok r -> znum_bound ws -> 0 <= tc ->
  znum_val ws + 100 < 2 ^ 53 -> tc + 10 < 2 ^ 53 ->
  accumulate_double (znum_to_float ws, of_Z tc) r
  = (znum_to_float (fst (accumulate (ws, tc) r)), of_Z (snd (accumulate (ws, tc) r)))
  /\ znum_bound (fst (accumulate (ws, tc) r))
  /\ znum_val (fst (accumulate (ws, tc) r)) <= znum_val ws + 100
  /\ tc <= snd (accumulate (ws, tc) r) <= tc + 10.
Proof.
  unfold credit_ok. intros Hc Hws Htc Hw Ht. unfold accumulate_double, accumulate.
  destruct (grade_in_map (GR r)); cbn [fst snd];
    [|repeat split; first [reflexivity|assumption|lia]].
  destruct (add_product_exact ws tc (GR r) (credit_or_zero r) Hc Hws Htc Hw Ht) as (E & B & V).
  rewrite E. repeat split; first [reflexivity|assumption|lia].
Qed.

(** The step of a weighted-sum loop on doubles agrees with its integer
    model and keeps the sums in range. *)
Definition step_exact (step_d : float * float -> StudentRecord -> float * float)
    (step_z : znum * Z -> StudentRecord -> znum * Z) : Prop :=
  forall ws tc r,
    credit_ok r -> znum_bound ws -> 0 <= tc ->
    znum_val ws + 100 < 2 ^ 53 -> tc + 10 < 2 ^ 53 ->
    step_d (znum_to_float ws, of_Z tc) r
    = (znum_to_float (fst (step_z (ws, tc) r)), of_Z (snd (step_z (ws, tc) r)))
    /\ znum_bound (fst (step_z (ws, tc) r))
    /\ znum_val (fst (step_z (ws, tc) r)) <= znum_val ws + 100
    /\ tc <= snd (step_z (ws, tc) r) <= tc + 10.

Section Loop.
Variable step_d : float * float -> StudentRecord -> float * float.
Variable step_z : znum * Z -> StudentRecord -> znum * Z.
Hypothesis Hstep : step_exact step_d step_z.

Lemma fold_step_exact (rs : list StudentRecord) (ws : znum) (tc : Z) :
  Forall credit_ok rs -> znum_bound ws -> 0 <= tc ->
  znum_val ws + 100 * Z.of_nat (length rs) < 2 ^ 53 ->
  tc + 10 * Z.of_nat (length rs) < 2 ^ 53 ->
  fold_left step_d rs (znum_to_float ws, of_Z tc)
  = (znum_to_float (fst (fold_left step_z rs (ws, tc))),
     of_Z (snd (fold_left step_z rs (ws, tc))))
  /\ 0 <= snd (fold_left step_z rs (ws, tc)) <= tc + 10 * Z.of_nat (length rs)
  /\ znum_bound (fst (fold_left step_z rs (ws, tc)))
  /\ znum_val (fst (fold_left step_z rs (ws, tc))) <= znum_val ws + 100 * Z.of_nat (length rs).
Proof.
  revert ws tc. induction rs as [|r rs IH]; intros ws tc Hrs Hws Htc Hw Ht;
    [cbn; repeat split; first [reflexivity|assumption|lia]|].
  inversion Hrs as [|? ? Hr Hrs']; subst. cbn [length] in Hw, Ht. rewrite Nat2Z.inj_succ in Hw, Ht.
  destruct (Hstep ws tc r Hr Hws Htc ltac:(lia) ltac:(lia)) as (E & B & V & T).
  cbn [fold_left]. rewrite E.
  destruct (step_z (ws, tc) r) as [ws' tc'] eqn:Ea; cbn [fst snd] in *.
  destruct (IH ws' tc' Hrs' B ltac:(lia) ltac:(lia) ltac:(lia)) as (E' & T' & B' & V').
  cbn [length]; rewrite Nat2Z.inj_succ. repeat split; first [exact E'|exact B'|lia].
Qed.

(** From zero sums. *)
Lemma fold_step_exact_0 (rs : list StudentRecord) :
  Forall credit_ok rs -> 100 * Z.of_nat (length rs) < 2 ^ 53 ->
  fold_left step_d rs (0%float, 0%float)
  = (znum_to_float (fst (fold_left step_z rs (Fin 0, 0))),
     of_Z (snd (fold_left step_z rs (Fin 0, 0))))
  /\ 0 <= snd (fold_left step_z rs (Fin 0, 0)) <= 10 * Z.of_nat (length rs)
  /\ znum_bound (fst (fold_left step_z rs (Fin 0, 0)))
  /\ znum_val (fst (fold_left step_z rs (Fin 0, 0))) <= 100 * Z.of_nat (length rs).
Proof.
  intros Hrs Hlen.
  replace (0%float, 0%float) with (znum_to_float (Fin 0), of_Z 0) by (vm_compute; reflexivity).
  destruct (fold_step_exact rs (Fin 0) 0 Hrs ltac:(cbn [znum_bound]; lia) ltac:(lia)
              ltac:(cbn [znum_val]; lia) ltac:(lia)) as (E & T & B & V).
  cbn [znum_val] in V. repeat split; first [exact E|exact B|lia].
Qed.

End Loop.

Lemma accumulate_step_exact : step_exact accumulate_double accumulate.
Proof. exact accumulate_double_step. Qed.

(** The double loop of [calculateSGPA] is its integer model. *)
Lemma calculateSGPA_double_exact (records : list StudentRecord) (studentId : string) :
  Forall credit_ok records ->
  100 * Z.of_nat (length records) < 2 ^ 53 ->
  calculateSGPA_double records studentId = calculateSGPA records studentId.
Proof.
  intros Hc Hlen. unfold calculateSGPA_double, calculateSGPA, weighted_sums.
  pose proof (filter_length_le (of_student studentId) records) as Hle.
  destruct (fold_step_exact_0 _ _ accumulate_step_exact (filter (of_student studentId) records)
              (Forall_filter_sub _ _ _ Hc) ltac:(lia)) as (E & T & _).
  rewrite E. destruct (fold_left accumulate _ (Fin 0, 0)) as [ws tc]. cbn [fst snd] in *.
  rewrite of_Z_eqb_0 by lia. reflexivity.
Qed.

Lemma accumulate_pos_step_exact : step_exact accumulate_pos_double accumulate_pos.
Proof.
  intros ws tc r Hc Hws Htc Hw Ht. unfold credit_ok in Hc. unfold accumulate_pos_double, accumulate_pos.
  destruct (grade_in_map (GR r)); cbn [fst snd];
    [|repeat split; first [reflexivity|assumption|lia]].
  rewrite of_Z_ltb_0 by lia. destruct (0 <? credit_or_zero r); cbn [fst snd];
    [|repeat split; first [reflexivity|assumption|lia]].
  destruct (add_product_exact ws tc (GR r) (credit_or_zero r) Hc Hws Htc Hw Ht) as (E & B & V).
  rewrite E. repeat split; first [reflexivity|assumption|lia].
Qed.

(** The guarded loop of [analyzeResults] on doubles is its integer model. *)
Lemma sgpa_pos_double_exact (rs : list StudentRecord) :
  Forall credit_ok rs -> 100 * Z.of_nat (length rs) < 2 ^ 53 ->
  sgpa_pos_double rs = gpa_of_sums_pos (weighted_sums_pos rs).
Proof.
  intros Hc Hlen. unfold sgpa_pos_double, weighted_sums_pos.
  destruct (fold_step_exact_0 _ _ accumulate_pos_step_exact rs Hc Hlen) as (E & T & _).
  rewrite E. destruct (fold_left accumulate_pos rs (Fin 0, 0)) as [ws tc]. cbn [fst snd] in *.
  rewrite of_Z_ltb_0 by lia. reflexivity.
Qed.

Lemma znum_val_nonneg (w : znum) : znum_bound w -> 0 <= znum_val w.
Proof. destruct w; cbn; lia. Qed.

Lemma znum_add_bound (a b : znum) :
  znum_bound a -> znum_bound b ->
  znum_bound (znum_add a b) /\ znum_val (znum_add a b) <= znum_val a + znum_val b.
Proof. destruct a, b; cbn; lia. Qed.

Lemma znum_float_add (a b : znum) :
  znum_bound a -> znum_bound b -> znum_val a + znum_val b < 2 ^ 53 ->
  (znum_to_float a + znum_to_float b)%float = znum_to_float (znum_add a b).
Proof.
  destruct a as [x|], b as [y|]; cbn [znum_bound znum_val znum_to_float znum_add]; intros Ha Hb H;
    [apply of_Z_add; lia | apply add_nan | apply nan_add | apply nan_add].
Qed.

Lemma semester_rows_sub (studentId : string) (rs : list StudentRecord) :
  incl (semester_rows studentId rs) rs
  /\ (length (semester_rows studentId rs) <= length rs)%nat.
Proof.
  unfold semester_rows.
  destruct (filter (fun r => of_student studentId r && marked_current r) rs) eqn:E.
  - split; [intros x Hx; apply filter_In in Hx; tauto | apply filter_length_le].
  - rewrite <- E. split; [intros x Hx; apply filter_In in Hx; tauto | apply filter_length_le].
Qed.

Lemma semester_sums_double_exact (studentId : string) (rs : list StudentRecord) :
  Forall credit_ok rs -> 100 * Z.of_nat (length rs) < 2 ^ 53 ->
  semester_sums_double studentId rs
  = (znum_to_float (fst (weighted_sums (semester_rows studentId rs))),
     of_Z (snd (weighted_sums (semester_rows studentId rs))))
  /\ 0 <= snd (weighted_sums (semester_rows studentId rs)) <= 10 * Z.of_nat (length rs)
  /\ znum_bound (fst (weighted_sums (semester_rows studentId rs)))
  /\ znum_val (fst (weighted_sums (semester_rows studentId rs))) <= 100 * Z.of_nat (length rs).
Proof.
  intros Hc Hlen. destruct (semester_rows_sub studentId rs) as [Hsub Hle].
  destruct (fold_step_exact_0 _ _ accumulate_step_exact (semester_rows studentId rs)
              (incl_Forall Hsub Hc) ltac:(lia)) as (E & T & B & V).
  unfold semester_sums_double, weighted_sums. repeat split; first [exact E|exact B|lia].
Qed.

Lemma fold_semesters_exact (studentId : string) (gs : list (string * list StudentRecord))
    (tw : znum) (tc : Z) :
  Forall (fun g => Forall credit_ok (snd g)) gs -> znum_bound tw -> 0 <= tc ->
  znum_val tw + 100 * Z.of_nat (length (concat (map snd gs))) < 2 ^ 53 ->
  tc + 10 * Z.of_nat (length (concat (map snd gs))) < 2 ^ 53 ->
  let z := fold_left (fun acc (g : string * list StudentRecord) =>
                        add_sums acc (weighted_sums (semester_rows studentId (snd g)))) gs (tw, tc) in
  fold_left (add_semester_double studentId) gs (znum_to_float tw, of_Z tc)
  = (znum_to_float (fst z), of_Z (snd z))
  /\ 0 <= snd z <= tc + 10 * Z.of_nat (length (concat (map snd gs))).
Proof.
  revert tw tc. induction gs as [|g gs IH]; intros tw tc Hgs Htw Htc Hw Ht; cbv zeta;
    [cbn; split; [reflexivity|lia]|].
  inversion Hgs as [|? ? Hg Hgs']; subst. pose proof (znum_val_nonneg tw Htw).
  cbn [map concat] in Hw, Ht. rewrite length_app, Nat2Z.inj_add in Hw, Ht.
  destruct (semester_sums_double_exact studentId (snd g) Hg ltac:(lia)) as (E & T & B & V).
  cbn [fold_left]. unfold add_semester_double at 2. rewrite E.
  destruct (weighted_sums (semester_rows studentId (snd g))) as [sw sc]; cbn [fst snd] in *.
  change (add_sums (tw, tc) (sw, sc)) with (znum_add tw sw, tc + sc).
  rewrite znum_float_add, of_Z_add by (try assumption; lia).
  destruct (znum_add_bound tw sw Htw B) as [Hb Hv].
  destruct (IH (znum_add tw sw) (tc + sc) Hgs' Hb ltac:(lia) ltac:(lia) ltac:(lia)) as [E' T'].
  cbv zeta in E', T'. cbn [map concat]. rewrite length_app, Nat2Z.inj_add. split; [exact E'|lia].
Qed.

(** With credits in 0..10 and fewer than [2^53 / 100] rows in all the
    groups, the double loop of [calculateCGPA] equals its integer model. *)
Lemma calculateCGPA_double_exact (records : list StudentRecord) (studentId : string)
    (fileGroups : list (string * list StudentRecord)) :
  Forall credit_ok records -> 100 * Z.of_nat (length records) < 2 ^ 53 ->
  Forall (fun g => Forall credit_ok (snd g)) fileGroups ->
  100 * Z.of_nat (length (concat (map snd fileGroups))) < 2 ^ 53 ->
  calculateCGPA_double records studentId fileGroups = calculateCGPA records studentId fileGroups.
Proof.
  intros Hc Hlen Hgs Hglen. unfold calculateCGPA_double, calculateCGPA.
  destruct (length fileGroups <=? 1)%nat; [apply calculateSGPA_double_exact; assumption|].
  replace (0%float, 0%float) with (znum_to_float (Fin 0), of_Z 0) by (vm_compute; reflexivity).
  destruct (fold_semesters_exact studentId fileGroups (Fin 0) 0 Hgs ltac:(cbn; lia) ltac:(lia)
              ltac:(cbn [znum_val]; lia) ltac:(lia)) as [E T].
  cbv zeta in E, T. rewrite E.
  destruct (fold_left _ fileGroups (Fin 0, 0)) as [ws tc]. cbn [fst snd] in *.
  rewrite of_Z_eqb_0 by lia. reflexivity.
Qed.

(** C7 (bounds): with credits in 0..10 and fewer than [2^53 / 100] rows,
    the double-precision sums of the program never round: the loops of
    [calculateSGPA], of [calculateCGPA] (per semester and across
    semesters) and the guarded loop of [analyzeResults], run on doubles
    as the source writes them, return exactly what the integer models of
    Aggregator.v return, NaN for a grade inherited from
    [Object.prototype] included. *)
Theorem weighted_sum_loops_exact (records : list StudentRecord) (studentId : string)
    (fileGroups : list (string * list StudentRecord)) :
  Forall credit_ok records -> 100 * Z.of_nat (length records) < 2 ^ 53 ->
  Forall (fun g => Forall credit_ok (snd g)) fileGroups ->
  100 * Z.of_nat (length (concat (map snd fileGroups))) < 2 ^ 53 ->
  calculateSGPA_double records studentId = calculateSGPA records studentId
  /\ calculateCGPA_double records studentId fileGroups = calculateCGPA records studentId fileGroups
  /\ sgpa_pos_double (filter (of_student studentId) records)
     = gpa_of_sums_pos (weighted_sums_pos (filter (of_student studentId) records)).
Proof.
  intros Hc Hlen Hgs Hglen. pose proof (filter_length_le (of_student studentId) records).
  split; [|split].
  - apply calculateSGPA_double_exact; assumption.
  - apply calculateCGPA_double_exact; assumption.
  - apply sgpa_pos_double_exact; [apply Forall_filter_sub, Hc | lia].
Qed.

(** Two rows of one student, A (8 points) over 3 credits and U over 4. *)
Definition exact_demo : list StudentRecord :=
  [mkRecord "CS" "3" "S1" "CS1" "A" (Some 3) None None None None;
   mkRecord "CS" "3" "S1" "CS2" "U" (Some 4) None None None None].

Lemma weighted_sum_loops_exact_witness :
  calculateSGPA_double exact_demo "S1"%string = calculateSGPA exact_demo "S1"%string
  /\ calculateCGPA_double exact_demo "S1"%string [("sem3.xlsx", exact_demo); ("sem4.xlsx", [])]%string
     = calculateCGPA exact_demo "S1"%string [("sem3.xlsx", exact_demo); ("sem4.xlsx", [])]%string
  /\ sgpa_pos_double (filter (of_student "S1"%string) exact_demo)
     = gpa_of_sums_pos (weighted_sums_pos (filter (of_student "S1"%string) exact_demo)).
Proof.
  apply weighted_sum_loops_exact.
  - repeat apply Forall_cons; try apply Forall_nil; unfold credit_ok; cbn; lia.
  - cbn; lia.
  - repeat apply Forall_cons; try apply Forall_nil; cbn [snd];
      repeat apply Forall_cons; try apply Forall_nil; unfold credit_ok; cbn; lia.
  - cbn; lia.
Defined.

(** ** Range of the averages *)

Lemma is_nan_of (x : float) : Prim2SF x = S754_nan -> PrimFloat.is_nan x = true.
Proof. intros H. unfold PrimFloat.is_nan. rewrite FloatAxioms.eqb_spec, H. reflexivity. Qed.

(** A NaN weighted sum stays NaN through the division and the rounding. *)
Lemma format_nan_quotient (tc : Z) : PrimFloat.is_nan (formatTo2Decimals (znum_div NaN tc)) = true.
Proof.
  assert (Hn : Prim2SF (nan / of_Z tc)%float = S754_nan) by (rewrite FloatAxioms.div_spec; reflexivity).
  unfold znum_div, formatTo2Decimals. cbn [znum_to_float]. rewrite Hn. now apply is_nan_of.
Qed.

(** [formatTo2Decimals(weightedSum / totalCredits)] for sums whose
    weighted sum is at most ten times the credit total. *)
Lemma quotient_range (ws : znum) (tc : Z) :
  0 < tc -> 10 * tc < 2 ^ 53 ->
  match ws with Fin w => 0 <= w <= 10 * tc | NaN => True end ->
  gpa_range (formatTo2Decimals (znum_div ws tc)).
Proof.
  intros Htc Hb Hw. unfold znum_div. destruct ws as [w|]; cbn [znum_to_float].
  - right. destruct (of_Z_div_le w tc 10) as [Hq _]; [lia..|].
    apply formatTo2Decimals_range. exact Hq.
  - left. apply format_nan_quotient.
Qed.

Lemma points_total_range (rs : list StudentRecord) :
  Forall credit_ok rs ->
  match points_total rs with Fin w => 0 <= w <= 10 * credit_total rs | NaN => True end
  /\ 0 <= credit_total rs <= 10 * Z.of_nat (length rs).
Proof.
  induction 1 as [|r t Hr _ [IHw IHc]]; [cbn; lia|]. unfold credit_ok in Hr.
  cbn [points_total credit_total fold_right length] in *. fold (points_total t) (credit_total t) in *.
  rewrite Nat2Z.inj_succ. unfold row_points, row_credit, grade_value.
  destruct (grade_in_map (GR r)); [destruct (grade_point (GR r)) as [p|] eqn:Hp|];
    cbn [znum_mul znum_add]; [pose proof (grade_point_range _ _ Hp)| |];
    destruct (points_total t); split; first [exact I | nia].
Qed.

Lemma weighted_sums_pos_filter (rs : list StudentRecord) :
  weighted_sums_pos rs = weighted_sums (filter (fun r => 0 <? credit_or_zero r) rs).
Proof.
  unfold weighted_sums_pos, weighted_sums. generalize (Fin 0, 0).
  induction rs as [|r t IH]; intros acc; [reflexivity|]. cbn [fold_left filter].
  destruct (0 <? credit_or_zero r) eqn:Hc; cbn [fold_left]; rewrite IH; f_equal.
  - destruct acc. unfold accumulate_pos, accumulate. now rewrite Hc.
  - destruct acc. unfold accumulate_pos. rewrite Hc. now destruct (grade_in_map (GR r)).
Qed.

(** The two final divisions, [calculateSGPA]'s and [analyzeResults]'s, on
    any rows with credits in 0..10. *)
Lemma sums_range (rs : list StudentRecord) :
  Forall credit_ok rs -> 100 * Z.of_nat (length rs) < 2 ^ 53 ->
  gpa_range (gpa_of_sums (weighted_sums rs)) /\ gpa_range (gpa_of_sums_pos (weighted_sums_pos rs)).
Proof.
  assert (H : forall l, Forall credit_ok l -> 100 * Z.of_nat (length l) < 2 ^ 53 ->
            gpa_range (gpa_of_sums (weighted_sums l))).
  { intros l Hc Hlen. destruct (points_total_range l Hc) as [Hw Ht].
    rewrite weighted_sums_closed. unfold gpa_of_sums.
    destruct (Z.eqb_spec (credit_total l) 0); [right; split; reflexivity|].
    apply quotient_range; [lia..|exact Hw]. }
  intros Hc Hlen. split; [now apply H|].
  rewrite weighted_sums_pos_filter.
  pose proof (filter_length_le (fun r => 0 <? credit_or_zero r) rs).
  set (l := filter _ rs) in *. assert (Hl : Forall credit_ok l) by apply Forall_filter_sub, Hc.
  destruct (points_total_range l Hl) as [Hw Ht].
  rewrite weighted_sums_closed. unfold gpa_of_sums_pos.
  destruct (Z.ltb_spec 0 (credit_total l)); [|right; split; reflexivity].
  apply quotient_range; [lia..|exact Hw].
Qed.

Lemma semester_union_ok (studentId : string) (gs : list (string * list StudentRecord)) :
  Forall (fun g => Forall credit_ok (snd g)) gs ->
  Forall credit_ok (concat (map (fun g => semester_rows studentId (snd g)) gs))
  /\ (length (concat (map (fun g => semester_rows studentId (snd g)) gs))
      <= length (concat (map snd gs)))%nat.
Proof.
  induction 1 as [|g t Hg _ [IHc IHl]]; [cbn; split; [constructor|lia]|].
  cbn [map concat]. rewrite !length_app.
  destruct (semester_rows_sub studentId (snd g)) as [Hsub Hle].
  split; [apply Forall_app; split; [exact (incl_Forall Hsub Hg)|exact IHc] | lia].
Qed.

(** C8 (bounds): with credits in 0..10 and fewer than [2^53 / 100] rows,
    every average the program computes is NaN (a grade inherited from
    [Object.prototype]) or a double between 0 and 10: [calculateSGPA],
    [calculateCGPA] and the guarded loop of [analyzeResults], run on
    doubles as the source writes them.  Neither the rounding of the
    division nor [formatTo2Decimals] pushes an average past 10. *)
Theorem averages_in_range (records : list StudentRecord) (studentId : string)
    (fileGroups : list (string * list StudentRecord)) :
  Forall credit_ok records -> 100 * Z.of_nat (length records) < 2 ^ 53 ->
  Forall (fun g => Forall credit_ok (snd g)) fileGroups ->
  100 * Z.of_nat (length (concat (map snd fileGroups))) < 2 ^ 53 ->
  gpa_range (calculateSGPA_double records studentId)
  /\ gpa_range (calculateCGPA_double records studentId fileGroups)
  /\ gpa_range (sgpa_pos_double (filter (of_student studentId) records)).
Proof.
  intros Hc Hlen Hgs Hglen.
  pose proof (filter_length_le (of_student studentId) records) as Hfl.
  pose proof (Forall_filter_sub _ (of_student studentId) _ Hc) as Hfc.
  assert (HS : gpa_range (calculateSGPA records studentId))
    by (apply sums_range; [exact Hfc | lia]).
  split; [|split].
  - now rewrite calculateSGPA_double_exact.
  - rewrite calculateCGPA_double_exact by assumption. unfold calculateCGPA.
    destruct (length fileGroups <=? 1)%nat; [exact HS|].
    rewrite fold_groups, add_sums_0_l.
    destruct (semester_union_ok studentId fileGroups Hgs) as [Hu Hul].
    apply sums_range; [exact Hu | lia].
  - rewrite sgpa_pos_double_exact by (assumption || lia). apply sums_range; [exact Hfc | lia].
Qed.

Lemma averages_in_range_witness :
  gpa_range (calculateSGPA_double exact_demo "S1"%string)
  /\ gpa_range (calculateCGPA_double exact_demo "S1"%string
                  [("sem3.xlsx", exact_demo); ("sem4.xlsx", [])]%string)
  /\ gpa_range (sgpa_pos_double (filter (of_student "S1"%string) exact_demo)).
Proof.
  apply averages_in_range.
  - repeat apply Forall_cons; try apply Forall_nil; unfold credit_ok; cbn; lia.
  - cbn; lia.
  - repeat apply Forall_cons; try apply Forall_nil; cbn [snd];
      repeat apply Forall_cons; try apply Forall_nil; unfold credit_ok; cbn; lia.
  - cbn; lia.
Defined.

(** ** Grades named like [Object.prototype] members *)

Lemma prototype_grade_point (g : string) :
  In g object_prototype_keys -> grade_in_map g = true /\ grade_value g = NaN.
Proof. intros H. repeat destruct H as [<-|H]; try destruct H; split; reflexivity. Qed.

Lemma points_total_nan (rs : list StudentRecord) (r : StudentRecord) :
  In r rs -> row_points r = NaN -> points_total rs = NaN.
Proof.
  induction rs as [|x t IH]; intros Hr Hp; [destruct Hr|].
  cbn [points_total fold_right]. fold (points_total t).
  destruct Hr as [<-|Hr]; [now rewrite Hp|]. rewrite (IH Hr Hp). now destruct (row_points x).
Qed.

(** C9 (error, code bug): a row of the student whose grade is named like
    a property of [Object.prototype] passes [GR in gradePointMap], its
    credit is counted and its point is not a number, so for every rows
    the SGPA is NaN, unless the counted credits total 0 (then the
    [totalCredits === 0] branch returns 0). *)
Theorem calculateSGPA_prototype_grade_nan (rs : list StudentRecord) (studentId : string)
    (r : StudentRecord) :
  In r rs -> REGNO r = studentId -> In (GR r) object_prototype_keys ->
  credit_total (filter (of_student studentId) rs) <> 0 ->
  PrimFloat.is_nan (calculateSGPA rs studentId) = true.
Proof.
  intros Hr Hi Hg Hc. destruct (prototype_grade_point _ Hg) as [Hin Hv].
  unfold calculateSGPA. rewrite weighted_sums_closed.
  rewrite (points_total_nan _ r).
  - unfold gpa_of_sums. rewrite (proj2 (Z.eqb_neq _ _) Hc). apply format_nan_quotient.
  - apply filter_In. split; [exact Hr|]. unfold of_student. rewrite Hi. apply eqb_refl.
  - unfold row_points. now rewrite Hin, Hv.
Qed.

Lemma calculateSGPA_prototype_grade_nan_witness :
  let rs := [sample_row "S" "CS1" "O" "1" "sem1.xlsx" 3 false;
             sample_row "S" "CS2" "toString" "1" "sem1.xlsx" 3 false] in
  PrimFloat.is_nan (calculateSGPA rs "S") = true.
Proof.
  intros rs. apply (calculateSGPA_prototype_grade_nan rs "S" (sample_row "S" "CS2" "toString" "1" "sem1.xlsx" 3 false));
    [right; left; reflexivity | reflexivity | vm_compute; tauto | vm_compute; discriminate].
Defined.
