(* ===== verification/TermResolver.v ===== *)
(** * Source files and the current semester (analyzer.ts, [analyzeResults])

    [analyzeResults] treats every uploaded file as one semester.  It lists
    the files ([filesProcessed], keyed by [fileSource || 'Unknown']),
    groups the rows by file ([fileGroups], by [fileSource === fileName]),
    picks the current-semester file (the first file whose first row has the
    highest [parseInt(SEM || '0', 10)] above -1, the first file by
    default), and selects the rows that count for the current semester
    (the rows marked by the user if any row is marked, the unmarked rows
    otherwise).

    The theorems: the current-file loop refines a declarative
    specification (first file of maximal non-negative semester number);
    the selection is "the marked rows, or else every row"; rows without a
    source file are listed under 'Unknown' but belong to no group, so a
    cohort uploaded without file names has no current-semester rows; the
    selection is made per file, not per student as the specification and
    [calculateCGPA] do. *)

From Stdlib Require Import Bool ZArith String List Lia.
From S2P Require Import Prelude JsNumber GradeScale Aggregator.
Import ListNotations.
Local Open Scope Z_scope.

(** ** Files and groups *)

(** [record.fileSource || 'Unknown']. *)
Definition file_key (r : StudentRecord) : string :=
  match fileSource r with
  | Some s => if s ==? ""%string then "Unknown"%string else s
  | None => "Unknown"%string
  end.

(** [[...new Set(records.map(record => record.fileSource || 'Unknown'))]]. *)
Definition filesProcessed (records : list StudentRecord) : list string :=
  uniq (map file_key records).

(** [record.fileSource === fileName]. *)
Definition from_file (fileName : string) (r : StudentRecord) : bool :=
  match fileSource r with
  | Some s => s ==? fileName
  | None => false
  end.

(** The object [fileGroups], as its entries in insertion order. *)
Definition fileGroups (records : list StudentRecord) : list (string * list StudentRecord) :=
  map (fun f => (f, filter (from_file f) records)) (filesProcessed records).

(** ** The current-semester file *)

(** [parseInt(fileRecords[0]?.SEM || '0', 10)] for a non-empty group;
    [None] for an empty group (skipped by [fileRecords.length > 0]) and
    for NaN. *)
Definition group_number (g : string * list StudentRecord) : option Z :=
  match snd g with
  | [] => None
  | r :: _ => parseInt10 (if SEM r ==? ""%string then "0"%string else SEM r)
  end.

(** One iteration of [filesProcessed.forEach]: the state is
    [(currentSemesterFile, highestSemValue)]. *)
Definition current_step (acc : string * Z) (g : string * list StudentRecord) : string * Z :=
  let '(cur, highest) := acc in
  match group_number g with
  | Some v => if highest <? v then (fst g, v) else acc
  | None => acc
  end.

(** [currentSemesterFile]; [None] is [undefined] ([filesProcessed[0]] of
    an empty list). *)
Definition currentSemesterFile (records : list StudentRecord) : option string :=
  match filesProcessed records with
  | [] => None
  | f0 :: _ => Some (fst (fold_left current_step (fileGroups records) (f0, -1)))
  end.

(** [currentSemesterFile ? records.filter(fileSource === file) : records]. *)
Definition currentSemesterRecords (records : list StudentRecord) : list StudentRecord :=
  match currentSemesterFile records with
  | Some f => if f ==? ""%string then records else filter (from_file f) records
  | None => records
  end.

(** ** The rows that count for the current semester *)

(** The marked rows when any row is marked, the unmarked rows otherwise
    ([nonArrearCurrentSemesterRecords] and [recordsToUseForSGPA]). *)
Definition select_current_rows (rows : list StudentRecord) : list StudentRecord :=
  match filter marked_current rows with
  | [] => filter not_marked rows
  | marked => marked
  end.

(** [recordsForSubjectAnalysis], written with its own fallback. *)
Definition recordsForSubjectAnalysis (records : list StudentRecord) : list StudentRecord :=
  let current := currentSemesterRecords records in
  match filter marked_current current with
  | [] =>
      match currentSemesterFile records with
      | Some f => if f ==? ""%string then filter not_marked records
                  else filter not_marked current
      | None => filter not_marked records
      end
  | marked => marked
  end.

(** ** Reference for the current-file loop *)

(** The largest non-negative semester number of the groups, -1 if none. *)
Fixpoint max_number (gs : list (string * list StudentRecord)) : Z :=
  match gs with
  | [] => -1
  | g :: t =>
      match group_number g with
      | Some v => Z.max v (max_number t)
      | None => max_number t
      end
  end.

(** The name of the first group whose semester number is [m]. *)
Fixpoint first_with (m : Z) (gs : list (string * list StudentRecord)) : string :=
  match gs with
  | [] => ""%string
  | g :: t =>
      match group_number g with
      | Some v => if v =? m then fst g else first_with m t
      | None => first_with m t
      end
  end.

(** ** Lemmas on the reference *)

Lemma max_number_ge (gs : list (string * list StudentRecord)) : -1 <= max_number gs.
Proof.
  induction gs as [|g t IH]; simpl; [lia|].
  destruct (group_number g); lia.
Qed.

Lemma max_number_upper (gs : list (string * list StudentRecord)) g v :
  In g gs -> group_number g = Some v -> v <= max_number gs.
Proof.
  induction gs as [|g' t IH]; intros Hin Hv; [destruct Hin|].
  simpl. destruct Hin as [<-|Hin].
  - rewrite Hv. lia.
  - specialize (IH Hin Hv). destruct (group_number g'); lia.
Qed.

Lemma max_number_attained (gs : list (string * list StudentRecord)) :
  0 <= max_number gs -> exists g, In g gs /\ group_number g = Some (max_number gs).
Proof.
  induction gs as [|g t IH]; simpl; [lia|].
  destruct (group_number g) as [v|] eqn:Eg.
  - destruct (Z.max_spec v (max_number t)) as [[Hlt ->]|[Hle ->]]; intros H.
    + destruct (IH H) as (g' & Hin & Hg'). eauto.
    + exists g. now split; [left|].
  - intros H. destruct (IH H) as (g' & Hin & Hg'). eauto.
Qed.

Lemma first_with_split (m : Z) (gs : list (string * list StudentRecord)) :
  (exists g, In g gs /\ group_number g = Some m) ->
  exists pre g suf, gs = (pre ++ g :: suf)%list /\ fst g = first_with m gs
    /\ group_number g = Some m /\ (forall g', In g' pre -> group_number g' <> Some m).
Proof.
  induction gs as [|g t IH]; intros (h & Hin & Hh); [destruct Hin|].
  simpl. destruct (group_number g) as [v|] eqn:Eg; [destruct (Z.eqb_spec v m) as [->|Hne]|].
  - exists [], g, t. repeat split; [assumption | intros g' []].
  - destruct Hin as [<-|Hin]; [congruence|].
    destruct (IH (ex_intro _ h (conj Hin Hh))) as (pre & g0 & suf & -> & H1 & H2 & H3).
    exists (g :: pre), g0, suf. repeat split; try assumption.
    intros g' [<-|Hg']; [congruence | now apply H3].
  - destruct Hin as [<-|Hin]; [congruence|].
    destruct (IH (ex_intro _ h (conj Hin Hh))) as (pre & g0 & suf & -> & H1 & H2 & H3).
    exists (g :: pre), g0, suf. repeat split; try assumption.
    intros g' [<-|Hg']; [congruence | now apply H3].
Qed.

(** The loop keeps the first group reaching the running maximum. *)
Lemma fold_current_step (gs : list (string * list StudentRecord)) (f : string) (h : Z) :
  -1 <= h ->
  fold_left current_step gs (f, h)
  = if max_number gs <=? h then (f, h) else (first_with (max_number gs) gs, max_number gs).
Proof.
  revert f h. induction gs as [|g t IH]; intros f h Hh; cbn [fold_left max_number first_with].
  - destruct (Z.leb_spec (-1) h); [reflexivity | lia].
  - pose proof (max_number_ge t) as Ht.
    unfold current_step at 2. destruct (group_number g) as [v|] eqn:Eg; [|now apply IH].
    destruct (Z.ltb_spec h v).
    + rewrite IH by lia.
      destruct (Z.leb_spec (max_number t) v).
      * rewrite Z.max_l, Z.eqb_refl by lia. destruct (Z.leb_spec v h); [lia | reflexivity].
      * rewrite Z.max_r by lia. destruct (Z.leb_spec (max_number t) h); [lia|].
        destruct (Z.eqb_spec v (max_number t)); [lia | reflexivity].
    + rewrite IH by lia.
      destruct (Z.leb_spec (max_number t) h).
      * destruct (Z.leb_spec (Z.max v (max_number t)) h); [reflexivity | lia].
      * rewrite Z.max_r by lia. destruct (Z.leb_spec (max_number t) h); [lia|].
        destruct (Z.eqb_spec v (max_number t)); [lia | reflexivity].
Qed.

Lemma select_current_rows_spec (rows : list StudentRecord) :
  select_current_rows rows
  = if existsb marked_current rows then filter marked_current rows else rows.
Proof.
  unfold select_current_rows. destruct (filter marked_current rows) eqn:E.
  - rewrite filter_nil_iff in E.
    assert (existsb marked_current rows = false) as ->.
    { apply not_true_iff_false. rewrite existsb_exists.
      intros (x & Hx & Hm). rewrite E in Hm by exact Hx. discriminate. }
    apply filter_all_true. intros x Hx. unfold not_marked. now rewrite E.
  - assert (existsb marked_current rows = true) as ->; [|reflexivity].
    apply existsb_exists. exists s. split; apply (filter_In marked_current s rows);
      rewrite E; now left.
Qed.

Local Open Scope string_scope.

(** ** Theorems *)

(** C10 (refinement): the current-semester file is the first file of
    maximal non-negative semester number ([parseInt] of the first row's
    [SEM]), and the first uploaded file when no file has one (spec
    section 4.3a; negative numbers are never candidates). *)
Theorem currentSemesterFile_first_max (records : list StudentRecord) (f : string) :
  currentSemesterFile records = Some f ->
  ((forall g v, In g (fileGroups records) -> group_number g = Some v -> v < 0)
   /\ hd_error (filesProcessed records) = Some f)
  \/ (exists pre g suf v,
        fileGroups records = (pre ++ g :: suf)%list /\ fst g = f /\ group_number g = Some v
        /\ 0 <= v
        /\ (forall g' v', In g' (fileGroups records) -> group_number g' = Some v' -> v' <= v)
        /\ (forall g', In g' pre -> group_number g' <> Some v)).
Proof.
  unfold currentSemesterFile. destruct (filesProcessed records) as [|f0 fs] eqn:Ef;
    [discriminate|].
  intros Hf. injection Hf as <-. rewrite fold_current_step by lia.
  destruct (Z.leb_spec (max_number (fileGroups records)) (-1)) as [Hle|Hgt].
  - left. split; [|reflexivity].
    intros g v Hg Hv. pose proof (max_number_upper _ g v Hg Hv). lia.
  - right. cbn [fst].
    destruct (first_with_split (max_number (fileGroups records)) (fileGroups records)
                (max_number_attained (fileGroups records) ltac:(lia))) as (pre & g & suf & E & H1 & H2 & H3).
    exists pre, g, suf, (max_number (fileGroups records)).
    repeat split; try assumption; [lia|].
    intros g' v' Hg' Hv'. exact (max_number_upper _ g' v' Hg' Hv').
Qed.

Definition sem3_row : StudentRecord := sample_row "S1" "CS1" "A" "3" "sem3.xlsx" 3 false.
Definition sem4_row : StudentRecord := sample_row "S1" "CS2" "O" "4" "sem4.xlsx" 3 false.

Lemma currentSemesterFile_first_max_witness :
  currentSemesterFile [sem3_row; sem4_row] = Some "sem4.xlsx" /\
  (((forall g v, In g (fileGroups [sem3_row; sem4_row]) -> group_number g = Some v -> v < 0)
    /\ hd_error (filesProcessed [sem3_row; sem4_row]) = Some "sem4.xlsx")
   \/ (exists pre g suf v,
        fileGroups [sem3_row; sem4_row] = (pre ++ g :: suf)%list /\ fst g = "sem4.xlsx"
        /\ group_number g = Some v /\ 0 <= v
        /\ (forall g' v', In g' (fileGroups [sem3_row; sem4_row]) ->
                         group_number g' = Some v' -> v' <= v)
        /\ (forall g', In g' pre -> group_number g' <> Some v))).
Proof.
  split; [vm_compute; reflexivity|].
  apply currentSemesterFile_first_max. vm_compute. reflexivity.
Defined.

(** The scenario of spec section 8: with two files of
    semesters "3" and "4", the file of semester 4 is the current one
    whatever the upload order. *)
Theorem currentSemesterFile_upload_order :
  currentSemesterFile [sem3_row; sem4_row] = Some "sem4.xlsx"
  /\ currentSemesterFile [sem4_row; sem3_row] = Some "sem4.xlsx".
Proof. vm_compute. split; reflexivity. Qed.

(** The current-semester selection keeps the marked
    rows when any row is marked; when none is, the fallback "rows that are
    not marked" keeps every row (spec section 4.3b). *)
Theorem select_current_rows_marked_or_all (rows : list StudentRecord) :
  (existsb marked_current rows = true ->
     select_current_rows rows = filter marked_current rows)
  /\ (existsb marked_current rows = false -> select_current_rows rows = rows).
Proof.
  rewrite select_current_rows_spec. split; intros ->; reflexivity.
Qed.

(** [recordsForSubjectAnalysis], written with its own
    three-way fallback, selects the same rows as the current-semester
    selection applied to the current file's rows. *)
Theorem recordsForSubjectAnalysis_select (records : list StudentRecord) :
  recordsForSubjectAnalysis records = select_current_rows (currentSemesterRecords records).
Proof.
  unfold recordsForSubjectAnalysis, select_current_rows, currentSemesterRecords.
  destruct (currentSemesterFile records) as [f|]; [|reflexivity].
  destruct (f ==? "") eqn:E; reflexivity.
Qed.

(** Rows without a [fileSource] are listed as the
    file 'Unknown', but [fileGroups['Unknown']] selects the rows whose
    [fileSource] is the string 'Unknown', so it is empty and a cohort
    uploaded without source names has no current-semester rows at all. *)
Theorem no_source_no_current_rows (records : list StudentRecord) :
  records <> [] -> (forall r, In r records -> fileSource r = None) ->
  filesProcessed records = ["Unknown"] /\ currentSemesterRecords records = [].
Proof.
  intros Hne Hnone.
  assert (filter (from_file "Unknown") records = []) as Hempty.
  { apply filter_nil_iff. intros r Hr. unfold from_file. now rewrite Hnone. }
  assert (Hf : filesProcessed records = ["Unknown"]).
  { unfold filesProcessed. apply uniq_const.
    - destruct records; [congruence | discriminate].
    - intros y Hy. apply in_map_iff in Hy as (r & <- & Hr).
      unfold file_key. now rewrite Hnone. }
  split; [exact Hf|].
  unfold currentSemesterRecords, currentSemesterFile, fileGroups. rewrite Hf.
  simpl. rewrite Hempty. simpl. exact Hempty.
Qed.

Definition unnamed_row : StudentRecord :=
  mkRecord "" "4" "S1" "CS1" "O" (Some 3) None None None (Some false).

Lemma no_source_no_current_rows_witness :
  filesProcessed [unnamed_row] = ["Unknown"] /\ currentSemesterRecords [unnamed_row] = [].
Proof.
  apply no_source_no_current_rows; [discriminate|].
  intros r [<-|[]]. reflexivity.
Defined.

(** C18 (functional, divergence from spec section 4.3b): the selection of
    [analyzeResults] is made per file, not per student.  Once some row of
    the file is marked, a student none of whose rows is marked loses every
    row, while the per-student rule of the specification (and of
    [calculateCGPA]) keeps all of that student's rows. *)
Theorem selection_per_file_drops_student (rows : list StudentRecord) (i : string) :
  existsb marked_current rows = true ->
  (forall r, In r rows -> REGNO r = i -> marked_current r = false) ->
  filter (of_student i) (select_current_rows rows) = []
  /\ semester_rows i rows = filter (of_student i) rows.
Proof.
  intros Hm Hi. rewrite select_current_rows_spec, Hm, filter_filter_and. split.
  - apply filter_nil_iff. intros r Hr. unfold of_student.
    destruct (REGNO r ==? i) eqn:E; [|now rewrite andb_false_r].
    apply (eqb_true_iff (REGNO r) i) in E. now rewrite (Hi r Hr E).
  - unfold semester_rows.
    assert (Hn : forall r, In r rows -> (of_student i r && marked_current r) = false).
    { intros r Hr. unfold of_student. destruct (REGNO r ==? i) eqn:E; [|reflexivity].
      apply (eqb_true_iff (REGNO r) i) in E. now rewrite (Hi r Hr E). }
    rewrite (proj2 (filter_nil_iff _ rows) Hn). apply filter_ext_in. intros r Hr.
    unfold not_marked. specialize (Hn r Hr). unfold of_student in *.
    destruct (REGNO r ==? i), (marked_current r); easy.
Qed.

Lemma selection_per_file_drops_student_witness :
  let rows := [sample_row "S1" "CS1" "A" "4" "sem4.xlsx" 3 true;
               sample_row "S1" "CS2" "B" "4" "sem4.xlsx" 3 false;
               sample_row "S2" "CS2" "O" "4" "sem4.xlsx" 3 false] in
  filter (of_student "S2") (select_current_rows rows) = []
  /\ semester_rows "S2" rows = filter (of_student "S2") rows.
Proof.
  apply selection_per_file_drops_student; [reflexivity|].
  intros r [<-|[<-|[<-|[]]]]; cbn; intros H; first [reflexivity | discriminate H].
Defined.

(** ** The groups and the rows *)

Lemma fileGroups_sub (records : list StudentRecord) g r :
  In g (fileGroups records) -> In r (snd g) -> In r records.
Proof.
  unfold fileGroups. intros Hg Hr. apply in_map_iff in Hg as (f & <- & _).
  apply filter_In in Hr. tauto.
Qed.

Lemma fileGroups_cover (records : list StudentRecord) r s :
  In r records -> fileSource r = Some s -> s <> "" ->
  exists g, In g (fileGroups records) /\ In r (snd g).
Proof.
  intros Hr Hs Hne. exists (s, filter (from_file s) records). split.
  - unfold fileGroups. apply in_map_iff. exists s. split; [reflexivity|].
    unfold filesProcessed. apply In_uniq, in_map_iff. exists r. split; [|exact Hr].
    unfold file_key. rewrite Hs. now rewrite (eqb_neq s "" Hne).
  - apply filter_In. split; [exact Hr|]. unfold from_file. rewrite Hs. apply eqb_refl.
Qed.

(** One group: when every row names its (non-empty) file and the rows
    form a single group, the current-semester rows are all the rows. *)
Lemma single_group_current (records : list StudentRecord) :
  (forall r, In r records -> exists s, fileSource r = Some s /\ s <> "") ->
  length (fileGroups records) = 1%nat ->
  currentSemesterRecords records = records.
Proof.
  intros Hs Hl. unfold fileGroups in Hl. rewrite length_map in Hl.
  destruct (filesProcessed records) as [|f [|f' t]] eqn:E; try discriminate.
  assert (Hk : forall r, In r records -> file_key r = f).
  { intros r Hr. assert (In (file_key r) (filesProcessed records)) as Hin
      by (apply In_uniq, in_map_iff; eauto).
    rewrite E in Hin. destruct Hin as [<-|[]]. reflexivity. }
  unfold currentSemesterRecords, currentSemesterFile, fileGroups. rewrite E. cbn [map fold_left].
  assert (Hf : fst (current_step (f, -1) (f, filter (from_file f) records)) = f).
  { unfold current_step. destruct (group_number _); [destruct (_ <? _)%Z|]; reflexivity. }
  rewrite Hf.
  destruct (f ==? "") eqn:Ef; [reflexivity|].
  apply filter_all_true. intros r Hr. destruct (Hs r Hr) as (s & Hsr & Hne).
  specialize (Hk r Hr). unfold file_key in Hk. unfold from_file. rewrite Hsr in *.
  rewrite (eqb_neq s "" Hne) in Hk. subst s. apply eqb_refl.
Qed.

(** ** The marks do not choose the files *)

(** The rows with their [isArrear] marks replaced, as the credit form
    sets them: every other field is kept. *)
Definition remark (marks : StudentRecord -> option bool) (r : StudentRecord) : StudentRecord :=
  mkRecord (CNo r) (SEM r) (REGNO r) (SCODE r) (GR r) (creditValue r) (subjectName r)
    (facultyName r) (fileSource r) (marks r).

Section Remark.
Variable marks : StudentRecord -> option bool.

Lemma filesProcessed_remark (records : list StudentRecord) :
  filesProcessed (map (remark marks) records) = filesProcessed records.
Proof. unfold filesProcessed. now rewrite map_map. Qed.

Lemma fileGroups_remark (records : list StudentRecord) :
  fileGroups (map (remark marks) records)
  = map (fun g => (fst g, map (remark marks) (snd g))) (fileGroups records).
Proof.
  unfold fileGroups. rewrite filesProcessed_remark, map_map. apply map_ext. intros f.
  cbn [fst snd]. f_equal. now apply filter_map_comm.
Qed.

Lemma currentSemesterFile_remark (records : list StudentRecord) :
  currentSemesterFile (map (remark marks) records) = currentSemesterFile records.
Proof.
  unfold currentSemesterFile. rewrite filesProcessed_remark.
  destruct (filesProcessed records) as [|f0 t]; [reflexivity|].
  rewrite fileGroups_remark. do 2 f_equal. generalize (f0, -1).
  induction (fileGroups records) as [|[f g] gs IH]; intros acc; [reflexivity|].
  cbn [map fold_left fst snd]. rewrite <- IH. f_equal.
  unfold current_step, group_number. destruct acc as [cur h]. now destruct g.
Qed.

Lemma currentSemesterRecords_remark (records : list StudentRecord) :
  currentSemesterRecords (map (remark marks) records)
  = map (remark marks) (currentSemesterRecords records).
Proof.
  unfold currentSemesterRecords. rewrite currentSemesterFile_remark.
  destruct (currentSemesterFile records) as [f|]; [|reflexivity].
  destruct (f ==? ""); [reflexivity|]. now apply filter_map_comm.
Qed.
End Remark.
