(* ===== verification/Distribution.v ===== *)
(** * Histograms of analyzeResults (src/src/utils/excel/analyzer.ts)

    Three parts of [analyzeResults] count rows in objects keyed by strings:
    [gradeDistribution] (lines 212-226) counts the recognised grades of all
    rows, [subjectPerformanceMap] (lines 247-278) tallies pass/fail per
    subject over the rows selected for subject analysis, and
    [subjectGradeDistribution] (lines 317-338) builds one grade histogram
    per subject.  The objects follow JsObject.v: a key inherited from
    [Object.prototype] reads as a function, so [(o[g] || 0) + 1] becomes a
    string; [getGradeColor] (gradeUtils.ts, lines 5-7) looks the grade up
    in [gradeColors] (types.ts, lines 84-93) the same way.

    The theorems (at the end of the file) give each histogram in closed
    form when no key is inherited from [Object.prototype]: the keys are the
    distinct codes in first-occurrence order and each entry counts the rows
    with its code; they also show what the inherited keys and the
    array-index keys do to the result. *)

From Stdlib Require Import Bool ZArith Ascii String List Permutation Floats Lia.
From S2P Require Import Prelude JsNumber GradeScale JsObject TermResolver.
Import ListNotations.
Local Open Scope Z_scope.
Local Open Scope string_scope.

(** ** Counters *)

(** The value stored under a key of a counting object: a number, or the
    string a [+ 1] on a non-number produced. *)
Inductive count_val := CNum (n : Z) | CText (s : string).

(** [String(f)] of a built-in method of [Object.prototype]: the name of
    [Object.prototype.constructor] is [Object]. *)
Definition native_function_text (key : string) : string :=
  "function " ++ (if key ==? "constructor" then "Object" else key)
  ++ "() { [native code] }".

(** [o[g] = (o[g] || 0) + 1]. *)
Definition bump_count (g : string) (o : list (string * count_val))
  : list (string * count_val) :=
  match read g o with
  | Own (CNum n) => assign g (CNum (n + 1)) o
  | Own (CText s) => assign g (if s ==? "" then CNum 1 else CText (s ++ "1")) o
  | InheritedFn name => assign g (CText (native_function_text name ++ "1")) o
  | ObjectPrototype => assign g (CText "[object Object]1") o
  | Undefined => assign g (CNum 1) o
  end.

(** [rows.forEach(record => { if (record.GR in gradePointMap)
    counts[record.GR] = (counts[record.GR] || 0) + 1 })] on [{}]. *)
Definition count_grade_step (o : list (string * count_val)) (r : StudentRecord)
  : list (string * count_val) :=
  if grade_in_map (GR r) then bump_count (GR r) o else o.

Definition grade_counts (rows : list StudentRecord) : list (string * count_val) :=
  fold_left count_grade_step rows [].

(** ** Colours *)

(** [gradeColors] of types.ts. *)
Definition gradeColors : list (string * string) :=
  [("O", "#10b981"); ("A+", "#34d399"); ("A", "#6ee7b7"); ("B+", "#facc15");
   ("B", "#fbbf24"); ("C", "#f97316"); ("P", "#ef4444"); ("U", "#dc2626")].

(** The [fill] of a bar: a colour string, or the inherited member of
    [Object.prototype] named so (a truthy non-string). *)
Inductive fill_val := FillColor (c : string) | FillInherited (key : string).

(** [getGradeColor]: [gradeColors[grade] || '#9ca3af']. *)
Definition getGradeColor (grade : string) : fill_val :=
  match read grade gradeColors with
  | Own c => if c ==? "" then FillColor "#9ca3af" else FillColor c
  | InheritedFn name => FillInherited name
  | ObjectPrototype => FillInherited "__proto__"
  | Undefined => FillColor "#9ca3af"
  end.

(** ** Grade distribution *)

Record GradeBar := mkGradeBar {
  bar_name : string;
  bar_count : count_val;
  bar_fill : fill_val
}.

(** [Object.entries(counts).map(([grade, count]) => ({name, count, fill}))]. *)
Definition grade_bars (o : list (string * count_val)) : list GradeBar :=
  map (fun '(g, c) => mkGradeBar g c (getGradeColor g)) (entries o).

(** [gradeDistributionData]. *)
Definition gradeDistribution (records : list StudentRecord) : list GradeBar :=
  grade_bars (grade_counts records).

(** ** Subject performance *)

Record SubjectTally := mkSubjectTally {
  st_pass : Z;
  st_fail : Z;
  st_total : Z;
  st_name : option string
}.

(** A JS truthiness test on an optional string. *)
Definition truthy (s : option string) : bool :=
  match s with Some v => negb (v ==? "") | None => false end.

(** [total++; if (record.GR !== 'U') pass++; else fail++]. *)
Definition tally_row (r : StudentRecord) (d : SubjectTally) : SubjectTally :=
  if GR r ==? "U"
  then mkSubjectTally (st_pass d) (st_fail d + 1) (st_total d + 1) (st_name d)
  else mkSubjectTally (st_pass d + 1) (st_fail d) (st_total d + 1) (st_name d).

(** The body of [recordsForSubjectAnalysis.forEach].  A subject code
    inherited from [Object.prototype] reads as a truthy member, so no own
    entry is created and the increments go to that shared member. *)
Definition performance_step (m : list (string * SubjectTally)) (r : StudentRecord)
  : list (string * SubjectTally) :=
  if negb (grade_in_map (GR r)) then m
  else
    let subject := SCODE r in
    match read subject m with
    | Undefined => assign subject (tally_row r (mkSubjectTally 0 0 0 (subjectName r))) m
    | Own d =>
        let d' := if truthy (subjectName r) && negb (truthy (st_name d))
                  then mkSubjectTally (st_pass d) (st_fail d) (st_total d) (subjectName r)
                  else d in
        assign subject (tally_row r d') m
    | _ => m
    end.

Definition subject_tallies (rows : list StudentRecord) : list (string * SubjectTally) :=
  fold_left performance_step rows [].

(** [data.total > 0 ? formatTo2Decimals((part / data.total) * 100) : 0]. *)
Definition share (part total : Z) : float :=
  if (0 <? total)%Z then formatTo2Decimals ((of_Z part / of_Z total) * 100)%float
  else 0%float.

Record SubjectPerformance := mkSubjectPerformance {
  sp_subject : string;
  sp_pass : float;
  sp_fail : float;
  sp_name : option string
}.

(** [subjectPerformanceData], over [recordsForSubjectAnalysis]. *)
Definition subjectPerformance (rows : list StudentRecord) : list SubjectPerformance :=
  map (fun '(s, d) =>
         mkSubjectPerformance s (share (st_pass d) (st_total d))
           (share (st_fail d) (st_total d)) (st_name d))
      (entries (subject_tallies rows)).

(** ** Grade distribution per subject *)

Definition subject_rows (rows : list StudentRecord) (subject : string) : list StudentRecord :=
  filter (fun r => SCODE r ==? subject) rows.

(** [uniqueSubjects.forEach(subject => { ...;
    subjectGradeDistribution[subject] = Object.entries(gradeCounts).map(...) })]. *)
Definition subjectGradeDistribution (rows : list StudentRecord)
  : list (string * list GradeBar) :=
  fold_left (fun o subject =>
               assign subject (grade_bars (grade_counts (subject_rows rows subject))) o)
            (uniq (map SCODE rows)) [].

(** ** Lemmas: the grade histogram *)

(** [(v || 0) + 1] for a value read from an own property or [undefined]. *)
Definition count_incr (v : option count_val) : count_val :=
  match v with
  | Some (CNum n) => CNum (n + 1)
  | Some (CText s) => if s ==? "" then CNum 1 else CText (s ++ "1")
  | None => CNum 1
  end.

(** The value under a key counted [n] times ([n >= 0]). *)
Definition opt_count (n : Z) : option count_val := if (n =? 0)%Z then None else Some (CNum n).

Lemma read_own {V} (k : string) (o : list (string * V)) :
  ~ In k object_prototype_keys ->
  read k o = match get_own k o with Some v => Own v | None => Undefined end.
Proof.
  intros Hk. unfold read. destruct (get_own k o); [reflexivity|].
  rewrite eqb_neq by (intros ->; apply Hk; simpl; tauto).
  destruct (mem k object_prototype_keys) eqn:E; [|reflexivity].
  apply mem_In in E. contradiction.
Qed.

Lemma assign_own {V} (k : string) (v : V) (o : list (string * V)) :
  ~ In k object_prototype_keys -> assign k v o = set_own k v o.
Proof.
  intros Hk. unfold assign. rewrite eqb_neq; [reflexivity|].
  intros ->. apply Hk. simpl. tauto.
Qed.

Lemma bump_count_own (g : string) (o : list (string * count_val)) :
  ~ In g object_prototype_keys -> bump_count g o = set_own g (count_incr (get_own g o)) o.
Proof.
  intros Hg. unfold bump_count. rewrite read_own by exact Hg.
  destruct (get_own g o) as [[]|]; apply assign_own, Hg.
Qed.

Lemma grade_counts_group (rows : list StudentRecord) :
  (forall r, In r rows -> ~ In (GR r) object_prototype_keys) ->
  grade_counts rows
  = fold_left (group_step GR (fun _ => count_incr))
              (filter (fun r => grade_in_map (GR r)) rows) [].
Proof.
  intros H. unfold grade_counts, count_grade_step. rewrite <- fold_left_filter.
  apply fold_left_ext_in. intros acc r Hr. destruct (grade_in_map (GR r)); [|reflexivity].
  now rewrite bump_count_own by (apply H, Hr).
Qed.

Lemma group_value_count (g : string) (l : list StudentRecord) (n : Z) :
  (0 <= n)%Z ->
  fold_left (fun acc x => if GR x ==? g then Some (count_incr acc) else acc) l (opt_count n)
  = opt_count (n + Z.of_nat (count (fun r => GR r ==? g) l)).
Proof.
  revert n. induction l as [|x t IH]; intros n Hn; cbn [fold_left]; [f_equal; simpl; lia|].
  rewrite count_cons. destruct (GR x ==? g).
  - replace (Some (count_incr (opt_count n))) with (opt_count (n + 1)).
    + rewrite IH by lia. f_equal; lia.
    + unfold opt_count. destruct (Z.eqb_spec n 0) as [->|]; [reflexivity|].
      destruct (Z.eqb_spec (n + 1) 0); [lia|reflexivity].
  - rewrite IH by lia. f_equal; lia.
Qed.

Lemma assoc_lookup_In (k : string) (l : list (string * Z)) (v : Z) :
  assoc_lookup k l = Some v -> In k (map fst l).
Proof.
  induction l as [|[k0 v0] t IH]; cbn [assoc_lookup map fst In]; [discriminate|].
  destruct (eqb_spec k k0); [left; congruence | intros H; right; auto].
Qed.

(** The eight grades are not array indices. *)
Lemma grade_not_index (g : string) :
  grade_in_map g = true -> ~ In g object_prototype_keys -> is_index g = false.
Proof.
  unfold grade_in_map. intros H Hk. destruct (grade_point g) as [p|] eqn:E.
  - apply assoc_lookup_In in E. simpl in E.
    repeat (destruct E as [<-|E]; [reflexivity|]). destruct E.
  - apply mem_In in H. contradiction.
Qed.

(** ** Lemmas: the subject tallies *)

(** The update of [performance_step] as a function of the entry read. *)
Definition tally_f (r : StudentRecord) (acc : option SubjectTally) : SubjectTally :=
  match acc with
  | None => tally_row r (mkSubjectTally 0 0 0 (subjectName r))
  | Some d =>
      tally_row r (if truthy (subjectName r) && negb (truthy (st_name d))
                   then mkSubjectTally (st_pass d) (st_fail d) (st_total d) (subjectName r)
                   else d)
  end.

(** An entry [d] after the rows [sr] of its subject. *)
Definition tally_extend (d : SubjectTally) (sr : list StudentRecord) : SubjectTally :=
  mkSubjectTally (st_pass d + Z.of_nat (count (fun r => negb (is_fail r)) sr))
                 (st_fail d + Z.of_nat (count is_fail sr))
                 (st_total d + Z.of_nat (length sr))
                 (if truthy (st_name d) then st_name d
                  else match find (fun r => truthy (subjectName r)) sr with
                       | Some r => subjectName r
                       | None => st_name d
                       end).

Lemma subject_tallies_group (rows : list StudentRecord) :
  (forall r, In r rows -> ~ In (SCODE r) object_prototype_keys) ->
  subject_tallies rows
  = fold_left (group_step SCODE tally_f) (filter (fun r => grade_in_map (GR r)) rows) [].
Proof.
  intros H. unfold subject_tallies, performance_step. rewrite <- fold_left_filter.
  apply fold_left_ext_in. intros m r Hr. destruct (grade_in_map (GR r)); [|reflexivity].
  cbn [negb]. rewrite read_own by (apply H, Hr). unfold group_step.
  destruct (get_own (SCODE r) m); apply assign_own, H, Hr.
Qed.

Lemma tally_extend_cons (d : SubjectTally) (x : StudentRecord) (sr : list StudentRecord) :
  tally_extend (tally_f x (Some d)) sr = tally_extend d (x :: sr).
Proof.
  unfold tally_extend, tally_f, tally_row, is_fail. cbn [find length].
  rewrite !count_cons. destruct (truthy (st_name d)) eqn:Ed, (truthy (subjectName x)) eqn:Ex;
    destruct (GR x ==? "U"); cbn [andb negb st_pass st_fail st_total st_name];
    rewrite ?Ed, ?Ex; f_equal; lia.
Qed.

Lemma tally_fold (s : string) (l : list StudentRecord) (d : SubjectTally) :
  fold_left (fun acc x => if SCODE x ==? s then Some (tally_f x acc) else acc) l (Some d)
  = Some (tally_extend d (subject_rows l s)).
Proof.
  revert d. induction l as [|x t IH]; intros d; cbn [fold_left].
  - unfold tally_extend. simpl. destruct d as [p f n nm]; simpl.
    destruct (truthy nm); f_equal; f_equal; lia.
  - unfold subject_rows. cbn [filter]. destruct (SCODE x ==? s); rewrite IH; [|reflexivity].
    now rewrite tally_extend_cons.
Qed.

Lemma group_value_tally (s : string) (l : list StudentRecord) :
  group_value SCODE tally_f s l
  = match subject_rows l s with
    | [] => None
    | r0 :: rest => Some (tally_extend (tally_f r0 None) rest)
    end.
Proof.
  unfold group_value. induction l as [|x t IH]; [reflexivity|]. cbn [fold_left].
  unfold subject_rows. cbn [filter]. destruct (SCODE x ==? s); [|exact IH].
  apply tally_fold.
Qed.

(** The entry of a subject whose rows are [r0 :: rest]. *)
Lemma tally_extend_first (r0 : StudentRecord) (rest : list StudentRecord) :
  let sr := r0 :: rest in
  tally_extend (tally_f r0 None) rest
  = mkSubjectTally (Z.of_nat (count (fun r => negb (is_fail r)) sr))
      (Z.of_nat (count is_fail sr)) (Z.of_nat (length sr))
      (match find (fun r => truthy (subjectName r)) sr with
       | Some r => subjectName r
       | None => subjectName r0
       end).
Proof.
  unfold tally_extend, tally_f, tally_row, is_fail. cbn [find length].
  rewrite !count_cons. destruct (truthy (subjectName r0)) eqn:E0;
    destruct (GR r0 ==? "U"); cbn [negb st_pass st_fail st_total st_name];
    rewrite ?E0; f_equal; lia.
Qed.

(** The grade histogram of [rows] in closed form. *)
Lemma grade_bars_closed (records : list StudentRecord) :
  (forall r, In r records -> ~ In (GR r) object_prototype_keys) ->
  grade_bars (grade_counts records)
  = map (fun g => mkGradeBar g (CNum (Z.of_nat (count (fun r => GR r ==? g) records)))
                             (getGradeColor g))
        (uniq (map GR (filter (fun r => grade_in_map (GR r)) records))).
Proof.
  intros H. unfold grade_bars. rewrite grade_counts_group by exact H.
  set (valid := filter (fun r => grade_in_map (GR r)) records).
  set (o := fold_left (group_step GR (fun _ => count_incr)) valid []).
  assert (Hkeys : forall k, In k (map fst o) ->
                  grade_in_map k = true /\ ~ In k object_prototype_keys).
  { intros k Hk. unfold o in Hk. rewrite group_fold_keys, In_uniq, in_map_iff in Hk.
    destruct Hk as (r & <- & Hr). apply filter_In in Hr as [Hr Hv]. auto. }
  rewrite entries_no_index.
  2: { intros [k v] Hin. apply (in_map fst), Hkeys in Hin. now apply grade_not_index. }
  rewrite map_ext with (g := fun kv => mkGradeBar (fst kv) (snd kv) (getGradeColor (fst kv)))
    by (intros []; reflexivity).
  rewrite (map_entries_by_key (fun g c => mkGradeBar g c (getGradeColor g))
             (fun g => CNum (Z.of_nat (count (fun r => GR r ==? g) records)))).
  { unfold o. now rewrite group_fold_keys. }
  intros k v Hin. assert (Hk := Hkeys k (in_map fst _ _ Hin)).
  apply In_get_own in Hin; [|apply group_fold_NoDup]. unfold o in Hin.
  rewrite group_fold_get in Hin. unfold group_value in Hin.
  change None with (opt_count 0) in Hin. rewrite group_value_count in Hin by lia.
  unfold valid in Hin. rewrite count_filter_implied in Hin.
  - unfold opt_count in Hin. destruct (_ =? 0)%Z; [discriminate|]. injection Hin as <-.
    reflexivity.
  - intros r _ E. apply (eqb_true_iff (GR r) k) in E. rewrite E. apply Hk.
Qed.

(** The subject tallies in closed form. *)
Lemma subject_tallies_closed (rows : list StudentRecord) :
  (forall r, In r rows -> ~ In (SCODE r) object_prototype_keys) ->
  map fst (subject_tallies rows)
    = uniq (map SCODE (filter (fun r => grade_in_map (GR r)) rows))
  /\ forall s, get_own s (subject_tallies rows)
     = match subject_rows (filter (fun r => grade_in_map (GR r)) rows) s with
       | [] => None
       | r0 :: rest =>
           Some (mkSubjectTally
                   (Z.of_nat (count (fun r => negb (is_fail r)) (r0 :: rest)))
                   (Z.of_nat (count is_fail (r0 :: rest)))
                   (Z.of_nat (length (r0 :: rest)))
                   (match find (fun r => truthy (subjectName r)) (r0 :: rest) with
                    | Some r => subjectName r
                    | None => subjectName r0
                    end))
       end.
Proof.
  intros H. rewrite subject_tallies_group by exact H. split; [apply group_fold_keys|].
  intros s. rewrite group_fold_get, group_value_tally.
  destruct (subject_rows _ s) as [|r0 rest]; [reflexivity|].
  now rewrite tally_extend_first.
Qed.

(** ** Theorems *)

(** C29 (functional): when no grade is the name of an [Object.prototype]
    member, [gradeDistribution] has one bar per recognised grade, in order
    of first occurrence, whose count is the number of rows with that grade
    and whose colour is [getGradeColor] of it. *)
Theorem gradeDistribution_spec (records : list StudentRecord) :
  (forall r, In r records -> ~ In (GR r) object_prototype_keys) ->
  gradeDistribution records
  = map (fun g => mkGradeBar g (CNum (Z.of_nat (count (fun r => GR r ==? g) records)))
                             (getGradeColor g))
        (uniq (map GR (filter (fun r => grade_in_map (GR r)) records))).
Proof. apply grade_bars_closed. Qed.

Definition histogram_rows : list StudentRecord :=
  [sample_row "S1" "CS1" "A" "3" "f.xlsx" 3 false;
   sample_row "S2" "CS1" "U" "3" "f.xlsx" 3 false;
   sample_row "S2" "CS2" "A" "3" "f.xlsx" 4 false;
   sample_row "S1" "CS2" "Ab" "3" "f.xlsx" 4 false].

Lemma gradeDistribution_spec_witness :
  (forall r, In r histogram_rows -> ~ In (GR r) object_prototype_keys) /\
  gradeDistribution histogram_rows
  = [mkGradeBar "A" (CNum 2) (FillColor "#6ee7b7");
     mkGradeBar "U" (CNum 1) (FillColor "#dc2626")].
Proof.
  assert (H : forall r, In r histogram_rows -> ~ In (GR r) object_prototype_keys).
  { intros r Hr. repeat (destruct Hr as [<-|Hr]; [vm_compute; intuition discriminate|]).
    destruct Hr. }
  split; [exact H|]. rewrite (gradeDistribution_spec histogram_rows H). vm_compute.
  reflexivity.
Defined.



(** C30 (functional): when no subject code is an array index or the name
    of an [Object.prototype] member, [subjectPerformance] lists the subject
    codes that have a row with a recognised grade, in order of first
    occurrence; for a subject whose recognised rows are [sr], [pass] and
    [fail] are the rounded percentages of non-U and U rows of [sr], and the
    name is the first non-empty [subjectName] of [sr] (the first row's when
    none is non-empty). *)
Theorem subjectPerformance_spec (rows : list StudentRecord) :
  (forall r, In r rows ->
             ~ In (SCODE r) object_prototype_keys /\ is_index (SCODE r) = false) ->
  subjectPerformance rows
  = map (fun s =>
           let sr := subject_rows (filter (fun r => grade_in_map (GR r)) rows) s in
           mkSubjectPerformance s
             (share (Z.of_nat (count (fun r => negb (is_fail r)) sr)) (Z.of_nat (length sr)))
             (share (Z.of_nat (count is_fail sr)) (Z.of_nat (length sr)))
             (match find (fun r => truthy (subjectName r)) sr with
              | Some r => subjectName r
              | None => match sr with r0 :: _ => subjectName r0 | [] => None end
              end))
        (uniq (map SCODE (filter (fun r => grade_in_map (GR r)) rows))).
Proof.
  intros H. unfold subjectPerformance.
  destruct (subject_tallies_closed rows (fun r Hr => proj1 (H r Hr))) as [Hk Hv].
  set (valid := filter (fun r => grade_in_map (GR r)) rows) in *.
  rewrite entries_no_index.
  2: { intros [k v] Hin. apply (in_map fst) in Hin. rewrite Hk, In_uniq, in_map_iff in Hin.
       destruct Hin as (r & <- & Hr). apply filter_In in Hr as [Hr _]. apply H, Hr. }
  set (F := fun s d => mkSubjectPerformance s (share (st_pass d) (st_total d))
                         (share (st_fail d) (st_total d)) (st_name d)).
  rewrite map_ext with (g := fun kv => F (fst kv) (snd kv)) by (intros []; reflexivity).
  set (G := fun s => match subject_rows valid s with
                     | [] => mkSubjectTally 0 0 0 None
                     | r0 :: rest =>
                         mkSubjectTally (Z.of_nat (count (fun r => negb (is_fail r)) (r0 :: rest)))
                           (Z.of_nat (count is_fail (r0 :: rest)))
                           (Z.of_nat (length (r0 :: rest)))
                           (match find (fun r => truthy (subjectName r)) (r0 :: rest) with
                            | Some r => subjectName r
                            | None => subjectName r0
                            end)
                     end).
  rewrite (map_entries_by_key F G).
  - rewrite Hk. apply map_ext. intros s. unfold F, G.
    destruct (subject_rows valid s) as [|r0 rest]; reflexivity.
  - intros k v Hin. apply In_get_own in Hin; [|rewrite Hk; apply NoDup_uniq].
    rewrite Hv in Hin. unfold G. destruct (subject_rows valid k); congruence.
Qed.

Definition named_row (regno scode gr name : string) : StudentRecord :=
  mkRecord "" "3" regno scode gr (Some 3) (Some name) (Some "") (Some "f.xlsx") (Some false).

Lemma subjectPerformance_spec_witness :
  let rows := [named_row "S1" "CS1" "A" ""; named_row "S2" "CS1" "U" "Maths";
               named_row "S3" "CS1" "B" "Calculus"; named_row "S3" "CS2" "Ab" "Physics"] in
  (forall r, In r rows ->
             ~ In (SCODE r) object_prototype_keys /\ is_index (SCODE r) = false) /\
  map sp_subject (subjectPerformance rows) = ["CS1"] /\
  map sp_name (subjectPerformance rows) = [Some "Maths"].
Proof.
  intros rows.
  assert (H : forall r, In r rows ->
                        ~ In (SCODE r) object_prototype_keys /\ is_index (SCODE r) = false).
  { intros r Hr. repeat (destruct Hr as [<-|Hr]; [vm_compute; intuition discriminate|]).
    destruct Hr. }
  split; [exact H|]. rewrite (subjectPerformance_spec rows H). split; reflexivity.
Defined.

(** ** Grade distribution per subject against the subject tallies *)

(** The number of rows the bars of a histogram count. *)
Definition bar_total (bars : list GradeBar) : Z :=
  fold_right (fun b acc => (match bar_count b with CNum n => n | CText _ => 0 end + acc)%Z)
             0%Z bars.

Lemma bar_total_map (f : string -> nat) (c : string -> fill_val) (K : list string) :
  bar_total (map (fun g => mkGradeBar g (CNum (Z.of_nat (f g))) (c g)) K)
  = Z.of_nat (list_sum (map f K)).
Proof. induction K as [|g t IH]; [reflexivity|]. simpl. rewrite IH. lia. Qed.

Lemma subjectGradeDistribution_get (rows : list StudentRecord) (s : string) :
  (forall r, In r rows -> ~ In (SCODE r) object_prototype_keys) ->
  get_own s (subjectGradeDistribution rows)
  = if mem s (map SCODE rows)
    then Some (grade_bars (grade_counts (subject_rows rows s))) else None.
Proof.
  intros H. unfold subjectGradeDistribution.
  rewrite fold_left_ext_in with
    (g := fun o k => set_own k (grade_bars (grade_counts (subject_rows rows k))) o).
  - now rewrite get_own_fold_set, mem_uniq.
  - intros o k Hk. apply assign_own. rewrite In_uniq, in_map_iff in Hk.
    destruct Hk as (r & <- & Hr). now apply H.
Qed.

(** The rows of a histogram of recognised grades, all own keys. *)
Lemma bar_total_grade_bars (rows : list StudentRecord) :
  (forall r, In r rows -> ~ In (GR r) object_prototype_keys) ->
  bar_total (grade_bars (grade_counts rows))
  = Z.of_nat (length (filter (fun r => grade_in_map (GR r)) rows)).
Proof.
  intros H. rewrite grade_bars_closed, bar_total_map by exact H. f_equal.
  set (K := uniq (map GR (filter (fun r => grade_in_map (GR r)) rows))).
  rewrite (map_ext_in _ (fun g => count (fun r => GR r ==? g)
                                        (filter (fun r => grade_in_map (GR r)) rows))).
  - apply sum_counts; [apply NoDup_uniq|]. intros r Hr. unfold K. rewrite In_uniq.
    now apply in_map.
  - intros g Hg. symmetry. apply count_filter_implied. intros r _ E.
    apply (eqb_true_iff (GR r) g) in E. subst g. unfold K in Hg.
    rewrite In_uniq, in_map_iff in Hg. destruct Hg as (r' & E & Hr').
    apply filter_In in Hr' as [_ Hv]. congruence.
Qed.

(** C31 (invariant): when no grade and no subject code is the name of an
    [Object.prototype] member, every subject of [subjectPerformanceMap]
    has an entry in [subjectGradeDistribution] whose bars count exactly
    the [total] rows of its tally. *)
Theorem subjectGradeDistribution_totals (rows : list StudentRecord) (s : string)
    (d : SubjectTally) :
  (forall r, In r rows ->
             ~ In (GR r) object_prototype_keys /\ ~ In (SCODE r) object_prototype_keys) ->
  get_own s (subject_tallies rows) = Some d ->
  exists bars, get_own s (subjectGradeDistribution rows) = Some bars
               /\ bar_total bars = st_total d.
Proof.
  intros H Hd. destruct (subject_tallies_closed rows (fun r Hr => proj2 (H r Hr))) as [_ Hv].
  rewrite Hv in Hd.
  destruct (subject_rows (filter (fun r => grade_in_map (GR r)) rows) s) as [|r0 rest] eqn:Esr;
    [discriminate|]. injection Hd as <-. cbn [st_total].
  assert (Hr0 : In r0 (subject_rows (filter (fun r => grade_in_map (GR r)) rows) s))
    by (rewrite Esr; now left).
  unfold subject_rows in Hr0. apply filter_In in Hr0 as [Hr0 Hs].
  apply filter_In in Hr0 as [Hr0 _]. apply (eqb_true_iff (SCODE r0) s) in Hs.
  rewrite subjectGradeDistribution_get by (intros r Hr; apply H, Hr).
  rewrite (proj2 (mem_In s _)) by (subst s; now apply in_map).
  eexists; split; [reflexivity|].
  rewrite bar_total_grade_bars.
  - transitivity (Z.of_nat (length (subject_rows (filter (fun r => grade_in_map (GR r)) rows) s)));
      [|now rewrite Esr].
    f_equal. f_equal. unfold subject_rows. rewrite !filter_filter_and.
    apply filter_ext. intros r. apply andb_comm.
  - intros r Hr. apply H. unfold subject_rows in Hr. apply filter_In in Hr. tauto.
Qed.

Lemma subjectGradeDistribution_totals_witness :
  let rows := [named_row "S1" "CS1" "A" ""; named_row "S2" "CS1" "U" "Maths";
               named_row "S3" "CS1" "Ab" "Calculus"] in
  (forall r, In r rows ->
             ~ In (GR r) object_prototype_keys /\ ~ In (SCODE r) object_prototype_keys) /\
  get_own "CS1" (subject_tallies rows) = Some (mkSubjectTally 1 1 2 (Some "Maths")) /\
  exists bars, get_own "CS1" (subjectGradeDistribution rows) = Some bars
               /\ bar_total bars = 2%Z.
Proof.
  intros rows.
  assert (H : forall r, In r rows ->
              ~ In (GR r) object_prototype_keys /\ ~ In (SCODE r) object_prototype_keys).
  { intros r Hr. repeat (destruct Hr as [<-|Hr]; [vm_compute; intuition discriminate|]).
    destruct Hr. }
  assert (Hd : get_own "CS1" (subject_tallies rows) = Some (mkSubjectTally 1 1 2 (Some "Maths")))
    by reflexivity.
  split; [exact H|]. split; [exact Hd|].
  exact (subjectGradeDistribution_totals rows "CS1" _ H Hd).
Defined.

(** A grade named like an [Object.prototype] method passes
    the [in gradePointMap] test and [(o[g] || 0) + 1] concatenates the
    method's source text: two rows of grade [toString] give the count
    ["function toString() { [native code] }11"] and the colour is the
    inherited method, while [totalGrades] counts the rows as 3. *)
Theorem gradeDistribution_prototype_grade_text :
  let rows := [named_row "S1" "CS1" "O" ""; named_row "S2" "CS1" "toString" "";
               named_row "S3" "CS1" "toString" ""] in
  gradeDistribution rows
  = [mkGradeBar "O" (CNum 1) (FillColor "#10b981");
     mkGradeBar "toString" (CText "function toString() { [native code] }11")
                (FillInherited "toString")]
  /\ count (fun r => grade_in_map (GR r)) rows = 3%nat.
Proof. split; vm_compute; reflexivity. Qed.

(** [Object.entries] lists array-index keys first, so a
    numeric subject code is reported before the codes met earlier: rows of
    CS1 and then 2021 give the subject order 2021, CS1. *)
Theorem subjectPerformance_index_codes_first :
  let rows := [named_row "S1" "CS1" "A" ""; named_row "S1" "2021" "B" ""] in
  map sp_subject (subjectPerformance rows) = ["2021"; "CS1"]
  /\ uniq (map SCODE rows) = ["CS1"; "2021"].
Proof. split; vm_compute; reflexivity. Qed.
