(* ===== verification/Classification.v ===== *)
(** * The classification tables (analyzer.ts)

    [classify] is the rule both [calculateSingleFileClassification] and
    [calculateMultipleFileClassification] apply to each student: with
    arrears, [>= 6.5] is first class, [>= 5.0] second class, otherwise
    fail; without arrears, [>= 8.5] is distinction, [>= 6.5] first class,
    otherwise second class.  The comparisons are JavaScript's [>=] on
    doubles ([PrimFloat.leb], false on NaN).  [tally] is one iteration of
    the [forEach] that increments a counter; after the loop both functions
    overwrite [fail] with the number of rows graded 'U' and compute
    [passPercentage] over all rows ([row_statistics]).

    The theorems: the five student buckets and the students classified
    as failing add up to the number of students (for both tables); the
    [fail] column counts rows, not students; the cumulative table uses
    arrears of any file. *)

From Stdlib Require Import Bool ZArith String List Floats Lia.
From S2P Require Import Prelude JsNumber GradeScale Aggregator TermResolver.
Import ListNotations.

(** ** Data *)

Inductive bucket :=
  | Distinction | FirstClassWOA | FirstClassWA | SecondClassWOA | SecondClassWA | FailBucket.

Definition bucket_eqb (a b : bucket) : bool :=
  match a, b with
  | Distinction, Distinction | FirstClassWOA, FirstClassWOA
  | FirstClassWA, FirstClassWA | SecondClassWOA, SecondClassWOA
  | SecondClassWA, SecondClassWA | FailBucket, FailBucket => true
  | _, _ => false
  end.

#[export] Instance bucket_Eqb : Eqb bucket.
Proof.
  refine {| eqb := bucket_eqb |}.
  intros [] []; constructor; congruence.
Defined.

(** [ClassificationData] of types.ts. *)
Record ClassificationData := mkClassification {
  distinction : nat;
  firstClassWOA : nat;
  firstClassWA : nat;
  secondClassWOA : nat;
  secondClassWA : nat;
  fail : nat;
  totalStudents : nat;
  passPercentage : float
}.

(** An entry [{ id, sgpa, hasArrears }] of [studentSgpaDetails]. *)
Record StudentSgpa := mkStudentSgpa {
  sid : string;
  sgpa : float;
  hasArrearsFlag : bool
}.

(** ** The rule *)

Definition classify (hasArrears : bool) (gpa : float) : bucket :=
  if hasArrears then
    if (6.5 <=? gpa)%float then FirstClassWA
    else if (5.0 <=? gpa)%float then SecondClassWA
    else FailBucket
  else
    if (8.5 <=? gpa)%float then Distinction
    else if (6.5 <=? gpa)%float then FirstClassWOA
    else SecondClassWOA.

(** The counter [classification.<bucket>++]. *)
Definition bump (b : bucket) (c : ClassificationData) : ClassificationData :=
  let '(mkClassification d f1 f2 s1 s2 fl t p) := c in
  match b with
  | Distinction => mkClassification (S d) f1 f2 s1 s2 fl t p
  | FirstClassWOA => mkClassification d (S f1) f2 s1 s2 fl t p
  | FirstClassWA => mkClassification d f1 (S f2) s1 s2 fl t p
  | SecondClassWOA => mkClassification d f1 f2 (S s1) s2 fl t p
  | SecondClassWA => mkClassification d f1 f2 s1 (S s2) fl t p
  | FailBucket => mkClassification d f1 f2 s1 s2 (S fl) t p
  end.

(** One iteration of the [studentSgpaDetails.forEach] of
    [calculateSingleFileClassification]. *)
Definition tally (c : ClassificationData) (s : StudentSgpa) : ClassificationData :=
  bump (classify (hasArrearsFlag s) (sgpa s)) c.

(** The common tail of both functions: [fail] is the number of 'U' rows and
    [passPercentage] the share of rows not graded 'U'. *)
Definition row_statistics (records : list StudentRecord) (c : ClassificationData)
  : ClassificationData :=
  let failGradeCount := count is_fail records in
  let totalGrades := length records in
  let passGrades := count (fun r => negb (is_fail r)) records in
  {| distinction := distinction c; firstClassWOA := firstClassWOA c;
     firstClassWA := firstClassWA c; secondClassWOA := secondClassWOA c;
     secondClassWA := secondClassWA c; fail := failGradeCount;
     totalStudents := totalStudents c;
     passPercentage :=
       if (0 <? totalGrades)%nat
       then formatTo2Decimals
              ((of_Z (Z.of_nat passGrades) / of_Z (Z.of_nat totalGrades)) * 100)%float
       else 0%float |}.

Definition empty_classification (n : nat) : ClassificationData :=
  mkClassification 0 0 0 0 0 0 n 0%float.

(** [calculateSingleFileClassification(records, studentSgpaDetails)]. *)
Definition calculateSingleFileClassification (records : list StudentRecord)
    (details : list StudentSgpa) : ClassificationData :=
  row_statistics records
    (fold_left tally details (empty_classification (length details))).

(** [cgpaInfo?.cgpa || 0]: 0, -0 and NaN are falsy. *)
Definition or_zero (x : float) : float :=
  if is_nan x || is_zero x then 0%float else x.

Fixpoint find_cgpa (studentId : string) (cgpas : list (string * float)) : option float :=
  match cgpas with
  | [] => None
  | (i, c) :: t => if i ==? studentId then Some c else find_cgpa studentId t
  end.

(** The CGPA the multiple-file table uses for a student: the entry of
    [cgpaAnalysis.studentCGPAs], 0 when there is none. *)
Definition student_cgpa (cgpaAnalysis : option (list (string * float))) (studentId : string)
  : float :=
  match cgpaAnalysis with
  | Some cgpas =>
      match find_cgpa studentId cgpas with
      | Some c => or_zero c
      | None => 0%float
      end
  | None => 0%float
  end.

(** [Object.keys(fileGroups).some(fileName => hasArrears(fileGroups[fileName], id))]. *)
Definition hasArrearsInAnySemester (fileGroups : list (string * list StudentRecord))
    (studentId : string) : bool :=
  existsb (fun g => hasArrears (snd g) studentId) fileGroups.

(** One iteration of the [studentIds.forEach] of
    [calculateMultipleFileClassification]. *)
Definition tally_cumulative (fileGroups : list (string * list StudentRecord))
    (cgpaAnalysis : option (list (string * float)))
    (c : ClassificationData) (studentId : string) : ClassificationData :=
  bump (classify (hasArrearsInAnySemester fileGroups studentId)
                 (student_cgpa cgpaAnalysis studentId)) c.

(** [calculateMultipleFileClassification(records, fileGroups, cgpaAnalysis)]. *)
Definition calculateMultipleFileClassification (records : list StudentRecord)
    (fileGroups : list (string * list StudentRecord))
    (cgpaAnalysis : option (list (string * float))) : ClassificationData :=
  let studentIds := uniq (map REGNO records) in
  row_statistics records
    (fold_left (tally_cumulative fileGroups cgpaAnalysis) studentIds
               (empty_classification (length studentIds))).

(** ** The counters *)

(** The number of students placed in the five buckets other than fail. *)
Definition placed (c : ClassificationData) : nat :=
  distinction c + firstClassWOA c + firstClassWA c + secondClassWOA c + secondClassWA c.

Lemma bump_placed (b : bucket) (c : ClassificationData) :
  placed (bump b c) = placed c + (if b ==? FailBucket then 0 else 1)
  /\ fail (bump b c) = fail c + (if b ==? FailBucket then 1 else 0)
  /\ totalStudents (bump b c) = totalStudents c.
Proof. destruct c, b; unfold placed; simpl; repeat split; lia. Qed.

(** Over any loop that bumps one bucket per element, [placed] grows by
    the elements not classified as failing and [fail] by the others. *)
Lemma fold_bump {A} (cls : A -> bucket) (l : list A) (c : ClassificationData) :
  let c' := fold_left (fun c x => bump (cls x) c) l c in
  placed c' = placed c + count (fun x => negb (cls x ==? FailBucket)) l
  /\ fail c' = fail c + count (fun x => cls x ==? FailBucket) l
  /\ totalStudents c' = totalStudents c.
Proof.
  revert c. induction l as [|x t IH]; intros c; cbn [fold_left]; [unfold count; simpl; lia|].
  destruct (IH (bump (cls x) c)) as (H1 & H2 & H3).
  destruct (bump_placed (cls x) c) as (B1 & B2 & B3).
  rewrite H1, H2, H3, B1, B2, B3, !count_cons.
  destruct (cls x ==? FailBucket); simpl; lia.
Qed.

Lemma row_statistics_keeps (records : list StudentRecord) (c : ClassificationData) :
  placed (row_statistics records c) = placed c
  /\ totalStudents (row_statistics records c) = totalStudents c
  /\ fail (row_statistics records c) = count is_fail records.
Proof. repeat split. Qed.

Local Open Scope string_scope.

(** ** Theorems *)

(** C19 (functional): the classification rule on every branch: each
    bucket is exactly the threshold region of spec section 4.5 (with
    JavaScript's [>=], false when the average is NaN). *)
Theorem classify_thresholds (h : bool) (g : float) :
  (classify h g = Distinction <-> h = false /\ (8.5 <=? g)%float = true)
  /\ (classify h g = FirstClassWOA <->
        h = false /\ (8.5 <=? g)%float = false /\ (6.5 <=? g)%float = true)
  /\ (classify h g = SecondClassWOA <->
        h = false /\ (8.5 <=? g)%float = false /\ (6.5 <=? g)%float = false)
  /\ (classify h g = FirstClassWA <-> h = true /\ (6.5 <=? g)%float = true)
  /\ (classify h g = SecondClassWA <->
        h = true /\ (6.5 <=? g)%float = false /\ (5.0 <=? g)%float = true)
  /\ (classify h g = FailBucket <->
        h = true /\ (6.5 <=? g)%float = false /\ (5.0 <=? g)%float = false).
Proof.
  unfold classify.
  destruct h, (8.5 <=? g)%float, (6.5 <=? g)%float, (5.0 <=? g)%float;
    repeat split; intros; repeat match goal with H : _ /\ _ |- _ => destruct H end;
    congruence.
Qed.

(** C20 (invariant): in the current-semester table, the students placed
    in the five buckets other than fail and the students the rule
    classifies as failing add up to [totalStudents]: every student is
    counted exactly once (spec section 8, partition). *)
Theorem single_classification_partition (records : list StudentRecord)
    (details : list StudentSgpa) :
  placed (calculateSingleFileClassification records details)
  + count (fun s => classify (hasArrearsFlag s) (sgpa s) ==? FailBucket) details
  = totalStudents (calculateSingleFileClassification records details).
Proof.
  unfold calculateSingleFileClassification.
  destruct (row_statistics_keeps records
              (fold_left tally details (empty_classification (length details))))
    as (R1 & R2 & _).
  rewrite R1, R2.
  destruct (fold_bump (fun s => classify (hasArrearsFlag s) (sgpa s)) details
              (empty_classification (length details))) as (H1 & _ & H3).
  pose proof (count_negb (fun s => classify (hasArrearsFlag s) (sgpa s) ==? FailBucket) details).
  unfold tally. rewrite H1, H3. simpl in *. lia.
Qed.

(** C21 (invariant): the same partition for the cumulative table, whose
    [totalStudents] is the number of distinct registration numbers. *)
Theorem multiple_classification_partition (records : list StudentRecord)
    (fileGroups : list (string * list StudentRecord))
    (cgpaAnalysis : option (list (string * float))) :
  let c := calculateMultipleFileClassification records fileGroups cgpaAnalysis in
  placed c
  + count (fun i => classify (hasArrearsInAnySemester fileGroups i)
                             (student_cgpa cgpaAnalysis i) ==? FailBucket)
          (uniq (map REGNO records))
  = totalStudents c /\ totalStudents c = length (uniq (map REGNO records)).
Proof.
  intros c. unfold c, calculateMultipleFileClassification.
  set (ids := uniq (map REGNO records)).
  destruct (row_statistics_keeps records
              (fold_left (tally_cumulative fileGroups cgpaAnalysis) ids
                         (empty_classification (length ids)))) as (R1 & R2 & _).
  rewrite R1, R2.
  destruct (fold_bump (fun i => classify (hasArrearsInAnySemester fileGroups i)
                                         (student_cgpa cgpaAnalysis i))
              ids (empty_classification (length ids))) as (H1 & _ & H3).
  pose proof (count_negb (fun i => classify (hasArrearsInAnySemester fileGroups i)
                                           (student_cgpa cgpaAnalysis i) ==? FailBucket) ids).
  unfold tally_cumulative. rewrite H1, H3. simpl in *. split; lia.
Qed.

(** (functional, divergence from the unit of the other columns, spec
    section 9): the [fail] column is the number of rows graded 'U', not a
    number of students: one student with two failed subjects and a
    first-class average yields [fail = 2] while no student is classified
    as failing. *)
Theorem fail_column_counts_rows :
  let rows := [sample_row "S1" "CS1" "U" "4" "sem4.xlsx" 3 false;
               sample_row "S1" "CS2" "U" "4" "sem4.xlsx" 3 false;
               sample_row "S1" "CS3" "O" "4" "sem4.xlsx" 3 false] in
  let details := [mkStudentSgpa "S1" 7.0 true] in
  let c := calculateSingleFileClassification rows details in
  fail c = 2%nat /\ firstClassWA c = 1%nat /\ totalStudents c = 1%nat
  /\ count (fun s => classify (hasArrearsFlag s) (sgpa s) ==? FailBucket) details = 0%nat.
Proof. vm_compute. repeat split. Qed.

(** When every row names its source file, "arrears in
    any semester" of the cumulative table is "arrears in the whole upload":
    the file groups lose no row and add none. *)
Theorem hasArrearsInAnySemester_all_rows (records : list StudentRecord) (studentId : string) :
  (forall r, In r records -> exists s, fileSource r = Some s /\ s <> "") ->
  hasArrearsInAnySemester (fileGroups records) studentId = hasArrears records studentId.
Proof.
  intros Hsrc. unfold hasArrearsInAnySemester, hasArrears.
  apply eq_iff_eq_true. rewrite existsb_exists, existsb_exists. split.
  - intros (g & Hg & Hx). apply existsb_exists in Hx as (r & Hr & Hf).
    apply filter_In in Hr as [Hr Hs]. exists r. split; [|exact Hf].
    apply filter_In. split; [exact (fileGroups_sub records g r Hg Hr) | exact Hs].
  - intros (r & Hr & Hf). apply filter_In in Hr as [Hr Hs].
    destruct (Hsrc r Hr) as (s & Hs1 & Hs2).
    destruct (fileGroups_cover records r s Hr Hs1 Hs2) as (g & Hg & Hrg).
    exists g. split; [exact Hg|]. apply existsb_exists. exists r. split; [|exact Hf].
    apply filter_In. split; assumption.
Qed.

Lemma hasArrearsInAnySemester_all_rows_witness :
  hasArrearsInAnySemester (fileGroups [sem3_row; sem4_row]) "S1"
  = hasArrears [sem3_row; sem4_row] "S1".
Proof.
  apply hasArrearsInAnySemester_all_rows.
  intros r [<-|[<-|[]]]; eexists; split; [reflexivity | discriminate | reflexivity | discriminate].
Defined.
