(* ===== verification/Cohort.v ===== *)
(** * The cohort analysis (analyzer.ts, [analyzeResults])

    [analyzeResults] in the order of the source: the subject filter, the
    per-file averages ([file_analysis]), the current-semester file, the
    CGPA block when several files were uploaded ([cgpa_analysis]), the
    per-student current-semester SGPA list, its statistics, the two
    in-place sorts of that list, top performers, the needs-improvement
    list, the pass/fail shares and the two classification tables.

    The source sorts [studentSgpaDetails] by registration number and then,
    to rank the top performers, sorts the same array again by SGPA; the
    second sort mutates the array that is returned and that the
    needs-improvement list and the classification read.  The model threads
    the array through both sorts ([details_by_id], [details_ranked]) and
    returns the ranked one, as the program does.

    [localeCompare] orders registration numbers by the browser's locale;
    the section takes it as a parameter, so every theorem holds for any
    locale.  The three histograms ([gradeDistribution],
    [subjectPerformance], [subjectGradeDistribution]) come from
    Distribution.v. *)

From Stdlib Require Import Bool ZArith String List Permutation Floats Lia Sorted.
From S2P Require Import Prelude JsNumber FloatOrder GradeScale Aggregator TermResolver Distribution Classification.
Import ListNotations.

(** ** Result records *)

(** An entry of [fileWiseAnalysis]. *)
Record FileAnalysis := mkFileAnalysis {
  averageSGPA : float;
  students : nat;
  semesterName : option string
}.

(** [cgpaAnalysis]. *)
Record CgpaAnalysis := mkCgpaAnalysis {
  studentCGPAs : list (string * float);
  averageCGPA_cum : float;
  highestCGPA : float;
  lowestCGPA : float;
  toppersList : list (string * float);
  cgpaCurrentSemesterFile : option string
}.

(** The fields of [ResultAnalysis] that the model computes. *)
Record ResultAnalysis := mkResultAnalysis {
  totalStudents_r : nat;
  averageCGPA : float;
  highestSGPA : float;
  lowestSGPA : float;
  gradeDistribution_r : list GradeBar;
  totalGrades : nat;
  subjectPerformance_r : list SubjectPerformance;
  topPerformers : list (string * float * string);
  needsImprovement : list (string * float * string);
  studentSgpaDetails : list StudentSgpa;
  passPercentage_r : float;
  failPercentage_r : float;
  subjectGradeDistribution_r : list (string * list GradeBar);
  fileCount : nat;
  filesProcessed_r : list string;
  fileWiseAnalysis : list (string * FileAnalysis);
  cgpaAnalysis : option CgpaAnalysis;
  singleFileClassification : ClassificationData;
  multipleFileClassification : ClassificationData;
  currentSemesterFile_r : option string;
  orderedSubjects_r : option (list string)
}.

(** ** Pieces that do not depend on the locale *)

(** [records.filter(record => assignedSubjects.includes(record.SCODE))]
    when a non-empty list of subjects is given. *)
Definition restrict_subjects (records : list StudentRecord)
    (assignedSubjects : option (list string)) : list StudentRecord :=
  match assignedSubjects with
  | Some ((_ :: _) as subjects) => filter (fun r => mem (SCODE r) subjects) records
  | _ => records
  end.

(** The per-file entry of [fileWiseAnalysis]: the float sum of the
    students' SGPAs over the selected rows, divided by the student count. *)
Definition file_analysis (fileRecords : list StudentRecord) : FileAnalysis :=
  let ids := uniq (map REGNO fileRecords) in
  let semName := match fileRecords with r :: _ => SEM r | [] => ""%string end in
  let rows := select_current_rows fileRecords in
  let totalSGPA := fold_left (fun acc i => (acc + calculateSGPA rows i)%float) ids 0%float in
  let n := length ids in
  {| averageSGPA :=
       if (0 <? n)%nat then formatTo2Decimals (totalSGPA / of_Z (Z.of_nat n))%float
       else 0%float;
     students := n;
     semesterName := if semName ==? ""%string then None else Some semName |}.

Definition positive (x : float) : bool := (0 <? x)%float.

(** [(a, b) => b.cgpa - a.cgpa]: [a] goes after [b] when the difference
    is positive. *)
Definition cgpa_desc (a b : string * float) : bool := (0 <? snd b - snd a)%float.

(** The [cgpaAnalysis] block (computed when [fileCount > 1]). *)
Definition cgpa_analysis (records : list StudentRecord)
    (groups : list (string * list StudentRecord)) (current : option string) : CgpaAnalysis :=
  let ids := uniq (map REGNO records) in
  let cgpas := stable_sort cgpa_desc
                 (filter (fun s => positive (snd s))
                    (map (fun i => (i, calculateCGPA records i groups)) ids)) in
  let valid := filter positive (map snd cgpas) in
  let n := length valid in
  {| studentCGPAs := cgpas;
     averageCGPA_cum :=
       if (0 <? n)%nat then formatTo2Decimals (fsum valid / of_Z (Z.of_nat n))%float
       else 0%float;
     highestCGPA := if (0 <? n)%nat then formatTo2Decimals (math_max valid) else 0%float;
     lowestCGPA := if (0 <? n)%nat then formatTo2Decimals (math_min valid) else 0%float;
     toppersList := firstn 10 cgpas;
     cgpaCurrentSemesterFile := current |}.

(** The entry of [studentSgpaDetails] for one student: the guarded loop
    over all of the student's rows of the current-semester file. *)
Definition student_detail (currentRecords : list StudentRecord) (studentId : string)
  : StudentSgpa :=
  let studentRecords := filter (of_student studentId) currentRecords in
  mkStudentSgpa studentId (gpa_of_sums_pos (weighted_sums_pos studentRecords))
    (hasArrears studentRecords studentId).

(** [(a, b) => b.sgpa - a.sgpa]. *)
Definition sgpa_desc (a b : StudentSgpa) : bool := (0 <? sgpa b - sgpa a)%float.

(** [(gradePointMap[GR] || 0)] as a number: NaN for the inherited
    properties, which are functions or objects. *)
Definition grade_sort_key (g : string) : float :=
  match grade_point g with
  | Some p => of_Z p
  | None => nan
  end.

Definition grade_desc (a b : StudentRecord) : bool :=
  (0 <? grade_sort_key (GR b) - grade_sort_key (GR a))%float.

(** The [grade] of a top performer: the first of the student's rows (all
    files) with a recognised grade, once sorted by grade point; 'A' when
    there is none. *)
Definition best_grade (records : list StudentRecord) (studentId : string) : string :=
  match stable_sort grade_desc
          (filter (fun r => of_student studentId r && grade_in_map (GR r)) records) with
  | r :: _ => GR r
  | [] => "A"%string
  end.

Definition top_performers (records : list StudentRecord) (ranked : list StudentSgpa)
  : list (string * float * string) :=
  map (fun s => (sid s, sgpa s, best_grade records (sid s))) (firstn 6 ranked).

Definition needs_improvement (records : list StudentRecord) (ranked : list StudentSgpa)
  : list (string * float * string) :=
  map (fun s => (sid s, sgpa s,
                 if hasArrears records (sid s) then getSubjectsWithArrears records (sid s)
                 else ""%string))
      (filter (fun s => (sgpa s <? 6.5)%float || hasArrearsFlag s) ranked).

(** [averageCGPA]: the mean of the non-zero SGPAs, in list order. *)
Definition average_valid (details : list StudentSgpa) : float :=
  let valid := filter (fun s => positive (sgpa s)) details in
  let n := length valid in
  if (0 <? n)%nat then formatTo2Decimals (fsum (map sgpa valid) / of_Z (Z.of_nat n))%float
  else 0%float.

(** [highestSGPA] and [lowestSGPA]: over every entry, zeros included. *)
Definition highest_of (details : list StudentSgpa) : float :=
  match details with
  | [] => 0%float
  | _ => formatTo2Decimals (math_max (map sgpa details))
  end.

Definition lowest_of (details : list StudentSgpa) : float :=
  match details with
  | [] => 0%float
  | _ => formatTo2Decimals (math_min (map sgpa details))
  end.

(** [100 * part / total] rounded, 0 for an empty total. *)
Definition percentage (part total : nat) : float :=
  if (0 <? total)%nat
  then formatTo2Decimals ((of_Z (Z.of_nat part) / of_Z (Z.of_nat total)) * 100)%float
  else 0%float.

(** [fileGroups[fileName]]; the program only looks up listed files. *)
Fixpoint group_of (f : string) (groups : list (string * list StudentRecord))
  : list StudentRecord :=
  match groups with
  | [] => []
  | (g, rs) :: t => if g ==? f then rs else group_of f t
  end.

(** [studentSgpaDetails.find(detail => detail.id === studentId)]. *)
Fixpoint find_detail (studentId : string) (details : list StudentSgpa) : option StudentSgpa :=
  match details with
  | [] => None
  | d :: t => if sid d ==? studentId then Some d else find_detail studentId t
  end.

(** [currentSemesterStudentSgpaDetails]. *)
Definition classification_details (classRecords : list StudentRecord)
    (ranked : list StudentSgpa) : list StudentSgpa :=
  map (fun i => match find_detail i ranked with
                | Some d => d
                | None => mkStudentSgpa i 0%float (hasArrears classRecords i)
                end)
      (uniq (map REGNO classRecords)).

(** ** [analyzeResults] *)

Section Analyze.
(** [a.localeCompare(b)]: negative, zero or positive. *)
Variable localeCompare : string -> string -> Z.

(** [(a, b) => a.id.localeCompare(b.id)]. *)
Definition id_asc (a b : StudentSgpa) : bool := (0 <? localeCompare (sid a) (sid b))%Z.

(** [studentSgpaDetails] after [sort((a, b) => a.id.localeCompare(b.id))]. *)
Definition details_by_id (currentRecords : list StudentRecord) : list StudentSgpa :=
  stable_sort id_asc
    (map (student_detail currentRecords)
         (uniq (map REGNO (select_current_rows currentRecords)))).

(** The same array after the second in-place sort, by SGPA descending. *)
Definition details_ranked (currentRecords : list StudentRecord) : list StudentSgpa :=
  stable_sort sgpa_desc (details_by_id currentRecords).

Definition analyzeResults (records0 : list StudentRecord)
    (assignedSubjects : option (list string)) : ResultAnalysis :=
  let records := restrict_subjects records0 assignedSubjects in
  let files := filesProcessed records in
  let groups := fileGroups records in
  let current := currentSemesterFile records in
  let cgpa := if (1 <? length files)%nat
              then Some (cgpa_analysis records groups current) else None in
  let currentRecords := currentSemesterRecords records in
  let by_id := details_by_id currentRecords in
  let ranked := details_ranked currentRecords in
  let classRecords := match current with
                      | Some f => if f ==? ""%string then records else group_of f groups
                      | None => records
                      end in
  let single := calculateSingleFileClassification classRecords
                  (classification_details classRecords ranked) in
  {| totalStudents_r := length (uniq (map REGNO records));
     averageCGPA := average_valid by_id;
     highestSGPA := highest_of by_id;
     lowestSGPA := lowest_of by_id;
     gradeDistribution_r := gradeDistribution records;
     totalGrades := count (fun r => grade_in_map (GR r)) records;
     subjectPerformance_r := subjectPerformance (recordsForSubjectAnalysis records);
     topPerformers := top_performers records ranked;
     needsImprovement := needs_improvement records ranked;
     studentSgpaDetails := ranked;
     passPercentage_r :=
       percentage (count (fun r => grade_in_map (GR r) && negb (is_fail r)) records)
                  (count (fun r => grade_in_map (GR r) && negb (is_fail r)) records
                   + count is_fail records);
     failPercentage_r :=
       percentage (count is_fail records)
                  (count (fun r => grade_in_map (GR r) && negb (is_fail r)) records
                   + count is_fail records);
     subjectGradeDistribution_r :=
       subjectGradeDistribution (recordsForSubjectAnalysis records);
     fileCount := length files;
     filesProcessed_r := files;
     fileWiseAnalysis := map (fun g => (fst g, file_analysis (snd g))) groups;
     cgpaAnalysis := cgpa;
     singleFileClassification := single;
     multipleFileClassification :=
       if (1 <? length files)%nat
       then calculateMultipleFileClassification records groups (option_map studentCGPAs cgpa)
       else single;
     currentSemesterFile_r := current;
     orderedSubjects_r := None |}.
End Analyze.

(** A byte-wise comparison, one possible [localeCompare] (used by the
    concrete scenarios whose result depends on it). *)
Definition bytewise_compare (a b : string) : Z :=
  match String.compare a b with Lt => -1 | Eq => 0 | Gt => 1 end%Z.

(** ** Lemmas *)

Lemma details_ranked_perm (currentRecords : list StudentRecord) lc :
  Permutation (details_ranked lc currentRecords)
    (map (student_detail currentRecords)
         (uniq (map REGNO (select_current_rows currentRecords)))).
Proof.
  unfold details_ranked, details_by_id.
  repeat (eapply Permutation_trans; [apply stable_sort_perm|]). reflexivity.
Qed.

Lemma details_by_id_perm (currentRecords : list StudentRecord) lc :
  Permutation (details_by_id lc currentRecords) (details_ranked lc currentRecords).
Proof. unfold details_ranked. first [reflexivity | symmetry; apply stable_sort_perm]. Qed.

Lemma fold_max_step_zeros (t : list float) :
  Forall (fun x => x = 0%float) t -> fold_left max_step t 0%float = 0%float.
Proof. induction 1 as [|y t Hy Ht IH]; [reflexivity|]. subst. exact IH. Qed.

Lemma fold_min_step_zeros (t : list float) :
  Forall (fun x => x = 0%float) t -> fold_left min_step t 0%float = 0%float.
Proof. induction 1 as [|y t Hy Ht IH]; [reflexivity|]. subst. exact IH. Qed.

Lemma math_max_zeros (l : list float) :
  Forall (fun x => x = 0%float) l -> l <> [] -> math_max l = 0%float.
Proof.
  destruct l as [|x t]; intros H Hn; [congruence|].
  inversion H as [|? ? Hx Ht]; subst. exact (fold_max_step_zeros t Ht).
Qed.

Lemma math_min_zeros (l : list float) :
  Forall (fun x => x = 0%float) l -> l <> [] -> math_min l = 0%float.
Proof.
  destruct l as [|x t]; intros H Hn; [congruence|].
  inversion H as [|? ? Hx Ht]; subst. exact (fold_min_step_zeros t Ht).
Qed.

Lemma zero_details_stats (details : list StudentSgpa) :
  Forall (fun s => sgpa s = 0%float) details ->
  average_valid details = 0%float /\ highest_of details = 0%float
  /\ lowest_of details = 0%float.
Proof.
  intros H.
  assert (Hm : Forall (fun x => x = 0%float) (map sgpa details)) by (now apply Forall_map).
  repeat split.
  - unfold average_valid.
    assert (filter (fun s => positive (sgpa s)) details = []) as ->; [|reflexivity].
    apply filter_nil_iff. intros s Hs. rewrite Forall_forall in H. now rewrite H.
  - unfold highest_of. destruct details as [|s t]; [reflexivity|].
    rewrite math_max_zeros by (assumption || discriminate). reflexivity.
  - unfold lowest_of. destruct details as [|s t]; [reflexivity|].
    rewrite math_min_zeros by (assumption || discriminate). reflexivity.
Qed.

(** The fields of the result, by the piece that computes them. *)
Lemma analyzeResults_fields lc (records : list StudentRecord) (assigned : option (list string)) :
  let rs := restrict_subjects records assigned in
  let cur := currentSemesterRecords rs in
  let r := analyzeResults lc records assigned in
  studentSgpaDetails r = details_ranked lc cur
  /\ averageCGPA r = average_valid (details_by_id lc cur)
  /\ highestSGPA r = highest_of (details_by_id lc cur)
  /\ lowestSGPA r = lowest_of (details_by_id lc cur)
  /\ topPerformers r = top_performers rs (details_ranked lc cur)
  /\ needsImprovement r = needs_improvement rs (details_ranked lc cur).
Proof. repeat split. Qed.

(** Case analysis on the locale comparisons a concrete scenario depends
    on: the student list is computed, then the sort by registration number
    is unfolded one comparison at a time. *)
Ltac locale_cases lc :=
  cbv zeta;
  repeat match goal with
    | |- context [analyzeResults lc ?rows ?a] =>
        let F := fresh "F" in
        pose proof (analyzeResults_fields lc rows a) as F; cbv zeta in F;
        let F1 := fresh "F" in let F2 := fresh "F" in let F3 := fresh "F" in
        let F4 := fresh "F" in
        destruct F as (F1 & F2 & F3 & F4 & _);
        rewrite ?F1, ?F2, ?F3, ?F4; clear F1 F2 F3 F4
    end;
  unfold details_ranked, details_by_id;
  repeat match goal with
    | |- context [map (student_detail ?c) ?ids] =>
        let v := eval vm_compute in (map (student_detail c) ids) in
        change (map (student_detail c) ids) with v
    end;
  repeat (cbn [stable_sort insert_stable];
          match goal with
          | |- context [id_asc lc ?a ?b] => destruct (id_asc lc a b)
          end);
  vm_compute.

Lemma restrict_subjects_remark (marks : StudentRecord -> option bool)
    (records : list StudentRecord) (assigned : option (list string)) :
  restrict_subjects (map (remark marks) records) assigned
  = map (remark marks) (restrict_subjects records assigned).
Proof. unfold restrict_subjects. destruct assigned as [[|s t]|]; try reflexivity. now apply filter_map_comm. Qed.

Lemma weighted_sums_pos_remark (marks : StudentRecord -> option bool) (rs : list StudentRecord) :
  weighted_sums_pos (map (remark marks) rs) = weighted_sums_pos rs.
Proof. unfold weighted_sums_pos. now apply fold_left_map_ext. Qed.

Lemma hasArrears_own_rows (rs : list StudentRecord) (i : string) :
  hasArrears (filter (of_student i) rs) i = hasArrears rs i.
Proof.
  unfold hasArrears. rewrite filter_filter_and. f_equal. apply filter_ext. intros r.
  now destruct (of_student i r).
Qed.

Lemma hasArrears_remark (marks : StudentRecord -> option bool) (rs : list StudentRecord) (i : string) :
  hasArrears (map (remark marks) rs) i = hasArrears rs i.
Proof.
  unfold hasArrears. rewrite (filter_map_comm _ (of_student i)) by reflexivity.
  induction (filter (of_student i) rs) as [|r t IH]; cbn; [reflexivity | now rewrite IH].
Qed.

Local Open Scope string_scope.

(** ** Theorems *)

Section Properties.
Variable lc : string -> string -> Z.

(** C23 (invariant): [studentSgpaDetails] has exactly one entry per
    student having a row selected for the current semester. *)
Theorem details_one_per_student (records : list StudentRecord)
    (assigned : option (list string)) (i : string) :
  NoDup (map sid (studentSgpaDetails (analyzeResults lc records assigned)))
  /\ (In i (map sid (studentSgpaDetails (analyzeResults lc records assigned)))
      <-> In i (map REGNO (select_current_rows
                             (currentSemesterRecords (restrict_subjects records assigned))))).
Proof.
  pose proof (analyzeResults_fields lc records assigned) as F. cbv zeta in F.
  destruct F as (-> & _).
  set (current := currentSemesterRecords (restrict_subjects records assigned)).
  pose proof (Permutation_map sid (details_ranked_perm current lc)) as HP.
  assert (map sid (map (student_detail current)
                    (uniq (map REGNO (select_current_rows current))))
          = uniq (map REGNO (select_current_rows current))) as E.
  { rewrite map_map. apply map_id. }
  rewrite E in HP. split.
  - eapply Permutation_NoDup; [symmetry; exact HP | apply NoDup_uniq].
  - rewrite <- (In_uniq (map REGNO (select_current_rows current))).
    split; apply Permutation_in; [exact HP | symmetry; exact HP].
Qed.
(** Zero-SGPA students are counted: every entry of
    [studentSgpaDetails] whose SGPA is 0 appears in the needs-improvement
    list (spec section 8). *)
Theorem zero_sgpa_needs_improvement (records : list StudentRecord)
    (assigned : option (list string)) (s : StudentSgpa) :
  In s (studentSgpaDetails (analyzeResults lc records assigned)) -> sgpa s = 0%float ->
  exists subjects,
    In (sid s, sgpa s, subjects) (needsImprovement (analyzeResults lc records assigned)).
Proof.
  pose proof (analyzeResults_fields lc records assigned) as F. cbv zeta in F.
  destruct F as (-> & _ & _ & _ & _ & ->). intros Hs H0.
  eexists. unfold needs_improvement. apply in_map_iff. exists s. split; [reflexivity|].
  apply filter_In. split; [exact Hs|]. rewrite H0. reflexivity.
Qed.

(** The top performers are the first six entries of
    the returned [studentSgpaDetails], which is ranked by SGPA. *)
Theorem topPerformers_prefix (records : list StudentRecord) (assigned : option (list string)) :
  map (fun t => (fst (fst t), snd (fst t))) (topPerformers (analyzeResults lc records assigned))
  = map (fun s => (sid s, sgpa s)) (firstn 6 (studentSgpaDetails (analyzeResults lc records assigned)))
  /\ (length (topPerformers (analyzeResults lc records assigned)) <= 6)%nat.
Proof.
  pose proof (analyzeResults_fields lc records assigned) as F. cbv zeta in F.
  destruct F as (-> & _ & _ & _ & -> & _). unfold top_performers. split.
  - rewrite map_map. reflexivity.
  - rewrite length_map, length_firstn. lia.
Qed.

(** A cohort whose students all have SGPA 0 gets average,
    highest and lowest 0, with no division by zero (spec section 8). *)
Theorem zero_cohort_statistics (records : list StudentRecord) (assigned : option (list string)) :
  Forall (fun s => sgpa s = 0%float) (studentSgpaDetails (analyzeResults lc records assigned)) ->
  averageCGPA (analyzeResults lc records assigned) = 0%float
  /\ highestSGPA (analyzeResults lc records assigned) = 0%float
  /\ lowestSGPA (analyzeResults lc records assigned) = 0%float.
Proof.
  pose proof (analyzeResults_fields lc records assigned) as F. cbv zeta in F.
  destruct F as (-> & -> & -> & -> & _). intros H.
  apply zero_details_stats.
  eapply Permutation_Forall; [symmetry; apply details_by_id_perm | exact H].
Qed.
(** C5 (refinement, spec section 8): with exactly one term group, the
    CGPA of every student the analysis lists is the SGPA it lists for
    them: [calculateCGPA] falls back to [calculateSGPA] over the
    student's rows, and the analysis averages the same rows (the current
    file is the only file) with its guarded loop, which agrees for the
    positive credits the page assigns.  The rows are those the uploader
    produces, each tagged with its file's name. *)
Theorem cgpa_one_group_is_sgpa (records : list StudentRecord) (assigned : option (list string))
    (d : StudentSgpa) :
  let rs := restrict_subjects records assigned in
  length (fileGroups rs) = 1%nat ->
  (forall r, In r rs -> (exists s, fileSource r = Some s /\ s <> "") /\ (0 < credit_or_zero r)%Z) ->
  In d (studentSgpaDetails (analyzeResults lc records assigned)) ->
  calculateCGPA rs (sid d) (fileGroups rs) = sgpa d.
Proof.
  cbv zeta. intros Hl Hr Hd.
  pose proof (analyzeResults_fields lc records assigned) as F. cbv zeta in F.
  destruct F as (F & _). rewrite F in Hd.
  rewrite single_group_current in Hd by (assumption || (intros r Hin; apply Hr, Hin)).
  apply (Permutation_in _ (details_ranked_perm _ lc)), in_map_iff in Hd as (i & <- & _).
  unfold calculateCGPA. rewrite Hl. cbn [Nat.leb sid sgpa student_detail].
  unfold calculateSGPA. symmetry. apply gpa_pos_agrees.
  intros r Hin. apply filter_In in Hin as [Hin _]. apply Hr, Hin.
Qed.

End Properties.

(** One file of three rows; S1 has CS1 marked and a failed CS2. *)
Definition one_file_rows : list StudentRecord :=
  [sample_row "S1" "CS1" "A" "4" "sem4.xlsx" 4 true;
   sample_row "S1" "CS2" "U" "4" "sem4.xlsx" 3 false;
   sample_row "S2" "CS1" "B" "4" "sem4.xlsx" 4 true].

Lemma cgpa_one_group_is_sgpa_witness :
  let rs := restrict_subjects one_file_rows None in
  let d := nth 0 (studentSgpaDetails (analyzeResults bytewise_compare one_file_rows None))
             (mkStudentSgpa "" 0 false) in
  length (fileGroups rs) = 1%nat
  /\ In d (studentSgpaDetails (analyzeResults bytewise_compare one_file_rows None))
  /\ calculateCGPA rs (sid d) (fileGroups rs) = sgpa d.
Proof.
  intros rs d.
  assert (H1 : length (fileGroups rs) = 1%nat) by (vm_compute; reflexivity).
  assert (H2 : forall r, In r rs ->
                 (exists s, fileSource r = Some s /\ s <> "") /\ (0 < credit_or_zero r)%Z).
  { intros r Hr. vm_compute in Hr.
    repeat destruct Hr as [<-|Hr]; try destruct Hr;
      (split; [eexists; split; [reflexivity|discriminate] | vm_compute; reflexivity]). }
  assert (H3 : In d (studentSgpaDetails (analyzeResults bytewise_compare one_file_rows None)))
    by (vm_compute; left; reflexivity).
  split; [exact H1|]. split; [exact H3|].
  exact (cgpa_one_group_is_sgpa bytewise_compare one_file_rows None d H1 H2 H3).
Defined.

Definition all_failed_rows : list StudentRecord :=
  [sample_row "S1" "CS1" "U" "4" "sem4.xlsx" 3 false;
   sample_row "S2" "CS1" "U" "4" "sem4.xlsx" 3 false].

Lemma zero_sgpa_needs_improvement_witness :
  exists subjects, In ("S1", 0%float, subjects)
    (needsImprovement (analyzeResults bytewise_compare all_failed_rows None)).
Proof.
  apply (zero_sgpa_needs_improvement bytewise_compare all_failed_rows None
           (mkStudentSgpa "S1" 0 true)); vm_compute; auto.
Defined.

Lemma zero_cohort_statistics_witness :
  averageCGPA (analyzeResults bytewise_compare all_failed_rows None) = 0%float
  /\ highestSGPA (analyzeResults bytewise_compare all_failed_rows None) = 0%float
  /\ lowestSGPA (analyzeResults bytewise_compare all_failed_rows None) = 0%float.
Proof.
  apply zero_cohort_statistics. vm_compute. repeat constructor.
Defined.

Section Findings.
Variable lc : string -> string -> Z.

(** C24 (functional, divergence from spec sections 4.3b and 8): the
    marks choose which students get an SGPA, not which rows count.  For
    every rows and every way of setting the [isArrear] marks, a student
    listed under both markings has the same entry: the same SGPA over all
    of the student's current-file rows, and the same arrears flag.  The
    specification averages the marked subjects only. *)
Theorem sgpa_ignores_current_marks (records : list StudentRecord) (assigned : option (list string))
    (marks : StudentRecord -> option bool) (d d' : StudentSgpa) :
  In d (studentSgpaDetails (analyzeResults lc records assigned)) ->
  In d' (studentSgpaDetails (analyzeResults lc (map (remark marks) records) assigned)) ->
  sid d = sid d' -> d = d'.
Proof.
  rewrite !(proj1 (analyzeResults_fields lc _ assigned)).
  rewrite restrict_subjects_remark, currentSemesterRecords_remark.
  intros Hd Hd' Hs.
  apply (Permutation_in _ (details_ranked_perm _ lc)), in_map_iff in Hd as (i & <- & _).
  apply (Permutation_in _ (details_ranked_perm _ lc)), in_map_iff in Hd' as (j & <- & _).
  cbn [sid student_detail] in Hs |- *. subst j.
  unfold student_detail. rewrite (filter_map_comm _ (of_student i)) by reflexivity.
  rewrite weighted_sums_pos_remark, hasArrears_remark. reflexivity.
Qed.

(** C25 (functional, divergence from spec section 4.4): the list is
    sorted by registration number and then sorted again in place by SGPA
    for the top performers, so the returned [studentSgpaDetails] is in
    SGPA order for every input and every locale, not in registration
    order: no entry is followed by one with a higher SGPA
    ([sgpa_desc a b] is [b.sgpa - a.sgpa > 0]). *)
Theorem details_sorted_by_sgpa (records : list StudentRecord) (assigned : option (list string)) :
  Sorted (fun a b => sgpa_desc a b = false) (studentSgpaDetails (analyzeResults lc records assigned)).
Proof.
  rewrite (proj1 (analyzeResults_fields lc records assigned)).
  apply stable_sort_sorted. intros x y. apply sub_pos_antisym.
Qed.

(** (functional, divergence from spec section 4.4): only the average
    leaves out the students whose SGPA is 0; the lowest SGPA includes
    them, so one student with only failed subjects makes it 0. *)
Theorem lowest_sgpa_includes_zero :
  let rows := [sample_row "A1" "CS1" "B" "4" "sem4.xlsx" 3 false;
               sample_row "B1" "CS1" "O" "4" "sem4.xlsx" 3 false;
               sample_row "C1" "CS1" "U" "4" "sem4.xlsx" 3 false] in
  averageCGPA (analyzeResults lc rows None) = 8%float
  /\ highestSGPA (analyzeResults lc rows None) = 10%float
  /\ lowestSGPA (analyzeResults lc rows None) = 0%float.
Proof. locale_cases lc; repeat split. Qed.

(** C26 (functional, divergence from spec section 4.4): a student the
    analysis lists is in the needs-improvement list exactly when the SGPA
    is below 6.5 or the student has a U among the rows of the current
    semester's file: arrears in earlier files are not looked at. *)
Theorem needs_improvement_current_file_only (records : list StudentRecord)
    (assigned : option (list string)) (d : StudentSgpa) :
  let cur := currentSemesterRecords (restrict_subjects records assigned) in
  In d (studentSgpaDetails (analyzeResults lc records assigned)) ->
  (exists subjects, In (sid d, sgpa d, subjects) (needsImprovement (analyzeResults lc records assigned)))
  <-> (sgpa d <? 6.5)%float = true \/ hasArrears cur (sid d) = true.
Proof.
  cbv zeta. pose proof (analyzeResults_fields lc records assigned) as F. cbv zeta in F.
  destruct F as (F1 & _ & _ & _ & _ & F6). rewrite F6. rewrite F1 in *.
  set (cur := currentSemesterRecords (restrict_subjects records assigned)).
  intros Hd. unfold needs_improvement. split.
  - intros (s & Hs). apply in_map_iff in Hs as (e & He & Hin). apply filter_In in Hin as [Hin Hf].
    injection He as Hi Hg _.
    apply (Permutation_in _ (details_ranked_perm _ lc)), in_map_iff in Hin as (j & <- & _).
    cbn [sid sgpa hasArrearsFlag student_detail] in *. rewrite <- Hi, <- Hg.
    apply orb_true_iff in Hf. now rewrite hasArrears_own_rows in Hf.
  - intros H. eexists. apply in_map_iff. exists d. split; [reflexivity|]. apply filter_In.
    split; [exact Hd|]. apply orb_true_iff.
    apply (Permutation_in _ (details_ranked_perm _ lc)), in_map_iff in Hd as (j & <- & _).
    cbn [sid sgpa hasArrearsFlag student_detail] in *. now rewrite hasArrears_own_rows.
Qed.
End Findings.

(** B (4 credits) marked and U (3 credits) unmarked: the SGPA is 24/7 =
    3.43 over both rows under either marking. *)
Definition mark_rows : list StudentRecord :=
  [sample_row "S" "CS1" "B" "4" "sem4.xlsx" 4 true;
   sample_row "S" "CS2" "U" "4" "sem4.xlsx" 3 false].

Lemma sgpa_ignores_current_marks_witness :
  let d := nth 0 (studentSgpaDetails (analyzeResults bytewise_compare mark_rows None))
             (mkStudentSgpa "" 0 false) in
  let d' := nth 0 (studentSgpaDetails
                     (analyzeResults bytewise_compare (map (remark (fun _ => Some false)) mark_rows) None))
              (mkStudentSgpa "" 0 false) in
  d = d'.
Proof.
  intros d d'.
  apply (sgpa_ignores_current_marks bytewise_compare mark_rows None (fun _ => Some false));
    vm_compute; [left; reflexivity | left; reflexivity | reflexivity].
Defined.

(** A U in the semester-3 file and an A (8.00) in the semester-4 file. *)
Definition earlier_arrear_rows : list StudentRecord :=
  [sample_row "S1" "CS1" "U" "3" "sem3.xlsx" 3 false;
   sample_row "S1" "CS2" "A" "4" "sem4.xlsx" 3 false].

Lemma needs_improvement_current_file_only_witness :
  let a := analyzeResults bytewise_compare earlier_arrear_rows None in
  let d := nth 0 (studentSgpaDetails a) (mkStudentSgpa "" 0 false) in
  In d (studentSgpaDetails a)
  /\ ((exists subjects, In (sid d, sgpa d, subjects) (needsImprovement a))
      <-> (sgpa d <? 6.5)%float = true
          \/ hasArrears (currentSemesterRecords (restrict_subjects earlier_arrear_rows None)) (sid d) = true).
Proof.
  intros a d. assert (H : In d (studentSgpaDetails a)) by (vm_compute; left; reflexivity).
  split; [exact H|]. exact (needs_improvement_current_file_only bytewise_compare earlier_arrear_rows None d H).
Defined.
