(* ===== verification/CreditInput.v ===== *)
(** * The subject-credit form (src/src/components/SubjectCreditInput.tsx)

    The component keeps three pieces of React state: [subjectCredits] (one
    entry per uploaded subject code with its credit, optional names and the
    "current semester" mark, historically called [isArrear]),
    [orderedSubjects] (the marked codes in the order they were marked) and
    [isValid].  Every handler is a transition [form_step] of [CreditForm]
    on a [form_event]; [Submit] also produces the call
    [onCreditAssigned(credits, orderedSubjects)] the Dashboard receives.
    Toasts and console logging are not modelled; the render is.  The record fields carry
    an [sc_] prefix because GradeScale.v already declares
    [creditValue], [subjectName], [facultyName] and [isArrear] for rows.

    The theorems: every reachable state satisfies [form_inv] (credits in
    1..10, [isValid] agrees with [validateInputs], [orderedSubjects] lists
    each marked code exactly once), proved by induction on reachability;
    hence what [Submit] hands to the Dashboard is a non-empty list of
    credits in 1..10 with a duplicate-free order of marked codes, and each
    row the form renders ([credit_form_view]) for a marked subject shows
    the subject's place in that order. *)

From Stdlib Require Import Bool ZArith String List Lia.
From S2P Require Import Prelude JsNumber NumberToString.
Import ListNotations.
Local Open Scope Z_scope.

(** ** State *)

(** [interface SubjectCredit]. *)
Record SubjectCredit := mkSubjectCredit {
  sc_code : string;
  sc_credit : Z;
  sc_name : option string;
  sc_faculty : option string;
  sc_current : option bool
}.

Record CreditForm := mkCreditForm {
  subjectCredits : list SubjectCredit;
  orderedSubjects : list string;
  isValid : bool
}.

(** The three [useState] initial values. *)
Definition initial_form : CreditForm := mkCreditForm [] [] false.

(** The truthiness of [credit.isArrear]. *)
Definition marked (c : SubjectCredit) : bool :=
  match sc_current c with
  | Some true => true
  | _ => false
  end.

Inductive form_event :=
  | UploadedSubjects (codes : list string)
  | CreditChange (code value : string)
  | SubjectNameChange (code name : string)
  | FacultyNameChange (code name : string)
  | ToggleArrear (code : string)
  | RemoveSubject (code : string)
  | Submit.

(** ** Handlers *)

(** [validateInputs]: some subject, every credit in 1..10. *)
Definition validateInputs (credits : list SubjectCredit) : bool :=
  match credits with
  | [] => false
  | _ => forallb (fun c => (1 <=? sc_credit c) && (sc_credit c <=? 10)) credits
  end.

(** [subjectCredits.map(credit => credit.subjectCode === code ? f(credit) : credit)]. *)
Definition update_where (code : string) (f : SubjectCredit -> SubjectCredit)
    (credits : list SubjectCredit) : list SubjectCredit :=
  map (fun c => if sc_code c ==? code then f c else c) credits.

Definition initial_credit (code : string) : SubjectCredit :=
  mkSubjectCredit code 3 (Some ""%string) (Some ""%string) (Some false).

(** The [useEffect] on [uploadedSubjects]. *)
Definition on_uploaded_subjects (codes : list string) : CreditForm :=
  match codes with
  | [] => mkCreditForm [] [] false
  | _ => let cs := map initial_credit codes in mkCreditForm cs [] (validateInputs cs)
  end.

Definition set_credit (n : Z) (c : SubjectCredit) : SubjectCredit :=
  mkSubjectCredit (sc_code c) n (sc_name c) (sc_faculty c) (sc_current c).

Definition set_name (name : string) (c : SubjectCredit) : SubjectCredit :=
  mkSubjectCredit (sc_code c) (sc_credit c) (Some name) (sc_faculty c) (sc_current c).

Definition set_faculty (name : string) (c : SubjectCredit) : SubjectCredit :=
  mkSubjectCredit (sc_code c) (sc_credit c) (sc_name c) (Some name) (sc_current c).

Definition toggle (c : SubjectCredit) : SubjectCredit :=
  mkSubjectCredit (sc_code c) (sc_credit c) (sc_name c) (sc_faculty c) (Some (negb (marked c))).

(** A handler that rewrites the matching entries and re-validates. *)
Definition with_credits (s : CreditForm) (cs : list SubjectCredit) (ordered : list string)
  : CreditForm :=
  mkCreditForm cs ordered (validateInputs cs).

(** [handleCreditChange]: a value that does not parse to 1..10 is ignored. *)
Definition handleCreditChange (s : CreditForm) (code value : string) : CreditForm :=
  match parseInt10 value with
  | Some n =>
      if (n <? 1) || (10 <? n) then s
      else with_credits s (update_where code (set_credit n) (subjectCredits s))
                        (orderedSubjects s)
  | None => s
  end.

Definition handleSubjectNameChange (s : CreditForm) (code name : string) : CreditForm :=
  with_credits s (update_where code (set_name name) (subjectCredits s)) (orderedSubjects s).

Definition handleFacultyNameChange (s : CreditForm) (code name : string) : CreditForm :=
  with_credits s (update_where code (set_faculty name) (subjectCredits s)) (orderedSubjects s).

(** [orderedSubjects.filter(c => c !== code)]. *)
Definition drop_code (code : string) (l : list string) : list string :=
  filter (fun x => negb (x ==? code)) l.

(** [handleToggleArrear]: flip the mark, then append the code to the
    order when it became marked (unless listed) or drop it otherwise. *)
Definition handleToggleArrear (s : CreditForm) (code : string) : CreditForm :=
  let cs := update_where code toggle (subjectCredits s) in
  let ordered :=
    match find (fun c => sc_code c ==? code) cs with
    | Some subject =>
        if marked subject then
          if mem code (orderedSubjects s) then orderedSubjects s
          else orderedSubjects s ++ [code]
        else drop_code code (orderedSubjects s)
    | None => orderedSubjects s
    end in
  with_credits s cs ordered.

Definition handleRemoveSubject (s : CreditForm) (code : string) : CreditForm :=
  with_credits s (filter (fun c => negb (sc_code c ==? code)) (subjectCredits s))
    (drop_code code (orderedSubjects s)).

(** [handleSubmit]: on valid input, [onCreditAssigned] receives copies of
    the credits and of the order. *)
Definition handleSubmit (s : CreditForm)
  : CreditForm * option (list SubjectCredit * list string) :=
  if validateInputs (subjectCredits s)
  then (mkCreditForm (subjectCredits s) (orderedSubjects s) true,
        Some (subjectCredits s, orderedSubjects s))
  else (mkCreditForm (subjectCredits s) (orderedSubjects s) false, None).

Definition form_step (s : CreditForm) (e : form_event)
  : CreditForm * option (list SubjectCredit * list string) :=
  match e with
  | UploadedSubjects codes => (on_uploaded_subjects codes, None)
  | CreditChange code value => (handleCreditChange s code value, None)
  | SubjectNameChange code name => (handleSubjectNameChange s code name, None)
  | FacultyNameChange code name => (handleFacultyNameChange s code name, None)
  | ToggleArrear code => (handleToggleArrear s code, None)
  | RemoveSubject code => (handleRemoveSubject s code, None)
  | Submit => handleSubmit s
  end.

(** ** What the form shows *)

(** [orderedSubjects.indexOf(code)]; [None] stands for [-1]. *)
Fixpoint indexOf (x : string) (l : list string) : option nat :=
  match l with
  | [] => None
  | y :: t => if y ==? x then Some O else option_map S (indexOf x t)
  end.

(** A row of the table: the code, the highlight of a marked row, the
    "CS" badge of a marked row with its [orderIndex + 1] badge when
    listed, the credit input's value, the two name inputs' values
    ([|| '']) and the label of the mark button. *)
Record CreditRowView := mkCreditRow {
  cr_code : string;
  cr_highlight : bool;
  cr_badge : option (option nat);
  cr_credit : Z;
  cr_name : string;
  cr_faculty : string;
  cr_toggle : string
}.

Definition credit_row (ordered : list string) (c : SubjectCredit) : CreditRowView :=
  let orderIndex := indexOf (sc_code c) ordered in
  mkCreditRow (sc_code c) (marked c)
    (if marked c then Some (option_map S orderIndex) else None)
    (sc_credit c)
    (match sc_name c with Some v => v | None => "" end)
    (match sc_faculty c with Some v => v | None => "" end)
    (if marked c
     then "Current Semester ✓"
          ++ match orderIndex with
             | Some i => " (" ++ N_text (N.of_nat (S i)) ++ ")"
             | None => ""
             end
     else "Mark as Current")%string.

Inductive CreditFormView :=
| NoSubjectsCard (title description : string)
| CreditTable (title : string) (rows : list CreditRowView) (button : string) (disabled : bool).

(** The component's render for its props [uploadedSubjects] and
    [isProcessing]. *)
Definition credit_form_view (uploadedSubjects : list string) (isProcessing : bool) (s : CreditForm)
  : CreditFormView :=
  match uploadedSubjects with
  | [] => NoSubjectsCard "Subject Credits"
            "Please upload an Excel file first to assign subject credits."
  | _ => CreditTable "Assign Subject Details"
           (map (credit_row (orderedSubjects s)) (subjectCredits s))
           (if isProcessing then "Processing..." else "Assign Details & Process Data")
           (negb (isValid s) || isProcessing)
  end.

(** The states the form can reach from its initial state. *)
Inductive form_reachable : CreditForm -> Prop :=
  | reach_initial : form_reachable initial_form
  | reach_step s e : form_reachable s -> form_reachable (fst (form_step s e)).

(** ** The invariant *)

Definition credit_ok (c : SubjectCredit) : Prop := 1 <= sc_credit c <= 10.

(** Entries with the same code carry the same mark. *)
Definition marks_agree (cs : list SubjectCredit) : Prop :=
  forall c1 c2, In c1 cs -> In c2 cs -> sc_code c1 = sc_code c2 -> marked c1 = marked c2.

(** [code] is marked in [cs]. *)
Definition is_marked (cs : list SubjectCredit) (code : string) : Prop :=
  exists c, In c cs /\ sc_code c = code /\ marked c = true.

(** [orderedSubjects] lists exactly the marked codes. *)
Definition order_matches (cs : list SubjectCredit) (ordered : list string) : Prop :=
  NoDup ordered /\ forall code, In code ordered <-> is_marked cs code.

Definition form_inv (s : CreditForm) : Prop :=
  Forall credit_ok (subjectCredits s)
  /\ isValid s = validateInputs (subjectCredits s)
  /\ marks_agree (subjectCredits s)
  /\ order_matches (subjectCredits s) (orderedSubjects s).

(** ** Lemmas on the handlers *)

Lemma validateInputs_ok (cs : list SubjectCredit) :
  validateInputs cs = true -> cs <> [] /\ Forall credit_ok cs.
Proof.
  destruct cs as [|c t]; [discriminate|]. intros H. split; [discriminate|].
  apply Forall_forall. intros x Hx. apply (proj1 (forallb_forall _ _) H) in Hx.
  apply andb_true_iff in Hx as [H1 H2]. unfold credit_ok. lia.
Qed.

(** A map that keeps every entry's code and mark keeps both invariants. *)
Section KeepMarks.
Variable g : SubjectCredit -> SubjectCredit.
Hypothesis g_code : forall c, sc_code (g c) = sc_code c.
Hypothesis g_marked : forall c, marked (g c) = marked c.

Lemma map_keeps_agree (cs : list SubjectCredit) : marks_agree cs -> marks_agree (map g cs).
Proof.
  intros H c1' c2' H1 H2 E. apply in_map_iff in H1 as (c1 & <- & H1).
  apply in_map_iff in H2 as (c2 & <- & H2). rewrite !g_marked.
  rewrite !g_code in E. now apply H.
Qed.

Lemma map_keeps_order (cs : list SubjectCredit) (o : list string) :
  order_matches cs o -> order_matches (map g cs) o.
Proof.
  intros [Hnd H]. split; [exact Hnd|]. intros code. rewrite H. unfold is_marked. split.
  - intros (c & Hc & Ec & Mc). exists (g c). rewrite g_code, g_marked.
    split; [now apply in_map | tauto].
  - intros (c' & Hc & Ec & Mc). apply in_map_iff in Hc as (c & <- & Hc).
    rewrite g_code in Ec. rewrite g_marked in Mc. eauto.
Qed.
End KeepMarks.

Lemma update_where_keeps (code : string) (f : SubjectCredit -> SubjectCredit) :
  (forall c, sc_code (f c) = sc_code c) -> (forall c, marked (f c) = marked c) ->
  forall cs o, marks_agree cs /\ order_matches cs o ->
  marks_agree (update_where code f cs) /\ order_matches (update_where code f cs) o.
Proof.
  intros Hc Hm cs o [Ha Ho]. unfold update_where.
  split; [apply map_keeps_agree | apply map_keeps_order]; try assumption;
    intros c; destruct (sc_code c ==? code); auto.
Qed.

Lemma update_where_ok (code : string) (f : SubjectCredit -> SubjectCredit) cs :
  (forall c, credit_ok c -> credit_ok (f c)) -> Forall credit_ok cs ->
  Forall credit_ok (update_where code f cs).
Proof.
  intros Hf H. unfold update_where. apply Forall_map. eapply Forall_impl; [|exact H].
  intros c Hc. destruct (sc_code c ==? code); auto.
Qed.

Lemma In_drop_code (code x : string) (l : list string) :
  In x (drop_code code l) <-> In x l /\ x <> code.
Proof.
  unfold drop_code. rewrite filter_In. rewrite negb_true_iff.
  split; intros [H1 H2]; split; try assumption.
  - intros ->. now rewrite eqb_refl in H2.
  - now apply eqb_neq.
Qed.

Lemma NoDup_drop_code (code : string) (l : list string) : NoDup l -> NoDup (drop_code code l).
Proof. apply NoDup_filter. Qed.

#[export] Hint Resolve NoDup_drop_code : dp.

(** ** Toggling a mark *)

Lemma marked_toggle (c : SubjectCredit) : marked (toggle c) = negb (marked c).
Proof. unfold toggle, marked at 1. simpl. now destruct (marked c). Qed.

#[export] Hint Rewrite marked_toggle : dp_rw.

Lemma In_update_where (code : string) f cs c' :
  In c' (update_where code f cs) <->
  exists c, In c cs /\ c' = if sc_code c ==? code then f c else c.
Proof.
  unfold update_where. rewrite in_map_iff. split; intros (c & H1 & H2); eauto.
Qed.

Lemma toggle_other (code x : string) cs :
  x <> code -> (is_marked (update_where code toggle cs) x <-> is_marked cs x).
Proof.
  intros Hne. unfold is_marked. split.
  - intros (c' & Hc' & Ec & Mc). apply In_update_where in Hc' as (c & Hc & ->).
    destruct (eqb_spec (sc_code c) code) as [E|E].
    + simpl in Ec. congruence.
    + eauto.
  - intros (c & Hc & Ec & Mc). exists c. split; [|tauto].
    apply In_update_where. exists c. split; [exact Hc|].
    now rewrite Ec, (eqb_neq x code Hne).
Qed.

(** After the toggle every entry of [code] carries the negation of the old
    common mark. *)
Lemma toggle_same (code : string) cs c' :
  marks_agree cs -> In c' (update_where code toggle cs) -> sc_code c' = code ->
  exists c, In c cs /\ sc_code c = code /\ marked c' = negb (marked c).
Proof.
  intros Ha Hc' Ec'. apply In_update_where in Hc' as (c & Hc & ->).
  destruct (eqb_spec (sc_code c) code) as [E|E].
  - exists c. rewrite marked_toggle. now split.
  - congruence.
Qed.

Lemma toggle_agree (code : string) cs :
  marks_agree cs -> marks_agree (update_where code toggle cs).
Proof.
  intros Ha c1' c2' H1 H2 E.
  apply In_update_where in H1 as (c1 & H1 & ->). apply In_update_where in H2 as (c2 & H2 & ->).
  destruct (eqb_spec (sc_code c1) code), (eqb_spec (sc_code c2) code); simpl in *;
    rewrite ?marked_toggle; first [congruence | apply Ha; congruence
                                   | f_equal; apply Ha; congruence].
Qed.

Lemma toggle_order (code : string) cs o :
  marks_agree cs -> order_matches cs o ->
  order_matches (update_where code toggle cs)
    (match find (fun c => sc_code c ==? code) (update_where code toggle cs) with
     | Some subject =>
         if marked subject then (if mem code o then o else o ++ [code])
         else drop_code code o
     | None => o
     end).
Proof.
  intros Ha [Hnd Ho].
  destruct (find (fun c => sc_code c ==? code) (update_where code toggle cs)) as [subj|] eqn:Ef.
  - apply find_some in Ef as [Hs Es]. apply (eqb_true_iff (sc_code subj) code) in Es.
    destruct (toggle_same code cs subj Ha Hs Es) as (c0 & Hc0 & Ec0 & Ms).
    destruct (marked subj) eqn:Msubj.
    + assert (Hnot : ~ In code o).
      { rewrite Ho. intros (c & Hc & Ec & Mc).
        rewrite (Ha c c0 Hc Hc0 (eq_trans Ec (eq_sym Ec0))) in Mc.
        rewrite Mc in Ms. discriminate. }
      assert (mem code o = false) as ->
        by (apply not_true_iff_false; rewrite mem_In; exact Hnot).
      split; [now apply NoDup_snoc|]. intros x. rewrite in_app_iff. simpl.
      destruct (eqb_spec x code) as [->|Hx].
      * split; [intros _; exists subj; auto | intros _; right; now left].
      * rewrite (toggle_other code x cs Hx), <- Ho. split; [|tauto].
        intros [H|[H|[]]]; [exact H | congruence].
    + split; [now apply NoDup_drop_code|]. intros x. rewrite In_drop_code.
      destruct (eqb_spec x code) as [->|Hx].
      * split; [intros [_ []]; reflexivity|]. intros (c' & Hc' & Ec' & Mc').
        destruct (toggle_same code cs c' Ha Hc' Ec') as (c1 & Hc1 & Ec1 & M1).
        rewrite (Ha c1 c0 Hc1 Hc0 (eq_trans Ec1 (eq_sym Ec0))) in M1. congruence.
      * rewrite (toggle_other code x cs Hx), <- Ho. tauto.
  - split; [exact Hnd|]. intros x. rewrite Ho.
    destruct (eqb_spec x code) as [->|Hx]; [|symmetry; exact (toggle_other code x cs Hx)].
    split; intros (c & Hc & Ec & Mc); exfalso.
    + assert (Hin : In (toggle c) (update_where code toggle cs)).
      { apply In_update_where. exists c. split; [exact Hc|]. now rewrite Ec, eqb_refl. }
      apply (find_none _ _ Ef) in Hin. change (sc_code (toggle c)) with (sc_code c) in Hin.
      rewrite Ec, eqb_refl in Hin. discriminate.
    + apply (find_none _ _ Ef) in Hc. rewrite Ec, eqb_refl in Hc. discriminate.
Qed.

(** ** The invariant is inductive *)

Lemma with_credits_inv (s : CreditForm) cs o :
  Forall credit_ok cs -> marks_agree cs -> order_matches cs o -> form_inv (with_credits s cs o).
Proof. intros H1 H2 H3. repeat split; assumption || apply H3. Qed.

Lemma remove_keeps (code : string) cs o :
  marks_agree cs -> order_matches cs o ->
  marks_agree (filter (fun c => negb (sc_code c ==? code)) cs)
  /\ order_matches (filter (fun c => negb (sc_code c ==? code)) cs) (drop_code code o).
Proof.
  intros Ha [Hnd Ho]. split.
  - intros c1 c2 H1 H2 E. apply filter_In in H1, H2. now apply Ha.
  - split; [now apply NoDup_drop_code|]. intros x. rewrite In_drop_code, Ho. split.
    + intros [(c & Hc & Ec & Mc) Hx]. exists c. repeat split; try assumption.
      apply filter_In. split; [exact Hc|]. rewrite Ec, (eqb_neq x code Hx). reflexivity.
    + intros (c & Hc & Ec & Mc). apply filter_In in Hc as [Hc Hn].
      split; [exists c; auto|]. intros ->. rewrite Ec, eqb_refl in Hn. discriminate.
Qed.

Lemma uploaded_inv (codes : list string) : form_inv (on_uploaded_subjects codes).
Proof.
  assert (Hnone : forall cs, (forall c, In c cs -> marked c = false) ->
                             marks_agree cs /\ order_matches cs []).
  { intros cs H. split.
    - intros c1 c2 H1 H2 _. now rewrite (H c1 H1), (H c2 H2).
    - split; [constructor|]. intros x. split; [intros []|].
      intros (c & Hc & _ & Mc). now rewrite (H c Hc) in Mc. }
  destruct codes as [|c0 codes]; unfold on_uploaded_subjects.
  - destruct (Hnone [] (fun c H => False_ind _ H)) as [H1 H2].
    cbn. split; [constructor|]. split; [reflexivity|]. exact (conj H1 H2).
  - set (cs := map initial_credit (c0 :: codes)).
    destruct (Hnone cs) as [H1 H2].
    { intros c Hc. unfold cs in Hc. apply in_map_iff in Hc as (x & <- & _). reflexivity. }
    apply (with_credits_inv initial_form); [|assumption..].
    apply Forall_forall. intros c Hc. unfold cs in Hc. apply in_map_iff in Hc as (x & <- & _).
    unfold credit_ok. simpl. lia.
Qed.

Lemma form_inv_step (s : CreditForm) (e : form_event) :
  form_inv s -> form_inv (fst (form_step s e)).
Proof.
  intros Hinv. pose proof Hinv as (Hok & Hv & Ha & Ho).
  destruct e as [codes|code value|code name|code name|code|code|]; cbn [form_step fst].
  - apply uploaded_inv.
  - unfold handleCreditChange. destruct (parseInt10 value) as [n|]; [|exact Hinv].
    destruct ((n <? 1) || (10 <? n)) eqn:E; [exact Hinv|].
    apply orb_false_iff in E as [E1 E2]. apply Z.ltb_ge in E1, E2.
    destruct (update_where_keeps code (set_credit n) (fun _ => eq_refl) (fun _ => eq_refl)
                (subjectCredits s) (orderedSubjects s) (conj Ha Ho)) as [Ha' Ho'].
    apply with_credits_inv; [|assumption..].
    apply update_where_ok; [|assumption]. intros c _. unfold credit_ok. simpl. lia.
  - destruct (update_where_keeps code (set_name name) (fun _ => eq_refl) (fun _ => eq_refl)
                (subjectCredits s) (orderedSubjects s) (conj Ha Ho)) as [Ha' Ho'].
    apply with_credits_inv; [|assumption..]. apply update_where_ok; auto.
  - destruct (update_where_keeps code (set_faculty name) (fun _ => eq_refl) (fun _ => eq_refl)
                (subjectCredits s) (orderedSubjects s) (conj Ha Ho)) as [Ha' Ho'].
    apply with_credits_inv; [|assumption..]. apply update_where_ok; auto.
  - unfold handleToggleArrear. apply with_credits_inv.
    + apply update_where_ok; auto.
    + now apply toggle_agree.
    + now apply toggle_order.
  - unfold handleRemoveSubject. destruct (remove_keeps code _ _ Ha Ho) as [Ha' Ho'].
    apply with_credits_inv; [|assumption..].
    apply Forall_forall. intros c Hc. apply filter_In in Hc. rewrite Forall_forall in Hok. now apply Hok.
  - unfold handleSubmit. destruct (validateInputs (subjectCredits s)) eqn:E;
      (split; [exact Hok|split; [cbn; now rewrite E|exact (conj Ha Ho)]]).
Qed.

Lemma reachable_form_inv (s : CreditForm) : form_reachable s -> form_inv s.
Proof.
  induction 1 as [|s e _ IH].
  - repeat split; try constructor; [intros c1 c2 [] | intros [] | intros (c & [] & _)].
  - now apply form_inv_step.
Qed.

Lemma indexOf_nth (x : string) (l : list string) (k : nat) :
  indexOf x l = Some k -> nth_error l k = Some x.
Proof.
  revert k. induction l as [|y t IH]; intros k; cbn [indexOf]; [discriminate|].
  destruct (eqb_spec y x) as [->|_]; [now intros [= <-]|].
  destruct (indexOf x t) as [i|]; cbn; [intros [= <-]; now apply IH|discriminate].
Qed.

Lemma indexOf_In (x : string) (l : list string) : In x l -> exists k, indexOf x l = Some k.
Proof.
  induction l as [|y t IH]; intros H; [destruct H|]. cbn [indexOf].
  destruct (eqb_spec y x) as [_|N]; [now exists O|].
  destruct H as [->|H]; [contradiction|]. destruct (IH H) as [k ->]. now exists (S k).
Qed.

Local Open Scope string_scope.

(** ** Theorems *)

(** C28 (invariant): every state the credit form can reach keeps all
    credits in 1..10, has [isValid] equal to [validateInputs] of its
    credits, and lists in [orderedSubjects] each marked subject code
    exactly once (proved by induction on reachability). *)
Theorem form_reachable_inv (s : CreditForm) : form_reachable s -> form_inv s.
Proof. apply reachable_form_inv. Qed.

Lemma form_reachable_inv_witness :
  form_inv (fst (form_step (fst (form_step (on_uploaded_subjects ["CS1"; "CS2"])
                                           (ToggleArrear "CS2"))) (CreditChange "CS1" "4"))).
Proof.
  apply form_reachable_inv. repeat apply reach_step.
  change (on_uploaded_subjects ["CS1"; "CS2"])
    with (fst (form_step initial_form (UploadedSubjects ["CS1"; "CS2"]))).
  repeat constructor.
Defined.

(** What [Submit] hands to the Dashboard from a reachable
    state is a non-empty list of credits, each in 1..10, with an order of
    distinct codes that are all marked as current-semester subjects. *)
Theorem submit_output_valid (s : CreditForm) (credits : list SubjectCredit)
    (order : list string) :
  form_reachable s -> snd (form_step s Submit) = Some (credits, order) ->
  credits <> [] /\ Forall credit_ok credits /\ NoDup order
  /\ (forall code, In code order -> is_marked credits code).
Proof.
  intros Hr Hs. destruct (reachable_form_inv s Hr) as (Hok & _ & _ & [Hnd Ho]).
  cbn [form_step] in Hs. unfold handleSubmit in Hs.
  destruct (validateInputs (subjectCredits s)) eqn:E; [|discriminate].
  injection Hs as <- <-. destruct (validateInputs_ok _ E) as [Hne _].
  repeat split; try assumption. intros code. apply Ho.
Qed.

Lemma submit_output_valid_witness :
  let s := fst (form_step (on_uploaded_subjects ["CS1"; "CS2"]) (ToggleArrear "CS2")) in
  snd (form_step s Submit) = Some (subjectCredits s, ["CS2"]) /\
  (subjectCredits s <> [] /\ Forall credit_ok (subjectCredits s) /\ NoDup ["CS2"]
   /\ (forall code, In code ["CS2"] -> is_marked (subjectCredits s) code)).
Proof.
  intros s. split; [reflexivity|].
  apply (submit_output_valid s).
  - apply reach_step.
    change (on_uploaded_subjects ["CS1"; "CS2"])
      with (fst (form_step initial_form (UploadedSubjects ["CS1"; "CS2"]))).
    repeat constructor.
  - reflexivity.
Defined.

(** On a reachable form, a row marked as current shows the "CS" badge
    and the number [k + 1] of its code's place [k] in [orderedSubjects],
    the order the reports follow; an unmarked row shows no badge. *)
Theorem credit_rows_show_order (s : CreditForm) (c : SubjectCredit) :
  form_reachable s -> In c (subjectCredits s) ->
  if marked c
  then exists k, cr_badge (credit_row (orderedSubjects s) c) = Some (Some (S k))
                 /\ nth_error (orderedSubjects s) k = Some (sc_code c)
  else cr_badge (credit_row (orderedSubjects s) c) = None.
Proof.
  intros Hr Hc. destruct (reachable_form_inv s Hr) as (_ & _ & _ & [_ Ho]).
  unfold credit_row. cbn [cr_badge]. destruct (marked c) eqn:M; [|reflexivity].
  assert (Hin : In (sc_code c) (orderedSubjects s)) by (apply Ho; now exists c).
  destruct (indexOf_In _ _ Hin) as [k Hk]. exists k. rewrite Hk.
  split; [reflexivity|now apply indexOf_nth].
Qed.

Lemma credit_rows_show_order_witness :
  let s := fst (form_step (on_uploaded_subjects ["CS1"; "CS2"]) (ToggleArrear "CS2")) in
  In (mkSubjectCredit "CS2" 3 (Some "") (Some "") (Some true)) (subjectCredits s)
  /\ exists k, cr_badge (credit_row (orderedSubjects s)
                           (mkSubjectCredit "CS2" 3 (Some "") (Some "") (Some true)))
               = Some (Some (S k))
             /\ nth_error (orderedSubjects s) k = Some "CS2".
Proof.
  intros s. assert (Hin : In (mkSubjectCredit "CS2" 3 (Some "") (Some "") (Some true))
                            (subjectCredits s)) by (right; left; reflexivity).
  split; [exact Hin|].
  refine (credit_rows_show_order s _ _ Hin).
  apply reach_step.
  change (on_uploaded_subjects ["CS1"; "CS2"])
    with (fst (form_step initial_form (UploadedSubjects ["CS1"; "CS2"]))).
  repeat constructor.
Defined.
