(* ===== verification/Dashboard.v ===== *)
(** * The dashboard page (src/src/pages/Dashboard.tsx)

    The page holds the uploaded rows, the credits submitted by the credit
    form and the analysis.  Its handlers are the transitions of
    [dashboard_step]: choosing SGPA or CGPA mode, receiving parsed rows from
    the uploader ([handleRecordsUploaded]), receiving credits from the
    credit form ([handleCreditAssigned], which runs [analyzeData]),
    resetting, and switching tabs.

    [analyzeData] copies each row's credit, names and current-semester
    mark from the submitted credits ([recordsWithCredits]: the first credit
    entry with the row's subject code, else credit 3, empty names, not
    marked), calls [analyzeResults] restricted to the submitted subject
    codes, attaches the subject order, and stores the copied rows back in
    [studentRecords], from where the report generators read them.

    [analyzeData] is [async] but contains no [await]: it runs to its end
    within the handler, so one transition models it.  [analyzeResults]
    does not throw on any input, so the [catch] branch is not modelled;
    toasts and logging are not modelled, nor the page's [handleLogout],
    which nothing calls.  [results_records] are the rows the results tab
    hands to [ResultsDisplay]; the page's render is Display.v's
    [Shell.dashboard_view].  [localeCompare] is a
    parameter, as in Cohort.v. *)

From Stdlib Require Import Bool ZArith String List Permutation Floats Lia.
From S2P Require Import Prelude JsNumber GradeScale Aggregator TermResolver.
From S2P Require Import Distribution Classification Cohort CreditInput.
Import ListNotations.
Local Open Scope Z_scope.
Local Open Scope string_scope.

Module Page.

(** ** State *)

Inductive CalculationMode := Sgpa | Cgpa.

Inductive tab := TabMode | TabUpload | TabResults.

Record DashboardState := mkDashboard {
  activeTab : tab;
  calculationMode : option CalculationMode;
  isUploading : bool;
  isAnalyzing : bool;
  resultsAvailable : bool;
  studentRecords : list StudentRecord;
  resultAnalysis : option ResultAnalysis;
  uniqueSubjects : list string;
  subjectCredits : list SubjectCredit;
  orderedSubjects : list string;
  creditsAssigned : bool
}.

(** The [useState] initial values. *)
Definition initial_dashboard : DashboardState :=
  mkDashboard TabMode None false false false [] None [] [] [] false.

(** ** [analyzeData] *)

(** [x || ''] on an optional string. *)
Definition or_empty (s : option string) : string :=
  match s with Some v => v | None => "" end.

(** The body of [studentRecords.map(record => ...)] in [analyzeData]. *)
Definition with_credit (credits : list SubjectCredit) (r : StudentRecord) : StudentRecord :=
  match find (fun c => sc_code c ==? SCODE r) credits with
  | Some c =>
      mkRecord (CNo r) (SEM r) (REGNO r) (SCODE r) (GR r) (Some (sc_credit c))
               (Some (or_empty (sc_name c))) (Some (or_empty (sc_faculty c)))
               (fileSource r) (Some (marked c))
  | None =>
      mkRecord (CNo r) (SEM r) (REGNO r) (SCODE r) (GR r) (Some 3)
               (Some "") (Some "") (fileSource r) (Some false)
  end.

Definition recordsWithCredits (credits : list SubjectCredit) (records : list StudentRecord)
  : list StudentRecord :=
  map (with_credit credits) records.

(** [analysis.orderedSubjects = subjectOrder.length > 0 ? subjectOrder : undefined]. *)
Definition set_orderedSubjects (a : ResultAnalysis) (order : list string) : ResultAnalysis :=
  mkResultAnalysis (totalStudents_r a) (averageCGPA a) (highestSGPA a) (lowestSGPA a)
    (gradeDistribution_r a) (totalGrades a) (subjectPerformance_r a) (topPerformers a)
    (needsImprovement a) (studentSgpaDetails a) (passPercentage_r a) (failPercentage_r a)
    (subjectGradeDistribution_r a) (fileCount a) (filesProcessed_r a) (fileWiseAnalysis a)
    (cgpaAnalysis a) (singleFileClassification a) (multipleFileClassification a)
    (currentSemesterFile_r a)
    (match order with [] => None | _ => Some order end).

Section Handlers.
Variable localeCompare : string -> string -> Z.

(** [analyzeData(credits, subjectOrder)]: with no rows the state is
    unchanged (a toast); otherwise the analysis of the rows with their
    credits over the submitted subject codes, and the rows stored back. *)
Definition analyzeData (s : DashboardState) (credits : list SubjectCredit)
    (subjectOrder : list string) : DashboardState :=
  match studentRecords s with
  | [] => s
  | records =>
      let rows := recordsWithCredits credits records in
      let analysis := analyzeResults localeCompare rows (Some (map sc_code credits)) in
      mkDashboard TabResults (calculationMode s) (isUploading s) false true rows
        (Some (set_orderedSubjects analysis subjectOrder)) (uniqueSubjects s)
        (subjectCredits s) (orderedSubjects s) (creditsAssigned s)
  end.

(** [handleCreditAssigned]: store the credits and the order, then
    analyse. *)
Definition handleCreditAssigned (s : DashboardState) (credits : list SubjectCredit)
    (subjectOrder : list string) : DashboardState :=
  analyzeData
    (mkDashboard (activeTab s) (calculationMode s) (isUploading s) (isAnalyzing s)
       (resultsAvailable s) (studentRecords s) (resultAnalysis s) (uniqueSubjects s)
       credits subjectOrder true)
    credits subjectOrder.

End Handlers.

(** [handleSelectMode]. *)
Definition handleSelectMode (s : DashboardState) (mode : CalculationMode) : DashboardState :=
  mkDashboard TabUpload (Some mode) (isUploading s) (isAnalyzing s) (resultsAvailable s)
    (studentRecords s) (resultAnalysis s) (uniqueSubjects s) (subjectCredits s)
    (orderedSubjects s) (creditsAssigned s).

(** [handleRecordsUploaded]. *)
Definition handleRecordsUploaded (s : DashboardState) (records : list StudentRecord)
    (subjects : list string) : DashboardState :=
  mkDashboard (activeTab s) (calculationMode s) false (isAnalyzing s) false records None
    subjects [] [] false.

(** [handleResetCalculation]. *)
Definition handleResetCalculation (s : DashboardState) : DashboardState :=
  mkDashboard TabMode None (isUploading s) (isAnalyzing s) false [] None [] [] [] false.

(** [setIsUploading], passed to the uploader. *)
Definition setIsUploading (s : DashboardState) (b : bool) : DashboardState :=
  mkDashboard (activeTab s) (calculationMode s) b (isAnalyzing s) (resultsAvailable s)
    (studentRecords s) (resultAnalysis s) (uniqueSubjects s) (subjectCredits s)
    (orderedSubjects s) (creditsAssigned s).

(** [<Tabs onValueChange={setActiveTab}>]: the results trigger is disabled
    while no results are available. *)
Definition setActiveTab (s : DashboardState) (t : tab) : DashboardState :=
  match t, resultsAvailable s with
  | TabResults, false => s
  | _, _ =>
      mkDashboard t (calculationMode s) (isUploading s) (isAnalyzing s) (resultsAvailable s)
        (studentRecords s) (resultAnalysis s) (uniqueSubjects s) (subjectCredits s)
        (orderedSubjects s) (creditsAssigned s)
  end.

Inductive dashboard_event :=
| SelectMode (mode : CalculationMode)
| RecordsUploaded (records : list StudentRecord) (subjects : list string)
| CreditAssigned (credits : list SubjectCredit) (subjectOrder : list string)
| ResetCalculation
| SetUploading (b : bool)
| SetTab (t : tab).

Definition dashboard_step (lc : string -> string -> Z) (s : DashboardState)
    (e : dashboard_event) : DashboardState :=
  match e with
  | SelectMode m => handleSelectMode s m
  | RecordsUploaded records subjects => handleRecordsUploaded s records subjects
  | CreditAssigned credits order => handleCreditAssigned lc s credits order
  | ResetCalculation => handleResetCalculation s
  | SetUploading b => setIsUploading s b
  | SetTab t => setActiveTab s t
  end.

(** The rows the results tab hands to [ResultsDisplay], and through it to
    the report downloader: [studentRecords.filter(record =>
    subjectCredits.some(credit => credit.subjectCode === record.SCODE))]. *)
Definition results_records (s : DashboardState) : list StudentRecord :=
  filter (fun r => existsb (fun c => sc_code c ==? SCODE r) (subjectCredits s)) (studentRecords s).

Inductive dashboard_reachable (lc : string -> string -> Z) : DashboardState -> Prop :=
| dash_initial : dashboard_reachable lc initial_dashboard
| dash_step s e : dashboard_reachable lc s -> dashboard_reachable lc (dashboard_step lc s e).

End Page.

(** ** Lemmas *)

Module PageFacts.
Import Page.

(** Copying credits overwrites every field the copy writes, so copying
    twice is copying with the last credits. *)
Lemma with_credit_twice (c1 c2 : list SubjectCredit) (r : StudentRecord) :
  with_credit c2 (with_credit c1 r) = with_credit c2 r.
Proof.
  unfold with_credit at 2. destruct (find (fun c => sc_code c ==? SCODE r) c1);
    unfold with_credit; cbn [SCODE CNo SEM REGNO GR fileSource]; reflexivity.
Qed.

Lemma recordsWithCredits_twice (c1 c2 : list SubjectCredit) (rs : list StudentRecord) :
  recordsWithCredits c2 (recordsWithCredits c1 rs) = recordsWithCredits c2 rs.
Proof.
  unfold recordsWithCredits. rewrite map_map. apply map_ext. apply with_credit_twice.
Qed.

(** The page's consistency: results are shown only when there is an
    analysis, and the analysis is that of the stored rows, which carry the
    stored credits. *)
Definition dash_inv (lc : string -> string -> Z) (s : DashboardState) : Prop :=
  (resultsAvailable s = true -> resultAnalysis s <> None) /\
  match resultAnalysis s with
  | Some a =>
      studentRecords s <> []
      /\ recordsWithCredits (subjectCredits s) (studentRecords s) = studentRecords s
      /\ a = set_orderedSubjects
               (analyzeResults lc (studentRecords s) (Some (map sc_code (subjectCredits s))))
               (orderedSubjects s)
  | None => True
  end.

Lemma dash_inv_step (lc : string -> string -> Z) (s : DashboardState) (e : dashboard_event) :
  dash_inv lc s -> dash_inv lc (dashboard_step lc s e).
Proof.
  intros Hinv. pose proof Hinv as [Hav Ha].
  destruct e as [m|records subjects|credits order| |b|t]; cbn [dashboard_step].
  - split; [exact Hav | exact Ha].
  - split; [discriminate | exact I].
  - unfold handleCreditAssigned, analyzeData. cbn [studentRecords].
    destruct (studentRecords s) as [|r0 rest] eqn:E.
    + split; [exact Hav|]. cbn [resultAnalysis].
      destruct (resultAnalysis s); [|exact I]. destruct Ha as [Hne _]. contradiction.
    + split; [discriminate|]. cbn [resultAnalysis studentRecords subjectCredits orderedSubjects].
      split; [discriminate|]. split; [apply recordsWithCredits_twice | reflexivity].
  - split; [discriminate | exact I].
  - split; [exact Hav | exact Ha].
  - unfold setActiveTab.
    destruct t; [| |destruct (resultsAvailable s) eqn:E; [|exact Hinv]];
      (split; cbn [resultsAvailable resultAnalysis studentRecords subjectCredits orderedSubjects];
       [intros Hr; apply Hav; congruence | exact Ha]).
Qed.

Lemma reachable_dash_inv (lc : string -> string -> Z) (s : DashboardState) :
  dashboard_reachable lc s -> dash_inv lc s.
Proof.
  induction 1 as [|s e _ IH]; [split; [discriminate | exact I]|].
  now apply dash_inv_step.
Qed.

Lemma with_credit_SCODE (cs : list SubjectCredit) (r : StudentRecord) :
  SCODE (with_credit cs r) = SCODE r.
Proof. unfold with_credit. now destruct (find _ cs). Qed.

Lemma with_credit_in_range (cs : list SubjectCredit) (r : StudentRecord) :
  Forall credit_ok cs -> exists n, creditValue (with_credit cs r) = Some n /\ 1 <= n <= 10.
Proof.
  intros Hok. unfold with_credit. destruct (find _ cs) as [c|] eqn:F.
  - apply find_some in F as [Hin _]. rewrite Forall_forall in Hok.
    exists (sc_credit c). split; [reflexivity | apply Hok, Hin].
  - exists 3. split; [reflexivity | lia].
Qed.

(** A copied row is marked exactly when its subject is marked in the
    credits. *)
Lemma with_credit_marked (cs : list SubjectCredit) (r : StudentRecord) :
  marks_agree cs -> marked_current (with_credit cs r) = true <-> is_marked cs (SCODE r).
Proof.
  intros Hag. unfold with_credit. destruct (find _ cs) as [c|] eqn:F.
  - apply find_some in F as [Hin Hc]. apply (eqb_true_iff (sc_code c) (SCODE r)) in Hc.
    unfold marked_current; cbn [isArrear]. split.
    + intros Hm. exists c. repeat split; try assumption. now destruct (marked c).
    + intros (c' & Hin' & Hcode & Hm). rewrite (Hag c c' Hin Hin') by congruence.
      now rewrite Hm.
  - split; [discriminate|]. intros (c' & Hin' & Hcode & _).
    pose proof (find_none _ _ F c' Hin') as Hn. cbn beta in Hn.
    rewrite Hcode, eqb_refl in Hn. discriminate.
Qed.

(** With credits submitted, the rows given to the results tab are the
    rows [analyzeResults] keeps ([assignedSubjects] being the submitted
    codes). *)
Lemma results_records_restrict (s : DashboardState) :
  subjectCredits s <> [] ->
  results_records s = restrict_subjects (studentRecords s) (Some (map sc_code (subjectCredits s))).
Proof.
  intros H. unfold results_records, restrict_subjects.
  assert (K : forall l x, existsb (fun c => sc_code c ==? x) l = mem x (map sc_code l)).
  { induction l as [|c l IH]; intros x; [reflexivity|]. cbn [existsb map]. unfold mem in *. cbn [existsb]. now rewrite IH, (eqb_sym (sc_code c)). }
  destruct (subjectCredits s) as [|c cs]; [contradiction|].
  change (sc_code c :: map sc_code cs) with (map sc_code (c :: cs)).
  apply filter_ext. intros r. apply K.
Qed.

End PageFacts.

(** ** Theorems *)

Import Page PageFacts.

(** C33 (invariant): in every reachable state of the page, the analysis on
    display is [analyzeResults] of the stored rows over the stored subject
    codes, with the stored subject order, and the stored rows carry the
    stored credits; with no analysis, no results are shown.  The report
    generators, which read the stored rows beside the analysis, therefore
    see the rows the analysis was computed from. *)
Theorem dashboard_results_match_records (lc : string -> string -> Z) (s : DashboardState) :
  dashboard_reachable lc s ->
  match resultAnalysis s with
  | Some a =>
      a = set_orderedSubjects
            (analyzeResults lc (studentRecords s) (Some (map sc_code (subjectCredits s))))
            (orderedSubjects s)
      /\ recordsWithCredits (subjectCredits s) (studentRecords s) = studentRecords s
  | None => resultsAvailable s = false
  end.
Proof.
  intros Hr. destruct (reachable_dash_inv lc s Hr) as [Hav Ha].
  destruct (resultAnalysis s) as [a|]; [tauto|].
  destruct (resultsAvailable s); [|reflexivity]. exfalso. now apply Hav.
Qed.

Definition demo_credit (code : string) (credit : Z) (current : bool) : SubjectCredit :=
  mkSubjectCredit code credit (Some "") (Some "") (Some current).

Definition demo_rows : list StudentRecord :=
  [named_row "S1" "CS1" "A" ""; named_row "S1" "CS2" "U" ""; named_row "S2" "CS1" "B" ""].

Definition demo_dashboard : DashboardState :=
  fold_left (dashboard_step bytewise_compare)
    [SelectMode Sgpa; RecordsUploaded demo_rows ["CS1"; "CS2"];
     CreditAssigned [demo_credit "CS1" 4 true; demo_credit "CS2" 3 false] ["CS1"]]
    initial_dashboard.

Lemma dashboard_results_match_records_witness :
  dashboard_reachable bytewise_compare demo_dashboard /\
  match resultAnalysis demo_dashboard with
  | Some a =>
      a = set_orderedSubjects
            (analyzeResults bytewise_compare (studentRecords demo_dashboard)
               (Some (map sc_code (subjectCredits demo_dashboard))))
            (orderedSubjects demo_dashboard)
      /\ recordsWithCredits (subjectCredits demo_dashboard) (studentRecords demo_dashboard)
         = studentRecords demo_dashboard
  | None => resultsAvailable demo_dashboard = false
  end.
Proof.
  assert (H : dashboard_reachable bytewise_compare demo_dashboard)
    by (unfold demo_dashboard; cbn [fold_left]; repeat constructor).
  split; [exact H | exact (dashboard_results_match_records bytewise_compare _ H)].
Defined.

(** C34 (safety): when the credits come from [Submit] of a reachable state
    of the credit form, every row the page stores after
    [handleCreditAssigned] has a credit in 1..10, and a row is marked as a
    current-semester row exactly when its subject code is in the submitted
    order.  So the positive-credit hypothesis of the aggregator's theorems
    holds for every analysed row, and the marks the analyzer reads are the
    ones the user set. *)
Theorem submitted_credits_on_rows (lc : string -> string -> Z) (f : CreditForm)
    (cs : list SubjectCredit) (order : list string) (s : DashboardState) (r : StudentRecord) :
  form_reachable f -> snd (form_step f Submit) = Some (cs, order) ->
  In r (studentRecords (dashboard_step lc s (CreditAssigned cs order))) ->
  (exists n, creditValue r = Some n /\ 1 <= n <= 10)
  /\ (marked_current r = true <-> In (SCODE r) order).
Proof.
  intros Hf Hsub Hr.
  destruct (reachable_form_inv f Hf) as (Hok & _ & Hag & [_ Hord]).
  cbn [form_step] in Hsub. unfold handleSubmit in Hsub.
  destruct (validateInputs (CreditInput.subjectCredits f)); [|discriminate].
  injection Hsub as <- <-.
  cbn [dashboard_step] in Hr. unfold handleCreditAssigned, analyzeData in Hr.
  cbn [studentRecords] in Hr. destruct (studentRecords s) as [|r0 rest]; [destruct Hr|].
  cbn [studentRecords] in Hr. unfold recordsWithCredits in Hr.
  apply in_map_iff in Hr as (r' & <- & _).
  split; [now apply with_credit_in_range|].
  rewrite with_credit_marked, with_credit_SCODE, Hord by exact Hag. reflexivity.
Qed.

Definition demo_form : CreditForm :=
  fst (form_step (fst (form_step (on_uploaded_subjects ["CS1"; "CS2"]) (ToggleArrear "CS1")))
                 (CreditChange "CS1" "4")).

Lemma submitted_credits_on_rows_witness :
  let s := handleRecordsUploaded initial_dashboard demo_rows ["CS1"; "CS2"] in
  let r := with_credit (CreditInput.subjectCredits demo_form) (named_row "S1" "CS1" "A" "") in
  form_reachable demo_form
  /\ snd (form_step demo_form Submit)
     = Some (CreditInput.subjectCredits demo_form, ["CS1"])
  /\ In r (studentRecords (dashboard_step bytewise_compare s
            (CreditAssigned (CreditInput.subjectCredits demo_form) ["CS1"])))
  /\ (exists n, creditValue r = Some n /\ 1 <= n <= 10)
  /\ (marked_current r = true <-> In (SCODE r) ["CS1"]).
Proof.
  intros s r.
  assert (Hf : form_reachable demo_form).
  { unfold demo_form. repeat apply reach_step.
    change (on_uploaded_subjects ["CS1"; "CS2"])
      with (fst (form_step initial_form (UploadedSubjects ["CS1"; "CS2"]))).
    repeat constructor. }
  assert (Hs : snd (form_step demo_form Submit)
               = Some (CreditInput.subjectCredits demo_form, ["CS1"])) by reflexivity.
  assert (Hin : In r (studentRecords (dashboard_step bytewise_compare s
                  (CreditAssigned (CreditInput.subjectCredits demo_form) ["CS1"]))))
    by (vm_compute; left; reflexivity).
  split; [exact Hf|]. split; [exact Hs|]. split; [exact Hin|].
  exact (submitted_credits_on_rows bytewise_compare demo_form _ _ s r Hf Hs Hin).
Defined.
