(* ===== verification/Uploader.v ===== *)
(** * Spreadsheet rows and the file uploader
    (src/src/utils/excel/fileParser.ts,
     src/src/components/dashboard/FileUploader.tsx)

    [parseExcelFile] reads a file's first sheet with [XLSX.utils.sheet_to_json]
    and maps every row object to a [StudentRecord]: five columns through
    [String(row[col] || '')] and the file's name as [fileSource].  Reading
    the bytes and decoding the workbook are I/O done by the browser and the
    [xlsx] library: a file is modelled by its name, its size and the rows
    of its first sheet as [sheet_to_json] returns them ([None] when the
    reader or the parser fails).  Cells are strings, numbers or booleans
    ([raw: true]); [String] on a number is [number_to_string] (JsText.v).
    [parseMultipleExcelFiles] is [Promise.all]: the rows of every file in
    the order of the files, or a failure when any file fails.

    The uploader ([Module Uploader]) holds the selected files.  Its
    handlers are [handleFileChange] (the mode's file limits, then only
    [.xlsx]/[.xls] names are kept), [removeFile], the clear button and
    [handleUpload], which checks the files again, parses them and hands
    the rows and their distinct subject codes to the page as the events
    [SetUploading true], [RecordsUploaded], [SetUploading false] of
    Dashboard.v.  [handleUpload] awaits the parse; the model runs it to its
    end in one step, as the button is disabled while [isUploading].
    [uploader_view] is the card the uploader renders.

    [Module Site] composes the uploader with the page: the uploader lives
    in the "upload" tab, whose content is unmounted when another tab is
    active (Radix [Tabs]), so its files are reset whenever the tab is left;
    the mode buttons live in the "mode" tab.  The theorems show the file
    limits hold in every reachable state and that an SGPA upload hands the
    page the rows of exactly one file. *)

From Stdlib Require Import Bool ZArith String List Permutation Floats Lia.
From S2P Require Import Prelude JsNumber NumberToString JsText GradeScale Aggregator TermResolver.
From S2P Require Import JsObject Distribution Classification Cohort CreditInput Dashboard.
Import ListNotations.
Local Open Scope string_scope.

(** ** Rows of a sheet (fileParser.ts) *)

Inductive cell_value := CellString (s : string) | CellNumber (x : float) | CellBool (b : bool).

(** A row object of [sheet_to_json]: column header to cell value, own
    properties only (the five columns read are not names of
    [Object.prototype]). *)
Definition sheet_row := list (string * cell_value).

(** [String(v || '')] on a property read: [undefined], [''], [0], [-0],
    [NaN] and [false] are falsy and give [''].  *)
Definition cell_text (v : option cell_value) : string :=
  match v with
  | Some (CellString s) => s
  | Some (CellNumber x) => if is_zero x || is_nan x then "" else number_to_string x
  | Some (CellBool b) => if b then "true" else ""
  | None => ""
  end.

(** The object literal of [parseExcelFile]: the other fields of
    [StudentRecord] are absent. *)
Definition row_to_record (fileName : string) (row : sheet_row) : StudentRecord :=
  mkRecord (cell_text (get_own "CNo" row)) (cell_text (get_own "SEM" row))
    (cell_text (get_own "REGNO" row)) (cell_text (get_own "SCODE" row))
    (cell_text (get_own "GR" row)) None None None (Some fileName) None.

(** A [File]: its name, its size in bytes, and the rows of its first
    sheet, [None] when reading or parsing it fails. *)
Record UploadFile := mkUploadFile {
  file_name : string;
  file_size : Z;
  first_sheet_rows : option (list sheet_row)
}.

Definition parseExcelFile (f : UploadFile) : option (list StudentRecord) :=
  option_map (map (row_to_record (file_name f))) (first_sheet_rows f).

(** [Promise.all(files.map(parseExcelFile))] then [.flat()]. *)
Fixpoint parseMultipleExcelFiles (files : list UploadFile) : option (list StudentRecord) :=
  match files with
  | [] => Some []
  | f :: t =>
      match parseExcelFile f, parseMultipleExcelFiles t with
      | Some rs, Some rest => Some (rs ++ rest)%list
      | _, _ => None
      end
  end.

(** ** The uploader (FileUploader.tsx) *)

Module Uploader.
Import Page.

Definition ends_with (s suffix : string) : bool :=
  let n := String.length s in
  let k := String.length suffix in
  (k <=? n)%nat && (substring (n - k) k s ==? suffix).

(** [file.name.endsWith('.xlsx') || file.name.endsWith('.xls')]. *)
Definition valid_excel_name (name : string) : bool :=
  ends_with name ".xlsx" || ends_with name ".xls".

Definition is_mode (m : CalculationMode) (mode : option CalculationMode) : bool :=
  match m, mode with
  | Sgpa, Some Sgpa | Cgpa, Some Cgpa => true
  | _, _ => false
  end.

(** [handleFileChange]: nothing selected, a second file in SGPA mode, or
    more than ten files in CGPA mode leave the list unchanged; otherwise
    the selected files with an Excel name are appended. *)
Definition handleFileChange (mode : option CalculationMode) (files selected : list UploadFile)
  : list UploadFile :=
  match selected with
  | [] => files
  | _ =>
      if is_mode Sgpa mode
         && (negb (match files with [] => true | _ => false end) || (1 <? length selected)%nat)
      then files
      else if is_mode Cgpa mode && (10 <? length files + length selected)%nat then files
      else (files ++ filter (fun f => valid_excel_name (file_name f)) selected)%list
  end.

(** [removeFile(index)]: [prev.filter((_, i) => i !== index)]. *)
Fixpoint removeFile (index : nat) (files : list UploadFile) : list UploadFile :=
  match files, index with
  | [], _ => []
  | _ :: t, O => t
  | f :: t, S i => f :: removeFile i t
  end.

(** The rows [handleUpload] obtains: one file through [parseExcelFile],
    several through [parseMultipleExcelFiles]. *)
Definition upload_rows (files : list UploadFile) : option (list StudentRecord) :=
  match files with
  | [f] => parseExcelFile f
  | _ => parseMultipleExcelFiles files
  end.

(** [handleUpload]: the events it sends to the page.  No file, or several
    in SGPA mode, only raise a toast; otherwise [setIsUploading(true)],
    [onRecordsUploaded(records, subjects)] when parsing succeeds, and
    [setIsUploading(false)] in [finally]. *)
Definition handleUpload (mode : option CalculationMode) (files : list UploadFile)
  : list dashboard_event :=
  match files with
  | [] => []
  | _ =>
      if is_mode Sgpa mode && (1 <? length files)%nat then []
      else
        [SetUploading true]
        ++ match upload_rows files with
           | Some records => [RecordsUploaded records (uniq (map SCODE records))]
           | None => []
           end
        ++ [SetUploading false]
  end.

Inductive uploader_event :=
| FileChange (selected : list UploadFile)
| RemoveFile (index : nat)
| ClearFiles
| Upload.

(** One handler: the new file list and the events sent to the page. *)
Definition uploader_step (mode : option CalculationMode) (files : list UploadFile)
    (e : uploader_event) : list UploadFile * list dashboard_event :=
  match e with
  | FileChange selected => (handleFileChange mode files selected, [])
  | RemoveFile i => (removeFile i files, [])
  | ClearFiles => ([], [])
  | Upload => (files, handleUpload mode files)
  end.

(** ** What the uploader shows *)

(** [calculationMode.toUpperCase()]. *)
Definition mode_upper (m : CalculationMode) : string :=
  match m with Sgpa => "SGPA" | Cgpa => "CGPA" end.

(** [getUploadDescription]. *)
Definition getUploadDescription (mode : option CalculationMode) : string :=
  match mode with
  | Some Sgpa => "Upload a single Excel file containing student results data for SGPA analysis."
  | Some Cgpa => "Upload up to 10 Excel files containing student results data for CGPA analysis."
  | None => "Upload Excel files containing student results data for analysis."
  end.

(** A selected file's line: its name and [(file.size / 1024).toFixed(2)] KB. *)
Definition file_line (f : UploadFile) : string * string :=
  (file_name f, toFixed 2 (of_Z (file_size f) / 1024)%float ++ " KB").

Record UploaderView := mkUploaderView {
  uv_title : string;
  uv_description : string;
  uv_multiple : bool;
  uv_hint : string;
  uv_selected : option (string * list (string * string));
  uv_button : string;
  uv_disabled : bool
}.

(** The card: its title and description, the file input's [multiple],
    the hint under the drop zone, the list of selected files, and the
    upload button. *)
Definition uploader_view (mode : option CalculationMode) (isUploading : bool)
    (files : list UploadFile) : UploaderView :=
  mkUploaderView
    ("Upload Excel Files"
     ++ match mode with Some m => " for " ++ mode_upper m ++ " Calculation" | None => "" end)
    (getUploadDescription mode
     ++ " Each file should contain columns: SEM (Semester), REGNO (Registration Number), SCODE (Subject Code), and GR (Grade).")
    (is_mode Cgpa mode)
    (if is_mode Sgpa mode then "Supports a single .xlsx or .xls file"
     else "Supports multiple .xlsx and .xls files (max 10)")
    (match files with
     | [] => None
     | _ => Some (N_text (N.of_nat (length files)) ++ " file(s) selected", map file_line files)
     end)
    (if isUploading then "Uploading..."
     else "Upload " ++ (if (1 <? length files)%nat then "Files" else "File"))
    (match files with [] => true | _ => isUploading end).

End Uploader.

(** ** The upload tab and the page *)

Module Site.
Import Page Uploader.

Record SiteState := mkSite {
  page : DashboardState;
  upload_files : list UploadFile
}.

Inductive site_event :=
| OnPage (e : dashboard_event)
| OnUploader (e : uploader_event).

Definition on_tab (t : tab) (s : DashboardState) : bool :=
  match t, activeTab s with
  | TabMode, TabMode | TabUpload, TabUpload | TabResults, TabResults => true
  | _, _ => false
  end.

(** The page events its own controls send, by where they are rendered:
    the mode buttons in the "mode" tab, the credit form in the "upload"
    tab, the tab triggers (the "mode" trigger also resets) everywhere.
    Rows and the uploading flag only come from the uploader. *)
Definition page_event_enabled (s : DashboardState) (e : dashboard_event) : bool :=
  match e with
  | SelectMode _ => on_tab TabMode s
  | CreditAssigned _ _ => on_tab TabUpload s
  | ResetCalculation | SetTab _ => true
  | RecordsUploaded _ _ | SetUploading _ => false
  end.

Definition site_step (lc : string -> string -> Z) (s : SiteState) (e : site_event) : SiteState :=
  match e with
  | OnPage pe =>
      if page_event_enabled (page s) pe then
        let p' := dashboard_step lc (page s) pe in
        (* leaving the upload tab unmounts the uploader and its files *)
        mkSite p' (if on_tab TabUpload (page s) && on_tab TabUpload p' then upload_files s
                   else [])
      else s
  | OnUploader ue =>
      if on_tab TabUpload (page s) then
        let '(files', evs) := uploader_step (calculationMode (page s)) (upload_files s) ue in
        mkSite (fold_left (dashboard_step lc) evs (page s)) files'
      else s
  end.

Definition initial_site : SiteState := mkSite initial_dashboard [].

Inductive site_reachable (lc : string -> string -> Z) : SiteState -> Prop :=
| site_initial : site_reachable lc initial_site
| site_next s e : site_reachable lc s -> site_reachable lc (site_step lc s e).

(** The file limits of the uploader, in the mode the page is in. *)
Definition files_ok (mode : option CalculationMode) (files : list UploadFile) : Prop :=
  Forall (fun f => valid_excel_name (file_name f) = true) files
  /\ (mode = Some Sgpa -> (length files <= 1)%nat)
  /\ (mode = Some Cgpa -> (length files <= 10)%nat).

Definition site_inv (s : SiteState) : Prop :=
  (on_tab TabUpload (page s) = false -> upload_files s = [])
  /\ files_ok (calculationMode (page s)) (upload_files s).

End Site.

(** * Properties *)

Module SiteFacts.
Import Page Uploader Site.

(** ** The uploader's file list *)

Lemma removeFile_sub (i : nat) (files : list UploadFile) :
  (length (removeFile i files) <= length files)%nat
  /\ (forall f, In f (removeFile i files) -> In f files).
Proof.
  revert i. induction files as [|g t IH]; intros [|i]; cbn [removeFile length In];
    try (split; [lia|tauto]).
  destruct (IH i) as [IH1 IH2]. split; [lia|]. intros f [<-|Hf]; [now left|right; auto].
Qed.

Lemma files_ok_sub (mode : option CalculationMode) (files files' : list UploadFile) :
  files_ok mode files -> (length files' <= length files)%nat ->
  (forall f, In f files' -> In f files) -> files_ok mode files'.
Proof.
  intros (Hv & Hs & Hc) Hl Hin. rewrite Forall_forall in Hv.
  repeat split; [rewrite Forall_forall; auto|intros E; specialize (Hs E); lia
                |intros E; specialize (Hc E); lia].
Qed.

Lemma files_ok_nil (mode : option CalculationMode) : files_ok mode [].
Proof. repeat split; [constructor|cbn; lia|cbn; lia]. Qed.

Lemma handleFileChange_ok (mode : option CalculationMode) (files selected : list UploadFile) :
  files_ok mode files -> files_ok mode (handleFileChange mode files selected).
Proof.
  intros Hok. unfold handleFileChange.
  destruct selected as [|g t] eqn:Es; [exact Hok|rewrite <- Es].
  destruct (is_mode Sgpa mode && _) eqn:E1; [exact Hok|].
  destruct (is_mode Cgpa mode && _) eqn:E2; [exact Hok|].
  destruct Hok as (Hv & Hs & Hc).
  pose proof (filter_length_le (fun f => valid_excel_name (file_name f)) selected) as Hfl.
  repeat split.
  - apply Forall_app. split; [exact Hv|]. apply Forall_forall. intros f Hf.
    now apply filter_In in Hf.
  - intros ->. rewrite length_app.
    destruct files; [|discriminate]. cbn [is_mode andb negb orb] in E1.
    apply Nat.ltb_ge in E1. cbn [length]. lia.
  - intros ->. cbn [is_mode andb] in E2. apply Nat.ltb_ge in E2. rewrite length_app. lia.
Qed.

(** ** The page events *)

(** Only choosing a mode and resetting change the mode. *)
Lemma dashboard_step_mode (lc : string -> string -> Z) (s : DashboardState)
    (e : dashboard_event) :
  match e with SelectMode _ | ResetCalculation => False | _ => True end ->
  calculationMode (dashboard_step lc s e) = calculationMode s.
Proof.
  destruct e; cbn [dashboard_step]; intros H; try contradiction H;
    unfold handleCreditAssigned, analyzeData, setActiveTab; cbn;
    try destruct (studentRecords s); try destruct t, (resultsAvailable s); reflexivity.
Qed.

(** The events [handleUpload] sends keep the tab and the mode. *)
Definition upload_event (e : dashboard_event) : bool :=
  match e with SetUploading _ | RecordsUploaded _ _ => true | _ => false end.

Lemma fold_upload_events (lc : string -> string -> Z) (evs : list dashboard_event)
    (s : DashboardState) :
  forallb upload_event evs = true ->
  activeTab (fold_left (dashboard_step lc) evs s) = activeTab s
  /\ calculationMode (fold_left (dashboard_step lc) evs s) = calculationMode s.
Proof.
  revert s. induction evs as [|e t IH]; intros s H; [split; reflexivity|].
  cbn in H. apply andb_true_iff in H as [He Ht]. cbn [fold_left].
  destruct (IH (dashboard_step lc s e) Ht) as [-> ->].
  destruct e; try discriminate; split; reflexivity.
Qed.

Lemma handleUpload_events (mode : option CalculationMode) (files : list UploadFile) :
  forallb upload_event (handleUpload mode files) = true.
Proof.
  unfold handleUpload. destruct files; [reflexivity|].
  destruct (_ && _); [reflexivity|]. destruct (upload_rows _); reflexivity.
Qed.

(** ** The invariant of the upload tab *)

Lemma on_tab_mode_upload (p : DashboardState) :
  on_tab TabMode p = true -> on_tab TabUpload p = false.
Proof. unfold on_tab. destruct (activeTab p); easy. Qed.

Lemma site_inv_page_step (lc : string -> string -> Z) (s : SiteState) (pe : dashboard_event) :
  site_inv s -> site_inv (site_step lc s (OnPage pe)).
Proof.
  intros Hinv. cbn [site_step].
  destruct (page_event_enabled (page s) pe) eqn:En; [|exact Hinv].
  destruct (on_tab TabUpload (page s) && on_tab TabUpload (dashboard_step lc (page s) pe)) eqn:T;
    [|split; [reflexivity|apply files_ok_nil]].
  apply andb_true_iff in T as [T1 T2]. split; [intros H; cbn [page] in H; congruence|]. cbn [page upload_files].
  destruct pe; cbn [page_event_enabled] in En.
  - rewrite (on_tab_mode_upload _ En) in T1. discriminate.
  - rewrite dashboard_step_mode by exact I. apply Hinv.
  - rewrite dashboard_step_mode by exact I. apply Hinv.
  - discriminate T2.
  - discriminate En.
  - rewrite dashboard_step_mode by exact I. apply Hinv.
Qed.

Lemma site_inv_uploader_step (lc : string -> string -> Z) (s : SiteState) (ue : uploader_event) :
  site_inv s -> site_inv (site_step lc s (OnUploader ue)).
Proof.
  intros Hinv. pose proof Hinv as [Htab Hok]. cbn [site_step].
  destruct (on_tab TabUpload (page s)) eqn:T; [|exact Hinv].
  destruct ue; cbn -[on_tab handleFileChange removeFile handleUpload dashboard_step];
    unfold site_inv; simpl page; simpl upload_files;
    [split; [congruence|now apply handleFileChange_ok]
    |split; [congruence|]
    |split; [congruence|apply files_ok_nil]
    |].
  - destruct (removeFile_sub index (upload_files s)) as [H1 H2].
    exact (files_ok_sub _ _ _ Hok H1 H2).
  - destruct (fold_upload_events lc _ (page s) (handleUpload_events
                 (calculationMode (page s)) (upload_files s))) as [E1 E2].
    split; [unfold on_tab in *; rewrite E1; congruence|]. rewrite E2. exact Hok.
Qed.

Lemma reachable_site_inv (lc : string -> string -> Z) (s : SiteState) :
  site_reachable lc s -> site_inv s.
Proof.
  induction 1 as [|s [pe|ue] _ IH].
  - split; [reflexivity|apply files_ok_nil].
  - now apply site_inv_page_step.
  - now apply site_inv_uploader_step.
Qed.

(** ** What an upload hands to the page *)

Lemma parseExcelFile_source (f : UploadFile) (records : list StudentRecord) :
  parseExcelFile f = Some records ->
  Forall (fun r => fileSource r = Some (file_name f)) records.
Proof.
  unfold parseExcelFile. destruct (first_sheet_rows f) as [rows|]; [|discriminate].
  intros [= <-]. apply Forall_forall. intros r Hr. apply in_map_iff in Hr as (row & <- & _).
  reflexivity.
Qed.

Lemma parseMultipleExcelFiles_source (files : list UploadFile) (records : list StudentRecord) :
  parseMultipleExcelFiles files = Some records ->
  Forall (fun r => exists f, In f files /\ fileSource r = Some (file_name f)) records.
Proof.
  revert records. induction files as [|f t IH]; intros records H.
  - cbn in H. injection H as <-. constructor.
  - cbn in H. destruct (parseExcelFile f) as [rs|] eqn:Ef; [|discriminate].
    destruct (parseMultipleExcelFiles t) as [rest|]; [|discriminate]. injection H as <-.
    apply Forall_app. split.
    + eapply Forall_impl; [|exact (parseExcelFile_source f rs Ef)].
      intros r Hr. exists f. split; [now left|exact Hr].
    + eapply Forall_impl; [|exact (IH rest eq_refl)].
      intros r (g & Hg & Hr). exists g. split; [now right|exact Hr].
Qed.

Lemma upload_rows_source (files : list UploadFile) (records : list StudentRecord) :
  upload_rows files = Some records ->
  Forall (fun r => exists f, In f files /\ fileSource r = Some (file_name f)) records.
Proof.
  unfold upload_rows. destruct files as [|f [|g t]]; try apply parseMultipleExcelFiles_source.
  intros H. eapply Forall_impl; [|exact (parseExcelFile_source f records H)].
  intros r Hr. exists f. split; [now left|exact Hr].
Qed.

Lemma handleUpload_records (mode : option CalculationMode) (files : list UploadFile)
    (records : list StudentRecord) (subjects : list string) :
  In (RecordsUploaded records subjects) (handleUpload mode files) ->
  upload_rows files = Some records /\ subjects = uniq (map SCODE records)
  /\ files <> [].
Proof.
  unfold handleUpload. destruct files as [|f t]; [intros []|].
  destruct (_ && _); [intros []|].
  destruct (upload_rows (f :: t)) as [rs|]; cbn; intuition congruence.
Qed.

(** The file keys of rows that all come from files of a list. *)
Lemma filesProcessed_from_files (files : list UploadFile) (records : list StudentRecord) :
  Forall (fun r => exists f, In f files /\ fileSource r = Some (file_name f)) records ->
  (length (filesProcessed records) <= length files)%nat.
Proof.
  intros H. unfold filesProcessed.
  transitivity (length (map (fun f => file_key (mkRecord "" "" "" "" "" None None None
                                                  (Some (file_name f)) None)) files));
    [|now rewrite length_map].
  apply NoDup_incl_length; [apply NoDup_uniq|].
  intros k Hk. apply In_uniq, in_map_iff in Hk as (r & <- & Hr).
  rewrite Forall_forall in H. destruct (H r Hr) as (f & Hf & Hs).
  apply in_map_iff. exists f. split; [|exact Hf]. unfold file_key. cbn. now rewrite Hs.
Qed.

End SiteFacts.

Import Page Uploader Site SiteFacts.

(** C16 (safety): in every reachable state of the page and its upload
    tab, an upload in SGPA mode hands the page the rows of exactly one
    file: the uploader holds that single file, its name ends in [.xlsx]
    or [.xls], every row's [fileSource] is its name, the subjects are the
    rows' distinct codes, and the analysis sees at most one file. *)
Theorem sgpa_upload_one_file (lc : string -> string -> Z) (s : SiteState)
    (records : list StudentRecord) (subjects : list string) :
  site_reachable lc s -> calculationMode (page s) = Some Sgpa ->
  In (RecordsUploaded records subjects) (handleUpload (calculationMode (page s)) (upload_files s)) ->
  exists f, upload_files s = [f] /\ valid_excel_name (file_name f) = true
    /\ Forall (fun r => fileSource r = Some (file_name f)) records
    /\ subjects = uniq (map SCODE records)
    /\ (length (filesProcessed records) <= 1)%nat.
Proof.
  intros Hr Hm Hin.
  destruct (reachable_site_inv lc s Hr) as (_ & Hv & Hs & _).
  specialize (Hs Hm).
  destruct (handleUpload_records _ _ _ _ Hin) as (Hrows & Hsub & Hne).
  destruct (upload_files s) as [|f [|g t]] eqn:E; [congruence| |cbn in Hs; lia].
  exists f. pose proof (Forall_inv Hv) as Hf. cbn beta in Hf.
  pose proof (upload_rows_source _ _ Hrows) as Hsrc.
  split; [reflexivity|]. split; [exact Hf|]. split; [|split; [exact Hsub|]].
  - eapply Forall_impl; [|exact Hsrc]. intros r (g & [<-|[]] & Hg). exact Hg.
  - exact (filesProcessed_from_files _ _ Hsrc).
Qed.

(** In CGPA mode an upload hands the page the rows of at most ten files,
    all with an Excel name. *)
Lemma cgpa_upload_at_most_ten (lc : string -> string -> Z) (s : SiteState)
    (records : list StudentRecord) (subjects : list string) :
  site_reachable lc s -> calculationMode (page s) = Some Cgpa ->
  In (RecordsUploaded records subjects) (handleUpload (calculationMode (page s)) (upload_files s)) ->
  (length (filesProcessed records) <= 10)%nat
  /\ Forall (fun r => exists f, In f (upload_files s) /\ valid_excel_name (file_name f) = true
                               /\ fileSource r = Some (file_name f)) records.
Proof.
  intros Hr Hm Hin.
  destruct (reachable_site_inv lc s Hr) as (_ & Hv & _ & Hc).
  specialize (Hc Hm).
  destruct (handleUpload_records _ _ _ _ Hin) as (Hrows & _ & _).
  pose proof (upload_rows_source _ _ Hrows) as Hsrc.
  split; [pose proof (filesProcessed_from_files _ _ Hsrc); lia|].
  rewrite Forall_forall in Hv. eapply Forall_impl; [|exact Hsrc].
  intros r (f & Hf & Hs). exists f. auto.
Qed.

(** In SGPA mode the uploader never offers several files: its button
    reads "Upload File" (or "Uploading..."), never "Upload Files". *)
Lemma sgpa_button_single_file (lc : string -> string -> Z) (s : SiteState) (uploading : bool) :
  site_reachable lc s -> calculationMode (page s) = Some Sgpa ->
  uv_button (uploader_view (calculationMode (page s)) uploading (upload_files s)) <> "Upload Files".
Proof.
  intros Hr Hm. destruct (reachable_site_inv lc s Hr) as (_ & _ & Hs & _).
  specialize (Hs Hm). cbn [uploader_view uv_button].
  destruct uploading; [discriminate|].
  replace (1 <? length (upload_files s))%nat with false by (symmetry; apply Nat.ltb_ge; exact Hs).
  discriminate.
Qed.

(** A witness: choose SGPA mode, select one file and upload it. *)
Definition demo_file : UploadFile :=
  mkUploadFile "sem4.xlsx" 2048
    (Some [[("CNo", CellNumber 1); ("SEM", CellNumber 4); ("REGNO", CellString "A1");
            ("SCODE", CellString "CS1"); ("GR", CellString "O")]]).

Definition demo_site (lc : string -> string -> Z) : SiteState :=
  site_step lc (site_step lc initial_site (OnPage (SelectMode Sgpa)))
    (OnUploader (FileChange [demo_file])).

Lemma sgpa_upload_one_file_witness :
  let lc := fun _ _ : string => 0%Z in
  let records := [mkRecord "1" "4" "A1" "CS1" "O" None None None (Some "sem4.xlsx") None] in
  site_reachable lc (demo_site lc) /\ calculationMode (page (demo_site lc)) = Some Sgpa
  /\ In (RecordsUploaded records ["CS1"])
        (handleUpload (calculationMode (page (demo_site lc))) (upload_files (demo_site lc)))
  /\ exists f, upload_files (demo_site lc) = [f] /\ valid_excel_name (file_name f) = true
       /\ Forall (fun r => fileSource r = Some (file_name f)) records
       /\ ["CS1"] = uniq (map SCODE records)
       /\ (length (filesProcessed records) <= 1)%nat.
Proof.
  intros lc records.
  assert (R : site_reachable lc (demo_site lc))
    by (unfold demo_site; repeat apply site_next; apply site_initial).
  assert (M : calculationMode (page (demo_site lc)) = Some Sgpa) by reflexivity.
  assert (I : In (RecordsUploaded records ["CS1"])
                 (handleUpload (calculationMode (page (demo_site lc)))
                               (upload_files (demo_site lc))))
    by (vm_compute; right; left; reflexivity).
  split; [exact R|]. split; [exact M|]. split; [exact I|].
  exact (sgpa_upload_one_file lc (demo_site lc) records ["CS1"] R M I).
Defined.
