(* ===== verification/CsvReport.v ===== *)
(** * The CSV report
    (src/src/utils/excel/reportGenerators/csvReportGenerator.ts)

    [downloadCSVReport] writes one line per entry of
    [analysis.studentSgpaDetails] (registration number, SGPA with two
    decimals, a status), prefixes the text with a [data:] URL header,
    passes it through [encodeURI] and lets the browser download the URL.
    [csvContent] is the string the loop builds; [downloadCSVReport] the
    bytes of the downloaded file (JsText.v).  The DOM calls that trigger the
    download are not modelled; [encodeURI] cannot throw on code units below
    256, so the [catch] branch is not reached.

    The theorems: the file holds exactly the UTF-8 bytes of the CSV text
    when no registration number contains [#]; the text reads back as the
    table of entries when no registration number contains a comma or a
    line break; the rows whose status is not "Good Standing" are, in
    order, the analyzer's needs-improvement list; and a [#] cuts the
    file short, because [encodeURI] leaves [#] in place and the browser
    takes it as the start of the URL's fragment. *)

From Stdlib Require Import Bool ZArith Ascii String List Floats Lia.
From S2P Require Import Prelude JsNumber JsText GradeScale Aggregator TermResolver.
From S2P Require Import Distribution Classification Cohort.
Import ListNotations.
Local Open Scope string_scope.

(** ** The text *)

Definition newline : string := String (ascii_of_nat 10) EmptyString.

Definition csv_prefix : string := "data:text/csv;charset=utf-8".

(** [student.hasArrears ? 'Has Arrears' : (student.sgpa < 6.5 ?
    'SGPA below 6.5' : 'Good Standing')]. *)
Definition csv_status (d : StudentSgpa) : string :=
  if hasArrearsFlag d then "Has Arrears"
  else if (sgpa d <? 6.5)%float then "SGPA below 6.5" else "Good Standing".

(** [`${student.id},${student.sgpa.toFixed(2)},${status}\n`]. *)
Definition csv_line (d : StudentSgpa) : string :=
  sid d ++ "," ++ toFixed 2 (sgpa d) ++ "," ++ csv_status d ++ newline.

Definition csv_header : string := "Registration Number,SGPA,Status" ++ newline.

(** The loop [csvContent += ...] over the entries. *)
Definition csvContent (details : list StudentSgpa) : string :=
  fold_left (fun acc d => acc ++ csv_line d) details (csv_prefix ++ "," ++ csv_header).

(** The downloaded file: [link.href = encodeURI(csvContent)]. *)
Definition downloadCSVReport (analysis : ResultAnalysis) : option (list nat) :=
  data_url_bytes (encodeURI (csvContent (studentSgpaDetails analysis))).

(** ** Reading the text back *)

(** Splitting at every occurrence of a character ([s.split(c)]). *)
Fixpoint split_on (c : ascii) (s : string) : list string :=
  match s with
  | EmptyString => [EmptyString]
  | String d t =>
      if Ascii.eqb d c then EmptyString :: split_on c t
      else match split_on c t with
           | [] => [String d EmptyString]
           | x :: r => String d x :: r
           end
  end.

(** The cells of a CSV text without quoting: lines, then commas. *)
Definition csv_cells (text : string) : list (list string) :=
  map (split_on ",") (split_on (ascii_of_nat 10) text).

(** ** Lemmas *)

Fixpoint concat_all (l : list string) : string :=
  match l with [] => EmptyString | x :: t => x ++ concat_all t end.

Lemma fold_append (f : StudentSgpa -> string) (l : list StudentSgpa) (a : string) :
  fold_left (fun acc d => acc ++ f d) l a = a ++ concat_all (map f l).
Proof.
  revert a. induction l as [|d t IH]; intros a; cbn [fold_left map concat_all].
  - now rewrite string_app_nil_r.
  - now rewrite IH, string_app_assoc.
Qed.

Lemma csvContent_text (details : list StudentSgpa) :
  csvContent details = csv_prefix ++ String "," (csv_header ++ concat_all (map csv_line details)).
Proof. unfold csvContent. now rewrite fold_append, <- string_app_assoc. Qed.

Definition status_alphabet : string := "Has ArrearsSGPA below 6.5Good Standing".

Lemma over_csv_status (d : StudentSgpa) : over status_alphabet (csv_status d).
Proof.
  unfold csv_status. destruct (hasArrearsFlag d); [|destruct (sgpa d <? 6.5)%float];
    intros ch Hch; cbn in Hch |- *; tauto.
Qed.

(** A character outside [fixed_alphabet] and the status texts. *)
Lemma csv_line_no_char (c : ascii) (d : StudentSgpa) :
  mem_char c fixed_alphabet = false ->
  mem_char c status_alphabet = false ->
  mem_char c (sid d) = false -> Ascii.eqb c "," = false -> Ascii.eqb c (ascii_of_nat 10) = false ->
  mem_char c (csv_line d) = false.
Proof.
  intros Hf Hs Hid Hc Hn. unfold csv_line, newline. rewrite !mem_char_app, Hid.
  rewrite (over_no_char _ _ _ (over_toFixed 2 (sgpa d)) Hf). cbn [mem_char].
  rewrite Hc, Hn, (over_no_char _ _ _ (over_csv_status d) Hs). reflexivity.
Qed.

Lemma concat_lines_no_char (c : ascii) (ls : list string) :
  (forall l, In l ls -> mem_char c l = false) -> mem_char c (concat_all ls) = false.
Proof.
  induction ls as [|l t IH]; intros H; [reflexivity|]. cbn [concat_all].
  rewrite mem_char_app, (H l (or_introl eq_refl)), IH; [reflexivity|].
  intros l' Hl'. apply H. now right.
Qed.

Lemma split_on_no (c : ascii) (a : string) : mem_char c a = false -> split_on c a = [a].
Proof.
  induction a as [|d t IH]; intros H; [reflexivity|]. cbn [mem_char] in H.
  apply orb_false_iff in H as [Hd Ht]. cbn [split_on]. rewrite Ascii.eqb_sym, Hd, IH by exact Ht.
  reflexivity.
Qed.

Lemma split_on_app (c : ascii) (a b : string) :
  mem_char c a = false -> split_on c (a ++ String c b) = a :: split_on c b.
Proof.
  induction a as [|d t IH]; intros H; cbn [append split_on].
  - now rewrite Ascii.eqb_refl.
  - cbn [mem_char] in H. apply orb_false_iff in H as [Hd Ht].
    rewrite Ascii.eqb_sym, Hd, IH by exact Ht. reflexivity.
Qed.

Lemma string_cons_app (c : ascii) (r : string) : String c EmptyString ++ r = String c r.
Proof. reflexivity. Qed.

(** The fields of a line, without its line break. *)
Definition csv_fields (d : StudentSgpa) : string :=
  sid d ++ "," ++ toFixed 2 (sgpa d) ++ "," ++ csv_status d.

Lemma csv_line_fields (d : StudentSgpa) : csv_line d = csv_fields d ++ newline.
Proof. unfold csv_line, csv_fields. now rewrite <- !string_app_assoc. Qed.

Lemma split_lines (ds : list StudentSgpa) :
  (forall d, In d ds -> mem_char (ascii_of_nat 10) (csv_fields d) = false) ->
  split_on (ascii_of_nat 10) (concat_all (map csv_line ds)) = (map csv_fields ds ++ [""])%list.
Proof.
  induction ds as [|d t IH]; intros H; [reflexivity|]. cbn [map concat_all].
  rewrite csv_line_fields, <- string_app_assoc. unfold newline. cbn [append].
  rewrite split_on_app by (apply H; now left). rewrite IH; [reflexivity|].
  intros d' Hd'. apply H. now right.
Qed.

Lemma split_fields (d : StudentSgpa) :
  mem_char "," (sid d) = false ->
  split_on "," (csv_fields d) = [sid d; toFixed 2 (sgpa d); csv_status d].
Proof.
  intros Hid. unfold csv_fields. cbn [append].
  rewrite split_on_app by exact Hid. rewrite split_on_app.
  - rewrite split_on_no; [reflexivity|]. apply (over_no_char _ _ _ (over_csv_status d)).
    reflexivity.
  - apply (over_no_char _ _ _ (over_toFixed 2 (sgpa d))). reflexivity.
Qed.

(** ** Theorems *)

Definition csv_rows : list StudentRecord :=
  [named_row "S1" "CS1" "A" ""; named_row "S2" "CS1" "U" ""; named_row "S2" "CS2" "O" ""].

(** C35 (roundtrip): when no registration number contains [#], the file
    the browser downloads holds exactly the UTF-8 bytes of the CSV text
    (header, then one line per entry): [encodeURI] and the percent-decoding
    of the [data:] URL are inverse. *)
Theorem downloadCSVReport_bytes (a : ResultAnalysis) :
  (forall d, In d (studentSgpaDetails a) -> mem_char "#" (sid d) = false) ->
  downloadCSVReport a
  = Some (utf8_encode (csv_header ++ concat_all (map csv_line (studentSgpaDetails a)))).
Proof.
  intros H. unfold downloadCSVReport. rewrite csvContent_text.
  apply data_url_encodeURI; [reflexivity | reflexivity | |].
  - intros c Hc. cbn in Hc. repeat (destruct Hc as [<-|Hc]; [reflexivity|]). destruct Hc.
  - rewrite mem_char_app. apply orb_false_iff. split; [reflexivity|].
    apply concat_lines_no_char. intros l Hl. apply in_map_iff in Hl as (d & <- & Hd).
    apply csv_line_no_char; try reflexivity. now apply H.
Qed.

Lemma downloadCSVReport_bytes_witness :
  let a := analyzeResults bytewise_compare csv_rows None in
  (forall d, In d (studentSgpaDetails a) -> mem_char "#" (sid d) = false) /\
  downloadCSVReport a
  = Some (utf8_encode (csv_header ++ concat_all (map csv_line (studentSgpaDetails a)))).
Proof.
  intros a.
  assert (H : forall d, In d (studentSgpaDetails a) -> mem_char "#" (sid d) = false).
  { intros d Hd. vm_compute in Hd. repeat (destruct Hd as [<-|Hd]; [reflexivity|]).
    destruct Hd. }
  split; [exact H | exact (downloadCSVReport_bytes a H)].
Defined.

(** C36 (roundtrip): when no registration number contains a comma or a
    line break, splitting the CSV text at line breaks and commas gives
    back the header and, for each entry in order, its registration
    number, its SGPA as printed and its status (and an empty last line). *)
Theorem csv_cells_roundtrip (details : list StudentSgpa) :
  (forall d, In d details ->
             mem_char "," (sid d) = false /\ mem_char (ascii_of_nat 10) (sid d) = false) ->
  csv_cells (csv_header ++ concat_all (map csv_line details))
  = ["Registration Number"; "SGPA"; "Status"]
    :: (map (fun d => [sid d; toFixed 2 (sgpa d); csv_status d]) details ++ [[""]])%list.
Proof.
  intros H. unfold csv_cells, csv_header, newline.
  rewrite <- string_app_assoc, string_cons_app, split_on_app by reflexivity.
  rewrite split_lines.
  - cbn [map]. rewrite map_app, map_map. f_equal. f_equal.
    apply map_ext_in. intros d Hd. apply split_fields, H, Hd.
  - intros d Hd. unfold csv_fields. rewrite !mem_char_app, (proj2 (H d Hd)).
    rewrite (over_no_char _ _ _ (over_toFixed 2 (sgpa d))) by reflexivity.
    rewrite (over_no_char _ _ _ (over_csv_status d)) by reflexivity. reflexivity.
Qed.

Lemma csv_cells_roundtrip_witness :
  let details := [mkStudentSgpa "S1" 8.5 false; mkStudentSgpa "S2" 6 true] in
  (forall d, In d details ->
             mem_char "," (sid d) = false /\ mem_char (ascii_of_nat 10) (sid d) = false) /\
  csv_cells (csv_header ++ concat_all (map csv_line details))
  = [["Registration Number"; "SGPA"; "Status"]; ["S1"; "8.50"; "Good Standing"];
     ["S2"; "6.00"; "Has Arrears"]; [""]].
Proof.
  intros details.
  assert (H : forall d, In d details ->
              mem_char "," (sid d) = false /\ mem_char (ascii_of_nat 10) (sid d) = false).
  { intros d Hd. repeat (destruct Hd as [<-|Hd]; [split; reflexivity|]). destruct Hd. }
  split; [exact H|]. rewrite (csv_cells_roundtrip details H). vm_compute. reflexivity.
Defined.

(** For any locale and input, the entries the CSV
    report does not mark "Good Standing" are, in the same order, the
    students of the analyzer's needs-improvement list: both test
    [sgpa < 6.5 || hasArrears] on the same returned array. *)
Theorem csv_flagged_rows_are_needs_improvement (lc : string -> string -> Z)
    (records : list StudentRecord) (assigned : option (list string)) :
  map (fun t => fst (fst t)) (needsImprovement (analyzeResults lc records assigned))
  = map sid (filter (fun d => negb (csv_status d ==? "Good Standing"))
                    (studentSgpaDetails (analyzeResults lc records assigned))).
Proof.
  pose proof (analyzeResults_fields lc records assigned) as F. cbv zeta in F.
  destruct F as (F1 & _ & _ & _ & _ & F6). rewrite F1, F6.
  unfold needs_improvement. rewrite map_map. cbn [fst].
  f_equal. apply filter_ext. intros d. unfold csv_status.
  destruct (hasArrearsFlag d), (sgpa d <? 6.5)%float; reflexivity.
Qed.

(** [encodeURI] keeps [#] and the browser drops the URL from
    the first [#] on (its fragment), so a registration number [S#1] cuts
    the downloaded file after ["...Status\nS"], losing every later row. *)
Theorem csv_hash_truncates :
  data_url_bytes (encodeURI (csvContent [mkStudentSgpa "S#1" 8.5 false;
                                         mkStudentSgpa "S2" 7 false]))
  = Some (utf8_encode ("Registration Number,SGPA,Status" ++ newline ++ "S")).
Proof. vm_compute. reflexivity. Qed.
