(* ===== verification/WordReport.v ===== *)
(** * The Word report
    (src/src/utils/excel/reportGenerators/wordReportGenerator.ts)

    [createWordDocument] builds a [docx] document from the analysis and
    the stored rows.  The model keeps its content: the sequence of
    paragraphs (their text) and tables (the text of each cell, row by
    row), from the page header ([word_header], whose logo cell depends on
    the outcome of the logo fetch, an input [logo_fetch]) to the
    signature row, and the name of the downloaded file
    ([downloadWordReport]); fonts, sizes, borders, widths and cell spans
    are layout, and [Packer.toBlob] and the link click are I/O.

    The data sections: the current-semester rows ([word_current_records],
    the rows of [analysis.currentSemesterFile] in CGPA mode), the college
    information, the performance summary, the per-file table, the
    "End Semester Result Analysis" subject table (subjects in the user's
    order, then the others; per subject the marked rows when any, else the
    unmarked ones), the classification table, the rank table and the
    student table with a status per student. *)

From Stdlib Require Import Bool ZArith NArith Ascii String List Permutation Floats Lia.
From S2P Require Import Prelude JsNumber NumberToString JsText GradeScale Aggregator TermResolver.
From S2P Require Import JsObject Distribution Classification Cohort CreditInput Dashboard.
Import ListNotations.
Local Open Scope string_scope.

(** ** Content *)

(** A paragraph (the concatenated text of its runs) or a table (the text
    of its cells). *)
Inductive block := Para (text : string) | Tbl (rows : list (list string)).

(** [WordReportOptions], with the defaults of the destructuring. *)
Record WordReportOptions := mkWordOptions {
  logoImagePath : option string;
  department : option string;
  departmentFullName : option string;
  calculationMode : Page.CalculationMode
}.

Definition opt_department (o : WordReportOptions) : string :=
  match department o with Some d => d | None => "CSE" end.

Definition opt_departmentFullName (o : WordReportOptions) : string :=
  match departmentFullName o with Some d => d | None => "Computer Science and Engineering" end.

Definition is_cgpa (o : WordReportOptions) : bool :=
  match calculationMode o with Page.Cgpa => true | Page.Sgpa => false end.

(** [n.toString()] for a count. *)
Definition nat_text (n : nat) : string := N_text (N.of_nat n).

(** ** Current-semester rows (lines 288-311) *)

Definition from_source (f : string) (r : StudentRecord) : bool :=
  match fileSource r with Some s => s ==? f | None => false end.

(** [currentSemesterRecords]: in CGPA mode with several files, the rows of
    the current-semester file (when the analysis names one). *)
Definition word_current_records (o : WordReportOptions) (a : ResultAnalysis)
    (records : list StudentRecord) : list StudentRecord :=
  if is_cgpa o && (1 <? fileCount a)%nat then
    let f := match currentSemesterFile_r a with Some f => f | None => "" end in
    if f ==? "" then records else filter (from_source f) records
  else records.

(** ** College information and performance summary (lines 313-441) *)

Definition calculationModeDisplay (o : WordReportOptions) : string :=
  if is_cgpa o then "CGPA (Cumulative Grade Point Average)"
  else "SGPA (Semester Grade Point Average)".

Definition word_college_info (o : WordReportOptions) (a : ResultAnalysis) : list (list string) :=
  ([["College Name"; "K. S. Rangasamy College of Technology"];
    ["Department"; opt_departmentFullName o];
    ["Total Students"; nat_text (totalStudents_r a)]]
   ++ (if is_cgpa o && (0 <? fileCount a)%nat
       then [["Files Processed"; nat_text (fileCount a)]] else [])
   ++ [["Calculation Mode"; calculationModeDisplay o]])%list.

Definition word_performance (o : WordReportOptions) (a : ResultAnalysis) : list block :=
  if is_cgpa o then
    match cgpaAnalysis a with
    | Some c =>
        [Para ("Average CGPA: " ++ toFixed 2 (averageCGPA_cum c));
         Para ("Highest CGPA: " ++ toFixed 2 (highestCGPA c));
         Para ("Lowest CGPA: " ++ toFixed 2 (lowestCGPA c));
         Para ("Pass Percentage: "
               ++ toFixed 2 (passPercentage (multipleFileClassification a)) ++ "%")]
    | None => []
    end
  else
    [Para ("Average SGPA: " ++ toFixed 2 (averageCGPA a));
     Para ("Highest SGPA: " ++ toFixed 2 (highestSGPA a));
     Para ("Lowest SGPA: " ++ toFixed 2 (lowestSGPA a));
     Para ("Pass Percentage: "
           ++ toFixed 2 (passPercentage (singleFileClassification a)) ++ "%")].

(** ** File analysis (lines 443-510) *)

Definition word_file_row (a : ResultAnalysis) (fileName : string) : list (list string) :=
  match get_own fileName (fileWiseAnalysis a) with
  | Some fa =>
      [[fileName; nat_text (students fa); toFixed 2 (averageSGPA fa);
        match semesterName fa with Some s => s | None => "" end;
        if match currentSemesterFile_r a with Some f => fileName ==? f | None => false end
        then "Current Semester" else "Previous Semester"]]
  | None => []
  end.

Definition word_file_analysis (o : WordReportOptions) (a : ResultAnalysis) : list block :=
  if is_cgpa o then
    [Para "File Analysis";
     Tbl (["File Name"; "Students"; "Average SGPA"; "Semester"; "Note"]
          :: flat_map (word_file_row a) (filesProcessed_r a))]
  else [].

(** ** End Semester Result Analysis (lines 515-700) *)

(** [recordsForEndSemesterAnalysis]: the marked rows when any, else the
    unmarked rows. *)
Definition end_semester_rows (cur : list StudentRecord) : list StudentRecord :=
  match filter marked_current cur with
  | [] => filter not_marked cur
  | marked => marked
  end.

(** [uniqueSubjects]: the user's order, then the other subjects of the
    rows in order of first occurrence; without an order, the subjects of
    the rows. *)
Definition word_subject_order (order : option (list string)) (rows : list StudentRecord)
  : list string :=
  match order with
  | Some ((_ :: _) as o) =>
      fold_left (fun acc s => if mem s acc then acc else (acc ++ [s])%list)
                (uniq (map SCODE rows)) o
  | _ => uniq (map SCODE rows)
  end.

(** [(gradePointMap[g] || 0)] as a number; [None] is NaN (an inherited
    member of [Object.prototype] minus a number). *)
Definition grade_sort_value (g : string) : option Z :=
  match grade_point g with
  | Some p => Some p
  | None => if mem g object_prototype_keys then None else Some 0%Z
  end.

(** [(a, b) => (gradePointMap[b] || 0) - (gradePointMap[a] || 0)] as
    "[a] goes after [b]"; a NaN comparison counts as equal. *)
Definition grade_after (a b : string) : bool :=
  match grade_sort_value b, grade_sort_value a with
  | Some x, Some y => (0 <? x - y)%Z
  | _, _ => false
  end.

(** [highestGrade]: the first of the recognised grades sorted by points,
    [''] when there is none. *)
Definition highest_grade (grades : list string) : string :=
  match stable_sort grade_after (filter grade_in_map grades) with
  | g :: _ => g
  | [] => ""
  end.

(** [subjectRecords] of one subject: its marked current-semester rows when
    any, else its unmarked rows. *)
Definition word_subject_records (cur : list StudentRecord) (subject : string)
  : list StudentRecord :=
  match filter (fun r => (SCODE r ==? subject) && marked_current r) cur with
  | [] => filter (fun r => (SCODE r ==? subject) && not_marked r) cur
  | marked => marked
  end.

Definition truthy_name (s : option string) : bool := truthy s.

(** One row of the subject table (index from 0). *)
Definition word_subject_row (department : string) (cur : list StudentRecord)
    (index : nat) (subject : string) : list string :=
  let subjectRecords := word_subject_records cur subject in
  let total := length subjectRecords in
  let passed := count (fun r => negb (GR r ==? "U")) subjectRecords in
  let failed := count (fun r => GR r ==? "U") subjectRecords in
  let passPercentage :=
    if (0 <? total)%nat
    then (of_Z (Z.of_nat passed) / of_Z (Z.of_nat total) * 100)%float else 0%float in
  let highest := highest_grade (map GR subjectRecords) in
  let withHighest := if highest ==? "" then 0%nat
                     else count (fun r => GR r ==? highest) subjectRecords in
  let info := find (fun r => truthy_name (subjectName r) || truthy_name (facultyName r))
                   subjectRecords in
  let '(subjectName_, facultyName_) :=
    match info with
    | Some r => (if truthy_name (subjectName r) then Page.or_empty (subjectName r) else "",
                 if truthy_name (facultyName r) then Page.or_empty (facultyName r) else "")
    | None => ("", "")
    end in
  [nat_text (S index); subject; subjectName_; facultyName_; department; nat_text total; "0";
   nat_text failed; "0"; nat_text passed; toFixed 1 passPercentage; highest;
   nat_text withHighest].

Definition subject_header : list string :=
  ["S.No"; "Subject Code"; "Subject Name"; "Faculty Name"; "Dept"; "App"; "Ab"; "Fail";
   "WH"; "Passed"; "% of pass"; "Highest Grade"; "No. of students"].

Fixpoint indexed_rows {A} (f : nat -> A -> list string) (start : nat) (l : list A)
  : list (list string) :=
  match l with
  | [] => []
  | x :: t => f start x :: indexed_rows f (S start) t
  end.

Definition word_subject_section (o : WordReportOptions) (a : ResultAnalysis)
    (cur : list StudentRecord) : list block :=
  if negb (is_cgpa o) || negb (match cur with [] => true | _ => false end) then
    let subjects := word_subject_order (orderedSubjects_r a) (end_semester_rows cur) in
    [Para "End Semester Result Analysis";
     Tbl (subject_header :: indexed_rows (word_subject_row (opt_department o) cur) 0 subjects)]
  else [].

(** ** Classification table (lines 700-930) *)

Definition classification_cells (c : ClassificationData) : list string :=
  [nat_text (distinction c); nat_text (firstClassWOA c); nat_text (firstClassWA c);
   nat_text (secondClassWOA c); nat_text (secondClassWA c); nat_text (fail c);
   toFixed 1 (passPercentage c)].

Definition word_classification (a : ResultAnalysis) : list block :=
  [Para "Classification";
   Tbl [["Current semester"; "Upto this semester"];
        ["Distinction"; "First class"; "Second class"; "Fail"; "% of pass";
         "Distinction"; "First class"; "Second class"; "Fail"; "% of pass"];
        ["WOA"; "WA"; "WOA"; "WA"; "WOA"; "WA"; "WOA"; "WA"];
        (classification_cells (singleFileClassification a)
         ++ classification_cells (multipleFileClassification a))%list]].

(** ** Rank table (lines 930-1004) *)

(** [[...analysis.studentSgpaDetails].sort((a, b) => b.sgpa - a.sgpa)
    .slice(0, 3)] as (id, value) pairs. *)
Definition top_current (a : ResultAnalysis) : list (string * float) :=
  firstn 3 (map (fun d => (sid d, sgpa d)) (stable_sort sgpa_desc (studentSgpaDetails a))).

Definition top_cumulative (o : WordReportOptions) (a : ResultAnalysis) : list (string * float) :=
  match is_cgpa o, cgpaAnalysis a with
  | true, Some c => firstn 3 (toppersList c)
  | _, _ => top_current a
  end.

(** [list[i] || { id: "", value: 0 }]. *)
Definition rank_entry (l : list (string * float)) (i : nat) : string * float :=
  nth i l (""%string, 0%float).

Definition rank_row (cur cum : list (string * float)) (i : nat) : list string :=
  [nat_text (S i); fst (rank_entry cur i); toFixed 2 (snd (rank_entry cur i));
   nat_text (S i); fst (rank_entry cum i); toFixed 2 (snd (rank_entry cum i))].

Definition word_rank_table (o : WordReportOptions) (a : ResultAnalysis) : list block :=
  let cur := top_current a in
  let cum := top_cumulative o a in
  [Para "Rank Analysis";
   Tbl ([["Rank in this semester"; "Rank up to this semester"];
         ["RANK"; "Name of the student"; "SGPA"; "RANK"; "Name of the student";
          if is_cgpa o then "CGPA" else "SGPA"]]
        ++ map (rank_row cur cum) [0; 1; 2]%nat)%list].

(** ** Individual student performance (lines 1006-1117) *)

(** The status column, from the value and the arrears flag. *)
Definition word_status (hasArrears : bool) (gp : float) : string :=
  if hasArrears then
    if (6.5 <=? gp)%float then "First Class With Arrear"
    else if (5.0 <=? gp)%float then "Second Class with Arrears"
    else "Has Arrears"
  else if (8.5 <=? gp)%float then "Distinction"
  else if (6.5 <=? gp)%float then "First Class"
  else "Second Class".

(** [studentPerformanceData]: (id, value, hasArrears), sorted by value. *)
Definition student_performance (o : WordReportOptions) (a : ResultAnalysis)
    (records : list StudentRecord) : list (string * float * bool) :=
  if is_cgpa o then
    match cgpaAnalysis a with
    | Some c =>
        map (fun s => (fst s, snd s, hasArrears records (fst s)))
            (stable_sort cgpa_desc (studentCGPAs c))
    | None => []
    end
  else
    map (fun d => (sid d, sgpa d, hasArrearsFlag d))
        (stable_sort sgpa_desc (studentSgpaDetails a)).

Definition student_row (index : nat) (s : string * float * bool) : list string :=
  let '(id, gp, arrears) := s in
  [nat_text (S index); id; toFixed 2 gp; word_status arrears gp].

Definition word_student_table (o : WordReportOptions) (a : ResultAnalysis)
    (records : list StudentRecord) : list block :=
  [Para "Individual Student Performance";
   Tbl (["S.No"; "Register Number"; if is_cgpa o then "CGPA" else "SGPA"; "Status"]
        :: indexed_rows student_row 0 (student_performance o a records))].

(** ** The document *)

(** The signature row closing the document: four borderless cells, the
    second one naming the head of the CSE department whatever
    [department] is. *)
Definition word_signature : list block :=
  [Para ""; Tbl [["CLASS ADVISOR"; "HOD/CSE"; "DEAN ACADEMICS"; "PRINCIPAL"]]].

(** The outcome of [fetch(logoImagePath)], [response.blob()] and
    [blob.arrayBuffer()]: all resolved, or one of them rejected (caught,
    the document is built without the image). *)
Inductive logo_fetch := LogoLoaded | LogoFailed.

Definition opt_logoImagePath (o : WordReportOptions) : string :=
  match logoImagePath o with
  | Some p => p
  | None => "/lovable-uploads/e199a42b-b04e-4918-8bb4-48f3583e7928.png"
  end.

(** The paragraphs of a cell, one per line. *)
Definition cell_lines (ps : list string) : string :=
  String.concat (String (Ascii.ascii_of_nat 10) EmptyString) ps.

(** The first cell holds the image run (written ["[logo]"]) when
    [logoImagePath] is non-empty and the fetch succeeded, the paragraph
    ["Logo"] otherwise. *)
Definition word_logo_cell (o : WordReportOptions) (f : logo_fetch) : string :=
  if opt_logoImagePath o ==? "" then "Logo"
  else match f with LogoLoaded => "[logo]" | LogoFailed => "Logo" end.

(** [headerTable]: logo, college name and address, "RESULT ANALYSIS". *)
Definition word_header (o : WordReportOptions) (f : logo_fetch) : block :=
  Tbl [[word_logo_cell o f;
        cell_lines ["K.S. RANGASAMY COLLEGE OF TECHNOLOGY,"; "TIRUCHENGODE - 637 215";
                    "(An Autonomous Institute Affiliated to Anna University, Chennai)"];
        "RESULT ANALYSIS"]].


(** The content of [createWordDocument] after the page header: headings,
    spacer paragraphs and tables, in order. *)
Definition word_content (o : WordReportOptions) (a : ResultAnalysis)
    (records : list StudentRecord) : list block :=
  let cur := word_current_records o a records in
  ([Para ""; Para "College Information"; Tbl (word_college_info o a); Para "";
    Para "Performance Summary"]
   ++ word_performance o a
   ++ word_file_analysis o a
   ++ word_subject_section o a cur
   ++ word_classification a
   ++ word_rank_table o a
   ++ word_student_table o a records
   ++ word_signature)%list.

(** [createWordDocument]: the page header, then the content. *)
Definition createWordDocument (o : WordReportOptions) (a : ResultAnalysis)
    (records : list StudentRecord) (f : logo_fetch) : list block :=
  word_header o f :: word_content o a records.

(** [link.download] of [downloadWordReport]. *)
Definition word_file_name (o : WordReportOptions) : string :=
  if is_cgpa o then "cgpa-analysis-report.docx" else "sgpa-analysis-report.docx".

(** [downloadWordReport]: the file name and the document it holds. *)
Definition downloadWordReport (a : ResultAnalysis) (records : list StudentRecord)
    (o : WordReportOptions) (f : logo_fetch) : string * list block :=
  (word_file_name o, createWordDocument o a records f).

(** * Properties *)

(** The status text of each classification bucket as the student table
    writes it. *)
Definition bucket_label (b : bucket) : string :=
  match b with
  | Distinction => "Distinction"
  | FirstClassWOA => "First Class"
  | FirstClassWA => "First Class With Arrear"
  | SecondClassWOA => "Second Class"
  | SecondClassWA => "Second Class with Arrears"
  | FailBucket => "Has Arrears"
  end.

Lemma word_status_classify (hasArrears : bool) (gp : float) :
  word_status hasArrears gp = bucket_label (classify hasArrears gp).
Proof.
  unfold word_status, classify.
  destruct hasArrears, (6.5 <=? gp)%float, (5.0 <=? gp)%float, (8.5 <=? gp)%float;
    reflexivity.
Qed.

Lemma bucket_label_inj (b1 b2 : bucket) : bucket_label b1 = bucket_label b2 -> b1 = b2.
Proof. destruct b1, b2; cbn; congruence. Qed.

(** C14 (equivalence): the status column of the Word report's student
    table is the classification rule of the analyzer written out: the
    status of a student is the label of the bucket [classify] puts them
    in, and the label determines the bucket, so the table and the
    classification engine never disagree on a student (the fail bucket
    reads "Has Arrears"). *)
Theorem word_status_identifies_bucket (hasArrears : bool) (gp : float) (b : bucket) :
  word_status hasArrears gp = bucket_label b <-> classify hasArrears gp = b.
Proof.
  rewrite word_status_classify. split; [apply bucket_label_inj|now intros ->].
Qed.
