(* ===== verification/ExcelReport.v ===== *)
(** * The Excel report
    (src/src/utils/excel/reportGenerators/excelReportGenerator.ts)

    [generateExcelData] builds a workbook of sheets, each an array of rows
    ([aoa_to_sheet([header, ...data])]).  The model is the workbook's
    content: the list of sheets in the order they are appended, each with
    its name and its rows of cells (a string, a number, or [undefined]);
    column widths and the binary [XLSX.write] are not modelled.

    Points of the source the model keeps: the subject table is computed
    over all rows passed to the report (every file), not the
    current-semester selection; [failedStudents || "Nil"] prints [Nil] for
    0; the pass percentage has no zero guard; the highest grade is taken
    over all grades, recognised or not; the CGPA top list sorts
    [analysis.cgpaAnalysis.studentCGPAs] in place, so the "Student CGPA
    Details" sheet lists the sorted array; and the classification sheet is
    a constant row. *)

From Stdlib Require Import Bool ZArith NArith Ascii String List Permutation Floats Lia.
From S2P Require Import Prelude JsNumber JsText GradeScale Aggregator TermResolver.
From S2P Require Import JsObject Distribution Classification Cohort CreditInput Dashboard.
From S2P Require Import CsvReport WordReport.
Import ListNotations.
Local Open Scope string_scope.

(** ** Workbook *)

Inductive cell := XStr (s : string) | XNum (x : float) | XUndef.

Definition num_nat (n : nat) : cell := XNum (of_Z (Z.of_nat n)).

Record Sheet := mkSheet {
  sheet_name : string;
  sheet_rows : list (list cell)
}.

(** [addSheet(data, name, header)]. *)
Definition addSheet (data : list (list cell)) (name : string) (header : list string) : Sheet :=
  mkSheet name (map XStr header :: data).

(** ** Sheets *)

Definition collegeInfoData : list (list cell) :=
  [[XStr "College Name"; XStr "K. S. Rangasamy College of Technology"];
   [XStr "Department"; XStr "Computer Science and Engineering"];
   [XStr "Batch"; XStr "2023-2027"];
   [XStr "Year/Semester"; XStr "II/III"];
   [XStr "Section"; XStr "A&B"]].

(** The rows one entry of [Object.entries(analysis.fileWiseAnalysis)]
    adds. *)
Definition file_summary_rows (entry : string * FileAnalysis) : list (list cell) :=
  let '(fileName, fileData) := entry in
  [[XStr (fileName ++ " Average SGPA"); XStr (toFixed 2 (averageSGPA fileData))];
   [XStr (fileName ++ " Students"); num_nat (students fileData)]]
  ++ match semesterName fileData with
     | Some s => if s ==? "" then [] else [[XStr (fileName ++ " Semester"); XStr s]]
     | None => []
     end.

Definition performanceData (a : ResultAnalysis) : list (list cell) :=
  ([[XStr "Total Students"; num_nat (totalStudents_r a)];
    [XStr "Average SGPA"; XStr (toFixed 2 (averageCGPA a))];
    [XStr "Highest SGPA"; XStr (toFixed 2 (highestSGPA a))];
    [XStr "Lowest SGPA"; XStr (toFixed 2 (lowestSGPA a))]]
   ++ if (1 <? fileCount a)%nat then
        [[XStr "Number of Files Processed"; num_nat (fileCount a)]]
        ++ flat_map file_summary_rows (entries (fileWiseAnalysis a))
        ++ match cgpaAnalysis a with
           | Some c =>
               [[XStr "Average CGPA"; XStr (toFixed 2 (averageCGPA_cum c))];
                [XStr "Highest CGPA"; XStr (toFixed 2 (highestCGPA c))];
                [XStr "Lowest CGPA"; XStr (toFixed 2 (lowestCGPA c))]]
           | None => []
           end
      else [])%list.

(** One row of the "End Semester Result Analysis" sheet, over all rows of
    the subject. *)
Definition excel_subject_row (records : list StudentRecord) (index : nat) (subject : string)
  : list cell :=
  let subjectRecords := filter (fun r => SCODE r ==? subject) records in
  let totalStudents := length subjectRecords in
  let passedStudents := count (fun r => negb (GR r ==? "U")) subjectRecords in
  let failedStudents := (totalStudents - passedStudents)%nat in
  let passPercentage :=
    (of_Z (Z.of_nat passedStudents) / of_Z (Z.of_nat totalStudents) * 100)%float in
  let subjectName_ :=
    match subjectRecords with
    | r :: _ => if truthy (subjectName r) then Page.or_empty (subjectName r)
                else "Subject " ++ nat_text (S index)
    | [] => "Subject " ++ nat_text (S index)
    end in
  let facultyName_ :=
    match subjectRecords with
    | r :: _ => if truthy (facultyName r) then Page.or_empty (facultyName r) else ""
    | [] => ""
    end in
  let highestGrade := hd_error (stable_sort grade_after (map GR subjectRecords)) in
  let withHighest :=
    match highestGrade with
    | Some g => count (fun r => GR r ==? g) subjectRecords
    | None => 0%nat
    end in
  [num_nat (S index); XStr subject; XStr subjectName_; XStr facultyName_; XStr "CSE";
   num_nat totalStudents; XStr "Nil";
   (match failedStudents with O => XStr "Nil" | _ => num_nat failedStudents end);
   XNum 1; num_nat passedStudents; XStr (toFixed 1 passPercentage);
   (match highestGrade with Some g => XStr g | None => XUndef end);
   num_nat withHighest].

Fixpoint indexed_cells {A} (f : nat -> A -> list cell) (start : nat) (l : list A)
  : list (list cell) :=
  match l with
  | [] => []
  | x :: t => f start x :: indexed_cells f (S start) t
  end.

Definition subjectPerformanceHeader : list string :=
  ["S.No"; "Subject Code"; "Subject Name"; "Faculty Name"; "Dept"; "App"; "Absent"; "Fail";
   "WH"; "Passed"; "% of pass"; "Highest Grade"; "No. of students"].

(** [grade.count] as a cell and as the numerator of the percentage. *)
Definition count_cell (c : count_val) : cell :=
  match c with CNum n => XNum (of_Z n) | CText s => XStr s end.

Definition count_number (c : count_val) : float :=
  match c with CNum n => of_Z n | CText _ => nan end.

Definition gradeDistributionData (a : ResultAnalysis) : list (list cell) :=
  map (fun g => [XStr (bar_name g); count_cell (bar_count g);
                 XStr (if (0 <? totalGrades a)%nat
                       then toFixed 2 (count_number (bar_count g)
                                       / of_Z (Z.of_nat (totalGrades a)) * 100)%float ++ "%"
                       else "0%")])
      (gradeDistribution_r a).

Definition topPerformersData (a : ResultAnalysis) : list (list cell) :=
  indexed_cells (fun i t => let '(id, sgpa_, _) := t in
                            [num_nat (S i); XStr id; XStr (toFixed 2 sgpa_)])
                0 (topPerformers a).

(** The fixed classification row of the source ([71.6] is written as the
    double nearest to it). *)
Definition currentSemesterData : list (list cell) :=
  [[XStr "Distinction"; XNum 40; XStr "First class"; XStr "WOA"; XNum 65; XStr "WA"; XNum 3;
    XStr "Second class"; XStr "WOA"; XNum 5; XStr "WA"; XNum 16; XStr "Fail"; XNum 18;
    XStr "% of pass"; XNum 0x1.1e66666666666p+6]].

Definition categoryData : list (list cell) :=
  [[XStr "Category"; XStr "Grade Point"];
   [XStr "1. Distinction"; XStr ">= 8.5 and no history of arrears"];
   [XStr "2. First class"; XStr ">= 6.5"];
   [XStr "3. Second class"; XStr "< 6.5"]].

Definition studentSgpaDetailsData (a : ResultAnalysis) : list (list cell) :=
  map (fun d => [XStr (sid d); XStr (toFixed 2 (sgpa d)); XStr (csv_status d)])
      (studentSgpaDetails a).

Definition fileDetailsData (a : ResultAnalysis) (records : list StudentRecord)
  : list (list cell) :=
  map (fun fileName =>
         [XStr fileName; num_nat (count (from_source fileName) records);
          XStr (match find (from_source fileName) records with
                | Some r => if SEM r ==? "" then "Unknown" else SEM r
                | None => "Unknown"
                end)])
      (filesProcessed_r a).

(** [analysis.cgpaAnalysis.studentCGPAs.sort((a, b) => b.cgpa - a.cgpa)]:
    the sort is in place, so the array the later sheet reads is the sorted
    one. *)
Definition sorted_cgpas (c : CgpaAnalysis) : list (string * float) :=
  stable_sort cgpa_desc (studentCGPAs c).

Definition cgpaTopPerformersData (a : ResultAnalysis) : list (list cell) :=
  match cgpaAnalysis a with
  | Some c => indexed_cells (fun i t => [num_nat (S i); XStr (fst t); XStr (toFixed 2 (snd t))])
                            0 (firstn 5 (sorted_cgpas c))
  | None => []
  end.

Definition cgpaDetailsData (a : ResultAnalysis) : list (list cell) :=
  match cgpaAnalysis a with
  | Some c => map (fun t => [XStr (fst t); XStr (toFixed 2 (snd t))]) (sorted_cgpas c)
  | None => []
  end.

Definition subjectPerformanceData (a : ResultAnalysis) (records : list StudentRecord)
  : list (list cell) :=
  indexed_cells (excel_subject_row records) 0 (word_subject_order (orderedSubjects_r a) records).

(** [generateExcelData(analysis, records)]: the sheets in the order
    [addSheet] appends them. *)
Definition generateExcelData (a : ResultAnalysis) (records : list StudentRecord) : list Sheet :=
  let several := (1 <? fileCount a)%nat in
  [addSheet collegeInfoData "College Information" ["Field"; "Value"];
   addSheet (performanceData a) "Performance Summary" ["Metric"; "Value"];
   addSheet (subjectPerformanceData a records) "End Semester Result Analysis"
            subjectPerformanceHeader;
   addSheet (gradeDistributionData a) "Grade Distribution" ["Grade"; "Count"; "Percentage"];
   addSheet (topPerformersData a) "Rank in this semester" ["S.No"; "Name of the student"; "SGPA"]]
  ++ (match cgpaTopPerformersData a with
      | [] => []
      | d => [addSheet d "Rank up to this semester" ["S.No"; "Name of the student"; "CGPA"]]
      end)
  ++ [addSheet currentSemesterData "Classification"
              ("Current semester" :: repeat "" 13);
      addSheet categoryData "Categories" ["Category"; "Grade Point"];
      addSheet (studentSgpaDetailsData a) "Student SGPA Details"
               ["Registration Number"; "SGPA"; "Status"]]
  ++ (match cgpaDetailsData a with
      | [] => []
      | d => [addSheet d "Student CGPA Details" ["Registration Number"; "CGPA"]]
      end)
  ++ (if several
      then [addSheet (fileDetailsData a records) "File Details"
                     ["File Name"; "Record Count"; "Semester"]]
      else []).

Definition sheet_named (name : string) (w : list Sheet) : option Sheet :=
  find (fun s => sheet_name s ==? name) w.

(** * Properties *)

(** The classification sheet's row, whatever the analysis. *)
Definition classification_sheet : Sheet :=
  addSheet currentSemesterData "Classification" ("Current semester" :: repeat "" 13).

Lemma cgpa_sheets_present (a : ResultAnalysis) :
  cgpaTopPerformersData a = [] <-> cgpaDetailsData a = [].
Proof.
  unfold cgpaTopPerformersData, cgpaDetailsData.
  destruct (cgpaAnalysis a) as [c|]; [|tauto].
  destruct (sorted_cgpas c) as [|t l]; cbn; split; congruence.
Qed.

(** The names of the sheets, in order: three optional sheets, the CGPA
    ranking and details when the analysis has CGPA entries and the file
    details when there are several files. *)
Lemma generateExcelData_names (a : ResultAnalysis) (records : list StudentRecord) :
  let cg := match cgpaDetailsData a with [] => false | _ => true end in
  map sheet_name (generateExcelData a records)
  = (["College Information"; "Performance Summary"; "End Semester Result Analysis";
     "Grade Distribution"; "Rank in this semester"]
    ++ (if cg then ["Rank up to this semester"] else [])
    ++ ["Classification"; "Categories"; "Student SGPA Details"]
    ++ (if cg then ["Student CGPA Details"] else [])
    ++ (if (1 <? fileCount a)%nat then ["File Details"] else []))%list.
Proof.
  cbv zeta. unfold generateExcelData.
  pose proof (cgpa_sheets_present a) as P.
  destruct (cgpaTopPerformersData a), (cgpaDetailsData a);
    try (exfalso; destruct P as [P1 P2];
         first [specialize (P1 eq_refl) | specialize (P2 eq_refl)]; discriminate);
    destruct (1 <? fileCount a)%nat; reflexivity.
Qed.

(** C22 (error, divergence from spec section 4.5): the "Classification"
    sheet of the workbook is the same fixed row (40 distinctions, 65 and 3
    first classes, 5 and 16 second classes, 18 fails, 71.6 % pass) for
    every analysis and every set of rows: the computed
    [singleFileClassification] and [multipleFileClassification] never
    reach the Excel report. *)
Theorem excel_classification_sheet_constant (a : ResultAnalysis) (records : list StudentRecord) :
  sheet_named "Classification" (generateExcelData a records) = Some classification_sheet.
Proof.
  unfold sheet_named, generateExcelData.
  destruct (cgpaTopPerformersData a); reflexivity.
Qed.

Section ExcelFindings.
Variable lc : string -> string -> Z.

(** (functional, divergence from the analysis): the subject sheet
    counts every row passed to the report, of every file: a student who
    failed CS1 in semester 3 and passed it in semester 4 makes the Excel
    row for CS1 read App 2, Fail 1, 50.0 % pass, while the analysis's
    subject performance, computed over the current semester, gives CS1
    100 % pass and 0 % fail. *)
Theorem excel_subject_table_counts_all_files :
  let rows := [sample_row "A1" "CS1" "U" "3" "sem3.xlsx" 3 false;
               sample_row "A1" "CS1" "O" "4" "sem4.xlsx" 3 false] in
  let a := analyzeResults lc rows None in
  subjectPerformanceData a rows =
    [[num_nat 1; XStr "CS1"; XStr "Subject 1"; XStr ""; XStr "CSE"; num_nat 2; XStr "Nil";
      num_nat 1; XNum 1; num_nat 1; XStr "50.0"; XStr "O"; num_nat 1]]
  /\ map (fun p => (sp_subject p, sp_pass p, sp_fail p)) (subjectPerformance_r a)
     = [("CS1", 100%float, 0%float)].
Proof. vm_compute. split; reflexivity. Qed.

End ExcelFindings.
