(* ===== verification/PdfReport.v ===== *)
(** * The PDF report
    (src/src/utils/excel/reportGenerators/pdfReportGenerator.ts)

    [downloadPdfReport] draws the report with jsPDF: texts ([pdf.text])
    and tables ([pdf.autoTable], head rows then body rows).  As for the
    Word report (WordReport.v) the model keeps the content from the
    "College Information" heading on, as a sequence of [block]s: a text
    is a [Para], a table a [Tbl] of its rows of cell texts; the header
    table is drawn only after a successful logo fetch ([pdf_header]),
    and [downloadPdfReport] pairs the blocks with the saved file name.
    Positions, fonts, colours, page breaks and cell spans are layout.

    The PDF generator repeats most of the Word generator's code but not
    all of it: its current-semester rows are the current file's whenever
    there are several files (in either mode); its subject table groups
    those rows by code in a [Map] and keeps every row of a subject,
    listing a subject only when one of its rows is unmarked; and its rank
    table recomputes [calculateSGPA] for every student of those rows
    instead of reading [analysis.studentSgpaDetails]. *)

From Stdlib Require Import Bool ZArith NArith Ascii String List Permutation Floats Lia.
From S2P Require Import Prelude JsNumber JsText GradeScale Aggregator TermResolver.
From S2P Require Import JsObject Distribution Classification Cohort CreditInput Dashboard.
From S2P Require Import WordReport.
Import ListNotations.
Local Open Scope string_scope.

(** ** Options *)

Record PDFReportOptions := mkPdfOptions {
  pdf_logoImagePath : option string;
  pdf_department : option string;
  pdf_departmentFullName : option string;
  pdf_calculationMode : Page.CalculationMode
}.

Definition pdf_opt_department (o : PDFReportOptions) : string :=
  match pdf_department o with Some d => d | None => "CSE" end.

Definition pdf_opt_departmentFullName (o : PDFReportOptions) : string :=
  match pdf_departmentFullName o with Some d => d | None => "Computer Science and Engineering" end.

Definition pdf_is_cgpa (o : PDFReportOptions) : bool :=
  match pdf_calculationMode o with Page.Cgpa => true | Page.Sgpa => false end.

(** ** College information, performance summary and files (lines 169-290) *)

Definition pdf_college_info (o : PDFReportOptions) (a : ResultAnalysis) : list (list string) :=
  ([["College Name"; "K. S. Rangasamy College of Technology"];
    ["Department"; pdf_opt_departmentFullName o];
    ["Total Students"; nat_text (totalStudents_r a)]]
   ++ (if pdf_is_cgpa o && (0 <? fileCount a)%nat
       then [["Files Processed"; nat_text (fileCount a)]] else [])
   ++ [["Calculation Mode";
        if pdf_is_cgpa o then "CGPA (Cumulative Grade Point Average)"
        else "SGPA (Semester Grade Point Average)"]])%list.

Definition pdf_performance (o : PDFReportOptions) (a : ResultAnalysis) : list block :=
  if pdf_is_cgpa o then
    match cgpaAnalysis a with
    | Some c =>
        [Para ("Average CGPA: " ++ toFixed 2 (averageCGPA_cum c));
         Para ("Highest CGPA: " ++ toFixed 2 (highestCGPA c));
         Para ("Lowest CGPA: " ++ toFixed 2 (lowestCGPA c));
         Para ("Pass Percentage: "
               ++ toFixed 2 (passPercentage (multipleFileClassification a)) ++ "%")]
    | None => []
    end
  else
    [Para ("Average SGPA: " ++ toFixed 2 (averageCGPA a));
     Para ("Highest SGPA: " ++ toFixed 2 (highestSGPA a));
     Para ("Lowest SGPA: " ++ toFixed 2 (lowestSGPA a));
     Para ("Pass Percentage: "
           ++ toFixed 2 (passPercentage (singleFileClassification a)) ++ "%")].

Definition pdf_file_row (a : ResultAnalysis) (fileName : string) : list (list string) :=
  match get_own fileName (fileWiseAnalysis a) with
  | Some fa =>
      [[fileName; nat_text (students fa); toFixed 2 (averageSGPA fa);
        match semesterName fa with Some s => s | None => "" end;
        if match currentSemesterFile_r a with Some f => fileName ==? f | None => false end
        then "Current Semester" else "Previous Semester"]]
  | None => []
  end.

(** The heading is drawn twice at the same place (lines 240-241). *)
Definition pdf_file_analysis (o : PDFReportOptions) (a : ResultAnalysis) : list block :=
  if pdf_is_cgpa o then
    [Para "File Analysis"; Para "File Analysis";
     Tbl (["File Name"; "Students"; "Average SGPA"; "Semester"; "Note"]
          :: flat_map (pdf_file_row a) (filesProcessed_r a))]
  else [].

(** [currentSemesterRecords] (lines 288-299): the rows of the current
    file when there are several files, in both modes. *)
Definition pdf_current_records (a : ResultAnalysis) (records : list StudentRecord)
  : list StudentRecord :=
  if (1 <? fileCount a)%nat then
    match currentSemesterFile_r a with
    | Some f => if f ==? "" then records else filter (from_source f) records
    | None => records
    end
  else records.

(** ** End Semester Result Analysis (lines 302-440) *)

(** [subjectGroups]: a [Map] from code to rows, keys in order of first
    insertion, each list in row order. *)
Definition subject_groups (cur : list StudentRecord) : list (string * list StudentRecord) :=
  map (fun s => (s, filter (fun r => SCODE r ==? s) cur)) (uniq (map SCODE cur)).

Definition has_non_arrear (rs : list StudentRecord) : bool := existsb not_marked rs.

(** [validSubjectCodes]. *)
Definition valid_subject_codes (order : option (list string))
    (groups : list (string * list StudentRecord)) : list string :=
  match order with
  | Some ((_ :: _) as o) =>
      fold_left (fun acc g => if has_non_arrear (snd g) && negb (mem (fst g) acc)
                              then (acc ++ [fst g])%list else acc) groups o
  | _ => map fst (filter (fun g => has_non_arrear (snd g)) groups)
  end.

(** [subjectGroups.get(subject) || []]. *)
Definition group_get (groups : list (string * list StudentRecord)) (s : string)
  : list StudentRecord :=
  match find (fun g => fst g ==? s) groups with Some g => snd g | None => [] end.

Definition pdf_subject_row (department : string) (groups : list (string * list StudentRecord))
    (index : nat) (subject : string) : list string :=
  let subjectRecords := group_get groups subject in
  let total := length subjectRecords in
  let passed := count (fun r => negb (GR r ==? "U")) subjectRecords in
  let failed := count (fun r => GR r ==? "U") subjectRecords in
  let passPercentage :=
    if (0 <? total)%nat
    then (of_Z (Z.of_nat passed) / of_Z (Z.of_nat total) * 100)%float else 0%float in
  let highest := highest_grade (map GR subjectRecords) in
  let withHighest := if highest ==? "" then 0%nat
                     else count (fun r => GR r ==? highest) subjectRecords in
  let info := find (fun r => truthy_name (subjectName r) || truthy_name (facultyName r))
                   subjectRecords in
  let '(subjectName_, facultyName_) :=
    match info with
    | Some r => (if truthy_name (subjectName r) then Page.or_empty (subjectName r) else "",
                 if truthy_name (facultyName r) then Page.or_empty (facultyName r) else "")
    | None => ("", "")
    end in
  [nat_text (S index); subject; subjectName_; facultyName_; department; nat_text total; "0";
   nat_text failed; "0"; nat_text passed; toFixed 1 passPercentage; highest;
   nat_text withHighest].

Definition pdf_subject_section (o : PDFReportOptions) (a : ResultAnalysis)
    (cur : list StudentRecord) : list block :=
  if negb (pdf_is_cgpa o) || negb (match cur with [] => true | _ => false end) then
    let groups := subject_groups cur in
    [Para "End Semester Result Analysis";
     Tbl (subject_header
          :: indexed_rows (pdf_subject_row (pdf_opt_department o) groups) 0
                          (valid_subject_codes (orderedSubjects_r a) groups))]
  else [].

(** ** Classification (lines 443-540) *)

Definition pdf_classification_row (a : ResultAnalysis) : list string :=
  let s := singleFileClassification a in
  let m := multipleFileClassification a in
  [nat_text (distinction s); nat_text (firstClassWOA s); nat_text (firstClassWA s);
   nat_text (secondClassWOA s); nat_text (secondClassWA s); nat_text (fail s);
   toFixed 1 (passPercentage s);
   nat_text (distinction m); nat_text (firstClassWOA m); nat_text (firstClassWA m);
   nat_text (secondClassWOA m); nat_text (secondClassWA m); nat_text (fail m);
   toFixed 1 (passPercentage m)].

Definition pdf_classification (a : ResultAnalysis) : list block :=
  [Para "Classification";
   Tbl [["Current semester"; "Upto this semester"];
        ["Distinction"; "First class"; "Second class"; "Fail"; "% of pass";
         "Distinction"; "First class"; "Second class"; "Fail"; "% of pass"];
        ["WOA"; "WA"; "WOA"; "WA"; "WOA"; "WA"; "WOA"; "WA"];
        pdf_classification_row a]].

(** ** Rank table (lines 543-625) *)

(** [currentSemesterStudentData]: [calculateSGPA] over the current rows
    for every registration number of those rows. *)
Definition current_student_data (cur : list StudentRecord) : list (string * float) :=
  map (fun id => (id, calculateSGPA cur id)) (uniq (map REGNO cur)).

(** [cumulativeStudentData], before its sort. *)
Definition cumulative_student_data (o : PDFReportOptions) (a : ResultAnalysis)
    (cur : list StudentRecord) : list (string * float) :=
  match pdf_is_cgpa o, cgpaAnalysis a with
  | true, Some c => studentCGPAs c
  | _, _ => current_student_data cur
  end.

(** [list[i] || { id: "", sgpa: 0 }]. *)
Definition pdf_rank_entry (l : list (string * float)) (i : nat) : string * float :=
  nth i l (""%string, 0%float).

Definition pdf_rank_rows (o : PDFReportOptions) (a : ResultAnalysis) (cur : list StudentRecord)
  : list (list string) :=
  let top_cur := firstn 3 (stable_sort cgpa_desc (current_student_data cur)) in
  let top_cum := firstn 3 (stable_sort cgpa_desc (cumulative_student_data o a cur)) in
  map (fun i => [nat_text (S i); fst (pdf_rank_entry top_cur i);
                 toFixed 2 (snd (pdf_rank_entry top_cur i));
                 nat_text (S i); fst (pdf_rank_entry top_cum i);
                 toFixed 2 (snd (pdf_rank_entry top_cum i))])
      (seq 0 (Nat.max (length top_cur) (length top_cum))).

Definition pdf_rank_table (o : PDFReportOptions) (a : ResultAnalysis) (cur : list StudentRecord)
  : list block :=
  [Para "Rank Analysis";
   Tbl ([["Rank in this semester"; "Rank up to this semester"];
         ["S.No"; "Name of the student"; "SGPA"; "S.No"; "Name of the student"; "CGPA"]]
        ++ pdf_rank_rows o a cur)%list].

(** ** Individual student performance (lines 627-737) *)

Definition pdf_status (hasArrears : bool) (gpValue : float) : string :=
  if hasArrears then
    if (6.5 <=? gpValue)%float then "First Class With Arrear"
    else if (5.0 <=? gpValue)%float then "Second Class with Arrears"
    else "Has Arrears"
  else if (8.5 <=? gpValue)%float then "Distinction"
  else if (6.5 <=? gpValue)%float then "First Class"
  else "Second Class".

Definition pdf_student_performance (o : PDFReportOptions) (a : ResultAnalysis)
    (records : list StudentRecord) : list (string * float * bool) :=
  if pdf_is_cgpa o then
    match cgpaAnalysis a with
    | Some c =>
        map (fun s => (fst s, snd s, hasArrears records (fst s)))
            (stable_sort cgpa_desc (studentCGPAs c))
    | None => []
    end
  else
    map (fun d => (sid d, sgpa d, hasArrearsFlag d))
        (stable_sort sgpa_desc (studentSgpaDetails a)).

Definition pdf_student_row (index : nat) (s : string * float * bool) : list string :=
  let '(id, gp, arrears) := s in
  [nat_text (S index); id; toFixed 2 gp; pdf_status arrears gp].

Definition pdf_student_table (o : PDFReportOptions) (a : ResultAnalysis)
    (records : list StudentRecord) : list block :=
  [Para "Individual Student Performance";
   Tbl (["S.No"; "Register Number"; if pdf_is_cgpa o then "CGPA" else "SGPA"; "Status"]
        :: indexed_rows pdf_student_row 0 (pdf_student_performance o a records))].

(** ** The document *)

(** The four signature texts, at x = 35, 85, 135 and 185 mm. *)
Definition pdf_signature : list block :=
  [Para "CLASS ADVISOR"; Para "HOD/CSE"; Para "DEAN ACADEMICS"; Para "PRINCIPAL"].

(** Everything [downloadPdfReport] writes after the page header, in
    drawing order. *)
Definition pdf_content (o : PDFReportOptions) (a : ResultAnalysis)
    (records : list StudentRecord) : list block :=
  let cur := pdf_current_records a records in
  ([Para "College Information"; Tbl (pdf_college_info o a); Para "Performance Summary"]
   ++ pdf_performance o a
   ++ pdf_file_analysis o a
   ++ pdf_subject_section o a cur
   ++ pdf_classification a
   ++ pdf_rank_table o a cur
   ++ pdf_student_table o a records
   ++ pdf_signature)%list.

(** [pdf.save(...)]. *)
Definition pdf_file_name (o : PDFReportOptions) : string :=
  if pdf_is_cgpa o then "cgpa-analysis-report.pdf" else "sgpa-analysis-report.pdf".

Definition pdf_opt_logoImagePath (o : PDFReportOptions) : string :=
  match pdf_logoImagePath o with
  | Some p => p
  | None => "/lovable-uploads/e199a42b-b04e-4918-8bb4-48f3583e7928.png"
  end.

(** The header table of [downloadPdfReport].  It is drawn inside the
    [try] block, after the logo has been fetched: with an empty
    [logoImagePath], or when [fetch], [blob] or the base64 conversion
    rejects, no header is drawn at all.  The image drawn into the first
    cell is written ["[logo]"]. *)
Definition pdf_header (o : PDFReportOptions) (f : logo_fetch) : list block :=
  if pdf_opt_logoImagePath o ==? "" then []
  else match f with
       | LogoLoaded =>
           [Tbl [["[logo]";
                  cell_lines ["K.S. RANGASAMY COLLEGE OF TECHNOLOGY, TIRUCHENGODE - 637 215";
                              "(An Autonomous Institute Affiliated to Anna University, Chennai)"];
                  "RESULT ANALYSIS"]]]
       | LogoFailed => []
       end.

(** [downloadPdfReport]: the file [pdf.save] writes and the blocks drawn
    into it. *)
Definition downloadPdfReport (a : ResultAnalysis) (records : list StudentRecord)
    (o : PDFReportOptions) (f : logo_fetch) : string * list block :=
  (pdf_file_name o, (pdf_header o f ++ pdf_content o a records)%list).

(** * Properties *)

(** The PDF options that correspond to Word options. *)
Definition pdf_of_word (o : WordReportOptions) : PDFReportOptions :=
  mkPdfOptions (logoImagePath o) (department o) (departmentFullName o) (calculationMode o).

Lemma pdf_is_cgpa_of_word (o : WordReportOptions) : pdf_is_cgpa (pdf_of_word o) = is_cgpa o.
Proof. reflexivity. Qed.

Lemma pdf_status_word_status (hasArrears : bool) (gp : float) :
  pdf_status hasArrears gp = word_status hasArrears gp.
Proof. reflexivity. Qed.

(** The two renderers print the same classification table and, for the
    same options, the same student table. *)
Lemma pdf_classification_word (a : ResultAnalysis) :
  pdf_classification a = word_classification a.
Proof. reflexivity. Qed.

Lemma pdf_student_table_word (o : WordReportOptions) (a : ResultAnalysis)
    (records : list StudentRecord) :
  pdf_student_table (pdf_of_word o) a records = word_student_table o a records.
Proof.
  unfold pdf_student_table, word_student_table, pdf_student_performance, student_performance.
  rewrite pdf_is_cgpa_of_word. reflexivity.
Qed.

Lemma pdf_college_info_word (o : WordReportOptions) (a : ResultAnalysis) :
  pdf_college_info (pdf_of_word o) a = word_college_info o a.
Proof. reflexivity. Qed.

Lemma pdf_performance_word (o : WordReportOptions) (a : ResultAnalysis) :
  pdf_performance (pdf_of_word o) a = word_performance o a.
Proof. reflexivity. Qed.

(** In CGPA mode, the PDF and Word current-semester rows are the same. *)
Lemma pdf_current_records_cgpa (o : WordReportOptions) (a : ResultAnalysis)
    (records : list StudentRecord) :
  is_cgpa o = true -> pdf_current_records a records = word_current_records o a records.
Proof.
  intros H. unfold pdf_current_records, word_current_records. rewrite H. cbn [andb].
  destruct (1 <? fileCount a)%nat; [|reflexivity].
  destruct (currentSemesterFile_r a); reflexivity.
Qed.

Lemma find_keyed (F : string -> list StudentRecord) (s : string) (U : list string) :
  find (fun g => fst g ==? s) (map (fun s' => (s', F s')) U)
  = if mem s U then Some (s, F s) else None.
Proof.
  induction U as [|s' t IH]; [reflexivity|]. cbn [map find fst]. rewrite mem_cons.
  destruct (s' ==? s) eqn:E.
  - apply (eqb_true_iff s' s) in E. subst. now rewrite eqb_refl.
  - rewrite eqb_sym, E. exact IH.
Qed.

(** The rows a PDF subject row counts are all the current rows of the
    subject, marked or not. *)
Lemma group_get_subject_groups (cur : list StudentRecord) (s : string) :
  group_get (subject_groups cur) s = filter (fun r => SCODE r ==? s) cur.
Proof.
  unfold group_get, subject_groups. rewrite find_keyed, mem_uniq.
  destruct (mem s (map SCODE cur)) eqn:M; [reflexivity|].
  symmetry. apply filter_nil_iff. intros r Hr.
  destruct (SCODE r ==? s) eqn:E; [|reflexivity].
  apply (eqb_true_iff (SCODE r) s) in E. subst s.
  assert (mem (SCODE r) (map SCODE cur) = true) by (apply mem_In, in_map, Hr).
  congruence.
Qed.

(** Without a subject order, the PDF lists the subjects that have an
    unmarked current row, in order of first occurrence. *)
Lemma valid_subject_codes_default (cur : list StudentRecord) :
  valid_subject_codes None (subject_groups cur)
  = filter (fun s => existsb (fun r => (SCODE r ==? s) && not_marked r) cur)
           (uniq (map SCODE cur)).
Proof.
  unfold valid_subject_codes, subject_groups.
  induction (uniq (map SCODE cur)) as [|s t IH]; [reflexivity|].
  cbn [map filter fst snd]. unfold has_non_arrear at 1.
  replace (existsb not_marked (filter (fun r => SCODE r ==? s) cur))
    with (existsb (fun r => (SCODE r ==? s) && not_marked r) cur).
  - destruct (existsb _ cur); cbn [map fst]; now rewrite IH.
  - clear IH. induction cur as [|r rs IHr]; [reflexivity|].
    cbn [existsb filter]. destruct (SCODE r ==? s); cbn [existsb andb]; now rewrite IHr.
Qed.

(** Divergence between the two reports on a failed logo fetch (the PDF
    header is commented "Exact match to Word document"): the Word report
    catches the failure around the image only and keeps its header table
    with the text "Logo", while the PDF generator draws its whole header
    table inside the [try] after the fetch, so the PDF of the same
    analysis starts directly with "College Information". *)
Theorem logo_failure_drops_pdf_header (a : ResultAnalysis) (records : list StudentRecord)
    (d df : option string) (m : Page.CalculationMode) :
  let wo := mkWordOptions None d df m in
  snd (downloadWordReport a records wo LogoFailed)
    = Tbl [["Logo";
            cell_lines ["K.S. RANGASAMY COLLEGE OF TECHNOLOGY,"; "TIRUCHENGODE - 637 215";
                        "(An Autonomous Institute Affiliated to Anna University, Chennai)"];
            "RESULT ANALYSIS"]] :: word_content wo a records
  /\ snd (downloadPdfReport a records (pdf_of_word wo) LogoFailed)
     = pdf_content (pdf_of_word wo) a records
  /\ exists h, snd (downloadPdfReport a records (pdf_of_word wo) LogoLoaded)
               = h :: pdf_content (pdf_of_word wo) a records.
Proof. cbv zeta. split; [reflexivity | split; [reflexivity | eexists; reflexivity]]. Qed.
