(* ===== verification/ReportDownloader.v ===== *)
(** * The report download control
    (src/src/components/dashboard/ReportDownloader.tsx)

    The results tab offers the Word and PDF reports through
    [ReportDownloader] (the CSV and Excel generators are exported but no
    component calls them).  Choosing a format opens a dialog for the
    department code and name; confirming starts a progress simulation (a
    [setInterval]) and schedules, 100 ms later, the generator call.  When
    the generator's promise resolves, the interval is cleared, the
    progress set to 100, and 300 ms later the control is reset.

    The model is a state machine over the component's [useState] values
    and its pending timers: [pending_download] is the scheduled 100 ms
    callback (with the format and the options it captured),
    [progress_timer] the running interval, [pending_finish] the 300 ms
    reset.  The timers firing are events, as are the user's actions; the
    generator's promise settling is the event [DownloadSettled ok].  The
    props (the analysis, the stored rows, the mode) are fixed for the
    component's lifetime and are parameters of the section.  What the
    control renders is [downloader_view], a function of the state: the
    progress line (with [Math.round] of the progress), the button's text
    and whether it is disabled, the menu and the dialog's inputs.

    The [try]/[catch] of [handleConfirmDepartment] only wraps the
    scheduling of the callback: a generator that rejects inside the
    callback escapes it, so nothing resets [isDownloading].  The theorems
    show that after such a failure the control stays "Downloading" (its
    button disabled) for as long as it is mounted, and that a successful
    download returns it to idle. *)

From Stdlib Require Import Bool ZArith String List Floats Lia.
From S2P Require Import Prelude JsNumber NumberToString GradeScale Cohort Dashboard WordReport.
From S2P Require Import PdfReport.
Import ListNotations.
Local Open Scope string_scope.

Module Downloader.
Import Page.

Inductive report_format := WordFormat | PdfFormat.

Record DownloaderState := mkDownloader {
  isDownloading : bool;
  departmentCode : string;
  departmentFullName_input : string;
  isDepartmentDialogOpen : bool;
  selectedFormat : option report_format;
  downloadProgress : float;
  progress_timer : bool;
  pending_download : option (report_format * WordReportOptions);
  pending_finish : bool
}.

Definition initial_downloader : DownloaderState :=
  mkDownloader false "CSE" "Computer Science and Engineering" false None 0 false None false.

Inductive downloader_event :=
| DownloadReport (fmt : report_format)
| SetDepartmentCode (v : string)
| SetDepartmentFullName (v : string)
| CloseDialog
| ConfirmDepartment
| ProgressTick (r : float)
| DownloadSettled (ok : bool)
| FinishFired.

Section Control.
Variable analysis : option ResultAnalysis.
Variable studentRecords : list StudentRecord.
Variable mode : option CalculationMode.

(** [open={isDepartmentDialogOpen && !isDownloading}]: the inputs and
    buttons of the dialog exist only while it is shown. *)
Definition dialog_shown (s : DownloaderState) : bool :=
  isDepartmentDialogOpen s && negb (isDownloading s).

Definition with_dialog (s : DownloaderState) (code name : string) (open : bool)
  : DownloaderState :=
  mkDownloader (isDownloading s) code name open (selectedFormat s) (downloadProgress s)
    (progress_timer s) (pending_download s) (pending_finish s).

(** [handleDownloadReport(format)]. *)
Definition handleDownloadReport (s : DownloaderState) (fmt : report_format) : DownloaderState :=
  match analysis, studentRecords with
  | None, _ | _, [] => s
  | Some _, _ :: _ =>
      if isDownloading s then s
      else mkDownloader false (departmentCode s) (departmentFullName_input s) true (Some fmt) 0
             (progress_timer s) (pending_download s) (pending_finish s)
  end.

(** The [options] object of [handleConfirmDepartment]. *)
Definition report_options (s : DownloaderState) : WordReportOptions :=
  mkWordOptions (Some "/lovable-uploads/e199a42b-b04e-4918-8bb4-48f3583e7928.png")
    (Some (departmentCode s)) (Some (departmentFullName_input s))
    (match mode with Some m => m | None => Sgpa end).

(** [handleConfirmDepartment]: close the dialog, start the progress
    interval, and schedule the generator for the selected format. *)
Definition handleConfirmDepartment (s : DownloaderState) : DownloaderState :=
  if isDownloading s then s
  else
    let scheduled :=
      match analysis, selectedFormat s with
      | Some _, Some fmt => Some (fmt, report_options s)
      | _, _ => pending_download s
      end in
    mkDownloader true (departmentCode s) (departmentFullName_input s) false (selectedFormat s)
      0 true scheduled (pending_finish s).

(** One step of [startProgressSimulation]'s interval, with [Math.random()]
    as [r]. *)
Definition progress_tick (s : DownloaderState) (r : float) : DownloaderState :=
  if progress_timer s then
    mkDownloader (isDownloading s) (departmentCode s) (departmentFullName_input s)
      (isDepartmentDialogOpen s) (selectedFormat s)
      (if (90 <=? downloadProgress s)%float then 90 else downloadProgress s + r * 10)%float
      true (pending_download s) (pending_finish s)
  else s.

(** The 100 ms callback runs and the generator's promise settles.  On
    success: [clearInterval], progress 100, and the 300 ms reset is
    scheduled.  On failure the rejection leaves the callback: nothing is
    reset. *)
Definition download_settled (s : DownloaderState) (ok : bool) : DownloaderState :=
  match pending_download s with
  | None => s
  | Some _ =>
      if ok then
        mkDownloader (isDownloading s) (departmentCode s) (departmentFullName_input s)
          (isDepartmentDialogOpen s) (selectedFormat s) 100 false None true
      else
        mkDownloader (isDownloading s) (departmentCode s) (departmentFullName_input s)
          (isDepartmentDialogOpen s) (selectedFormat s) (downloadProgress s)
          (progress_timer s) None (pending_finish s)
  end.

(** The 300 ms reset after a download. *)
Definition finish_fired (s : DownloaderState) : DownloaderState :=
  if pending_finish s then
    mkDownloader false (departmentCode s) (departmentFullName_input s)
      (isDepartmentDialogOpen s) None 0 (progress_timer s) (pending_download s) false
  else s.

Definition downloader_step (s : DownloaderState) (e : downloader_event) : DownloaderState :=
  match e with
  | DownloadReport fmt => if isDownloading s then s else handleDownloadReport s fmt
  | SetDepartmentCode v =>
      if dialog_shown s then with_dialog s v (departmentFullName_input s) true else s
  | SetDepartmentFullName v =>
      if dialog_shown s then with_dialog s (departmentCode s) v true else s
  | CloseDialog =>
      if dialog_shown s then with_dialog s (departmentCode s) (departmentFullName_input s) false
      else s
  | ConfirmDepartment => if dialog_shown s then handleConfirmDepartment s else s
  | ProgressTick r => progress_tick s r
  | DownloadSettled ok => download_settled s ok
  | FinishFired => finish_fired s
  end.

Inductive downloader_reachable : DownloaderState -> Prop :=
| dl_initial : downloader_reachable initial_downloader
| dl_step s e : downloader_reachable s -> downloader_reachable (downloader_step s e).

(** The report a settled download writes: the Word document or the PDF
    content for the captured options. *)
Definition downloaded_report (fmt : report_format) (o : WordReportOptions) (a : ResultAnalysis)
  : list block :=
  match fmt with
  | WordFormat => word_content o a studentRecords
  | PdfFormat => pdf_content (pdf_of_word o) a studentRecords
  end.

End Control.

(** What the control renders: the progress line ([Generating report] and
    [{Math.round(downloadProgress)}%]) while downloading, the trigger
    button's label and [disabled] flag, the two menu items, and whether
    the department dialog is shown with its two inputs. *)
Record DownloaderView := mkDownloaderView {
  dv_progress : option (string * string);
  dv_button : string;
  dv_button_disabled : bool;
  dv_menu : list (string * report_format);
  dv_dialog : option (string * string)
}.

Definition downloader_view (s : DownloaderState) : DownloaderView :=
  mkDownloaderView
    (if isDownloading s
     then Some ("Generating report", number_to_string (math_round (downloadProgress s)) ++ "%")
     else None)
    (if isDownloading s then "Downloading..." else "Download Report")
    (isDownloading s)
    [("Download as PDF", PdfFormat); ("Download as Word", WordFormat)]
    (if dialog_shown s then Some (departmentFullName_input s, departmentCode s) else None).

End Downloader.

(** * Properties *)

Module DownloaderFacts.
Import Page Downloader.

Section Facts.
Variable analysis : option ResultAnalysis.
Variable studentRecords : list StudentRecord.
Variable mode : option CalculationMode.

Local Abbreviation step := (downloader_step analysis studentRecords mode).
Local Abbreviation reachable := (downloader_reachable analysis studentRecords mode).

(** A pending generator call or reset implies "downloading". *)
Definition dl_inv (s : DownloaderState) : Prop :=
  (pending_download s <> None -> isDownloading s = true /\ pending_finish s = false)
  /\ (pending_finish s = true -> isDownloading s = true /\ pending_download s = None).

Lemma dl_inv_same (s s' : DownloaderState) :
  isDownloading s' = isDownloading s -> pending_download s' = pending_download s ->
  pending_finish s' = pending_finish s -> dl_inv s -> dl_inv s'.
Proof. intros E1 E2 E3. unfold dl_inv. now rewrite E1, E2, E3. Qed.

(** When not downloading, nothing is pending. *)
Lemma dl_inv_idle (s : DownloaderState) :
  dl_inv s -> isDownloading s = false -> pending_download s = None /\ pending_finish s = false.
Proof.
  intros [H1 H2] E. split.
  - destruct (pending_download s); [|reflexivity]. destruct H1 as [H _]; congruence.
  - destruct (pending_finish s); [|reflexivity]. destruct (H2 eq_refl); congruence.
Qed.

Lemma dl_inv_step (s : DownloaderState) (e : downloader_event) :
  dl_inv s -> dl_inv (step s e).
Proof.
  intros Hinv.
  destruct e; cbn [downloader_step]; unfold dialog_shown.
  - destruct (isDownloading s) eqn:E; [exact Hinv|]. unfold handleDownloadReport.
    destruct analysis, studentRecords; rewrite ?E; try exact Hinv.
    destruct (dl_inv_idle s Hinv E) as [P F].
    unfold dl_inv; cbn; rewrite P, F; split; congruence.
  - destruct (_ && _); [|exact Hinv]. now apply (dl_inv_same s).
  - destruct (_ && _); [|exact Hinv]. now apply (dl_inv_same s).
  - destruct (_ && _); [|exact Hinv]. now apply (dl_inv_same s).
  - destruct (isDepartmentDialogOpen s && negb (isDownloading s)) eqn:D; [|exact Hinv].
    apply andb_true_iff in D as [_ D]. apply negb_true_iff in D.
    unfold handleConfirmDepartment. rewrite D.
    destruct (dl_inv_idle s Hinv D) as [P F].
    unfold dl_inv; cbn; rewrite F; split; intros; [split; reflexivity|discriminate].
  - unfold progress_tick. destruct (progress_timer s); [|exact Hinv].
    now apply (dl_inv_same s).
  - unfold download_settled. destruct (pending_download s) eqn:P; [|exact Hinv].
    destruct (proj1 Hinv ltac:(congruence)) as [I F].
    destruct ok; unfold dl_inv; cbn; rewrite ?F; split; intros; try split; congruence.
  - unfold finish_fired. destruct (pending_finish s) eqn:F; [|exact Hinv].
    destruct (proj2 Hinv F) as [I P].
    unfold dl_inv; cbn; rewrite P; split; intros; [congruence|discriminate].
Qed.

Lemma reachable_dl_inv (s : DownloaderState) : reachable s -> dl_inv s.
Proof.
  induction 1 as [|s e _ IH]; [split; cbn; congruence|now apply dl_inv_step].
Qed.

(** ** A failed download *)

(** "Downloading" with nothing left that could reset it. *)
Definition stuck (s : DownloaderState) : Prop :=
  isDownloading s = true /\ pending_download s = None /\ pending_finish s = false.

Lemma stuck_step (s : DownloaderState) (e : downloader_event) : stuck s -> stuck (step s e).
Proof.
  intros Hs. pose proof Hs as (I & P & F).
  destruct e; cbn [downloader_step]; unfold dialog_shown; rewrite ?I; cbn [negb];
    rewrite ?andb_false_r;
    try exact Hs.
  - unfold progress_tick. destruct (progress_timer s); [|exact Hs].
    unfold stuck; cbn; auto.
  - unfold download_settled. now rewrite P.
  - unfold finish_fired. now rewrite F.
Qed.

Lemma stuck_steps (s : DownloaderState) (evs : list downloader_event) :
  stuck s -> stuck (fold_left step evs s).
Proof.
  revert s. induction evs as [|e t IH]; intros s Hs; [exact Hs|]. apply IH, stuck_step, Hs.
Qed.


(** A successful download returns the control to idle. *)
Lemma successful_download_resets (s : DownloaderState) :
  reachable s -> pending_download s <> None ->
  let s' := step (step s (DownloadSettled true)) FinishFired in
  isDownloading s' = false /\ selectedFormat s' = None /\ pending_download s' = None
  /\ progress_timer s' = false.
Proof.
  intros Hr Hp. cbn zeta. cbn [downloader_step].
  unfold download_settled. destruct (pending_download s); [|congruence].
  unfold finish_fired. cbn. repeat split.
Qed.

(** A step keeps the scheduled call, drops it, or schedules one with the
    current options. *)
Lemma step_pending (s : DownloaderState) (e : downloader_event) :
  pending_download (step s e) = pending_download s \/ pending_download (step s e) = None
  \/ exists fmt, pending_download (step s e) = Some (fmt, report_options mode s).
Proof.
  destruct e; cbn [downloader_step]; unfold dialog_shown.
  - destruct (isDownloading s) eqn:D; [left; reflexivity|]. unfold handleDownloadReport.
    rewrite D. destruct analysis, studentRecords; left; reflexivity.
  - destruct (_ && _); left; reflexivity.
  - destruct (_ && _); left; reflexivity.
  - destruct (_ && _); left; reflexivity.
  - destruct (_ && _); [|left; reflexivity]. unfold handleConfirmDepartment.
    destruct (isDownloading s); [left; reflexivity|]. cbn [pending_download].
    destruct analysis, (selectedFormat s); eauto.
  - unfold progress_tick. destruct (progress_timer s); left; reflexivity.
  - unfold download_settled. destruct (pending_download s) eqn:P.
    + destruct ok; right; left; reflexivity.
    + right; left; exact P.
  - unfold finish_fired. destruct (pending_finish s); left; reflexivity.
Qed.

(** The options a scheduled download captured: the department typed in
    the dialog and the page's mode, SGPA when none is chosen. *)
Lemma scheduled_options (s : DownloaderState) (fmt : report_format) (o : WordReportOptions) :
  reachable s -> pending_download s = Some (fmt, o) ->
  WordReport.calculationMode o = (match mode with Some m => m | None => Sgpa end)
  /\ department o <> None /\ departmentFullName o <> None.
Proof.
  intros Hr. revert fmt o. induction Hr as [|s e Hr IH]; intros fmt o; [discriminate|].
  destruct (step_pending s e) as [->|[->|(f & ->)]]; [apply IH|discriminate|].
  intros E. injection E as <- <-. cbn. repeat split; discriminate.
Qed.
End Facts.
End DownloaderFacts.

Import Page Downloader DownloaderFacts.

(** C17 (liveness, code bug): the [try]/[catch] of
    [handleConfirmDepartment] does not cover the generator, which runs in
    a [setTimeout] callback.  When the generator rejects, nothing resets
    the control: whatever the user does and whatever timers fire later,
    [isDownloading] stays true, so the download button stays disabled and
    no report can be downloaded again while the results tab is shown. *)
Theorem failed_download_never_resets (analysis : option ResultAnalysis)
    (studentRecords : list StudentRecord) (mode : option CalculationMode)
    (s : DownloaderState) (evs : list downloader_event) :
  downloader_reachable analysis studentRecords mode s -> pending_download s <> None ->
  isDownloading (fold_left (downloader_step analysis studentRecords mode) evs
                   (downloader_step analysis studentRecords mode s (DownloadSettled false)))
  = true.
Proof.
  intros Hr Hp. apply stuck_steps.
  destruct (proj1 (reachable_dl_inv _ _ _ s Hr) Hp) as [I F].
  cbn [downloader_step]. unfold download_settled.
  destruct (pending_download s); [|congruence].
  unfold stuck; cbn. auto.
Qed.

Definition demo_downloader (a : option ResultAnalysis) (rows : list StudentRecord)
  : DownloaderState :=
  downloader_step a rows None
    (downloader_step a rows None initial_downloader (DownloadReport PdfFormat))
    ConfirmDepartment.

Lemma failed_download_never_resets_witness :
  let a := Some (analyzeResults (fun _ _ => 0%Z) [] None) in
  let rows := [sample_row "A1" "CS1" "O" "4" "sem4.xlsx" 3 true] in
  downloader_reachable a rows None (demo_downloader a rows)
  /\ pending_download (demo_downloader a rows) <> None
  /\ isDownloading
       (fold_left (downloader_step a rows None) [DownloadReport WordFormat; FinishFired]
          (downloader_step a rows None (demo_downloader a rows) (DownloadSettled false)))
     = true.
Proof.
  intros a rows.
  assert (R : downloader_reachable a rows None (demo_downloader a rows))
    by (unfold demo_downloader; repeat apply dl_step; apply dl_initial).
  assert (P : pending_download (demo_downloader a rows) <> None) by (vm_compute; discriminate).
  split; [exact R|]. split; [exact P|].
  exact (failed_download_never_resets a rows None _ _ R P).
Defined.
