(* ===== verification/Display.v ===== *)
(** * What the results tab shows
    (src/src/components/dashboard/ResultsDisplay.tsx, StudentPerformance.tsx,
     StudentSGPATable.tsx, SubjectAnalysis.tsx, AnalysisOverview.tsx, and
     the render of src/src/pages/Dashboard.tsx)

    The results tab renders the analysis; besides charts that plot fields
    of [ResultAnalysis] as they are, its components compute what they
    show: [ResultsDisplay] (whether the subject analysis is shown, the
    semester label), [StudentPerformance] (the top performers and the
    students needing improvement, from the SGPA lists or, in CGPA mode,
    from the CGPA lists), [StudentSGPATable] (the top three by SGPA),
    [SubjectAnalysis] (the pass/fail bars and a grade card per subject)
    and [AnalysisOverview] (Module Overview).  Each is modelled as a
    function of the analysis and the page's mode; [ResultsDisplay] passes
    the mode and no [useCumulativeData].

    A render may throw: [needsImprovementCard] returns [None] when
    [StudentPerformance] reads [value] from entries that have none, and
    [Tab.resultsDisplay] is [None] when a child throws (no error boundary
    is mounted).  [Shell.dashboard_view] is the page around the tabs: the
    results tab is rendered only while active, with the rows of submitted
    subjects for the report downloader.  The theorems characterise
    exactly when the page throws (CGPA mode, one file, someone needing
    improvement) and show that submitting the credits leads there. *)

From Stdlib Require Import Bool ZArith String List Floats Lia.
From S2P Require Import Prelude JsNumber NumberToString JsText GradeScale Aggregator TermResolver.
From S2P Require Import JsObject Distribution Classification Cohort Dashboard WordReport.
From S2P Require Import ExcelReport.
Import ListNotations.
Local Open Scope string_scope.

Module Results.
Import Page.

Definition is_cgpa_mode (mode : option CalculationMode) : bool :=
  match mode with Some Cgpa => true | _ => false end.

(** [showSubjectAnalysis]: SGPA mode, or CGPA mode with a current file. *)
Definition showSubjectAnalysis (mode : option CalculationMode) (a : ResultAnalysis) : bool :=
  match mode with
  | Some Sgpa => true
  | Some Cgpa =>
      match currentSemesterFile_r a with Some f => negb (f ==? "") | None => false end
  | None => false
  end.

(** [semesterLabel]: [Semester <name>] of the current file in CGPA mode. *)
Definition semesterLabel (mode : option CalculationMode) (a : ResultAnalysis) : string :=
  match mode, currentSemesterFile_r a with
  | Some Cgpa, Some f =>
      if f ==? "" then "Semester"
      else match get_own f (fileWiseAnalysis a) with
           | Some fa => match semesterName fa with
                        | Some n => if n ==? "" then "Semester" else "Semester " ++ n
                        | None => "Semester"
                        end
           | None => "Semester"
           end
  | _, _ => "Semester"
  end.

(** A row of the top-performer card. *)
Record StudentView := mkStudentView {
  sv_id : string;
  sv_value : float;
  sv_label : string;
  sv_grade : option string
}.

(** [shouldUseCumulativeData] of [StudentPerformance]. *)
Definition shouldUseCumulativeData (useCumulativeData : bool) (mode : option CalculationMode)
  : bool :=
  useCumulativeData || is_cgpa_mode mode.

(** [topStudents] of [StudentPerformance]. *)
Definition topStudents (useCumulativeData : bool) (mode : option CalculationMode)
    (a : ResultAnalysis) : list StudentView :=
  match shouldUseCumulativeData useCumulativeData mode, cgpaAnalysis a with
  | true, Some c =>
      map (fun t => mkStudentView (fst t) (snd t) "CGPA" None) (firstn 6 (toppersList c))
  | _, _ =>
      map (fun t => let '(id, v, g) := t in mkStudentView id v "SGPA" (Some g)) (topPerformers a)
  end.

(** The objects [needsImprovementData] holds: [{id, value, label}]
    built from [cgpaAnalysis], or the entries [{id, sgpa, subjects}] of
    [needsImprovement] themselves. *)
Inductive needs_entry :=
| ValueEntry (id : string) (value : float) (label : string)
| SgpaEntry (id : string) (sgpa : float) (subjects : string).

Definition entry_id (e : needs_entry) : string :=
  match e with ValueEntry id _ _ | SgpaEntry id _ _ => id end.

(** [needsImprovementData]: with [shouldUseCumulativeData] and CGPA data,
    the first six entries of [studentCGPAs] below 6.5; otherwise the
    first six of [needsImprovement]. *)
Definition needsImprovementData (useCumulativeData : bool) (mode : option CalculationMode)
    (a : ResultAnalysis) : list needs_entry :=
  match shouldUseCumulativeData useCumulativeData mode, cgpaAnalysis a with
  | true, Some c =>
      map (fun t => ValueEntry (fst t) (snd t) "CGPA")
          (firstn 6 (filter (fun t => (snd t <? 6.5)%float) (studentCGPAs c)))
  | _, _ =>
      map (fun t => let '(id, v, subjects) := t in SgpaEntry id v subjects)
          (firstn 6 (needsImprovement a))
  end.

(** [topStudentsData] of [StudentSGPATable]: (rank, id, value, isCGPA). *)
Definition sgpaTableRows (useCumulativeData : bool) (mode : option CalculationMode)
    (a : ResultAnalysis) : list (nat * string * float * bool) :=
  let by_sgpa :=
    map (fun d => (sid d, sgpa d)) (firstn 3 (stable_sort sgpa_desc (studentSgpaDetails a))) in
  let ranked (l : list (string * float)) (cg : bool) :=
    map (fun p => let '(i, t) := p in (S i, fst t, snd t, cg)) (combine (seq 0 (length l)) l) in
  if is_cgpa_mode mode then
    match useCumulativeData, cgpaAnalysis a with
    | true, Some c => ranked (firstn 3 (toppersList c)) true
    | _, _ => ranked by_sgpa false
    end
  else ranked by_sgpa false.

(** The heading of [ResultsDisplay]. *)
Definition resultsHeading (mode : option CalculationMode) : string :=
  match mode with
  | Some Sgpa => "SGPA Analysis Results"
  | _ => "CGPA Analysis Results"
  end.

Definition resultsDescription (mode : option CalculationMode) (a : ResultAnalysis) : string :=
  match mode with
  | Some Sgpa => "Semester Grade Point Average analysis for the uploaded semester data"
  | _ => "Cumulative Grade Point Average analysis across multiple semesters (Current: "
         ++ semesterLabel mode a ++ ")"
  end.

(** The [title] prop [ResultsDisplay] passes to [SubjectAnalysis], and
    [SubjectAnalysis]'s [title || 'Subject Performance Analysis']. *)
Definition subjectAnalysisTitle (mode : option CalculationMode) (a : ResultAnalysis) : string :=
  match mode with
  | Some Cgpa => "Current " ++ semesterLabel mode a ++ " Subject Performance"
  | _ => "Subject Performance Analysis"
  end.

(** The cards of [SubjectAnalysis]'s grade tab: one per entry of
    [subjectGradeDistribution], with its bars. *)
Definition subjectGradeCards (a : ResultAnalysis) : list (string * list GradeBar) :=
  subjectGradeDistribution_r a.

(** [list.map((x, index) => ...)]: each element with its index. *)
Definition indexed {A} (l : list A) : list (nat * A) := combine (seq 0 (length l)) l.

(** A row of the "Top Performers" card: [index + 1], the id,
    [value.toFixed(2)] and, for an SGPA row with a non-empty grade, the
    grade badge. *)
Definition topPerformerRow (index : nat) (s : StudentView) : nat * string * string * option string :=
  (S index, sv_id s, toFixed 2 (sv_value s),
   match sv_grade s with Some g => if g ==? "" then None else Some g | None => None end).

(** The "Top Performers" card: its description and its rows. *)
Definition topPerformersCard (useCumulativeData : bool) (mode : option CalculationMode)
    (a : ResultAnalysis) : string * list (nat * string * string * option string) :=
  (if shouldUseCumulativeData useCumulativeData mode
   then "Students with highest CGPA across all semesters"
   else "Students with highest SGPA in the semester",
   map (fun p => topPerformerRow (fst p) (snd p)) (indexed (topStudents useCumulativeData mode a))).

(** A row of the cumulative branch: the id and
    [`${student.value.toFixed(2)} ${student.label}`]; an entry of
    [needsImprovement] has no [value], and [undefined.toFixed] throws a
    [TypeError]. *)
Definition cumulative_row (e : needs_entry) : option (string * option string * string) :=
  match e with
  | ValueEntry id v label => Some (id, None, toFixed 2 v ++ " " ++ label)
  | SgpaEntry _ _ _ => None
  end.

(** The "Needs Improvement" card: its description and its rows (id, the
    "Arrears:" line, the badge), or [None] when rendering throws.  With
    [shouldUseCumulativeData] the rows are [cumulative_row]s of
    [needsImprovementData]. *)
Definition needsImprovementCard (useCumulativeData : bool) (mode : option CalculationMode)
    (a : ResultAnalysis) : string * option (list (string * option string * string)) :=
  if shouldUseCumulativeData useCumulativeData mode then
    ("Students with low CGPA across all semesters",
     omap cumulative_row (needsImprovementData useCumulativeData mode a))
  else
    ("Students with low SGPA or arrears",
     Some (map (fun t => let '(id, v, subjects) := t in
                 (id, if subjects ==? "" then None else Some ("Arrears: " ++ subjects),
                  toFixed 2 v ++ " SGPA"))
               (firstn 6 (needsImprovement a)))).

(** [tableTitle] and [tableDescription] of [StudentSGPATable]. *)
Definition sgpaTableHeading (useCumulativeData : bool) (mode : option CalculationMode)
    (a : ResultAnalysis) : string * string :=
  if is_cgpa_mode mode then
    match useCumulativeData, cgpaAnalysis a with
    | true, Some _ => ("Student CGPA Rank Analysis", "Top 3 students by Cumulative Grade Point Average")
    | _, _ => ("Student SGPA Rank Analysis",
               "Top 3 students by Semester Grade Point Average (Current Semester)")
    end
  else ("Student SGPA Rank Analysis", "Top 3 students by Semester Grade Point Average").

(** The rank badge: its [variant] and [className]. *)
Definition rankBadge (rank : nat) : string * string :=
  match rank with
  | 1%nat => ("default", "bg-amber-500")
  | 2%nat => ("secondary", "bg-slate-400")
  | _ => ("outline", "bg-amber-700/30")
  end.

Record SgpaTableView := mkSgpaTable {
  st_title : string;
  st_description : string;
  st_valueColumn : string;
  st_rows : list (nat * (string * string) * string * string)
}.

(** The table: heading, the third column's name, and per row the rank
    with its badge, the id and [value.toFixed(2)]. *)
Definition sgpaTableView (useCumulativeData : bool) (mode : option CalculationMode)
    (a : ResultAnalysis) : SgpaTableView :=
  let '(title, description) := sgpaTableHeading useCumulativeData mode a in
  mkSgpaTable title description (if useCumulativeData then "CGPA" else "SGPA")
    (map (fun r => let '(rank, id, v, _) := r in (rank, rankBadge rank, id, toFixed 2 v))
         (sgpaTableRows useCumulativeData mode a)).

End Results.

(** * [AnalysisOverview] *)

Module Overview.
Import Page Results.

(** [passFailData] of analyzer.ts. *)
Definition passFailData (a : ResultAnalysis) : list (string * float) :=
  [("Pass", passPercentage_r a); ("Fail", failPercentage_r a)].

(** What [{count}] renders for a histogram bar: a number as
    [Number::toString], a string as it is. *)
Definition count_text (c : count_val) : string :=
  match c with CNum n => number_to_string (of_Z n) | CText s => s end.

(** What [{analysis.fileCount && analysis.fileCount > 1 &&
    analysis.filesProcessed && (<Card>)}] renders: React prints the
    number [0] when [fileCount] is 0, nothing for [false], the card
    otherwise (an array is always truthy). *)
Inductive files_slot :=
| SlotText (s : string)
| SlotEmpty
| SlotCard (files : list string) (cgpa : option (string * string * string)).

Definition hasCgpaData (mode : option CalculationMode) (a : ResultAnalysis)
  : option CgpaAnalysis :=
  if is_cgpa_mode mode then cgpaAnalysis a else None.

Definition cgpa_figures (c : CgpaAnalysis) : string * string * string :=
  (toFixed 2 (averageCGPA_cum c), toFixed 2 (highestCGPA c), toFixed 2 (lowestCGPA c)).

Definition filesCard (mode : option CalculationMode) (a : ResultAnalysis) : files_slot :=
  match fileCount a with
  | O => SlotText "0"
  | 1 => SlotEmpty
  | _ => SlotCard (filesProcessed_r a) (option_map cgpa_figures (hasCgpaData mode a))
  end.

(** The pass-rate table: [entry.value.toFixed(1)%]. *)
Definition passRateRows (a : ResultAnalysis) : list (string * string) :=
  map (fun '(n, v) => (n, toFixed 1 v ++ "%")) (passFailData a).

(** The grade table (SGPA mode only): name, count and
    [((count / totalGrades) * 100).toFixed(1)], or ["0.0"]. *)
Definition gradeTableRows (mode : option CalculationMode) (a : ResultAnalysis)
  : option (list (string * string * string)) :=
  if is_cgpa_mode mode then None
  else Some (map (fun g =>
    (bar_name g, count_text (bar_count g),
     if (0 <? totalGrades a)%nat
     then toFixed 1 (count_number (bar_count g) / of_Z (Z.of_nat (totalGrades a)) * 100)%float
     else "0.0")) (gradeDistribution_r a)).

(** The performance summary: the CGPA figures in CGPA mode with CGPA data,
    otherwise the SGPA ones; the student count; the top three CGPAs. *)
Definition summaryRows (mode : option CalculationMode) (a : ResultAnalysis)
  : list (string * string) :=
  (match hasCgpaData mode a with
   | Some c => [("Average CGPA", toFixed 2 (averageCGPA_cum c));
                ("Highest CGPA", toFixed 2 (highestCGPA c));
                ("Lowest CGPA", toFixed 2 (lowestCGPA c))]
   | None => [("Average SGPA", toFixed 2 (averageCGPA a));
              ("Highest SGPA", toFixed 2 (highestSGPA a));
              ("Lowest SGPA", toFixed 2 (lowestSGPA a))]
   end
   ++ [("Total Students", nat_text (totalStudents_r a))])%list.

Definition topCgpaRows (mode : option CalculationMode) (a : ResultAnalysis)
  : option (list (string * string)) :=
  option_map (fun c => map (fun t => (fst t, toFixed 2 (snd t))) (firstn 3 (toppersList c)))
    (hasCgpaData mode a).

Record OverviewView := mkOverview {
  ov_files : files_slot;
  ov_passRate : list (string * string);
  ov_gradeTable : option (list (string * string * string));
  ov_summary : list (string * string);
  ov_topCgpa : option (list (string * string))
}.

Definition analysisOverview (mode : option CalculationMode) (a : ResultAnalysis) : OverviewView :=
  mkOverview (filesCard mode a) (passRateRows a) (gradeTableRows mode a)
    (summaryRows mode a) (topCgpaRows mode a).

End Overview.

(** * [SubjectAnalysis] and the [ResultsDisplay] page *)

Module Tab.
Import Page Results Overview.

(** The pass/fail chart's tooltip: [`${value}%`]. *)
Definition percentTooltip (v : float) : string := number_to_string v ++ "%".

(** A grade chart's tooltip: [[`${value} students`, 'Count']]. *)
Definition studentsTooltip (c : count_val) : string * string := (count_text c ++ " students", "Count").

Record SubjectAnalysisView := mkSubjectAnalysis {
  sa_title : string;
  sa_description : string;
  sa_tabs : list (string * string);
  sa_defaultTab : string;
  sa_performance : list (string * float * float);
  sa_gradeCards : list (string * list GradeBar)
}.

(** [SubjectAnalysis] with the [title] it is given ([title || ...]): the
    two tabs, the pass/fail bars per subject of [subjectPerformance]
    (x axis [subject], bars [pass] and [fail]), and a card per subject of
    [subjectGradeDistribution]. *)
Definition subjectAnalysis (title : option string) (a : ResultAnalysis) : SubjectAnalysisView :=
  mkSubjectAnalysis
    (match title with Some t => if t ==? "" then "Subject Performance Analysis" else t
                    | None => "Subject Performance Analysis" end)
    "Analyzing pass/fail rates and grade distribution across all subjects"
    [("performance", "Pass/Fail Performance"); ("grades", "Grade Distribution")]
    "performance"
    (map (fun p => (sp_subject p, sp_pass p, sp_fail p)) (subjectPerformance_r a))
    (subjectGradeCards a).

(** The [title] prop [ResultsDisplay] passes. *)
Definition subjectAnalysisProp (mode : option CalculationMode) (a : ResultAnalysis) : option string :=
  match mode with
  | Some Cgpa => Some ("Current " ++ semesterLabel mode a ++ " Subject Performance")
  | _ => None
  end.

Record ResultsView := mkResultsView {
  rv_heading : string;
  rv_description : string;
  rv_overview : OverviewView;
  rv_subjects : option SubjectAnalysisView;
  rv_topPerformers : string * list (nat * string * string * option string);
  rv_needsImprovement : string * list (string * option string * string);
  rv_table : SgpaTableView
}.

Inductive results_page :=
| NoData                (** the loader and "No data available..." *)
| ResultsShown (v : ResultsView).

(** [ResultsDisplay]: [None] when rendering one of its children throws
    (no error boundary is mounted, so React unmounts the page). *)
Definition resultsDisplay (mode : option CalculationMode) (analysis : option ResultAnalysis)
  : option results_page :=
  match analysis with
  | None => Some NoData
  | Some a =>
      let '(needsText, needsRows) := needsImprovementCard false mode a in
      match needsRows with
      | None => None
      | Some rows =>
          Some (ResultsShown (mkResultsView (resultsHeading mode) (resultsDescription mode a)
                   (analysisOverview mode a)
                   (if showSubjectAnalysis mode a
                    then Some (subjectAnalysis (subjectAnalysisProp mode a) a) else None)
                   (topPerformersCard false mode a)
                   (needsText, rows)
                   (sgpaTableView false mode a)))
      end
  end.

End Tab.

(** * The dashboard page's own render *)

Module Shell.
Import Page Tab.

(** [profileInfo]: the fixed profile of the page's own dialog. *)
Record ProfileInfo := mkProfileInfo {
  pi_name : string;
  pi_email : string;
  pi_role : string;
  pi_department : string;
  pi_college : string
}.

Definition profileInfo : ProfileInfo :=
  mkProfileInfo "Dr. S. Rajasekaran" "rajasekaran.s@ksrct.ac.in" "Associate Professor"
    "Computer Science and Engineering" "K. S. Rangasamy College of Technology".

(** [profileOpen]: [useState(false)], changed only by the dialog's
    [onOpenChange], which fires only while the dialog is open. *)
Definition profile_open_change (profileOpen b : bool) : bool :=
  if profileOpen then b else profileOpen.

Record DashboardView := mkDashboardView {
  dv_logo : string * string;
  dv_tab : tab;
  dv_results : option results_page;
  dv_reportRows : list StudentRecord;
  dv_profileDialog : option ProfileInfo
}.

(** The page: the header with the logo (the [ProfileButton] is
    Profile.profile_view), the active tab's content (the results tab
    renders [ResultsDisplay] with the rows of submitted subjects), and the
    profile dialog; [None] when the results tab throws. *)
Definition dashboard_view (profileOpen : bool) (s : DashboardState) : option DashboardView :=
  let dialog := if profileOpen then Some profileInfo else None in
  let logo := ("/lovable-uploads/c8d5fc43-569a-4b7e-9366-09b681f0e06f.png", "College Logo") in
  match activeTab s with
  | TabResults =>
      match resultsDisplay (calculationMode s) (resultAnalysis s) with
      | Some p => Some (mkDashboardView logo TabResults (Some p) (results_records s) dialog)
      | None => None
      end
  | t => Some (mkDashboardView logo t None [] dialog)
  end.

End Shell.

(** * Properties *)

Module ResultsFacts.
Import Page Results.

Lemma map_ranked (l : list (string * float)) (cg : bool) (start : nat) :
  map (fun r => let '(_, id, v, _) := r in (id, v))
      (map (fun p => let '(i, t) := p in (S i, fst t, snd t, cg)) (combine (seq start (length l)) l))
  = l.
Proof.
  revert start. induction l as [|[id v] t IH]; intros start; [reflexivity|].
  cbn [length seq combine map]. f_equal. apply IH.
Qed.

(** The table of the results tab and the Word report's "Rank in this
    semester" column list the same three students with the same values. *)
Lemma sgpaTableRows_word (mode : option CalculationMode) (a : ResultAnalysis) :
  map (fun r => let '(_, id, v, _) := r in (id, v)) (sgpaTableRows false mode a)
  = top_current a.
Proof.
  unfold sgpaTableRows, top_current. rewrite <- firstn_map.
  destruct (is_cgpa_mode mode); apply map_ranked.
Qed.

Section Example.
Variable lc : string -> string -> Z.

(** Two semesters of seven students, every CGPA below 6.5. *)
Definition weak_rows : list StudentRecord :=
  flat_map (fun t => let '(id, g3, g4) := t in
              [sample_row id "CS1" g3 "3" "sem3.xlsx" 3 false;
               sample_row id "CS2" g4 "4" "sem4.xlsx" 3 false])
    [("S1", "B", "B"); ("S2", "B", "C"); ("S3", "C", "C"); ("S4", "C", "P");
     ("S5", "P", "P"); ("S6", "C", "U"); ("S7", "P", "U")].

(** In CGPA mode the "needs improvement" card lists the first six
    students below 6.5 in descending CGPA order: with seven such
    students, the one with the lowest CGPA (S7, 2.00) is the one left
    out. *)
Lemma needs_improvement_data_omits_lowest :
  map entry_id (needsImprovementData false (Some Cgpa) (analyzeResults lc weak_rows None))
  = ["S1"; "S2"; "S3"; "S4"; "S5"; "S6"].
Proof. vm_compute. reflexivity. Qed.

End Example.

(** Four rows, one failed and one with the unrecognised grade [Ab]. *)
Definition mixed_rows : list StudentRecord :=
  [sample_row "S1" "CS1" "A" "3" "sem3.xlsx" 3 false;
   sample_row "S1" "CS2" "U" "3" "sem3.xlsx" 3 false;
   sample_row "S2" "CS1" "B" "3" "sem3.xlsx" 3 false;
   sample_row "S2" "CS2" "Ab" "3" "sem3.xlsx" 3 false].

(** The overview's "Pass Rate" leaves the unrecognised grade out (2 of 3
    rows pass: 66.7%), the Word report's "Pass Percentage" counts it as a
    pass (3 of 4 rows: 75.00%), as the spec's data model asks. *)
Lemma overview_pass_rate_drops_unrecognised :
  let a := analyzeResults bytewise_compare mixed_rows None in
  Overview.passRateRows a = [("Pass", "66.7%"); ("Fail", "33.3%")]
  /\ word_performance (mkWordOptions None None None Sgpa) a
     = [Para "Average SGPA: 5.00"; Para "Highest SGPA: 6.00"; Para "Lowest SGPA: 4.00";
        Para "Pass Percentage: 75.00%"].
Proof. vm_compute. split; reflexivity. Qed.

End ResultsFacts.

Module PageFacts.
Import Page Results Overview Tab.

Lemma is_cgpa_mode_spec (mode : option CalculationMode) :
  is_cgpa_mode mode = true <-> mode = Some Cgpa.
Proof. destruct mode as [[]|]; cbn; split; congruence. Qed.

Lemma firstn_nil_iff {A} (n : nat) (l : list A) :
  n <> O -> firstn n l = [] <-> l = [].
Proof. destruct n, l; cbn; split; congruence. Qed.

(** The "Needs Improvement" card throws exactly when it reads the
    cumulative data, there is none, and some student needs
    improvement. *)
Lemma needsImprovementCard_throws (u : bool) (mode : option CalculationMode) (a : ResultAnalysis) :
  snd (needsImprovementCard u mode a) = None
  <-> shouldUseCumulativeData u mode = true /\ cgpaAnalysis a = None /\ needsImprovement a <> [].
Proof.
  unfold needsImprovementCard, needsImprovementData.
  destruct (shouldUseCumulativeData u mode); cbn [snd]; [|intuition congruence].
  destruct (cgpaAnalysis a).
  - rewrite (omap_Some_map _ (fun e => match e with
                                     | ValueEntry id v label => (id, None, toFixed 2 v ++ " " ++ label)
                                     | SgpaEntry id _ _ => (id, None, "") end)).
    + intuition congruence.
    + intros e He. apply in_map_iff in He as (t & <- & _). reflexivity.
  - rewrite omap_None, <- (firstn_nil_iff 6 (needsImprovement a)) by discriminate.
    split.
    + intros (e & He & _). split; [reflexivity|]. split; [reflexivity|].
      intros E. rewrite E in He. destruct He.
    + intros (_ & _ & Hn). destruct (firstn 6 (needsImprovement a)) as [|[[id v] subj] t];
        [contradiction|]. exists (SgpaEntry id v subj). split; [now left|reflexivity].
Qed.

(** The page throws exactly when its "Needs Improvement" card does. *)
Lemma resultsDisplay_throws (mode : option CalculationMode) (a : ResultAnalysis) :
  resultsDisplay mode (Some a) = None <-> snd (needsImprovementCard false mode a) = None.
Proof.
  unfold resultsDisplay. destruct (needsImprovementCard false mode a) as [t [rows|]]; cbn [snd];
    split; congruence.
Qed.

(** The CGPA block of the analysis exists exactly when more than one file
    was processed. *)
Lemma analyzeResults_cgpa_none (lc : string -> string -> Z) records assigned :
  cgpaAnalysis (analyzeResults lc records assigned) = None
  <-> (fileCount (analyzeResults lc records assigned) <= 1)%nat.
Proof.
  unfold analyzeResults. cbn [cgpaAnalysis fileCount].
  destruct (Nat.ltb_spec 1 (length (filesProcessed (restrict_subjects records assigned))));
    split; intros; (congruence || lia).
Qed.

(** C15 (error): the results page throws a [TypeError] while rendering, and React
    unmounts it, exactly when the page is in CGPA mode, at most one file
    was processed (so the analysis has no CGPA block) and some student
    needs improvement: [StudentPerformance] then maps the
    [needsImprovement] entries with [student.value.toFixed(2)], a field
    they do not have.  In SGPA mode, or with several files, the page
    renders. *)
Theorem results_page_throws_iff (lc : string -> string -> Z) records assigned
    (mode : option CalculationMode) :
  resultsDisplay mode (Some (analyzeResults lc records assigned)) = None
  <-> mode = Some Cgpa
      /\ (fileCount (analyzeResults lc records assigned) <= 1)%nat
      /\ needsImprovement (analyzeResults lc records assigned) <> [].
Proof.
  rewrite resultsDisplay_throws, needsImprovementCard_throws, analyzeResults_cgpa_none.
  unfold shouldUseCumulativeData. cbn [orb]. now rewrite is_cgpa_mode_spec.
Qed.

(** One semester file of three students, one with an arrear: a CGPA-mode
    upload of it leaves the results page blank. *)
Definition single_file_rows : list StudentRecord :=
  [sample_row "S1" "CS1" "A" "3" "sem3.xlsx" 3 false;
   sample_row "S2" "CS1" "B" "3" "sem3.xlsx" 3 false;
   sample_row "S3" "CS1" "U" "3" "sem3.xlsx" 3 false].

Example single_file_cgpa_blank_page :
  resultsDisplay (Some Cgpa) (Some (analyzeResults bytewise_compare single_file_rows None)) = None
  /\ resultsDisplay (Some Sgpa) (Some (analyzeResults bytewise_compare single_file_rows None)) <> None.
Proof. vm_compute. split; [reflexivity | discriminate]. Qed.

(** [ResultsDisplay]'s title for [SubjectAnalysis] is the one it shows. *)
Lemma subjectAnalysis_title (mode : option CalculationMode) (a : ResultAnalysis) :
  sa_title (subjectAnalysis (subjectAnalysisProp mode a) a) = subjectAnalysisTitle mode a.
Proof. destruct mode as [[]|]; reflexivity. Qed.

End PageFacts.

Module ShellFacts.
Import Page Results Tab Shell PageFacts.

(** The page's own profile dialog never opens: [profileOpen] starts
    [false] and only the open dialog can change it. *)
Lemma dashboard_profile_dialog_closed (changes : list bool) (s : DashboardState) :
  let profileOpen := fold_left profile_open_change changes false in
  profileOpen = false
  /\ forall v, dashboard_view profileOpen s = Some v -> dv_profileDialog v = None.
Proof.
  assert (H : fold_left profile_open_change changes false = false).
  { apply (fold_left_invariant (fun b => b = false)); [|reflexivity]. now intros b x _ ->. }
  cbv zeta. rewrite H. split; [reflexivity|]. intros v. unfold dashboard_view.
  destruct (activeTab s); [| |destruct (resultsDisplay _ _)]; intros E; try discriminate;
    injection E as <-; reflexivity.
Qed.

(** Submitting the credits moves the page to the results tab: the page
    then throws exactly when it is in CGPA mode, the analysis saw at most
    one file and someone needs improvement. *)
Theorem dashboard_blank_after_submit (lc : string -> string -> Z) (s : DashboardState)
    (credits : list CreditInput.SubjectCredit) (order : list string) :
  studentRecords s <> [] ->
  let s' := dashboard_step lc s (CreditAssigned credits order) in
  dashboard_view false s' = None
  <-> calculationMode s = Some Cgpa
      /\ exists a, resultAnalysis s' = Some a
                   /\ (fileCount a <= 1)%nat /\ needsImprovement a <> [].
Proof.
  intros H. cbv zeta. cbn [dashboard_step]. unfold handleCreditAssigned, analyzeData.
  cbn [studentRecords]. destruct (studentRecords s) as [|r rs]; [contradiction|].
  unfold dashboard_view. cbn [activeTab calculationMode resultAnalysis].
  destruct (resultsDisplay (calculationMode s) _) eqn:E.
  - split; [discriminate|]. intros (Hm & a & [= <-] & Hf & Hn). exfalso.
    assert (T : resultsDisplay (calculationMode s) (Some
      (set_orderedSubjects (analyzeResults lc (recordsWithCredits credits (r :: rs))
         (Some (map CreditInput.sc_code credits))) order)) = None).
    { apply resultsDisplay_throws, needsImprovementCard_throws.
      unfold shouldUseCumulativeData. rewrite Hm. split; [reflexivity|].
      split; [apply analyzeResults_cgpa_none, Hf | exact Hn]. }
    congruence.
  - split; [intros _|reflexivity].
    apply resultsDisplay_throws, needsImprovementCard_throws in E as (Hm & Hc & Hn).
    unfold shouldUseCumulativeData in Hm. cbn [orb] in Hm.
    split; [now apply is_cgpa_mode_spec|]. eexists. split; [reflexivity|].
    split; [apply analyzeResults_cgpa_none, Hc | exact Hn].
Qed.

(** The single-file upload of [single_file_rows] in CGPA mode, with CS1
    given 3 credits. *)
Definition single_file_dashboard : DashboardState :=
  fold_left (dashboard_step bytewise_compare)
    [SelectMode Cgpa; RecordsUploaded single_file_rows ["CS1"]]
    initial_dashboard.

Lemma dashboard_blank_after_submit_witness :
  studentRecords single_file_dashboard <> []
  /\ dashboard_view false
       (dashboard_step bytewise_compare single_file_dashboard
          (CreditAssigned [CreditInput.mkSubjectCredit "CS1" 3 (Some "") (Some "") (Some false)] []))
     = None.
Proof.
  assert (N : studentRecords single_file_dashboard <> []) by discriminate.
  split; [exact N|].
  apply (dashboard_blank_after_submit bytewise_compare single_file_dashboard _ [] N).
  split; [reflexivity|]. eexists. split; [reflexivity|]. vm_compute. split; [lia|discriminate].
Defined.

End ShellFacts.
